(** * NESPRESSO: a shallow embedding of the emulator core

    The C sources under [src/] are embedded as Rocq functions over [Z]:
    a [uint8_t], [uint16_t] or [uint32_t] is a [Z] kept in range by an
    explicit wrap ([u8], [u16], [u32]), bit operations are [Z.land],
    [Z.lor], [Z.lxor], [Z.shiftl] and [Z.shiftr], fixed-size arrays inside
    structs are lists read with [aget] and written with [aset], heap
    buffers are optional lists read with a bounds check, and code that
    mutates a struct through a pointer becomes explicit state passing.

    The first part of the file holds the definitions (one per C function,
    with the C name), the second part the lemmas and theorems. *)

From Stdlib Require Import ZArith List Lia Bool.
From Stdlib Require String.
Import ListNotations.
Local Open Scope Z_scope.

(* ================================================================== *)
(** * Part I: definitions *)
(* ================================================================== *)

(** ** Machine integers and C truth values *)

Definition u8 (x : Z) : Z := x mod 256.
Definition u16 (x : Z) : Z := x mod 65536.
Definition u32 (x : Z) : Z := x mod 4294967296.

(** [(int8_t)x] for a byte [x]. *)
Definition s8 (x : Z) : Z := if u8 x <? 128 then u8 x else u8 x - 256.

(** A C condition: nonzero is true. *)
Definition nz (x : Z) : bool := negb (x =? 0).

(** The [int] value of a C comparison or of [!]. *)
Definition b2z (b : bool) : Z := if b then 1 else 0.

(** [x & mask] used as a condition. *)
Definition tst (x mask : Z) : bool := nz (Z.land x mask).

(** ** Arrays *)

(** Read of a fixed-size array member; every index the C code forms for
    these arrays is masked or typed into range. *)
Definition aget (l : list Z) (i : Z) : Z := nth (Z.to_nat i) l 0.

Fixpoint list_set {A : Type} (l : list A) (n : nat) (v : A) : list A :=
  match l, n with
  | [], _ => []
  | _ :: t, O => v :: t
  | h :: t, S n' => h :: list_set t n' v
  end.

(** Store into a fixed-size array member. *)
Definition aset (l : list Z) (i v : Z) : list Z :=
  if i <? 0 then l else list_set l (Z.to_nat i) v.

(** ** Results of partial computations

    [OutOfFuel] is an artefact of the embedding (the recursion budget of
    the re-entrant CPU loop ran out); [Fault] marks executions on which
    the C program has no defined behaviour (division by zero, a read or
    write outside a buffer, a null buffer). *)

Inductive result (A : Type) : Type :=
| Done (a : A)
| OutOfFuel
| Fault.
Arguments Done {A} a.
Arguments OutOfFuel {A}.
Arguments Fault {A}.

Definition rbind {A B : Type} (r : result A) (k : A -> result B) : result B :=
  match r with
  | Done a => k a
  | OutOfFuel => OutOfFuel
  | Fault => Fault
  end.

(** A heap buffer ([uint8_t*]): [None] is the null pointer. *)
Definition buffer : Type := option (list Z).

Definition buf_get (b : buffer) (i : Z) : result Z :=
  match b with
  | None => Fault
  | Some l =>
      if i <? 0 then Fault
      else match nth_error l (Z.to_nat i) with
           | Some v => Done v
           | None => Fault
           end
  end.

Definition buf_set (b : buffer) (i v : Z) : result buffer :=
  match b with
  | None => Fault
  | Some l =>
      if (0 <=? i) && (i <? Z.of_nat (length l))
      then Done (Some (list_set l (Z.to_nat i) v))
      else Fault
  end.

(** [a % b] on unsigned operands. *)
Definition umod (a b : Z) : result Z :=
  if b =? 0 then Fault else Done (a mod b).

(** ** State and failure: the monad the stateful code runs in *)

Definition M (S A : Type) : Type := S -> result (A * S).

Definition ret {S A : Type} (a : A) : M S A := fun s => Done (a, s).

Definition bind {S A B : Type} (m : M S A) (k : A -> M S B) : M S B :=
  fun s => match m s with
           | Done (a, s') => k a s'
           | OutOfFuel => OutOfFuel
           | Fault => Fault
           end.

Definition get {S : Type} : M S S := fun s => Done (s, s).
Definition put {S : Type} (s : S) : M S unit := fun _ => Done (tt, s).
Definition modify {S : Type} (f : S -> S) : M S unit := fun s => Done (tt, f s).
Definition gets {S A : Type} (f : S -> A) : M S A := fun s => Done (f s, s).
Definition lift {S A : Type} (r : result A) : M S A :=
  fun s => match r with
           | Done a => Done (a, s)
           | OutOfFuel => OutOfFuel
           | Fault => Fault
           end.
Definition out_of_fuel {S A : Type} : M S A := fun _ => OutOfFuel.

Declare Scope monad_scope.
Delimit Scope monad_scope with monad.
Notation "x <- m ;; k" := (bind m (fun x => k))
  (at level 61, m at next level, right associativity) : monad_scope.
Notation "m ;;; k" := (bind m (fun _ => k))
  (at level 61, right associativity) : monad_scope.
Local Open Scope monad_scope.

Definition when {S : Type} (b : bool) (m : M S unit) : M S unit :=
  if b then m else ret tt.

(* ------------------------------------------------------------------ *)
(** ** input/input.c: the two controllers *)

Definition NUM_BUTTONS : Z := 8.
Definition NES_BUTTON_A : Z := 0.

Record nes_input_t : Type := mk_input {
  buttons : list (list Z);   (* uint8_t buttons[2][NUM_BUTTONS] *)
  strobe : Z;
  read_index : list Z        (* uint8_t read_index[2] *)
}.

Definition button_at (input : nes_input_t) (cid idx : Z) : Z :=
  aget (nth (Z.to_nat cid) (buttons input) []) idx.

Definition nes_input_init : nes_input_t :=
  mk_input [repeat 0 8; repeat 0 8] 0 [0; 0].

Definition nes_input_reset (input : nes_input_t) : nes_input_t :=
  mk_input (buttons input) 0 [0; 0].

Definition nes_input_set_button (input : nes_input_t)
    (controller button pressed : Z) : nes_input_t :=
  if (0 <=? controller) && (controller <? 2) && (0 <=? button) && (button <? NUM_BUTTONS)
  then
    let row := nth (Z.to_nat controller) (buttons input) [] in
    let row' := aset row button (b2z (nz pressed)) in
    mk_input (if controller =? 0 then [row'; nth 1 (buttons input) []]
              else [nth 0 (buttons input) []; row'])
             (strobe input) (read_index input)
  else input.

Definition nes_input_write_strobe (input : nes_input_t) (value : Z) : nes_input_t :=
  let strobe' := Z.land value 1 in
  let idx := if nz strobe' && negb (nz (strobe input)) then [0; 0] else read_index input in
  mk_input (buttons input) strobe' idx.

Definition nes_input_read (input : nes_input_t) (controller : Z) : Z * nes_input_t :=
  let cid := if controller =? 0 then 0 else 1 in
  if nz (strobe input) then
    (Z.lor (b2z (nz (button_at input cid NES_BUTTON_A))) 0x40, input)
  else if aget (read_index input) cid <? NUM_BUTTONS then
    let result := b2z (nz (button_at input cid (aget (read_index input) cid))) in
    (Z.lor result 0x40,
     mk_input (buttons input) (strobe input)
              (aset (read_index input) cid (u8 (aget (read_index input) cid + 1))))
  else
    (Z.lor 0 0x40, input).

(* ------------------------------------------------------------------ *)
(** ** apu/apu.c: the audio unit *)

Record apu_envelope_t : Type := mk_envelope {
  env_start : Z;
  env_loop : Z;
  env_constant : Z;
  env_volume : Z;
  env_divider : Z;
  env_counter : Z;
  decay_level : Z
}.

Definition set_env_start (v : Z) (r : apu_envelope_t) : apu_envelope_t :=
  mk_envelope v (env_loop r) (env_constant r) (env_volume r) (env_divider r) (env_counter r) (decay_level r).
Definition set_env_loop (v : Z) (r : apu_envelope_t) : apu_envelope_t :=
  mk_envelope (env_start r) v (env_constant r) (env_volume r) (env_divider r) (env_counter r) (decay_level r).
Definition set_env_constant (v : Z) (r : apu_envelope_t) : apu_envelope_t :=
  mk_envelope (env_start r) (env_loop r) v (env_volume r) (env_divider r) (env_counter r) (decay_level r).
Definition set_env_volume (v : Z) (r : apu_envelope_t) : apu_envelope_t :=
  mk_envelope (env_start r) (env_loop r) (env_constant r) v (env_divider r) (env_counter r) (decay_level r).
Definition set_env_divider (v : Z) (r : apu_envelope_t) : apu_envelope_t :=
  mk_envelope (env_start r) (env_loop r) (env_constant r) (env_volume r) v (env_counter r) (decay_level r).
Definition set_env_counter (v : Z) (r : apu_envelope_t) : apu_envelope_t :=
  mk_envelope (env_start r) (env_loop r) (env_constant r) (env_volume r) (env_divider r) v (decay_level r).
Definition set_decay_level (v : Z) (r : apu_envelope_t) : apu_envelope_t :=
  mk_envelope (env_start r) (env_loop r) (env_constant r) (env_volume r) (env_divider r) (env_counter r) v.

Record apu_sweep_t : Type := mk_sweep {
  sw_enabled : Z;
  sw_period : Z;
  sw_negate : Z;
  sw_shift : Z;
  sw_reload : Z;
  sw_divider : Z;
  sw_one : Z
}.

Definition set_sw_enabled (v : Z) (r : apu_sweep_t) : apu_sweep_t :=
  mk_sweep v (sw_period r) (sw_negate r) (sw_shift r) (sw_reload r) (sw_divider r) (sw_one r).
Definition set_sw_period (v : Z) (r : apu_sweep_t) : apu_sweep_t :=
  mk_sweep (sw_enabled r) v (sw_negate r) (sw_shift r) (sw_reload r) (sw_divider r) (sw_one r).
Definition set_sw_negate (v : Z) (r : apu_sweep_t) : apu_sweep_t :=
  mk_sweep (sw_enabled r) (sw_period r) v (sw_shift r) (sw_reload r) (sw_divider r) (sw_one r).
Definition set_sw_shift (v : Z) (r : apu_sweep_t) : apu_sweep_t :=
  mk_sweep (sw_enabled r) (sw_period r) (sw_negate r) v (sw_reload r) (sw_divider r) (sw_one r).
Definition set_sw_reload (v : Z) (r : apu_sweep_t) : apu_sweep_t :=
  mk_sweep (sw_enabled r) (sw_period r) (sw_negate r) (sw_shift r) v (sw_divider r) (sw_one r).
Definition set_sw_divider (v : Z) (r : apu_sweep_t) : apu_sweep_t :=
  mk_sweep (sw_enabled r) (sw_period r) (sw_negate r) (sw_shift r) (sw_reload r) v (sw_one r).
Definition set_sw_one (v : Z) (r : apu_sweep_t) : apu_sweep_t :=
  mk_sweep (sw_enabled r) (sw_period r) (sw_negate r) (sw_shift r) (sw_reload r) (sw_divider r) v.

Record apu_square_t : Type := mk_square {
  sq_envelope : apu_envelope_t;
  sq_sweep : apu_sweep_t;
  sq_timer_period : Z;   (* uint16_t *)
  sq_timer_value : Z;   (* uint16_t *)
  duty : Z;
  duty_index : Z;
  sq_length_counter : Z;
  sq_length_enabled : Z
}.

Definition set_sq_envelope (v : apu_envelope_t) (r : apu_square_t) : apu_square_t :=
  mk_square v (sq_sweep r) (sq_timer_period r) (sq_timer_value r) (duty r) (duty_index r) (sq_length_counter r) (sq_length_enabled r).
Definition set_sq_sweep (v : apu_sweep_t) (r : apu_square_t) : apu_square_t :=
  mk_square (sq_envelope r) v (sq_timer_period r) (sq_timer_value r) (duty r) (duty_index r) (sq_length_counter r) (sq_length_enabled r).
Definition set_sq_timer_period (v : Z) (r : apu_square_t) : apu_square_t :=
  mk_square (sq_envelope r) (sq_sweep r) v (sq_timer_value r) (duty r) (duty_index r) (sq_length_counter r) (sq_length_enabled r).
Definition set_sq_timer_value (v : Z) (r : apu_square_t) : apu_square_t :=
  mk_square (sq_envelope r) (sq_sweep r) (sq_timer_period r) v (duty r) (duty_index r) (sq_length_counter r) (sq_length_enabled r).
Definition set_duty (v : Z) (r : apu_square_t) : apu_square_t :=
  mk_square (sq_envelope r) (sq_sweep r) (sq_timer_period r) (sq_timer_value r) v (duty_index r) (sq_length_counter r) (sq_length_enabled r).
Definition set_duty_index (v : Z) (r : apu_square_t) : apu_square_t :=
  mk_square (sq_envelope r) (sq_sweep r) (sq_timer_period r) (sq_timer_value r) (duty r) v (sq_length_counter r) (sq_length_enabled r).
Definition set_sq_length_counter (v : Z) (r : apu_square_t) : apu_square_t :=
  mk_square (sq_envelope r) (sq_sweep r) (sq_timer_period r) (sq_timer_value r) (duty r) (duty_index r) v (sq_length_enabled r).
Definition set_sq_length_enabled (v : Z) (r : apu_square_t) : apu_square_t :=
  mk_square (sq_envelope r) (sq_sweep r) (sq_timer_period r) (sq_timer_value r) (duty r) (duty_index r) (sq_length_counter r) v.

Record apu_triangle_t : Type := mk_triangle {
  tri_length_counter : Z;
  tri_length_enabled : Z;
  tri_timer_period : Z;   (* uint16_t *)
  tri_timer_value : Z;   (* uint16_t *)
  linear_counter : Z;
  linear_counter_reload : Z;
  linear_counter_control : Z;
  linear_counter_reload_flag : Z;
  linear_counter_value : Z;
  sequencing : Z
}.

Definition set_tri_length_counter (v : Z) (r : apu_triangle_t) : apu_triangle_t :=
  mk_triangle v (tri_length_enabled r) (tri_timer_period r) (tri_timer_value r) (linear_counter r) (linear_counter_reload r) (linear_counter_control r) (linear_counter_reload_flag r) (linear_counter_value r) (sequencing r).
Definition set_tri_length_enabled (v : Z) (r : apu_triangle_t) : apu_triangle_t :=
  mk_triangle (tri_length_counter r) v (tri_timer_period r) (tri_timer_value r) (linear_counter r) (linear_counter_reload r) (linear_counter_control r) (linear_counter_reload_flag r) (linear_counter_value r) (sequencing r).
Definition set_tri_timer_period (v : Z) (r : apu_triangle_t) : apu_triangle_t :=
  mk_triangle (tri_length_counter r) (tri_length_enabled r) v (tri_timer_value r) (linear_counter r) (linear_counter_reload r) (linear_counter_control r) (linear_counter_reload_flag r) (linear_counter_value r) (sequencing r).
Definition set_tri_timer_value (v : Z) (r : apu_triangle_t) : apu_triangle_t :=
  mk_triangle (tri_length_counter r) (tri_length_enabled r) (tri_timer_period r) v (linear_counter r) (linear_counter_reload r) (linear_counter_control r) (linear_counter_reload_flag r) (linear_counter_value r) (sequencing r).
Definition set_linear_counter (v : Z) (r : apu_triangle_t) : apu_triangle_t :=
  mk_triangle (tri_length_counter r) (tri_length_enabled r) (tri_timer_period r) (tri_timer_value r) v (linear_counter_reload r) (linear_counter_control r) (linear_counter_reload_flag r) (linear_counter_value r) (sequencing r).
Definition set_linear_counter_reload (v : Z) (r : apu_triangle_t) : apu_triangle_t :=
  mk_triangle (tri_length_counter r) (tri_length_enabled r) (tri_timer_period r) (tri_timer_value r) (linear_counter r) v (linear_counter_control r) (linear_counter_reload_flag r) (linear_counter_value r) (sequencing r).
Definition set_linear_counter_control (v : Z) (r : apu_triangle_t) : apu_triangle_t :=
  mk_triangle (tri_length_counter r) (tri_length_enabled r) (tri_timer_period r) (tri_timer_value r) (linear_counter r) (linear_counter_reload r) v (linear_counter_reload_flag r) (linear_counter_value r) (sequencing r).
Definition set_linear_counter_reload_flag (v : Z) (r : apu_triangle_t) : apu_triangle_t :=
  mk_triangle (tri_length_counter r) (tri_length_enabled r) (tri_timer_period r) (tri_timer_value r) (linear_counter r) (linear_counter_reload r) (linear_counter_control r) v (linear_counter_value r) (sequencing r).
Definition set_linear_counter_value (v : Z) (r : apu_triangle_t) : apu_triangle_t :=
  mk_triangle (tri_length_counter r) (tri_length_enabled r) (tri_timer_period r) (tri_timer_value r) (linear_counter r) (linear_counter_reload r) (linear_counter_control r) (linear_counter_reload_flag r) v (sequencing r).
Definition set_sequencing (v : Z) (r : apu_triangle_t) : apu_triangle_t :=
  mk_triangle (tri_length_counter r) (tri_length_enabled r) (tri_timer_period r) (tri_timer_value r) (linear_counter r) (linear_counter_reload r) (linear_counter_control r) (linear_counter_reload_flag r) (linear_counter_value r) v.

Record apu_noise_t : Type := mk_noise {
  noise_envelope : apu_envelope_t;
  noise_period : Z;   (* uint16_t *)
  noise_timer_value : Z;   (* uint16_t *)
  noise_mode : Z;
  noise_length_counter : Z;
  noise_length_enabled : Z;
  lfsr : Z   (* uint16_t *)
}.

Definition set_noise_envelope (v : apu_envelope_t) (r : apu_noise_t) : apu_noise_t :=
  mk_noise v (noise_period r) (noise_timer_value r) (noise_mode r) (noise_length_counter r) (noise_length_enabled r) (lfsr r).
Definition set_noise_period (v : Z) (r : apu_noise_t) : apu_noise_t :=
  mk_noise (noise_envelope r) v (noise_timer_value r) (noise_mode r) (noise_length_counter r) (noise_length_enabled r) (lfsr r).
Definition set_noise_timer_value (v : Z) (r : apu_noise_t) : apu_noise_t :=
  mk_noise (noise_envelope r) (noise_period r) v (noise_mode r) (noise_length_counter r) (noise_length_enabled r) (lfsr r).
Definition set_noise_mode (v : Z) (r : apu_noise_t) : apu_noise_t :=
  mk_noise (noise_envelope r) (noise_period r) (noise_timer_value r) v (noise_length_counter r) (noise_length_enabled r) (lfsr r).
Definition set_noise_length_counter (v : Z) (r : apu_noise_t) : apu_noise_t :=
  mk_noise (noise_envelope r) (noise_period r) (noise_timer_value r) (noise_mode r) v (noise_length_enabled r) (lfsr r).
Definition set_noise_length_enabled (v : Z) (r : apu_noise_t) : apu_noise_t :=
  mk_noise (noise_envelope r) (noise_period r) (noise_timer_value r) (noise_mode r) (noise_length_counter r) v (lfsr r).
Definition set_lfsr (v : Z) (r : apu_noise_t) : apu_noise_t :=
  mk_noise (noise_envelope r) (noise_period r) (noise_timer_value r) (noise_mode r) (noise_length_counter r) (noise_length_enabled r) v.

Record apu_dmc_t : Type := mk_dmc {
  dmc_enabled : Z;
  dmc_irq : Z;
  dmc_loop : Z;
  sample_addr : Z;   (* uint16_t *)
  sample_length : Z;   (* uint16_t *)
  current_addr : Z;   (* uint16_t *)
  bytes_remaining : Z;   (* uint16_t *)
  sample_buffer : Z;
  sample_buffer_empty : Z;
  shift_register : Z;
  bits_remaining : Z;
  silence : Z;
  dmc_output : Z;
  dmc_timer_period : Z;   (* uint8_t *)
  dmc_timer_value : Z   (* uint8_t *)
}.

Definition set_dmc_enabled (v : Z) (r : apu_dmc_t) : apu_dmc_t :=
  mk_dmc v (dmc_irq r) (dmc_loop r) (sample_addr r) (sample_length r) (current_addr r) (bytes_remaining r) (sample_buffer r) (sample_buffer_empty r) (shift_register r) (bits_remaining r) (silence r) (dmc_output r) (dmc_timer_period r) (dmc_timer_value r).
Definition set_dmc_irq (v : Z) (r : apu_dmc_t) : apu_dmc_t :=
  mk_dmc (dmc_enabled r) v (dmc_loop r) (sample_addr r) (sample_length r) (current_addr r) (bytes_remaining r) (sample_buffer r) (sample_buffer_empty r) (shift_register r) (bits_remaining r) (silence r) (dmc_output r) (dmc_timer_period r) (dmc_timer_value r).
Definition set_dmc_loop (v : Z) (r : apu_dmc_t) : apu_dmc_t :=
  mk_dmc (dmc_enabled r) (dmc_irq r) v (sample_addr r) (sample_length r) (current_addr r) (bytes_remaining r) (sample_buffer r) (sample_buffer_empty r) (shift_register r) (bits_remaining r) (silence r) (dmc_output r) (dmc_timer_period r) (dmc_timer_value r).
Definition set_sample_addr (v : Z) (r : apu_dmc_t) : apu_dmc_t :=
  mk_dmc (dmc_enabled r) (dmc_irq r) (dmc_loop r) v (sample_length r) (current_addr r) (bytes_remaining r) (sample_buffer r) (sample_buffer_empty r) (shift_register r) (bits_remaining r) (silence r) (dmc_output r) (dmc_timer_period r) (dmc_timer_value r).
Definition set_sample_length (v : Z) (r : apu_dmc_t) : apu_dmc_t :=
  mk_dmc (dmc_enabled r) (dmc_irq r) (dmc_loop r) (sample_addr r) v (current_addr r) (bytes_remaining r) (sample_buffer r) (sample_buffer_empty r) (shift_register r) (bits_remaining r) (silence r) (dmc_output r) (dmc_timer_period r) (dmc_timer_value r).
Definition set_current_addr (v : Z) (r : apu_dmc_t) : apu_dmc_t :=
  mk_dmc (dmc_enabled r) (dmc_irq r) (dmc_loop r) (sample_addr r) (sample_length r) v (bytes_remaining r) (sample_buffer r) (sample_buffer_empty r) (shift_register r) (bits_remaining r) (silence r) (dmc_output r) (dmc_timer_period r) (dmc_timer_value r).
Definition set_bytes_remaining (v : Z) (r : apu_dmc_t) : apu_dmc_t :=
  mk_dmc (dmc_enabled r) (dmc_irq r) (dmc_loop r) (sample_addr r) (sample_length r) (current_addr r) v (sample_buffer r) (sample_buffer_empty r) (shift_register r) (bits_remaining r) (silence r) (dmc_output r) (dmc_timer_period r) (dmc_timer_value r).
Definition set_sample_buffer (v : Z) (r : apu_dmc_t) : apu_dmc_t :=
  mk_dmc (dmc_enabled r) (dmc_irq r) (dmc_loop r) (sample_addr r) (sample_length r) (current_addr r) (bytes_remaining r) v (sample_buffer_empty r) (shift_register r) (bits_remaining r) (silence r) (dmc_output r) (dmc_timer_period r) (dmc_timer_value r).
Definition set_sample_buffer_empty (v : Z) (r : apu_dmc_t) : apu_dmc_t :=
  mk_dmc (dmc_enabled r) (dmc_irq r) (dmc_loop r) (sample_addr r) (sample_length r) (current_addr r) (bytes_remaining r) (sample_buffer r) v (shift_register r) (bits_remaining r) (silence r) (dmc_output r) (dmc_timer_period r) (dmc_timer_value r).
Definition set_shift_register (v : Z) (r : apu_dmc_t) : apu_dmc_t :=
  mk_dmc (dmc_enabled r) (dmc_irq r) (dmc_loop r) (sample_addr r) (sample_length r) (current_addr r) (bytes_remaining r) (sample_buffer r) (sample_buffer_empty r) v (bits_remaining r) (silence r) (dmc_output r) (dmc_timer_period r) (dmc_timer_value r).
Definition set_bits_remaining (v : Z) (r : apu_dmc_t) : apu_dmc_t :=
  mk_dmc (dmc_enabled r) (dmc_irq r) (dmc_loop r) (sample_addr r) (sample_length r) (current_addr r) (bytes_remaining r) (sample_buffer r) (sample_buffer_empty r) (shift_register r) v (silence r) (dmc_output r) (dmc_timer_period r) (dmc_timer_value r).
Definition set_silence (v : Z) (r : apu_dmc_t) : apu_dmc_t :=
  mk_dmc (dmc_enabled r) (dmc_irq r) (dmc_loop r) (sample_addr r) (sample_length r) (current_addr r) (bytes_remaining r) (sample_buffer r) (sample_buffer_empty r) (shift_register r) (bits_remaining r) v (dmc_output r) (dmc_timer_period r) (dmc_timer_value r).
Definition set_dmc_output (v : Z) (r : apu_dmc_t) : apu_dmc_t :=
  mk_dmc (dmc_enabled r) (dmc_irq r) (dmc_loop r) (sample_addr r) (sample_length r) (current_addr r) (bytes_remaining r) (sample_buffer r) (sample_buffer_empty r) (shift_register r) (bits_remaining r) (silence r) v (dmc_timer_period r) (dmc_timer_value r).
Definition set_dmc_timer_period (v : Z) (r : apu_dmc_t) : apu_dmc_t :=
  mk_dmc (dmc_enabled r) (dmc_irq r) (dmc_loop r) (sample_addr r) (sample_length r) (current_addr r) (bytes_remaining r) (sample_buffer r) (sample_buffer_empty r) (shift_register r) (bits_remaining r) (silence r) (dmc_output r) v (dmc_timer_value r).
Definition set_dmc_timer_value (v : Z) (r : apu_dmc_t) : apu_dmc_t :=
  mk_dmc (dmc_enabled r) (dmc_irq r) (dmc_loop r) (sample_addr r) (sample_length r) (current_addr r) (bytes_remaining r) (sample_buffer r) (sample_buffer_empty r) (shift_register r) (bits_remaining r) (silence r) (dmc_output r) (dmc_timer_period r) v.

Record apu_frame_counter_t : Type := mk_frame_counter {
  fc_mode : Z;
  fc_irq : Z;
  fc_counter : Z
}.

Definition set_fc_mode (v : Z) (r : apu_frame_counter_t) : apu_frame_counter_t :=
  mk_frame_counter v (fc_irq r) (fc_counter r).
Definition set_fc_irq (v : Z) (r : apu_frame_counter_t) : apu_frame_counter_t :=
  mk_frame_counter (fc_mode r) v (fc_counter r).
Definition set_fc_counter (v : Z) (r : apu_frame_counter_t) : apu_frame_counter_t :=
  mk_frame_counter (fc_mode r) (fc_irq r) v.

Record nes_apu_t : Type := mk_apu {
  square1 : apu_square_t;
  square2 : apu_square_t;
  triangle : apu_triangle_t;
  noise : apu_noise_t;
  dmc : apu_dmc_t;
  frame : apu_frame_counter_t;
  apu_cycle_count : Z;   (* uint32_t *)
  frame_cycle : Z   (* uint32_t *)
}.

Definition set_square1 (v : apu_square_t) (r : nes_apu_t) : nes_apu_t :=
  mk_apu v (square2 r) (triangle r) (noise r) (dmc r) (frame r) (apu_cycle_count r) (frame_cycle r).
Definition set_square2 (v : apu_square_t) (r : nes_apu_t) : nes_apu_t :=
  mk_apu (square1 r) v (triangle r) (noise r) (dmc r) (frame r) (apu_cycle_count r) (frame_cycle r).
Definition set_triangle (v : apu_triangle_t) (r : nes_apu_t) : nes_apu_t :=
  mk_apu (square1 r) (square2 r) v (noise r) (dmc r) (frame r) (apu_cycle_count r) (frame_cycle r).
Definition set_noise (v : apu_noise_t) (r : nes_apu_t) : nes_apu_t :=
  mk_apu (square1 r) (square2 r) (triangle r) v (dmc r) (frame r) (apu_cycle_count r) (frame_cycle r).
Definition set_dmc (v : apu_dmc_t) (r : nes_apu_t) : nes_apu_t :=
  mk_apu (square1 r) (square2 r) (triangle r) (noise r) v (frame r) (apu_cycle_count r) (frame_cycle r).
Definition set_frame (v : apu_frame_counter_t) (r : nes_apu_t) : nes_apu_t :=
  mk_apu (square1 r) (square2 r) (triangle r) (noise r) (dmc r) v (apu_cycle_count r) (frame_cycle r).
Definition set_apu_cycle_count (v : Z) (r : nes_apu_t) : nes_apu_t :=
  mk_apu (square1 r) (square2 r) (triangle r) (noise r) (dmc r) (frame r) v (frame_cycle r).
Definition set_frame_cycle (v : Z) (r : nes_apu_t) : nes_apu_t :=
  mk_apu (square1 r) (square2 r) (triangle r) (noise r) (dmc r) (frame r) (apu_cycle_count r) v.

Definition g_length_table : list Z :=
  [10; 254; 20; 2; 40; 4; 80; 6;
   160; 8; 60; 10; 14; 12; 26; 14;
   12; 16; 24; 18; 48; 20; 96; 22;
   192; 24; 72; 26; 16; 28; 32; 30].

Definition g_noise_period_table : list Z :=
  [4; 8; 16; 32; 64; 96; 128; 160;
   202; 254; 380; 508; 762; 1016; 2034; 4068].

Definition g_dmc_period_table : list Z :=
  [428; 380; 340; 320; 286; 254; 226; 214;
   190; 160; 142; 128; 106; 84; 72; 54].

Definition apu_lfsr_short (l : Z) : Z :=
  let bit := Z.land (Z.lxor (Z.land l 1) (Z.shiftr (Z.land l 2) 1)) 1 in
  u16 (Z.lor (Z.shiftr l 1) (Z.shiftl bit 14)).

Definition apu_lfsr_long (l : Z) : Z :=
  let bit := Z.land (Z.lxor (Z.land l 1) (Z.shiftr (Z.land l 0x40) 6)) 1 in
  u16 (Z.lor (Z.shiftr l 1) (Z.shiftl bit 14)).

Definition envelope_clock (env : apu_envelope_t) : apu_envelope_t :=
  if nz (env_start env) then
    set_env_divider (env_volume env) (set_decay_level 15 (set_env_start 0 env))
  else if env_divider env =? 0 then
    let env1 := set_env_divider (env_volume env) env in
    if 0 <? decay_level env1 then set_decay_level (decay_level env1 - 1) env1
    else if nz (env_loop env1) then set_decay_level 15 env1
    else env1
  else set_env_divider (env_divider env - 1) env.

Definition square_timer_clock (sq : apu_square_t) : apu_square_t :=
  if sq_timer_value sq =? 0 then
    set_duty_index (Z.land (duty_index sq + 1) 7)
      (set_sq_timer_value (sq_timer_period sq) sq)
  else set_sq_timer_value (sq_timer_value sq - 1) sq.

Definition triangle_clock_linear (tri : apu_triangle_t) : apu_triangle_t :=
  let tri1 :=
    if nz (linear_counter_reload_flag tri) then
      set_linear_counter (linear_counter_reload tri) tri
    else if 0 <? linear_counter tri then
      set_linear_counter (linear_counter tri - 1) tri
    else tri in
  if negb (nz (linear_counter_control tri1)) then set_linear_counter_reload_flag 0 tri1
  else tri1.

Definition triangle_timer_clock (tri : apu_triangle_t) : apu_triangle_t :=
  if tri_timer_value tri =? 0 then
    let tri1 := set_tri_timer_value (tri_timer_period tri) tri in
    if (0 <? tri_length_counter tri1) && (0 <? linear_counter tri1) then
      set_sequencing (Z.land (sequencing tri1 + 1) 31) tri1
    else tri1
  else set_tri_timer_value (tri_timer_value tri - 1) tri.

Definition noise_timer_clock (n : apu_noise_t) : apu_noise_t :=
  if noise_timer_value n =? 0 then
    (* LFSR step *)
    let bit := Z.land (lfsr n) 1 in
    let feedback :=
      if nz (noise_mode n) then
        (* Short period mode *)
        Z.lxor bit (Z.land (Z.shiftr (lfsr n) 6) 1)
      else
        (* Long period mode *)
        Z.lxor bit (Z.land (Z.shiftr (lfsr n) 1) 1) in
    set_noise_timer_value (noise_period n)
      (set_lfsr (u16 (Z.lor (Z.shiftr (lfsr n) 1) (Z.shiftl feedback 14))) n)
  else set_noise_timer_value (noise_timer_value n - 1) n.

Section ApuBus.

(** [g_apu_bus]: the read callback of the APU bus, [None] while the
    pointer (or its [read] member) is null, as [nes_sys_init] leaves it. *)
Variable g_apu_bus : option (Z -> Z).

(** [dmc_clock_reader(NULL, NULL, dmc)], its only call. *)
Definition dmc_clock_reader (d : apu_dmc_t) : apu_dmc_t :=
  if negb (nz (sample_buffer_empty d)) then d
  else if bytes_remaining d =? 0 then
    if nz (dmc_loop d) then
      set_bytes_remaining (sample_length d) (set_current_addr (sample_addr d) d)
    else d
  else
    let d1 := match g_apu_bus with
              | Some read => set_sample_buffer (u8 (read (current_addr d))) d
              | None => d
              end in
    let d2 := set_sample_buffer_empty 0 d1 in
    let d3 := set_current_addr (u16 (Z.lor (current_addr d2 + 1) 0x8000)) d2 in
    set_bytes_remaining (u16 (bytes_remaining d3 - 1)) d3.

Definition dmc_clock_shifter (d : apu_dmc_t) : apu_dmc_t :=
  if nz (silence d) then d
  else
    let d1 :=
      if tst (shift_register d) 1 then
        if dmc_output d <=? 125 then set_dmc_output (dmc_output d + 2) d else d
      else
        if 2 <=? dmc_output d then set_dmc_output (dmc_output d - 2) d else d in
    let d2 := set_shift_register (Z.shiftr (shift_register d1) 1) d1 in
    set_bits_remaining (u8 (bits_remaining d2 - 1)) d2.

Definition dmc_timer_clock (d : apu_dmc_t) : apu_dmc_t :=
  if dmc_timer_value d =? 0 then
    let d1 := set_dmc_timer_value (dmc_timer_period d) d in
    let d2 :=
      if bits_remaining d1 =? 0 then
        let d1a := set_bits_remaining 8 d1 in
        if nz (sample_buffer_empty d1a) then set_silence 1 d1a
        else
          dmc_clock_reader
            (set_sample_buffer_empty 1
               (set_shift_register (sample_buffer d1a) (set_silence 0 d1a)))
      else d1 in
    dmc_clock_shifter d2
  else set_dmc_timer_value (dmc_timer_value d - 1) d.

Definition dec_length (c : Z) : Z := if 0 <? c then c - 1 else 0.

Definition frame_clock (apu : nes_apu_t) (step : Z) : nes_apu_t :=
  let apu1 :=
    if (step =? 0) || (step =? 2) then
      let a1 := set_square1 (set_sq_envelope (envelope_clock (sq_envelope (square1 apu))) (square1 apu)) apu in
      let a2 := set_square2 (set_sq_envelope (envelope_clock (sq_envelope (square2 a1))) (square2 a1)) a1 in
      let a3 := set_noise (set_noise_envelope (envelope_clock (noise_envelope (noise a2))) (noise a2)) a2 in
      set_triangle (triangle_clock_linear (triangle a3)) a3
    else apu in
  if step =? 1 then
    let b1 := set_square1 (set_sq_length_counter (dec_length (sq_length_counter (square1 apu1))) (square1 apu1)) apu1 in
    let b2 := set_square2 (set_sq_length_counter (dec_length (sq_length_counter (square2 b1))) (square2 b1)) b1 in
    let b3 := set_noise (set_noise_length_counter (dec_length (noise_length_counter (noise b2))) (noise b2)) b2 in
    set_triangle (set_tri_length_counter (dec_length (tri_length_counter (triangle b3))) (triangle b3)) b3
  else apu1.

Definition nes_apu_step (apu : nes_apu_t) : nes_apu_t :=
  let cycle := apu_cycle_count apu in
  let a0 := set_frame_cycle cycle (set_apu_cycle_count (u32 (cycle + 1)) apu) in
  (* Clock timers *)
  let a1 := set_square1 (square_timer_clock (square1 a0)) a0 in
  let a2 := set_square2 (square_timer_clock (square2 a1)) a1 in
  let a3 := set_triangle (triangle_timer_clock (triangle a2)) a2 in
  let a4 := set_noise (noise_timer_clock (noise a3)) a3 in
  let a5 := set_dmc (dmc_timer_clock (dmc a4)) a4 in
  (* Frame counter timing *)
  if fc_mode (frame a5) =? 0 then
    if cycle =? 3729 then frame_clock a5 0
    else if cycle =? 7457 then frame_clock a5 1
    else if cycle =? 11186 then frame_clock a5 0
    else if cycle =? 14915 then set_apu_cycle_count 0 (frame_clock a5 1)
    else a5
  else
    if cycle =? 3729 then frame_clock a5 0
    else if cycle =? 7457 then frame_clock a5 1
    else if cycle =? 11186 then frame_clock a5 0
    else if cycle =? 14915 then a5
    else if cycle =? 18641 then set_apu_cycle_count 0 (frame_clock a5 0)
    else a5.

Fixpoint apu_run (n : nat) (apu : nes_apu_t) : nes_apu_t :=
  match n with
  | O => apu
  | S n' => apu_run n' (nes_apu_step apu)
  end.

(** [for (i = 0; i < cycles; i++) nes_apu_step(apu);] *)
Definition nes_apu_execute_cycles (apu : nes_apu_t) (cycles : Z) : nes_apu_t :=
  apu_run (Z.to_nat cycles) apu.

End ApuBus.

Definition write_square_ctrl (val : Z) (sq : apu_square_t) : apu_square_t :=
  let sq1 := set_duty (Z.land (Z.shiftr val 6) 3) sq in
  let sq2 := set_sq_length_enabled (b2z (negb (tst val 0x20))) sq1 in
  set_sq_envelope
    (set_env_volume (Z.land val 0x0F)
       (set_env_constant (b2z (tst val 0x10))
          (set_env_loop (b2z (tst val 0x20)) (sq_envelope sq2)))) sq2.

Definition write_square_sweep (val : Z) (sq : apu_square_t) : apu_square_t :=
  set_sq_sweep
    (set_sw_reload 1
       (set_sw_shift (Z.land val 7)
          (set_sw_negate (b2z (tst val 8))
             (set_sw_period (Z.land (Z.shiftr val 4) 7)
                (set_sw_enabled (b2z (tst val 0x80)) (sq_sweep sq)))))) sq.

Definition write_square_timer (val : Z) (sq : apu_square_t) : apu_square_t :=
  set_sq_timer_period (Z.lor (Z.land (sq_timer_period sq) 0x700) val) sq.

Definition write_square_length (val : Z) (sq : apu_square_t) : apu_square_t :=
  let sq1 := set_sq_timer_period
               (Z.lor (Z.land (sq_timer_period sq) 0xFF) (Z.shiftl (Z.land val 7) 8)) sq in
  let sq2 := set_sq_length_counter (aget g_length_table (Z.land (Z.shiftr val 3) 0x1F)) sq1 in
  let sq3 := set_sq_envelope (set_env_start 1 (sq_envelope sq2)) sq2 in
  set_duty_index 0 sq3.

Definition nes_apu_cpu_write (apu : nes_apu_t) (addr val0 : Z) : nes_apu_t :=
  let val := u8 val0 in
  match u16 addr with
  (* Square 1 *)
  | 0x4000 => set_square1 (write_square_ctrl val (square1 apu)) apu
  | 0x4001 => set_square1 (write_square_sweep val (square1 apu)) apu
  | 0x4002 => set_square1 (write_square_timer val (square1 apu)) apu
  | 0x4003 => set_square1 (write_square_length val (square1 apu)) apu
  (* Square 2 *)
  | 0x4004 => set_square2 (write_square_ctrl val (square2 apu)) apu
  | 0x4005 => set_square2 (write_square_sweep val (square2 apu)) apu
  | 0x4006 => set_square2 (write_square_timer val (square2 apu)) apu
  | 0x4007 => set_square2 (write_square_length val (square2 apu)) apu
  (* Triangle *)
  | 0x4008 =>
      set_triangle
        (set_linear_counter_reload (Z.land val 0x7F)
           (set_linear_counter_control (b2z (tst val 0x80))
              (set_tri_length_enabled (b2z (negb (tst val 0x80))) (triangle apu)))) apu
  | 0x400A =>
      set_triangle
        (set_tri_timer_period (Z.lor (Z.land (tri_timer_period (triangle apu)) 0x700) val)
           (triangle apu)) apu
  | 0x400B =>
      set_triangle
        (set_linear_counter_reload_flag 1
           (set_tri_length_counter (aget g_length_table (Z.land (Z.shiftr val 3) 0x1F))
              (set_tri_timer_period
                 (Z.lor (Z.land (tri_timer_period (triangle apu)) 0xFF)
                        (Z.shiftl (Z.land val 7) 8))
                 (triangle apu)))) apu
  (* Noise *)
  | 0x400C =>
      let n1 := set_noise_length_enabled (b2z (negb (tst val 0x20))) (noise apu) in
      set_noise
        (set_noise_envelope
           (set_env_volume (Z.land val 0x0F)
              (set_env_constant (b2z (tst val 0x10))
                 (set_env_loop (b2z (tst val 0x20)) (noise_envelope n1)))) n1) apu
  | 0x400E =>
      set_noise
        (set_noise_period (aget g_noise_period_table (Z.land val 0x0F))
           (set_noise_mode (b2z (tst val 0x80)) (noise apu))) apu
  | 0x400F =>
      let n1 := set_noise_length_counter
                  (aget g_length_table (Z.land (Z.shiftr val 3) 0x1F)) (noise apu) in
      set_noise (set_noise_envelope (set_env_start 1 (noise_envelope n1)) n1) apu
  (* DMC *)
  | 0x4010 =>
      set_dmc
        (set_dmc_timer_period (u8 (aget g_dmc_period_table (Z.land val 0x0F)))
           (set_dmc_loop (b2z (tst val 0x40))
              (set_dmc_irq (b2z (tst val 0x80)) (dmc apu)))) apu
  | 0x4011 => set_dmc (set_dmc_output (Z.land val 0x7F) (dmc apu)) apu
  | 0x4012 => set_dmc (set_sample_addr (u16 (Z.lor 0xC000 (Z.shiftl val 6))) (dmc apu)) apu
  | 0x4013 => set_dmc (set_sample_length (u16 (Z.lor (Z.shiftl val 4) 1)) (dmc apu)) apu
  (* Status *)
  | 0x4015 =>
      let a1 := set_square1
                  (set_sq_length_counter
                     (if tst val 1 then sq_length_counter (square1 apu) else 0) (square1 apu)) apu in
      let a2 := set_square2
                  (set_sq_length_counter
                     (if tst val 2 then sq_length_counter (square2 a1) else 0) (square2 a1)) a1 in
      let a3 := set_triangle
                  (set_tri_length_counter
                     (if tst val 4 then tri_length_counter (triangle a2) else 0) (triangle a2)) a2 in
      let a4 := set_noise
                  (set_noise_length_counter
                     (if tst val 8 then noise_length_counter (noise a3) else 0) (noise a3)) a3 in
      if tst val 0x10 then
        let d1 := set_dmc_enabled 1 (dmc a4) in
        let d2 := if bytes_remaining d1 =? 0
                  then set_bytes_remaining (sample_length d1)
                         (set_current_addr (sample_addr d1) d1)
                  else d1 in
        set_dmc d2 a4
      else
        set_dmc (set_bytes_remaining 0 (set_dmc_enabled 0 (dmc a4))) a4
  (* Frame Counter *)
  | 0x4017 =>
      let a1 := set_frame
                  (set_fc_irq (b2z (negb (tst val 0x40)))
                     (set_fc_mode (b2z (tst val 0x80)) (frame apu))) apu in
      if nz (fc_mode (frame a1)) then
        (* 5-step mode - immediately step *)
        frame_clock a1 0
      else a1
  | _ => apu
  end.

Definition nes_apu_cpu_read (apu : nes_apu_t) (addr : Z) : Z :=
  if u16 addr =? 0x4015 then
    let s0 := if 0 <? sq_length_counter (square1 apu) then 1 else 0 in
    let s1 := Z.lor s0 (if 0 <? sq_length_counter (square2 apu) then 2 else 0) in
    let s2 := Z.lor s1 (if 0 <? tri_length_counter (triangle apu) then 4 else 0) in
    let s3 := Z.lor s2 (if 0 <? noise_length_counter (noise apu) then 8 else 0) in
    Z.lor s3 (if 0 <? bytes_remaining (dmc apu) then 0x10 else 0)
  else 0.

Definition zero_envelope : apu_envelope_t := mk_envelope 0 0 0 0 0 0 0.
Definition zero_sweep : apu_sweep_t := mk_sweep 0 0 0 0 0 0 0.
Definition zero_square : apu_square_t := mk_square zero_envelope zero_sweep 0 0 0 0 0 0.
Definition zero_triangle : apu_triangle_t := mk_triangle 0 0 0 0 0 0 0 0 0 0.
Definition zero_noise : apu_noise_t := mk_noise zero_envelope 0 0 0 0 0 0.
Definition zero_dmc : apu_dmc_t := mk_dmc 0 0 0 0 0 0 0 0 0 0 0 0 0 0 0.

(** [nes_apu_init]: [memset] to zero, then the LFSR and DMC defaults. *)
Definition nes_apu_init : nes_apu_t :=
  mk_apu zero_square zero_square zero_triangle
         (set_lfsr 1 zero_noise)
         (set_bits_remaining 8 (set_sample_buffer_empty 1 (set_sample_addr 0xC000 zero_dmc)))
         (mk_frame_counter 0 0 0) 0 0.

Definition nes_apu_reset (apu : nes_apu_t) : nes_apu_t :=
  mk_apu zero_square zero_square zero_triangle
         (set_lfsr 1 zero_noise)
         zero_dmc
         (set_fc_mode 0 (frame apu)) 0 0.

(* ------------------------------------------------------------------ *)
(** ** cartridge/rom.c: the iNES loader and the cartridge buffers *)

Definition NES_ROM_HEADER_SIZE : Z := 16.
Definition NES_PRG_ROM_SIZE : Z := 16384.
Definition NES_CHR_ROM_SIZE : Z := 8192.
Definition PRG_RAM_SIZE : Z := 8192.

(** ["NES\x1A"] *)
Definition NES_MAGIC : list Z := [0x4E; 0x45; 0x53; 0x1A].

Definition FLAGS6_MIRROR_MASK : Z := 0x01.
Definition FLAGS6_BATTERY : Z := 0x02.
Definition FLAGS6_TRAINER : Z := 0x04.
Definition FLAGS6_FOUR_SCREEN : Z := 0x08.
Definition FLAGS6_MAPPER_LO : Z := 0xF0.
Definition FLAGS7_VS_UNISYSTEM : Z := 0x01.
Definition FLAGS7_PLAYCHOICE_10 : Z := 0x02.
Definition FLAGS7_NES_2_0 : Z := 0x0C.
Definition FLAGS7_MAPPER_HI : Z := 0xF0.
Definition FLAGS10_TV_SYSTEM : Z := 0x03.

Record nes_rom_header_t : Type := mk_header {
  magic : list Z;          (* uint8_t magic[4] *)
  hdr_prg_rom_size : Z;    (* prg_rom_size: PRG ROM in 16KB units *)
  hdr_chr_rom_size : Z;    (* chr_rom_size: CHR ROM in 8KB units *)
  flags6 : Z;
  flags7 : Z;
  flags8 : Z;
  flags9 : Z;
  flags10 : Z;
  unused : list Z          (* uint8_t unused[5] *)
}.

(** [mirroring_t] of rom.h and [mirror_mode_t] of ppu.c: the same five
    enumerators with the same values. *)
Inductive mirror_mode_t : Type :=
| MIRROR_HORIZONTAL
| MIRROR_VERTICAL
| MIRROR_SINGLE_0
| MIRROR_SINGLE_1
| MIRROR_FOUR_SCREEN.

Definition mirror_value (m : mirror_mode_t) : Z :=
  match m with
  | MIRROR_HORIZONTAL => 0
  | MIRROR_VERTICAL => 1
  | MIRROR_SINGLE_0 => 2
  | MIRROR_SINGLE_1 => 3
  | MIRROR_FOUR_SCREEN => 4
  end.

Inductive nes_rom_result_t : Type :=
| NES_ROM_OK
| NES_ROM_ERROR_FILE_NOT_FOUND
| NES_ROM_ERROR_INVALID_HEADER
| NES_ROM_ERROR_UNSUPPORTED_MAPPER
| NES_ROM_ERROR_MEMORY
| NES_ROM_ERROR_TRUNCATED
| NES_ROM_ERROR_CHECKSUM.

Record nes_rom_info_t : Type := mk_rom_info {
  mapper_number : Z;   (* uint8_t mapper *)
  prg_rom_banks : Z;
  chr_rom_banks : Z;
  has_chrram : Z;
  has_battery : Z;
  has_trainer : Z;
  mirroring : mirror_mode_t;
  fourscreen : Z;
  vs_unisystem : Z;
  playchoice : Z;
  is_nes_2_0 : Z;
  is_pal : Z;
  info_prg_rom_size : Z;   (* info.prg_rom_size, as rom.c writes it *)
  info_chr_rom_size : Z   (* info.chr_rom_size *)
}.

Definition set_mapper_number (v : Z) (r : nes_rom_info_t) : nes_rom_info_t :=
  mk_rom_info v (prg_rom_banks r) (chr_rom_banks r) (has_chrram r) (has_battery r) (has_trainer r) (mirroring r) (fourscreen r) (vs_unisystem r) (playchoice r) (is_nes_2_0 r) (is_pal r) (info_prg_rom_size r) (info_chr_rom_size r).
Definition set_prg_rom_banks (v : Z) (r : nes_rom_info_t) : nes_rom_info_t :=
  mk_rom_info (mapper_number r) v (chr_rom_banks r) (has_chrram r) (has_battery r) (has_trainer r) (mirroring r) (fourscreen r) (vs_unisystem r) (playchoice r) (is_nes_2_0 r) (is_pal r) (info_prg_rom_size r) (info_chr_rom_size r).
Definition set_chr_rom_banks (v : Z) (r : nes_rom_info_t) : nes_rom_info_t :=
  mk_rom_info (mapper_number r) (prg_rom_banks r) v (has_chrram r) (has_battery r) (has_trainer r) (mirroring r) (fourscreen r) (vs_unisystem r) (playchoice r) (is_nes_2_0 r) (is_pal r) (info_prg_rom_size r) (info_chr_rom_size r).
Definition set_has_chrram (v : Z) (r : nes_rom_info_t) : nes_rom_info_t :=
  mk_rom_info (mapper_number r) (prg_rom_banks r) (chr_rom_banks r) v (has_battery r) (has_trainer r) (mirroring r) (fourscreen r) (vs_unisystem r) (playchoice r) (is_nes_2_0 r) (is_pal r) (info_prg_rom_size r) (info_chr_rom_size r).
Definition set_has_battery (v : Z) (r : nes_rom_info_t) : nes_rom_info_t :=
  mk_rom_info (mapper_number r) (prg_rom_banks r) (chr_rom_banks r) (has_chrram r) v (has_trainer r) (mirroring r) (fourscreen r) (vs_unisystem r) (playchoice r) (is_nes_2_0 r) (is_pal r) (info_prg_rom_size r) (info_chr_rom_size r).
Definition set_has_trainer (v : Z) (r : nes_rom_info_t) : nes_rom_info_t :=
  mk_rom_info (mapper_number r) (prg_rom_banks r) (chr_rom_banks r) (has_chrram r) (has_battery r) v (mirroring r) (fourscreen r) (vs_unisystem r) (playchoice r) (is_nes_2_0 r) (is_pal r) (info_prg_rom_size r) (info_chr_rom_size r).
Definition set_mirroring (v : mirror_mode_t) (r : nes_rom_info_t) : nes_rom_info_t :=
  mk_rom_info (mapper_number r) (prg_rom_banks r) (chr_rom_banks r) (has_chrram r) (has_battery r) (has_trainer r) v (fourscreen r) (vs_unisystem r) (playchoice r) (is_nes_2_0 r) (is_pal r) (info_prg_rom_size r) (info_chr_rom_size r).
Definition set_fourscreen (v : Z) (r : nes_rom_info_t) : nes_rom_info_t :=
  mk_rom_info (mapper_number r) (prg_rom_banks r) (chr_rom_banks r) (has_chrram r) (has_battery r) (has_trainer r) (mirroring r) v (vs_unisystem r) (playchoice r) (is_nes_2_0 r) (is_pal r) (info_prg_rom_size r) (info_chr_rom_size r).
Definition set_vs_unisystem (v : Z) (r : nes_rom_info_t) : nes_rom_info_t :=
  mk_rom_info (mapper_number r) (prg_rom_banks r) (chr_rom_banks r) (has_chrram r) (has_battery r) (has_trainer r) (mirroring r) (fourscreen r) v (playchoice r) (is_nes_2_0 r) (is_pal r) (info_prg_rom_size r) (info_chr_rom_size r).
Definition set_playchoice (v : Z) (r : nes_rom_info_t) : nes_rom_info_t :=
  mk_rom_info (mapper_number r) (prg_rom_banks r) (chr_rom_banks r) (has_chrram r) (has_battery r) (has_trainer r) (mirroring r) (fourscreen r) (vs_unisystem r) v (is_nes_2_0 r) (is_pal r) (info_prg_rom_size r) (info_chr_rom_size r).
Definition set_is_nes_2_0 (v : Z) (r : nes_rom_info_t) : nes_rom_info_t :=
  mk_rom_info (mapper_number r) (prg_rom_banks r) (chr_rom_banks r) (has_chrram r) (has_battery r) (has_trainer r) (mirroring r) (fourscreen r) (vs_unisystem r) (playchoice r) v (is_pal r) (info_prg_rom_size r) (info_chr_rom_size r).
Definition set_is_pal (v : Z) (r : nes_rom_info_t) : nes_rom_info_t :=
  mk_rom_info (mapper_number r) (prg_rom_banks r) (chr_rom_banks r) (has_chrram r) (has_battery r) (has_trainer r) (mirroring r) (fourscreen r) (vs_unisystem r) (playchoice r) (is_nes_2_0 r) v (info_prg_rom_size r) (info_chr_rom_size r).
Definition set_info_prg_rom_size (v : Z) (r : nes_rom_info_t) : nes_rom_info_t :=
  mk_rom_info (mapper_number r) (prg_rom_banks r) (chr_rom_banks r) (has_chrram r) (has_battery r) (has_trainer r) (mirroring r) (fourscreen r) (vs_unisystem r) (playchoice r) (is_nes_2_0 r) (is_pal r) v (info_chr_rom_size r).
Definition set_info_chr_rom_size (v : Z) (r : nes_rom_info_t) : nes_rom_info_t :=
  mk_rom_info (mapper_number r) (prg_rom_banks r) (chr_rom_banks r) (has_chrram r) (has_battery r) (has_trainer r) (mirroring r) (fourscreen r) (vs_unisystem r) (playchoice r) (is_nes_2_0 r) (is_pal r) (info_prg_rom_size r) v.

Record nes_cartridge_t : Type := mk_cartridge {
  info : nes_rom_info_t;
  prg_rom : buffer;
  chr_rom : buffer;
  prg_ram : buffer;
  prg_rom_size : Z;   (* size_t *)
  chr_rom_size : Z;   (* size_t *)
  prg_ram_size : Z   (* size_t *)
}.

Definition set_info (v : nes_rom_info_t) (r : nes_cartridge_t) : nes_cartridge_t :=
  mk_cartridge v (prg_rom r) (chr_rom r) (prg_ram r) (prg_rom_size r) (chr_rom_size r) (prg_ram_size r).
Definition set_prg_rom (v : buffer) (r : nes_cartridge_t) : nes_cartridge_t :=
  mk_cartridge (info r) v (chr_rom r) (prg_ram r) (prg_rom_size r) (chr_rom_size r) (prg_ram_size r).
Definition set_chr_rom (v : buffer) (r : nes_cartridge_t) : nes_cartridge_t :=
  mk_cartridge (info r) (prg_rom r) v (prg_ram r) (prg_rom_size r) (chr_rom_size r) (prg_ram_size r).
Definition set_prg_ram (v : buffer) (r : nes_cartridge_t) : nes_cartridge_t :=
  mk_cartridge (info r) (prg_rom r) (chr_rom r) v (prg_rom_size r) (chr_rom_size r) (prg_ram_size r).
Definition set_prg_rom_size (v : Z) (r : nes_cartridge_t) : nes_cartridge_t :=
  mk_cartridge (info r) (prg_rom r) (chr_rom r) (prg_ram r) v (chr_rom_size r) (prg_ram_size r).
Definition set_chr_rom_size (v : Z) (r : nes_cartridge_t) : nes_cartridge_t :=
  mk_cartridge (info r) (prg_rom r) (chr_rom r) (prg_ram r) (prg_rom_size r) v (prg_ram_size r).
Definition set_prg_ram_size (v : Z) (r : nes_cartridge_t) : nes_cartridge_t :=
  mk_cartridge (info r) (prg_rom r) (chr_rom r) (prg_ram r) (prg_rom_size r) (chr_rom_size r) v.

(** [nes_cartridge_init]: [memset] to zero. The [crc32] and [title]
    members, which no modelled function reads, are not carried. *)
Definition zero_rom_info : nes_rom_info_t :=
  mk_rom_info 0 0 0 0 0 0 MIRROR_HORIZONTAL 0 0 0 0 0 0 0.

Definition nes_cartridge_init : nes_cartridge_t :=
  mk_cartridge zero_rom_info None None None 0 0 0.

(** The header is the first 16 bytes of the image, read in place. *)
Definition header_of_bytes (data : list Z) : nes_rom_header_t :=
  mk_header (firstn 4 data)
            (aget data 4) (aget data 5) (aget data 6) (aget data 7)
            (aget data 8) (aget data 9) (aget data 10)
            (firstn 5 (skipn 11 data)).

Definition bytes_eqb (a b : list Z) : bool :=
  (length a =? length b)%nat && forallb (fun p => fst p =? snd p) (combine a b).

(** The bytes [data[off .. off+n)]. *)
Definition slice (data : list Z) (off n : Z) : list Z :=
  firstn (Z.to_nat n) (skipn (Z.to_nat off) data).

Section Loader.

(** Whether [malloc]/[calloc] serves a request of the given size. *)
Variable alloc : Z -> bool.

(** A freshly allocated block; [memcpy] or [calloc] fixes its contents
    before anything reads it. *)
Definition fresh_block (size : Z) : buffer :=
  if alloc size then Some (repeat 0 (Z.to_nat size)) else None.

Definition parse_header (header : nes_rom_header_t) (cart : nes_cartridge_t)
  : nes_rom_result_t * nes_cartridge_t :=
  (* Check magic number *)
  if negb (bytes_eqb (magic header) NES_MAGIC) then (NES_ROM_ERROR_INVALID_HEADER, cart)
  else
    (* Get mapper number *)
    let mapper_lo := Z.shiftr (Z.land (flags6 header) FLAGS6_MAPPER_LO) 4 in
    let mapper_hi := Z.shiftr (Z.land (flags7 header) FLAGS7_MAPPER_HI) 4 in
    let i1 := set_mapper_number (u8 (Z.lor (Z.shiftl mapper_hi 4) mapper_lo)) (info cart) in
    (* Check NES 2.0 *)
    let i2 := set_is_nes_2_0
                (b2z (Z.land (flags7 header) FLAGS7_NES_2_0 =? FLAGS7_NES_2_0)) i1 in
    (* Get ROM sizes *)
    let i3 := set_prg_rom_banks (hdr_prg_rom_size header) i2 in
    let i4 := set_info_prg_rom_size (prg_rom_banks i3 * NES_PRG_ROM_SIZE) i3 in
    let i5 :=
      if nz (is_nes_2_0 i4) then
        let chr_lo := Z.land (hdr_chr_rom_size header) 0x0F in
        let chr_hi := u8 (Z.land (Z.shiftr (hdr_chr_rom_size header) 4) 0xF0) in
        set_chr_rom_banks (Z.lor (Z.shiftl chr_hi 4) chr_lo) i4
      else set_chr_rom_banks (hdr_chr_rom_size header) i4 in
    let i6 := set_info_chr_rom_size (chr_rom_banks i5 * NES_CHR_ROM_SIZE) i5 in
    let i7 := set_has_chrram (b2z (chr_rom_banks i6 =? 0)) i6 in
    (* Mirroring *)
    let i8 :=
      if tst (flags6 header) FLAGS6_FOUR_SCREEN then
        set_fourscreen 1 (set_mirroring MIRROR_FOUR_SCREEN i7)
      else if tst (flags6 header) FLAGS6_MIRROR_MASK then
        set_mirroring MIRROR_VERTICAL i7
      else set_mirroring MIRROR_HORIZONTAL i7 in
    let i9 := set_has_battery (b2z (tst (flags6 header) FLAGS6_BATTERY)) i8 in
    let i10 := set_has_trainer (b2z (tst (flags6 header) FLAGS6_TRAINER)) i9 in
    let i11 := set_vs_unisystem (b2z (tst (flags7 header) FLAGS7_VS_UNISYSTEM)) i10 in
    let i12 := set_playchoice (b2z (tst (flags7 header) FLAGS7_PLAYCHOICE_10)) i11 in
    let i13 := set_is_pal (Z.land (Z.land (flags10 header) FLAGS10_TV_SYSTEM) 0x01) i12 in
    let c1 := set_info i13 cart in
    (* Allocate PRG-ROM *)
    let c2 := set_prg_rom (fresh_block (info_prg_rom_size i13)) c1 in
    match prg_rom c2 with
    | None => (NES_ROM_ERROR_MEMORY, c2)
    | Some _ =>
        (* Allocate CHR or CHR-RAM *)
        let c3 :=
          if 0 <? info_chr_rom_size i13 then
            set_chr_rom (fresh_block (info_chr_rom_size i13)) c2
          else
            set_chr_rom (fresh_block NES_CHR_ROM_SIZE) (set_chr_rom_size NES_CHR_ROM_SIZE c2) in
        match chr_rom c3 with
        | None => (NES_ROM_ERROR_MEMORY, set_prg_rom None c3)
        | Some _ =>
            (* Allocate PRG-RAM (save RAM) *)
            let c4 := set_prg_ram (fresh_block PRG_RAM_SIZE) (set_prg_ram_size PRG_RAM_SIZE c3) in
            (NES_ROM_OK, c4)
        end
    end.

Definition nes_cartridge_free (cart : nes_cartridge_t) : nes_cartridge_t :=
  set_chr_rom None (set_prg_rom None cart).

Definition nes_cartridge_load_memory (cart : nes_cartridge_t) (data : list Z)
  : nes_rom_result_t * nes_cartridge_t :=
  let size := Z.of_nat (length data) in
  if size <? NES_ROM_HEADER_SIZE then (NES_ROM_ERROR_TRUNCATED, cart)
  else
    match parse_header (header_of_bytes data) cart with
    | (NES_ROM_OK, c1) =>
        let offset := NES_ROM_HEADER_SIZE in
        let rom_size := offset + info_prg_rom_size (info c1) + info_chr_rom_size (info c1) in
        (* Check if trainer present *)
        let offset1 := if nz (has_trainer (info c1)) then offset + 512 else offset in
        let rom_size1 := if nz (has_trainer (info c1)) then rom_size + 512 else rom_size in
        (* Check if we have enough data *)
        if size <? rom_size1 then (NES_ROM_ERROR_TRUNCATED, nes_cartridge_free c1)
        else
          (* Copy PRG-ROM *)
          let c2 := set_prg_rom (Some (slice data offset1 (info_prg_rom_size (info c1)))) c1 in
          let offset2 := offset1 + info_prg_rom_size (info c1) in
          (* Copy CHR-ROM *)
          let c3 :=
            if 0 <? chr_rom_banks (info c2) then
              set_chr_rom (Some (slice data offset2 (info_chr_rom_size (info c2)))) c2
            else c2 in
          (NES_ROM_OK, c3)
    | (err, c1) => (err, c1)
    end.

End Loader.

Definition nes_cartridge_write_prg_ram (cart : nes_cartridge_t) (addr val : Z)
  : result nes_cartridge_t :=
  match prg_ram cart with
  | Some _ =>
      if addr <? prg_ram_size cart then
        rbind (buf_set (prg_ram cart) addr val) (fun b => Done (set_prg_ram b cart))
      else Done cart
  | None => Done cart
  end.

Definition nes_cartridge_read_prg_ram (cart : nes_cartridge_t) (addr : Z) : result Z :=
  match prg_ram cart with
  | Some _ => if addr <? prg_ram_size cart then buf_get (prg_ram cart) addr else Done 0
  | None => Done 0
  end.

(** [size - 1] in [size_t] arithmetic, then [addr & ...]. *)
Definition size_mask (addr size : Z) : Z :=
  Z.land addr ((size - 1) mod 18446744073709551616).

Definition nes_cartridge_read_chr (cart : nes_cartridge_t) (addr : Z) : result Z :=
  buf_get (chr_rom cart) (size_mask addr (chr_rom_size cart)).

Definition nes_cartridge_write_chr_ram (cart : nes_cartridge_t) (addr val : Z)
  : result nes_cartridge_t :=
  if nz (has_chrram (info cart)) then
    rbind (buf_set (chr_rom cart) (size_mask addr (chr_rom_size cart)) val)
          (fun b => Done (set_chr_rom b cart))
  else Done cart.

(* ------------------------------------------------------------------ *)
(** ** The state of the machine: cpu/cpu.h, ppu/ppu.h, mapper/mapper.c,
       memory/bus.h *)

(** [nes_cpu_t], with the members of [cpu_registers_t] inlined. *)
Record nes_cpu_t : Type := mk_cpu {
  reg_pc : Z;   (* uint16_t reg.pc *)
  reg_a : Z;
  reg_x : Z;
  reg_y : Z;
  reg_sp : Z;
  reg_p : Z;
  cycle_count : Z;   (* uint32_t *)
  pending_nmi : Z;
  pending_irq : Z;
  stall_cycles : Z   (* uint8_t *)
}.

Definition set_reg_pc (v : Z) (r : nes_cpu_t) : nes_cpu_t :=
  mk_cpu v (reg_a r) (reg_x r) (reg_y r) (reg_sp r) (reg_p r) (cycle_count r) (pending_nmi r) (pending_irq r) (stall_cycles r).
Definition set_reg_a (v : Z) (r : nes_cpu_t) : nes_cpu_t :=
  mk_cpu (reg_pc r) v (reg_x r) (reg_y r) (reg_sp r) (reg_p r) (cycle_count r) (pending_nmi r) (pending_irq r) (stall_cycles r).
Definition set_reg_x (v : Z) (r : nes_cpu_t) : nes_cpu_t :=
  mk_cpu (reg_pc r) (reg_a r) v (reg_y r) (reg_sp r) (reg_p r) (cycle_count r) (pending_nmi r) (pending_irq r) (stall_cycles r).
Definition set_reg_y (v : Z) (r : nes_cpu_t) : nes_cpu_t :=
  mk_cpu (reg_pc r) (reg_a r) (reg_x r) v (reg_sp r) (reg_p r) (cycle_count r) (pending_nmi r) (pending_irq r) (stall_cycles r).
Definition set_reg_sp (v : Z) (r : nes_cpu_t) : nes_cpu_t :=
  mk_cpu (reg_pc r) (reg_a r) (reg_x r) (reg_y r) v (reg_p r) (cycle_count r) (pending_nmi r) (pending_irq r) (stall_cycles r).
Definition set_reg_p (v : Z) (r : nes_cpu_t) : nes_cpu_t :=
  mk_cpu (reg_pc r) (reg_a r) (reg_x r) (reg_y r) (reg_sp r) v (cycle_count r) (pending_nmi r) (pending_irq r) (stall_cycles r).
Definition set_cycle_count (v : Z) (r : nes_cpu_t) : nes_cpu_t :=
  mk_cpu (reg_pc r) (reg_a r) (reg_x r) (reg_y r) (reg_sp r) (reg_p r) v (pending_nmi r) (pending_irq r) (stall_cycles r).
Definition set_pending_nmi (v : Z) (r : nes_cpu_t) : nes_cpu_t :=
  mk_cpu (reg_pc r) (reg_a r) (reg_x r) (reg_y r) (reg_sp r) (reg_p r) (cycle_count r) v (pending_irq r) (stall_cycles r).
Definition set_pending_irq (v : Z) (r : nes_cpu_t) : nes_cpu_t :=
  mk_cpu (reg_pc r) (reg_a r) (reg_x r) (reg_y r) (reg_sp r) (reg_p r) (cycle_count r) (pending_nmi r) v (stall_cycles r).
Definition set_stall_cycles (v : Z) (r : nes_cpu_t) : nes_cpu_t :=
  mk_cpu (reg_pc r) (reg_a r) (reg_x r) (reg_y r) (reg_sp r) (reg_p r) (cycle_count r) (pending_nmi r) (pending_irq r) v.

Record ppu_sprite_t : Type := mk_sprite {
  sp_y : Z;
  sp_tile : Z;
  sp_attr : Z;
  sp_x : Z
}.

Definition set_sp_y (v : Z) (r : ppu_sprite_t) : ppu_sprite_t :=
  mk_sprite v (sp_tile r) (sp_attr r) (sp_x r).
Definition set_sp_tile (v : Z) (r : ppu_sprite_t) : ppu_sprite_t :=
  mk_sprite (sp_y r) v (sp_attr r) (sp_x r).
Definition set_sp_attr (v : Z) (r : ppu_sprite_t) : ppu_sprite_t :=
  mk_sprite (sp_y r) (sp_tile r) v (sp_x r).
Definition set_sp_x (v : Z) (r : ppu_sprite_t) : ppu_sprite_t :=
  mk_sprite (sp_y r) (sp_tile r) (sp_attr r) v.

(** [nes_ppu_t], with [ppu_registers_t] and [ppu_scroll_t] inlined; the
    members no function touches ([secondary_oam], [sprite_pattern], the
    callbacks) are not carried. *)
Record nes_ppu_t : Type := mk_ppu {
  ctrl : Z;
  mask : Z;
  status : Z;
  oam_addr : Z;
  data_buffer : Z;
  scroll_v : Z;   (* uint16_t reg.scroll.v *)
  scroll_t : Z;   (* uint16_t reg.scroll.t *)
  scroll_x : Z;
  scroll_w : Z;
  vram : list Z;   (* uint8_t vram[0x1000] *)
  palette : list Z;   (* uint8_t palette[0x20] *)
  oam : list Z;   (* uint8_t oam[0x100] *)
  scanline : Z;   (* uint16_t *)
  ppu_cycle : Z;   (* uint16_t cycle *)
  ppu_frame : Z;   (* uint32_t frame *)
  odd_frame : Z;
  sprite_count : Z;
  sprites : list ppu_sprite_t;   (* ppu_sprite_t sprites[8] *)
  background_shift_lo : Z;   (* uint8_t *)
  background_shift_hi : Z;   (* uint8_t *)
  attribute_shift_lo : Z;   (* uint8_t *)
  attribute_shift_hi : Z;   (* uint8_t *)
  attribute_latch_lo : Z;
  attribute_latch_hi : Z;
  background_fetch_tile : Z;   (* uint8_t *)
  background_fetch_attr : Z
}.

Definition set_ctrl (v : Z) (r : nes_ppu_t) : nes_ppu_t :=
  mk_ppu v (mask r) (status r) (oam_addr r) (data_buffer r) (scroll_v r) (scroll_t r) (scroll_x r) (scroll_w r) (vram r) (palette r) (oam r) (scanline r) (ppu_cycle r) (ppu_frame r) (odd_frame r) (sprite_count r) (sprites r) (background_shift_lo r) (background_shift_hi r) (attribute_shift_lo r) (attribute_shift_hi r) (attribute_latch_lo r) (attribute_latch_hi r) (background_fetch_tile r) (background_fetch_attr r).
Definition set_mask (v : Z) (r : nes_ppu_t) : nes_ppu_t :=
  mk_ppu (ctrl r) v (status r) (oam_addr r) (data_buffer r) (scroll_v r) (scroll_t r) (scroll_x r) (scroll_w r) (vram r) (palette r) (oam r) (scanline r) (ppu_cycle r) (ppu_frame r) (odd_frame r) (sprite_count r) (sprites r) (background_shift_lo r) (background_shift_hi r) (attribute_shift_lo r) (attribute_shift_hi r) (attribute_latch_lo r) (attribute_latch_hi r) (background_fetch_tile r) (background_fetch_attr r).
Definition set_status (v : Z) (r : nes_ppu_t) : nes_ppu_t :=
  mk_ppu (ctrl r) (mask r) v (oam_addr r) (data_buffer r) (scroll_v r) (scroll_t r) (scroll_x r) (scroll_w r) (vram r) (palette r) (oam r) (scanline r) (ppu_cycle r) (ppu_frame r) (odd_frame r) (sprite_count r) (sprites r) (background_shift_lo r) (background_shift_hi r) (attribute_shift_lo r) (attribute_shift_hi r) (attribute_latch_lo r) (attribute_latch_hi r) (background_fetch_tile r) (background_fetch_attr r).
Definition set_oam_addr (v : Z) (r : nes_ppu_t) : nes_ppu_t :=
  mk_ppu (ctrl r) (mask r) (status r) v (data_buffer r) (scroll_v r) (scroll_t r) (scroll_x r) (scroll_w r) (vram r) (palette r) (oam r) (scanline r) (ppu_cycle r) (ppu_frame r) (odd_frame r) (sprite_count r) (sprites r) (background_shift_lo r) (background_shift_hi r) (attribute_shift_lo r) (attribute_shift_hi r) (attribute_latch_lo r) (attribute_latch_hi r) (background_fetch_tile r) (background_fetch_attr r).
Definition set_data_buffer (v : Z) (r : nes_ppu_t) : nes_ppu_t :=
  mk_ppu (ctrl r) (mask r) (status r) (oam_addr r) v (scroll_v r) (scroll_t r) (scroll_x r) (scroll_w r) (vram r) (palette r) (oam r) (scanline r) (ppu_cycle r) (ppu_frame r) (odd_frame r) (sprite_count r) (sprites r) (background_shift_lo r) (background_shift_hi r) (attribute_shift_lo r) (attribute_shift_hi r) (attribute_latch_lo r) (attribute_latch_hi r) (background_fetch_tile r) (background_fetch_attr r).
Definition set_scroll_v (v : Z) (r : nes_ppu_t) : nes_ppu_t :=
  mk_ppu (ctrl r) (mask r) (status r) (oam_addr r) (data_buffer r) v (scroll_t r) (scroll_x r) (scroll_w r) (vram r) (palette r) (oam r) (scanline r) (ppu_cycle r) (ppu_frame r) (odd_frame r) (sprite_count r) (sprites r) (background_shift_lo r) (background_shift_hi r) (attribute_shift_lo r) (attribute_shift_hi r) (attribute_latch_lo r) (attribute_latch_hi r) (background_fetch_tile r) (background_fetch_attr r).
Definition set_scroll_t (v : Z) (r : nes_ppu_t) : nes_ppu_t :=
  mk_ppu (ctrl r) (mask r) (status r) (oam_addr r) (data_buffer r) (scroll_v r) v (scroll_x r) (scroll_w r) (vram r) (palette r) (oam r) (scanline r) (ppu_cycle r) (ppu_frame r) (odd_frame r) (sprite_count r) (sprites r) (background_shift_lo r) (background_shift_hi r) (attribute_shift_lo r) (attribute_shift_hi r) (attribute_latch_lo r) (attribute_latch_hi r) (background_fetch_tile r) (background_fetch_attr r).
Definition set_scroll_x (v : Z) (r : nes_ppu_t) : nes_ppu_t :=
  mk_ppu (ctrl r) (mask r) (status r) (oam_addr r) (data_buffer r) (scroll_v r) (scroll_t r) v (scroll_w r) (vram r) (palette r) (oam r) (scanline r) (ppu_cycle r) (ppu_frame r) (odd_frame r) (sprite_count r) (sprites r) (background_shift_lo r) (background_shift_hi r) (attribute_shift_lo r) (attribute_shift_hi r) (attribute_latch_lo r) (attribute_latch_hi r) (background_fetch_tile r) (background_fetch_attr r).
Definition set_scroll_w (v : Z) (r : nes_ppu_t) : nes_ppu_t :=
  mk_ppu (ctrl r) (mask r) (status r) (oam_addr r) (data_buffer r) (scroll_v r) (scroll_t r) (scroll_x r) v (vram r) (palette r) (oam r) (scanline r) (ppu_cycle r) (ppu_frame r) (odd_frame r) (sprite_count r) (sprites r) (background_shift_lo r) (background_shift_hi r) (attribute_shift_lo r) (attribute_shift_hi r) (attribute_latch_lo r) (attribute_latch_hi r) (background_fetch_tile r) (background_fetch_attr r).
Definition set_vram (v : list Z) (r : nes_ppu_t) : nes_ppu_t :=
  mk_ppu (ctrl r) (mask r) (status r) (oam_addr r) (data_buffer r) (scroll_v r) (scroll_t r) (scroll_x r) (scroll_w r) v (palette r) (oam r) (scanline r) (ppu_cycle r) (ppu_frame r) (odd_frame r) (sprite_count r) (sprites r) (background_shift_lo r) (background_shift_hi r) (attribute_shift_lo r) (attribute_shift_hi r) (attribute_latch_lo r) (attribute_latch_hi r) (background_fetch_tile r) (background_fetch_attr r).
Definition set_palette (v : list Z) (r : nes_ppu_t) : nes_ppu_t :=
  mk_ppu (ctrl r) (mask r) (status r) (oam_addr r) (data_buffer r) (scroll_v r) (scroll_t r) (scroll_x r) (scroll_w r) (vram r) v (oam r) (scanline r) (ppu_cycle r) (ppu_frame r) (odd_frame r) (sprite_count r) (sprites r) (background_shift_lo r) (background_shift_hi r) (attribute_shift_lo r) (attribute_shift_hi r) (attribute_latch_lo r) (attribute_latch_hi r) (background_fetch_tile r) (background_fetch_attr r).
Definition set_oam (v : list Z) (r : nes_ppu_t) : nes_ppu_t :=
  mk_ppu (ctrl r) (mask r) (status r) (oam_addr r) (data_buffer r) (scroll_v r) (scroll_t r) (scroll_x r) (scroll_w r) (vram r) (palette r) v (scanline r) (ppu_cycle r) (ppu_frame r) (odd_frame r) (sprite_count r) (sprites r) (background_shift_lo r) (background_shift_hi r) (attribute_shift_lo r) (attribute_shift_hi r) (attribute_latch_lo r) (attribute_latch_hi r) (background_fetch_tile r) (background_fetch_attr r).
Definition set_scanline (v : Z) (r : nes_ppu_t) : nes_ppu_t :=
  mk_ppu (ctrl r) (mask r) (status r) (oam_addr r) (data_buffer r) (scroll_v r) (scroll_t r) (scroll_x r) (scroll_w r) (vram r) (palette r) (oam r) v (ppu_cycle r) (ppu_frame r) (odd_frame r) (sprite_count r) (sprites r) (background_shift_lo r) (background_shift_hi r) (attribute_shift_lo r) (attribute_shift_hi r) (attribute_latch_lo r) (attribute_latch_hi r) (background_fetch_tile r) (background_fetch_attr r).
Definition set_ppu_cycle (v : Z) (r : nes_ppu_t) : nes_ppu_t :=
  mk_ppu (ctrl r) (mask r) (status r) (oam_addr r) (data_buffer r) (scroll_v r) (scroll_t r) (scroll_x r) (scroll_w r) (vram r) (palette r) (oam r) (scanline r) v (ppu_frame r) (odd_frame r) (sprite_count r) (sprites r) (background_shift_lo r) (background_shift_hi r) (attribute_shift_lo r) (attribute_shift_hi r) (attribute_latch_lo r) (attribute_latch_hi r) (background_fetch_tile r) (background_fetch_attr r).
Definition set_ppu_frame (v : Z) (r : nes_ppu_t) : nes_ppu_t :=
  mk_ppu (ctrl r) (mask r) (status r) (oam_addr r) (data_buffer r) (scroll_v r) (scroll_t r) (scroll_x r) (scroll_w r) (vram r) (palette r) (oam r) (scanline r) (ppu_cycle r) v (odd_frame r) (sprite_count r) (sprites r) (background_shift_lo r) (background_shift_hi r) (attribute_shift_lo r) (attribute_shift_hi r) (attribute_latch_lo r) (attribute_latch_hi r) (background_fetch_tile r) (background_fetch_attr r).
Definition set_odd_frame (v : Z) (r : nes_ppu_t) : nes_ppu_t :=
  mk_ppu (ctrl r) (mask r) (status r) (oam_addr r) (data_buffer r) (scroll_v r) (scroll_t r) (scroll_x r) (scroll_w r) (vram r) (palette r) (oam r) (scanline r) (ppu_cycle r) (ppu_frame r) v (sprite_count r) (sprites r) (background_shift_lo r) (background_shift_hi r) (attribute_shift_lo r) (attribute_shift_hi r) (attribute_latch_lo r) (attribute_latch_hi r) (background_fetch_tile r) (background_fetch_attr r).
Definition set_sprite_count (v : Z) (r : nes_ppu_t) : nes_ppu_t :=
  mk_ppu (ctrl r) (mask r) (status r) (oam_addr r) (data_buffer r) (scroll_v r) (scroll_t r) (scroll_x r) (scroll_w r) (vram r) (palette r) (oam r) (scanline r) (ppu_cycle r) (ppu_frame r) (odd_frame r) v (sprites r) (background_shift_lo r) (background_shift_hi r) (attribute_shift_lo r) (attribute_shift_hi r) (attribute_latch_lo r) (attribute_latch_hi r) (background_fetch_tile r) (background_fetch_attr r).
Definition set_sprites (v : list ppu_sprite_t) (r : nes_ppu_t) : nes_ppu_t :=
  mk_ppu (ctrl r) (mask r) (status r) (oam_addr r) (data_buffer r) (scroll_v r) (scroll_t r) (scroll_x r) (scroll_w r) (vram r) (palette r) (oam r) (scanline r) (ppu_cycle r) (ppu_frame r) (odd_frame r) (sprite_count r) v (background_shift_lo r) (background_shift_hi r) (attribute_shift_lo r) (attribute_shift_hi r) (attribute_latch_lo r) (attribute_latch_hi r) (background_fetch_tile r) (background_fetch_attr r).
Definition set_background_shift_lo (v : Z) (r : nes_ppu_t) : nes_ppu_t :=
  mk_ppu (ctrl r) (mask r) (status r) (oam_addr r) (data_buffer r) (scroll_v r) (scroll_t r) (scroll_x r) (scroll_w r) (vram r) (palette r) (oam r) (scanline r) (ppu_cycle r) (ppu_frame r) (odd_frame r) (sprite_count r) (sprites r) v (background_shift_hi r) (attribute_shift_lo r) (attribute_shift_hi r) (attribute_latch_lo r) (attribute_latch_hi r) (background_fetch_tile r) (background_fetch_attr r).
Definition set_background_shift_hi (v : Z) (r : nes_ppu_t) : nes_ppu_t :=
  mk_ppu (ctrl r) (mask r) (status r) (oam_addr r) (data_buffer r) (scroll_v r) (scroll_t r) (scroll_x r) (scroll_w r) (vram r) (palette r) (oam r) (scanline r) (ppu_cycle r) (ppu_frame r) (odd_frame r) (sprite_count r) (sprites r) (background_shift_lo r) v (attribute_shift_lo r) (attribute_shift_hi r) (attribute_latch_lo r) (attribute_latch_hi r) (background_fetch_tile r) (background_fetch_attr r).
Definition set_attribute_shift_lo (v : Z) (r : nes_ppu_t) : nes_ppu_t :=
  mk_ppu (ctrl r) (mask r) (status r) (oam_addr r) (data_buffer r) (scroll_v r) (scroll_t r) (scroll_x r) (scroll_w r) (vram r) (palette r) (oam r) (scanline r) (ppu_cycle r) (ppu_frame r) (odd_frame r) (sprite_count r) (sprites r) (background_shift_lo r) (background_shift_hi r) v (attribute_shift_hi r) (attribute_latch_lo r) (attribute_latch_hi r) (background_fetch_tile r) (background_fetch_attr r).
Definition set_attribute_shift_hi (v : Z) (r : nes_ppu_t) : nes_ppu_t :=
  mk_ppu (ctrl r) (mask r) (status r) (oam_addr r) (data_buffer r) (scroll_v r) (scroll_t r) (scroll_x r) (scroll_w r) (vram r) (palette r) (oam r) (scanline r) (ppu_cycle r) (ppu_frame r) (odd_frame r) (sprite_count r) (sprites r) (background_shift_lo r) (background_shift_hi r) (attribute_shift_lo r) v (attribute_latch_lo r) (attribute_latch_hi r) (background_fetch_tile r) (background_fetch_attr r).
Definition set_attribute_latch_lo (v : Z) (r : nes_ppu_t) : nes_ppu_t :=
  mk_ppu (ctrl r) (mask r) (status r) (oam_addr r) (data_buffer r) (scroll_v r) (scroll_t r) (scroll_x r) (scroll_w r) (vram r) (palette r) (oam r) (scanline r) (ppu_cycle r) (ppu_frame r) (odd_frame r) (sprite_count r) (sprites r) (background_shift_lo r) (background_shift_hi r) (attribute_shift_lo r) (attribute_shift_hi r) v (attribute_latch_hi r) (background_fetch_tile r) (background_fetch_attr r).
Definition set_attribute_latch_hi (v : Z) (r : nes_ppu_t) : nes_ppu_t :=
  mk_ppu (ctrl r) (mask r) (status r) (oam_addr r) (data_buffer r) (scroll_v r) (scroll_t r) (scroll_x r) (scroll_w r) (vram r) (palette r) (oam r) (scanline r) (ppu_cycle r) (ppu_frame r) (odd_frame r) (sprite_count r) (sprites r) (background_shift_lo r) (background_shift_hi r) (attribute_shift_lo r) (attribute_shift_hi r) (attribute_latch_lo r) v (background_fetch_tile r) (background_fetch_attr r).
Definition set_background_fetch_tile (v : Z) (r : nes_ppu_t) : nes_ppu_t :=
  mk_ppu (ctrl r) (mask r) (status r) (oam_addr r) (data_buffer r) (scroll_v r) (scroll_t r) (scroll_x r) (scroll_w r) (vram r) (palette r) (oam r) (scanline r) (ppu_cycle r) (ppu_frame r) (odd_frame r) (sprite_count r) (sprites r) (background_shift_lo r) (background_shift_hi r) (attribute_shift_lo r) (attribute_shift_hi r) (attribute_latch_lo r) (attribute_latch_hi r) v (background_fetch_attr r).
Definition set_background_fetch_attr (v : Z) (r : nes_ppu_t) : nes_ppu_t :=
  mk_ppu (ctrl r) (mask r) (status r) (oam_addr r) (data_buffer r) (scroll_v r) (scroll_t r) (scroll_x r) (scroll_w r) (vram r) (palette r) (oam r) (scanline r) (ppu_cycle r) (ppu_frame r) (odd_frame r) (sprite_count r) (sprites r) (background_shift_lo r) (background_shift_hi r) (attribute_shift_lo r) (attribute_shift_hi r) (attribute_latch_lo r) (attribute_latch_hi r) (background_fetch_tile r) v.

Record mapper_1_ctx_t : Type := mk_mapper_1 {
  m1_shift_reg : Z;
  m1_shift_count : Z;
  m1_control : Z;
  m1_chr_bank_0 : Z;
  m1_chr_bank_1 : Z;
  m1_prg_bank : Z;
  m1_prg_mode : Z;
  m1_chr_mode : Z;
  m1_mirroring : Z;
  m1_prg_ram_disabled : Z
}.

Definition set_m1_shift_reg (v : Z) (r : mapper_1_ctx_t) : mapper_1_ctx_t :=
  mk_mapper_1 v (m1_shift_count r) (m1_control r) (m1_chr_bank_0 r) (m1_chr_bank_1 r) (m1_prg_bank r) (m1_prg_mode r) (m1_chr_mode r) (m1_mirroring r) (m1_prg_ram_disabled r).
Definition set_m1_shift_count (v : Z) (r : mapper_1_ctx_t) : mapper_1_ctx_t :=
  mk_mapper_1 (m1_shift_reg r) v (m1_control r) (m1_chr_bank_0 r) (m1_chr_bank_1 r) (m1_prg_bank r) (m1_prg_mode r) (m1_chr_mode r) (m1_mirroring r) (m1_prg_ram_disabled r).
Definition set_m1_control (v : Z) (r : mapper_1_ctx_t) : mapper_1_ctx_t :=
  mk_mapper_1 (m1_shift_reg r) (m1_shift_count r) v (m1_chr_bank_0 r) (m1_chr_bank_1 r) (m1_prg_bank r) (m1_prg_mode r) (m1_chr_mode r) (m1_mirroring r) (m1_prg_ram_disabled r).
Definition set_m1_chr_bank_0 (v : Z) (r : mapper_1_ctx_t) : mapper_1_ctx_t :=
  mk_mapper_1 (m1_shift_reg r) (m1_shift_count r) (m1_control r) v (m1_chr_bank_1 r) (m1_prg_bank r) (m1_prg_mode r) (m1_chr_mode r) (m1_mirroring r) (m1_prg_ram_disabled r).
Definition set_m1_chr_bank_1 (v : Z) (r : mapper_1_ctx_t) : mapper_1_ctx_t :=
  mk_mapper_1 (m1_shift_reg r) (m1_shift_count r) (m1_control r) (m1_chr_bank_0 r) v (m1_prg_bank r) (m1_prg_mode r) (m1_chr_mode r) (m1_mirroring r) (m1_prg_ram_disabled r).
Definition set_m1_prg_bank (v : Z) (r : mapper_1_ctx_t) : mapper_1_ctx_t :=
  mk_mapper_1 (m1_shift_reg r) (m1_shift_count r) (m1_control r) (m1_chr_bank_0 r) (m1_chr_bank_1 r) v (m1_prg_mode r) (m1_chr_mode r) (m1_mirroring r) (m1_prg_ram_disabled r).
Definition set_m1_prg_mode (v : Z) (r : mapper_1_ctx_t) : mapper_1_ctx_t :=
  mk_mapper_1 (m1_shift_reg r) (m1_shift_count r) (m1_control r) (m1_chr_bank_0 r) (m1_chr_bank_1 r) (m1_prg_bank r) v (m1_chr_mode r) (m1_mirroring r) (m1_prg_ram_disabled r).
Definition set_m1_chr_mode (v : Z) (r : mapper_1_ctx_t) : mapper_1_ctx_t :=
  mk_mapper_1 (m1_shift_reg r) (m1_shift_count r) (m1_control r) (m1_chr_bank_0 r) (m1_chr_bank_1 r) (m1_prg_bank r) (m1_prg_mode r) v (m1_mirroring r) (m1_prg_ram_disabled r).
Definition set_m1_mirroring (v : Z) (r : mapper_1_ctx_t) : mapper_1_ctx_t :=
  mk_mapper_1 (m1_shift_reg r) (m1_shift_count r) (m1_control r) (m1_chr_bank_0 r) (m1_chr_bank_1 r) (m1_prg_bank r) (m1_prg_mode r) (m1_chr_mode r) v (m1_prg_ram_disabled r).
Definition set_m1_prg_ram_disabled (v : Z) (r : mapper_1_ctx_t) : mapper_1_ctx_t :=
  mk_mapper_1 (m1_shift_reg r) (m1_shift_count r) (m1_control r) (m1_chr_bank_0 r) (m1_chr_bank_1 r) (m1_prg_bank r) (m1_prg_mode r) (m1_chr_mode r) (m1_mirroring r) v.

Record mapper_4_ctx_t : Type := mk_mapper_4 {
  m4_registers : list Z;   (* uint8_t registers[8] *)
  m4_bank_select : Z;
  m4_irq_counter : Z;
  m4_irq_latch : Z;
  m4_irq_enabled : Z;
  m4_irq_reload : Z;
  m4_prg_mode : Z;
  m4_chr_mode : Z
}.

Definition set_m4_registers (v : list Z) (r : mapper_4_ctx_t) : mapper_4_ctx_t :=
  mk_mapper_4 v (m4_bank_select r) (m4_irq_counter r) (m4_irq_latch r) (m4_irq_enabled r) (m4_irq_reload r) (m4_prg_mode r) (m4_chr_mode r).
Definition set_m4_bank_select (v : Z) (r : mapper_4_ctx_t) : mapper_4_ctx_t :=
  mk_mapper_4 (m4_registers r) v (m4_irq_counter r) (m4_irq_latch r) (m4_irq_enabled r) (m4_irq_reload r) (m4_prg_mode r) (m4_chr_mode r).
Definition set_m4_irq_counter (v : Z) (r : mapper_4_ctx_t) : mapper_4_ctx_t :=
  mk_mapper_4 (m4_registers r) (m4_bank_select r) v (m4_irq_latch r) (m4_irq_enabled r) (m4_irq_reload r) (m4_prg_mode r) (m4_chr_mode r).
Definition set_m4_irq_latch (v : Z) (r : mapper_4_ctx_t) : mapper_4_ctx_t :=
  mk_mapper_4 (m4_registers r) (m4_bank_select r) (m4_irq_counter r) v (m4_irq_enabled r) (m4_irq_reload r) (m4_prg_mode r) (m4_chr_mode r).
Definition set_m4_irq_enabled (v : Z) (r : mapper_4_ctx_t) : mapper_4_ctx_t :=
  mk_mapper_4 (m4_registers r) (m4_bank_select r) (m4_irq_counter r) (m4_irq_latch r) v (m4_irq_reload r) (m4_prg_mode r) (m4_chr_mode r).
Definition set_m4_irq_reload (v : Z) (r : mapper_4_ctx_t) : mapper_4_ctx_t :=
  mk_mapper_4 (m4_registers r) (m4_bank_select r) (m4_irq_counter r) (m4_irq_latch r) (m4_irq_enabled r) v (m4_prg_mode r) (m4_chr_mode r).
Definition set_m4_prg_mode (v : Z) (r : mapper_4_ctx_t) : mapper_4_ctx_t :=
  mk_mapper_4 (m4_registers r) (m4_bank_select r) (m4_irq_counter r) (m4_irq_latch r) (m4_irq_enabled r) (m4_irq_reload r) v (m4_chr_mode r).
Definition set_m4_chr_mode (v : Z) (r : mapper_4_ctx_t) : mapper_4_ctx_t :=
  mk_mapper_4 (m4_registers r) (m4_bank_select r) (m4_irq_counter r) (m4_irq_latch r) (m4_irq_enabled r) (m4_irq_reload r) (m4_prg_mode r) v.

(** [nes_mapper_t]: the callback table and its context. Each constructor
    stands for the four callbacks a [mapper_N_init] installs together with
    the static context they close over; [mapper_none] is the table with
    null callbacks, as [nes_mapper_destroy] leaves it. The [cart] member
    of every context points at the system's cartridge. *)
Inductive nes_mapper_t : Type :=
| mapper_none
| mapper_0
| mapper_1 (m : mapper_1_ctx_t)
| mapper_2 (bank_select : Z)
| mapper_3 (chr_bank : Z)
| mapper_4 (m : mapper_4_ctx_t)
| mapper_7 (prg_bank : Z).

(** [nes_system_t] together with the file-scope statics of ppu.c that the
    components share ([g_frame_buffer], [g_mirror_mode]). *)
Record nes_system_t : Type := mk_system {
  cpu : nes_cpu_t;
  ppu : nes_ppu_t;
  apu : nes_apu_t;
  input : nes_input_t;
  cartridge : nes_cartridge_t;
  mapper : nes_mapper_t;
  ram : list Z;   (* uint8_t ram[NES_RAM_SIZE] *)
  cpu_cycles_per_frame : Z;
  ppu_cycles_per_frame : Z;
  frame_complete : Z;
  running : Z;
  paused : Z;
  g_frame_buffer : list Z;   (* static uint8_t g_frame_buffer[256 * 240] *)
  g_mirror_mode : mirror_mode_t   (* static mirror_mode_t g_mirror_mode *)
}.

Definition set_cpu (v : nes_cpu_t) (r : nes_system_t) : nes_system_t :=
  mk_system v (ppu r) (apu r) (input r) (cartridge r) (mapper r) (ram r) (cpu_cycles_per_frame r) (ppu_cycles_per_frame r) (frame_complete r) (running r) (paused r) (g_frame_buffer r) (g_mirror_mode r).
Definition set_ppu (v : nes_ppu_t) (r : nes_system_t) : nes_system_t :=
  mk_system (cpu r) v (apu r) (input r) (cartridge r) (mapper r) (ram r) (cpu_cycles_per_frame r) (ppu_cycles_per_frame r) (frame_complete r) (running r) (paused r) (g_frame_buffer r) (g_mirror_mode r).
Definition set_apu (v : nes_apu_t) (r : nes_system_t) : nes_system_t :=
  mk_system (cpu r) (ppu r) v (input r) (cartridge r) (mapper r) (ram r) (cpu_cycles_per_frame r) (ppu_cycles_per_frame r) (frame_complete r) (running r) (paused r) (g_frame_buffer r) (g_mirror_mode r).
Definition set_input (v : nes_input_t) (r : nes_system_t) : nes_system_t :=
  mk_system (cpu r) (ppu r) (apu r) v (cartridge r) (mapper r) (ram r) (cpu_cycles_per_frame r) (ppu_cycles_per_frame r) (frame_complete r) (running r) (paused r) (g_frame_buffer r) (g_mirror_mode r).
Definition set_cartridge (v : nes_cartridge_t) (r : nes_system_t) : nes_system_t :=
  mk_system (cpu r) (ppu r) (apu r) (input r) v (mapper r) (ram r) (cpu_cycles_per_frame r) (ppu_cycles_per_frame r) (frame_complete r) (running r) (paused r) (g_frame_buffer r) (g_mirror_mode r).
Definition set_mapper (v : nes_mapper_t) (r : nes_system_t) : nes_system_t :=
  mk_system (cpu r) (ppu r) (apu r) (input r) (cartridge r) v (ram r) (cpu_cycles_per_frame r) (ppu_cycles_per_frame r) (frame_complete r) (running r) (paused r) (g_frame_buffer r) (g_mirror_mode r).
Definition set_ram (v : list Z) (r : nes_system_t) : nes_system_t :=
  mk_system (cpu r) (ppu r) (apu r) (input r) (cartridge r) (mapper r) v (cpu_cycles_per_frame r) (ppu_cycles_per_frame r) (frame_complete r) (running r) (paused r) (g_frame_buffer r) (g_mirror_mode r).
Definition set_cpu_cycles_per_frame (v : Z) (r : nes_system_t) : nes_system_t :=
  mk_system (cpu r) (ppu r) (apu r) (input r) (cartridge r) (mapper r) (ram r) v (ppu_cycles_per_frame r) (frame_complete r) (running r) (paused r) (g_frame_buffer r) (g_mirror_mode r).
Definition set_ppu_cycles_per_frame (v : Z) (r : nes_system_t) : nes_system_t :=
  mk_system (cpu r) (ppu r) (apu r) (input r) (cartridge r) (mapper r) (ram r) (cpu_cycles_per_frame r) v (frame_complete r) (running r) (paused r) (g_frame_buffer r) (g_mirror_mode r).
Definition set_frame_complete (v : Z) (r : nes_system_t) : nes_system_t :=
  mk_system (cpu r) (ppu r) (apu r) (input r) (cartridge r) (mapper r) (ram r) (cpu_cycles_per_frame r) (ppu_cycles_per_frame r) v (running r) (paused r) (g_frame_buffer r) (g_mirror_mode r).
Definition set_running (v : Z) (r : nes_system_t) : nes_system_t :=
  mk_system (cpu r) (ppu r) (apu r) (input r) (cartridge r) (mapper r) (ram r) (cpu_cycles_per_frame r) (ppu_cycles_per_frame r) (frame_complete r) v (paused r) (g_frame_buffer r) (g_mirror_mode r).
Definition set_paused (v : Z) (r : nes_system_t) : nes_system_t :=
  mk_system (cpu r) (ppu r) (apu r) (input r) (cartridge r) (mapper r) (ram r) (cpu_cycles_per_frame r) (ppu_cycles_per_frame r) (frame_complete r) (running r) v (g_frame_buffer r) (g_mirror_mode r).
Definition set_g_frame_buffer (v : list Z) (r : nes_system_t) : nes_system_t :=
  mk_system (cpu r) (ppu r) (apu r) (input r) (cartridge r) (mapper r) (ram r) (cpu_cycles_per_frame r) (ppu_cycles_per_frame r) (frame_complete r) (running r) (paused r) v (g_mirror_mode r).
Definition set_g_mirror_mode (v : mirror_mode_t) (r : nes_system_t) : nes_system_t :=
  mk_system (cpu r) (ppu r) (apu r) (input r) (cartridge r) (mapper r) (ram r) (cpu_cycles_per_frame r) (ppu_cycles_per_frame r) (frame_complete r) (running r) (paused r) (g_frame_buffer r) v.

(** Computations over the whole machine. *)
Definition Sys (A : Type) : Type := M nes_system_t A.

Definition mod_cpu (f : nes_cpu_t -> nes_cpu_t) : Sys unit :=
  modify (fun s => set_cpu (f (cpu s)) s).
Definition mod_ppu (f : nes_ppu_t -> nes_ppu_t) : Sys unit :=
  modify (fun s => set_ppu (f (ppu s)) s).

Definition NES_RAM_SIZE : Z := 2048.
Definition NES_RAM_END : Z := 0x07FF.
Definition NES_RAM_MIRRORS : Z := 0x1FFF.
Definition NES_ADDR_PPU_REG : Z := 0x2000.
Definition NES_ADDR_APU_REG : Z := 0x4000.
Definition NES_ADDR_CARTRIDGE : Z := 0x4020.
Definition CONTROLLER_1 : Z := 0x4016.
Definition CONTROLLER_2 : Z := 0x4017.
Definition JOY_STROBE : Z := 0x4016.
Definition OAM_DMA_ADDR : Z := 0x4014.
Definition NES_CPU_PPU_RATIO : Z := 3.
Definition NES_CPU_CYCLES_PER_FRAME : Z := 29780.
Definition NES_PPU_CYCLES_PER_FRAME : Z := 89341.

Definition PPU_WIDTH : Z := 256.
Definition PPU_HEIGHT : Z := 240.
Definition PPU_SPRITE_COUNT : Z := 64.
Definition PPUCTRL_NMI : Z := 0x80.
Definition PPUCTRL_SP_SIZE : Z := 0x20.
Definition PPUCTRL_BG_ADDR : Z := 0x10.
Definition PPUCTRL_SP_ADDR : Z := 0x08.
Definition PPUCTRL_INC32 : Z := 0x04.
Definition PPUMASK_SHOW_BGR : Z := 0x08.
Definition PPUMASK_SHOW_SPR : Z := 0x10.
Definition PPUMASK_SHOW_BGR8 : Z := 0x02.
Definition PPUMASK_SHOW_SPR8 : Z := 0x04.
Definition PPUSTATUS_VBLANK : Z := 0x80.
Definition PPUSTATUS_SP0_HIT : Z := 0x40.
Definition PPUSTATUS_SP_OVF : Z := 0x20.
Definition SP_ATTR_PRIORITY : Z := 0x20.
Definition SP_ATTR_FLIP_H : Z := 0x40.
Definition SP_ATTR_FLIP_V : Z := 0x80.
Definition SP_ATTR_PAL_MASK : Z := 0x03.

(* ------------------------------------------------------------------ *)
(** ** mapper/mapper.c *)

(** [void nes_ppu_set_mirror_mode(uint8_t mirroring)] (ppu.c), called by
    the mappers and by [nes_sys_load_rom]. *)
Definition mirror_mode_of (mirroring : Z) (old : mirror_mode_t) : mirror_mode_t :=
  match u8 mirroring with
  | 0 => MIRROR_HORIZONTAL
  | 1 => MIRROR_VERTICAL
  | 2 => MIRROR_SINGLE_0
  | 3 => MIRROR_SINGLE_1
  | _ => old
  end.

Definition nes_ppu_set_mirror_mode (mirroring : Z) : Sys unit :=
  modify (fun s => set_g_mirror_mode (mirror_mode_of mirroring (g_mirror_mode s)) s).

(** [if (base < size) return rom[base]; return rom[base % size];] *)
Definition rom_read_wrapped (rom : buffer) (size base : Z) : result Z :=
  if base <? size then buf_get rom base
  else rbind (umod base size) (fun i => buf_get rom i).

(** [if (addr >= 0x6000 && addr < 0x8000 && cart->prg_ram) return
    cart->prg_ram[addr & 0x1FFF]; return 0;] *)
Definition mapper_prg_ram_read (cart : nes_cartridge_t) (addr : Z) : result Z :=
  if (0x6000 <=? addr) && (addr <? 0x8000) then
    match prg_ram cart with
    | Some _ => buf_get (prg_ram cart) (Z.land addr 0x1FFF)
    | None => Done 0
    end
  else Done 0.

(** The same window on the write side. *)
Definition mapper_prg_ram_write (cart : nes_cartridge_t) (addr val : Z)
  : result nes_cartridge_t :=
  if (0x6000 <=? addr) && (addr <? 0x8000) then
    match prg_ram cart with
    | Some _ => rbind (buf_set (prg_ram cart) (Z.land addr 0x1FFF) val)
                      (fun b => Done (set_prg_ram b cart))
    | None => Done cart
    end
  else Done cart.

(** [chr_rom[addr & (chr_rom_size - 1)]], guarded as in the fixed-CHR
    mappers. *)
Definition chr_read_masked (cart : nes_cartridge_t) (addr : Z) : result Z :=
  if addr <? 0x2000 then
    match chr_rom cart with
    | Some _ => buf_get (chr_rom cart) (size_mask addr (chr_rom_size cart))
    | None => Done 0
    end
  else Done 0.

Definition chr_write_masked (cart : nes_cartridge_t) (addr val : Z)
  : result nes_cartridge_t :=
  if (addr <? 0x2000) && nz (has_chrram (info cart)) then
    rbind (buf_set (chr_rom cart) (size_mask addr (chr_rom_size cart)) val)
          (fun b => Done (set_chr_rom b cart))
  else Done cart.

(** *** Mapper 0 (NROM) *)

Definition mapper_0_cpu_read (cart : nes_cartridge_t) (addr : Z) : result Z :=
  if 0x8000 <=? addr then
    rom_read_wrapped (prg_rom cart) (prg_rom_size cart) (Z.land addr 0x7FFF)
  else Done 0.

Definition mapper_0_ppu_read (cart : nes_cartridge_t) (addr : Z) : result Z :=
  chr_read_masked cart addr.

Definition mapper_0_ppu_write (cart : nes_cartridge_t) (addr val : Z)
  : result nes_cartridge_t :=
  if addr <? 0x2000 then
    rbind (buf_set (chr_rom cart) (size_mask addr (chr_rom_size cart)) val)
          (fun b => Done (set_chr_rom b cart))
  else Done cart.

Definition mapper_0_init : nes_mapper_t := mapper_0.

(** *** Mapper 1 (MMC1) *)

Definition mmc1_get_bank (cart : nes_cartridge_t) (bank : Z) : Z :=
  let num_banks := prg_rom_banks (info cart) in
  if num_banks <=? 1 then 0 else u8 (Z.land bank (num_banks - 1)).

Definition mapper_1_cpu_read (m : mapper_1_ctx_t) (cart : nes_cartridge_t) (addr : Z)
  : result Z :=
  if 0x8000 <=? addr then
    match m1_prg_mode m with
    | 0 | 1 =>
        (* 32KB mode: address lines A14 select bank *)
        let bank := mmc1_get_bank cart
                      (Z.lor (Z.land (m1_prg_bank m) 0x0E) (Z.land (Z.shiftr addr 14) 1)) in
        let base := u32 (bank * NES_PRG_ROM_SIZE + Z.land addr 0x7FFF) in
        rom_read_wrapped (prg_rom cart) (prg_rom_size cart) base
    | 2 =>
        (* Fix first bank, switch last *)
        let base := if addr <? 0xC000 then 0
                    else u32 (m1_prg_bank m * NES_PRG_ROM_SIZE + Z.land addr 0x3FFF) in
        rom_read_wrapped (prg_rom cart) (prg_rom_size cart) base
    | 3 =>
        (* Switch first bank, fix last *)
        let base := if addr <? 0xC000
                    then u32 (m1_prg_bank m * NES_PRG_ROM_SIZE + Z.land addr 0x3FFF)
                    else u32 (u32 ((prg_rom_banks (info cart) - 1) * NES_PRG_ROM_SIZE)
                              + Z.land addr 0x3FFF) in
        rom_read_wrapped (prg_rom cart) (prg_rom_size cart) base
    | _ => Done 0
    end
  else mapper_prg_ram_read cart addr.

Definition mapper_1_write (m : mapper_1_ctx_t) (addr val : Z) : Sys unit :=
  (* Determine register based on address *)
  let reg := if addr <? 0xA000 then 0
             else if addr <? 0xC000 then 1
             else if addr <? 0xE000 then 2
             else 3 in
  (* MMC1 reset detection *)
  if tst val 0x80 then
    modify (set_mapper (mapper_1 (set_m1_prg_mode 3 (set_m1_shift_count 0 (set_m1_shift_reg 0x10 m)))))
  else
    (* Shift in bit *)
    let m1 := set_m1_shift_reg
                (u8 (Z.lor (Z.shiftr (m1_shift_reg m) 1) (Z.shiftl (Z.land val 1) 4))) m in
    let m2 := set_m1_shift_count (u8 (m1_shift_count m1 + 1)) m1 in
    if m1_shift_count m2 =? 5 then
      let data := m1_shift_reg m2 in
      let latched (m3 : mapper_1_ctx_t) : nes_mapper_t :=
        mapper_1 (set_m1_shift_count 0 (set_m1_shift_reg 0x10 m3)) in
      match reg with
      | 0 => (* Control *)
          let m3 := set_m1_chr_mode (Z.land (Z.shiftr data 4) 1)
                      (set_m1_prg_mode (Z.land (Z.shiftr data 2) 3)
                         (set_m1_mirroring (Z.land data 3)
                            (set_m1_control data m2))) in
          (* Apply mirror mode to PPU *)
          nes_ppu_set_mirror_mode (m1_mirroring m3) ;;;
          modify (set_mapper (latched m3))
      | 1 => modify (set_mapper (latched (set_m1_chr_bank_0 data m2)))
      | 2 => modify (set_mapper (latched (set_m1_chr_bank_1 data m2)))
      | _ =>
          modify (set_mapper
                    (latched (set_m1_prg_ram_disabled (b2z (tst data 0x10))
                                (set_m1_prg_bank (Z.land data 0x0F) m2))))
      end
    else modify (set_mapper (mapper_1 m2)).

Definition mapper_1_ppu_read (m : mapper_1_ctx_t) (cart : nes_cartridge_t) (addr : Z)
  : result Z :=
  if addr <? 0x2000 then
    match chr_rom cart with
    | Some _ =>
        if m1_chr_mode m =? 0 then
          (* 8KB mode *)
          let bank := Z.land (m1_chr_bank_0 m) 0x1E in
          rom_read_wrapped (chr_rom cart) (chr_rom_size cart)
            (u32 (bank * NES_CHR_ROM_SIZE + addr))
        else
          (* 4KB mode *)
          let bank := if addr <? 0x1000 then m1_chr_bank_0 m else m1_chr_bank_1 m in
          rom_read_wrapped (chr_rom cart) (chr_rom_size cart)
            (u32 (bank * NES_CHR_ROM_SIZE + Z.land addr 0x0FFF))
    | None => Done 0
    end
  else Done 0.

Definition mapper_1_ppu_write (m : mapper_1_ctx_t) (cart : nes_cartridge_t) (addr val : Z)
  : result nes_cartridge_t :=
  if (addr <? 0x2000) && nz (has_chrram (info cart)) then
    let base :=
      if m1_chr_mode m =? 0 then
        u32 (Z.land (Z.shiftr (m1_chr_bank_0 m) 1) 0x1F * NES_CHR_ROM_SIZE + addr)
      else
        u32 ((if addr <? 0x1000 then m1_chr_bank_0 m else m1_chr_bank_1 m) * NES_CHR_ROM_SIZE
             + Z.land addr 0x0FFF) in
    rbind (umod base (chr_rom_size cart)) (fun i =>
    rbind (buf_set (chr_rom cart) i val) (fun b => Done (set_chr_rom b cart)))
  else Done cart.

Definition mapper_1_init : nes_mapper_t :=
  mapper_1 (mk_mapper_1 0x10 0 0x0C 0 0 0 3 0 2 0).

(** *** Mapper 2 (UxROM) *)

Definition mapper_2_cpu_read (bank_select : Z) (cart : nes_cartridge_t) (addr : Z)
  : result Z :=
  if 0x8000 <=? addr then
    let base :=
      if addr <? 0xC000 then
        (* Switchable 16KB @ $8000 *)
        let bank := u8 (Z.land bank_select (prg_rom_banks (info cart) - 1)) in
        u32 (bank * NES_PRG_ROM_SIZE + Z.land addr 0x3FFF)
      else
        (* Fixed 16KB @ $C000 (last bank) *)
        u32 (u32 ((prg_rom_banks (info cart) - 1) * NES_PRG_ROM_SIZE) + Z.land addr 0x3FFF) in
    rom_read_wrapped (prg_rom cart) (prg_rom_size cart) base
  else mapper_prg_ram_read cart addr.

Definition mapper_2_cpu_write (bank_select : Z) (addr val : Z) : Sys unit :=
  if 0x8000 <=? addr then modify (set_mapper (mapper_2 val))
  else
    cart <- gets cartridge ;;
    cart' <- lift (mapper_prg_ram_write cart addr val) ;;
    modify (set_cartridge cart').

(** *** Mapper 3 (CNROM) *)

Definition mapper_3_cpu_read (cart : nes_cartridge_t) (addr : Z) : result Z :=
  if 0x8000 <=? addr then
    rom_read_wrapped (prg_rom cart) (prg_rom_size cart) (Z.land addr 0x7FFF)
  else mapper_prg_ram_read cart addr.

Definition mapper_3_cpu_write (chr_bank : Z) (addr val : Z) : Sys unit :=
  if 0x8000 <=? addr then modify (set_mapper (mapper_3 (Z.land val 0x03)))
  else
    cart <- gets cartridge ;;
    cart' <- lift (mapper_prg_ram_write cart addr val) ;;
    modify (set_cartridge cart').

Definition mapper_3_ppu_read (chr_bank : Z) (cart : nes_cartridge_t) (addr : Z)
  : result Z :=
  if addr <? 0x2000 then
    match chr_rom cart with
    | Some _ =>
        let bank := u8 (Z.land chr_bank (chr_rom_banks (info cart) - 1)) in
        rom_read_wrapped (chr_rom cart) (chr_rom_size cart)
          (u32 (bank * NES_CHR_ROM_SIZE + addr))
    | None => Done 0
    end
  else Done 0.

Definition mapper_3_ppu_write (chr_bank : Z) (cart : nes_cartridge_t) (addr val : Z)
  : result nes_cartridge_t :=
  if (addr <? 0x2000) && nz (has_chrram (info cart)) then
    let bank := Z.land (Z.shiftr chr_bank 3) 0x03 in
    let base := u32 (bank * NES_CHR_ROM_SIZE + addr) in
    rbind (umod base (chr_rom_size cart)) (fun i =>
    rbind (buf_set (chr_rom cart) i val) (fun b => Done (set_chr_rom b cart)))
  else Done cart.

(** *** Mapper 4 (MMC3) - simplified *)

Definition mapper_4_cpu_read (m : mapper_4_ctx_t) (addr : Z) : Sys Z :=
  (* IRQ acknowledge at $E000-$FFFF *)
  let m1 := if addr =? 0xE000 then set_m4_irq_enabled 0 m
            else if addr =? 0xE001 then set_m4_irq_enabled 1 m
            else m in
  modify (set_mapper (mapper_4 m1)) ;;;
  cart <- gets cartridge ;;
  if 0x8000 <=? addr then
    let banks := prg_rom_banks (info cart) in
    let bank :=
      if m4_prg_mode m1 =? 0 then
        if addr <? 0xA000 then aget (m4_registers m1) 6
        else if addr <? 0xC000 then aget (m4_registers m1) 7
        else if addr <? 0xE000 then u8 (banks - 2)
        else u8 (banks - 1)
      else
        if addr <? 0xA000 then u8 (banks - 2)
        else if addr <? 0xC000 then aget (m4_registers m1) 7
        else if addr <? 0xE000 then aget (m4_registers m1) 6
        else u8 (banks - 1) in
    let base := u32 (bank * NES_PRG_ROM_SIZE * 8 + Z.land addr 0x1FFF) in
    lift (rom_read_wrapped (prg_rom cart) (prg_rom_size cart) base)
  else lift (mapper_prg_ram_read cart addr).

Definition mapper_4_write (m : mapper_4_ctx_t) (addr val : Z) : Sys unit :=
  if (0x8000 <=? addr) && (addr <? 0xA001) then
    if tst addr 1 then
      modify (set_mapper (mapper_4
        (set_m4_chr_mode (Z.land (Z.shiftr val 7) 1)
           (set_m4_prg_mode (Z.land (Z.shiftr val 6) 1)
              (set_m4_bank_select val m)))))
    else ret tt  (* Mirroring control: both branches empty *)
  else if (0xA000 <=? addr) && (addr <? 0xC001) then
    let reg := Z.land (m4_bank_select m) 7 in
    modify (set_mapper (mapper_4 (set_m4_registers (aset (m4_registers m) reg val) m)))
  else if (0xC000 <=? addr) && (addr <? 0xE001) then
    if tst addr 1 then modify (set_mapper (mapper_4 (set_m4_irq_reload 1 m)))
    else modify (set_mapper (mapper_4 (set_m4_irq_latch val m)))
  else if (0xE000 <=? addr) && (addr <? 0x10001) then
    if tst addr 1 then modify (set_mapper (mapper_4 (set_m4_irq_enabled 1 m)))
    else modify (set_mapper (mapper_4 (set_m4_irq_enabled 0 m)))
  else
    cart <- gets cartridge ;;
    cart' <- lift (mapper_prg_ram_write cart addr val) ;;
    modify (set_cartridge cart').

Definition mapper_4_ppu_read (m : mapper_4_ctx_t) (cart : nes_cartridge_t) (addr : Z)
  : result Z :=
  if addr <? 0x2000 then
    match chr_rom cart with
    | Some _ =>
        let r := m4_registers m in
        let bank :=
          if m4_chr_mode m =? 0 then
            (* 2KB mode *)
            if addr <? 0x0800 then Z.land (aget r 0) 0xFE
            else if addr <? 0x1000 then Z.land (aget r 1) 0xFE
            else if addr <? 0x1400 then Z.land (aget r 2) 0xFE
            else if addr <? 0x1800 then Z.land (aget r 3) 0xFE
            else if addr <? 0x1C00 then Z.land (aget r 4) 0xFE
            else Z.land (aget r 5) 0xFE
          else
            (* 1KB mode *)
            if addr <? 0x0400 then aget r 0
            else if addr <? 0x0800 then aget r 1
            else if addr <? 0x0C00 then aget r 2
            else if addr <? 0x1000 then aget r 3
            else if addr <? 0x1400 then aget r 4
            else aget r 5 in
        rom_read_wrapped (chr_rom cart) (chr_rom_size cart)
          (u32 (bank * NES_CHR_ROM_SIZE + addr))
    | None => Done 0
    end
  else Done 0.

Definition mapper_4_init : nes_mapper_t :=
  mapper_4 (mk_mapper_4 (repeat 0 8) 0 0 0 0 0 0 0).

(** *** Mapper 7 (AxROM) *)

Definition mapper_7_cpu_read (prg_bank : Z) (cart : nes_cartridge_t) (addr : Z)
  : result Z :=
  if 0x8000 <=? addr then
    let bank := u8 (Z.land prg_bank (prg_rom_banks (info cart) - 1)) in
    rom_read_wrapped (prg_rom cart) (prg_rom_size cart)
      (u32 (bank * NES_PRG_ROM_SIZE + Z.land addr 0x7FFF))
  else Done 0.

Definition mapper_7_cpu_write (prg_bank : Z) (addr val : Z) : Sys unit :=
  if 0x8000 <=? addr then
    modify (set_mapper (mapper_7 (Z.land val 0x07))) ;;;
    (* Single screen mirroring *)
    nes_ppu_set_mirror_mode (if tst val 0x10 then 3 else 2)
  else ret tt.

(** *** The callback table *)

(** [mapper->cpu_read(mapper->context, addr)]; [None] when the callback
    is null. *)
Definition mapper_cpu_read (mp : nes_mapper_t) (addr : Z) : option (Sys Z) :=
  match mp with
  | mapper_none => None
  | mapper_0 => Some (cart <- gets cartridge ;; lift (mapper_0_cpu_read cart addr))
  | mapper_1 m => Some (cart <- gets cartridge ;; lift (mapper_1_cpu_read m cart addr))
  | mapper_2 b => Some (cart <- gets cartridge ;; lift (mapper_2_cpu_read b cart addr))
  | mapper_3 _ => Some (cart <- gets cartridge ;; lift (mapper_3_cpu_read cart addr))
  | mapper_4 m => Some (mapper_4_cpu_read m addr)
  | mapper_7 b => Some (cart <- gets cartridge ;; lift (mapper_7_cpu_read b cart addr))
  end.

Definition mapper_cpu_write (mp : nes_mapper_t) (addr val : Z) : option (Sys unit) :=
  match mp with
  | mapper_none => None
  | mapper_0 => Some (ret tt)   (* Mapper 0 has no writeable registers *)
  | mapper_1 m => Some (mapper_1_write m addr val)
  | mapper_2 b => Some (mapper_2_cpu_write b addr val)
  | mapper_3 c => Some (mapper_3_cpu_write c addr val)
  | mapper_4 m => Some (mapper_4_write m addr val)
  | mapper_7 b => Some (mapper_7_cpu_write b addr val)
  end.

Definition mapper_ppu_read (mp : nes_mapper_t) (cart : nes_cartridge_t) (addr : Z)
  : option (result Z) :=
  match mp with
  | mapper_none => None
  | mapper_0 => Some (mapper_0_ppu_read cart addr)
  | mapper_1 m => Some (mapper_1_ppu_read m cart addr)
  | mapper_2 _ => Some (chr_read_masked cart addr)
  | mapper_3 c => Some (mapper_3_ppu_read c cart addr)
  | mapper_4 m => Some (mapper_4_ppu_read m cart addr)
  | mapper_7 _ => Some (chr_read_masked cart addr)
  end.

Definition mapper_ppu_write (mp : nes_mapper_t) (cart : nes_cartridge_t) (addr val : Z)
  : option (result nes_cartridge_t) :=
  match mp with
  | mapper_none => None
  | mapper_0 => Some (mapper_0_ppu_write cart addr val)
  | mapper_1 m => Some (mapper_1_ppu_write m cart addr val)
  | mapper_2 _ => Some (chr_write_masked cart addr val)
  | mapper_3 c => Some (mapper_3_ppu_write c cart addr val)
  | mapper_4 _ => Some (chr_write_masked cart addr val)
  | mapper_7 _ => Some (chr_write_masked cart addr val)
  end.

(** [nes_mapper_create]: [0] and the installed table, or [-1] with the
    table untouched. *)
Definition nes_mapper_create (cart : nes_cartridge_t) (old : nes_mapper_t)
  : Z * nes_mapper_t :=
  match mapper_number (info cart) with
  | 0 => (0, mapper_0_init)
  | 1 => (0, mapper_1_init)
  | 2 => (0, mapper_2 0)
  | 3 => (0, mapper_3 0)
  | 4 => (0, mapper_4_init)
  | 7 => (0, mapper_7 0)
  | _ => (-1, old)
  end.

Definition nes_mapper_destroy : nes_mapper_t := mapper_none.

(** [nes_mapper_reset]: every [mapper_N_init] leaves [reset] null. *)
Definition nes_mapper_reset (mp : nes_mapper_t) : nes_mapper_t := mp.

(* ------------------------------------------------------------------ *)
(** ** ppu/ppu.c and the PPU side of memory/bus.c *)

(** NES standard palette, [g_nes_palette[64][3]]. *)
Definition g_nes_palette : list (Z * Z * Z) :=
  [
   (0x66, 0x66, 0x66); (0x00, 0x2A, 0x88); (0x14, 0x12, 0xA7); (0x3B, 0x00, 0xA4);
   (0x5C, 0x00, 0x7E); (0x6E, 0x00, 0x40); (0x6C, 0x06, 0x00); (0x56, 0x1D, 0x00);
   (0x33, 0x35, 0x00); (0x0B, 0x48, 0x00); (0x00, 0x52, 0x00); (0x00, 0x4F, 0x08);
   (0x00, 0x40, 0x4D); (0x00, 0x00, 0x00); (0x00, 0x00, 0x00); (0x00, 0x00, 0x00);
   (0xAD, 0xAD, 0xAD); (0x15, 0x5F, 0xD9); (0x42, 0x40, 0xFF); (0x75, 0x27, 0xFE);
   (0xA0, 0x1A, 0xCC); (0xB7, 0x1E, 0x7B); (0xB5, 0x31, 0x20); (0x99, 0x4E, 0x00);
   (0x6B, 0x6D, 0x00); (0x38, 0x87, 0x00); (0x0C, 0x93, 0x00); (0x00, 0x8F, 0x32);
   (0x00, 0x7C, 0x8D); (0x00, 0x00, 0x00); (0x00, 0x00, 0x00); (0x00, 0x00, 0x00);
   (0xFF, 0xFE, 0xFF); (0x64, 0xB0, 0xFF); (0x92, 0x90, 0xFF); (0xC6, 0x76, 0xFF);
   (0xF3, 0x6A, 0xFF); (0xFE, 0x6E, 0xCC); (0xFE, 0x81, 0x70); (0xEA, 0x9E, 0x22);
   (0xBC, 0xBE, 0x00); (0x88, 0xD8, 0x00); (0x5C, 0xE4, 0x30); (0x45, 0xE0, 0x82);
   (0x48, 0xCD, 0xDE); (0x4F, 0x4F, 0x4F); (0x00, 0x00, 0x00); (0x00, 0x00, 0x00);
   (0xFF, 0xFE, 0xFF); (0xC0, 0xDF, 0xFF); (0xD3, 0xD2, 0xFF); (0xE8, 0xC8, 0xFF);
   (0xFB, 0xC2, 0xFF); (0xFE, 0xC4, 0xEA); (0xFE, 0xCC, 0xC5); (0xF7, 0xD8, 0xA5);
   (0xE4, 0xE5, 0x94); (0xCF, 0xEF, 0x96); (0xBD, 0xF4, 0xAB); (0xB3, 0xF3, 0xCC);
   (0xB5, 0xEB, 0xF2); (0xB8, 0xB8, 0xB8); (0x00, 0x00, 0x00); (0x00, 0x00, 0x00)  ].

(** [g_nes_palette[i][0]] *)
Definition g_nes_palette_0 (i : Z) : Z :=
  fst (fst (nth (Z.to_nat i) g_nes_palette (0, 0, 0))).

Definition read_name_table_addr (mode : mirror_mode_t) (addr : Z) : Z :=
  let base := Z.land addr 0x03FF in   (* Offset within nametable *)
  let set_bit := u16 (Z.lor base 0x0400) in
  let clear_bit := u16 (Z.land base (Z.lnot 0x0400)) in
  let base' :=
    match Z.land addr 0x0C00 with
    | 0x0000 => base
    | 0x0400 =>
        match mode with
        | MIRROR_HORIZONTAL => set_bit
        | MIRROR_VERTICAL => clear_bit
        | MIRROR_SINGLE_0 => clear_bit
        | MIRROR_SINGLE_1 => set_bit
        | MIRROR_FOUR_SCREEN => set_bit
        end
    | 0x0800 =>
        match mode with
        | MIRROR_HORIZONTAL => clear_bit
        | MIRROR_VERTICAL => set_bit
        | MIRROR_SINGLE_0 => clear_bit
        | MIRROR_SINGLE_1 => set_bit
        | MIRROR_FOUR_SCREEN => u16 (Z.lor base 0x0800)
        end
    | 0x0C00 =>
        match mode with
        | MIRROR_HORIZONTAL => set_bit
        | MIRROR_VERTICAL => set_bit
        | MIRROR_SINGLE_0 => clear_bit
        | MIRROR_SINGLE_1 => set_bit
        | MIRROR_FOUR_SCREEN => u16 (Z.lor base 0x0C00)
        end
    | _ => base
    end in
  Z.lor 0x2000 base'.

(** [$10], [$14], [$18], [$1C] are folded onto [$00], [$04], [$08], [$0C]. *)
Definition palette_index (addr : Z) : Z :=
  let a := Z.land addr 0x1F in
  if Z.land a 0x13 =? 0x10 then Z.land a (Z.lnot 0x10) else a.

Definition read_palette (addr : Z) : Z :=
  g_nes_palette_0 (palette_index addr mod 0x40).

(** [nes_sys_ppu_read], installed as [g_ppu_bus->read_chr]. *)
Definition nes_sys_ppu_read (addr : Z) : Sys Z :=
  s <- get ;;
  match mapper_ppu_read (mapper s) (cartridge s) addr with
  | Some r => lift r
  | None => lift (nes_cartridge_read_chr (cartridge s) addr)
  end.

(** [nes_sys_ppu_write], installed as [g_ppu_bus->write_chr]. *)
Definition nes_sys_ppu_write (addr val : Z) : Sys unit :=
  s <- get ;;
  cart' <- lift match mapper_ppu_write (mapper s) (cartridge s) addr val with
                | Some r => r
                | None => nes_cartridge_write_chr_ram (cartridge s) addr val
                end ;;
  modify (set_cartridge cart').

Definition ppu_read_vram (addr0 : Z) : Sys Z :=
  let addr := Z.land addr0 0x3FFF in
  if addr <? 0x2000 then
    (* Pattern tables - access via CHR bus *)
    nes_sys_ppu_read addr
  else if addr <? 0x3F00 then
    (* Nametables and attribute tables *)
    s <- get ;;
    let mirrored := read_name_table_addr (g_mirror_mode s) addr in
    ret (aget (g_frame_buffer s) (Z.land (mirrored - 0x2000) 0xFFF))
  else
    (* Palettes *)
    ret (read_palette addr).

Definition ppu_write_vram (addr0 val : Z) : Sys unit :=
  let addr := Z.land addr0 0x3FFF in
  if addr <? 0x2000 then
    (* Pattern tables - usually CHR-ROM (read-only) *)
    nes_sys_ppu_write addr val
  else if addr <? 0x3F00 then
    (* Nametables *)
    s <- get ;;
    let mirrored := read_name_table_addr (g_mirror_mode s) addr in
    mod_ppu (fun p => set_vram (aset (vram p) (Z.land (mirrored - 0x2000) 0xFFF) val) p)
  else
    (* Palettes *)
    mod_ppu (fun p => set_palette (aset (palette p) (palette_index addr) (Z.land val 0x3F)) p).

(** Increment VRAM address *)
Definition increment_vram_addr (p : nes_ppu_t) : nes_ppu_t :=
  let v1 := if tst (ctrl p) PPUCTRL_INC32 then u16 (scroll_v p + 32) else u16 (scroll_v p + 1) in
  set_scroll_v (Z.land v1 0x7FFF) p.

Definition write_ppu_scroll_x (val : Z) (p : nes_ppu_t) : nes_ppu_t :=
  set_scroll_w 1
    (set_scroll_x (Z.land val 0x07)
       (set_scroll_t (u16 (Z.lor (Z.land (scroll_t p) (Z.lnot 0x001F))
                                 (Z.land (Z.shiftr val 3) 0x001F))) p)).

Definition write_ppu_scroll_y (val : Z) (p : nes_ppu_t) : nes_ppu_t :=
  let t1 := u16 (Z.lor (Z.land (scroll_t p) 0x0FBE0) (Z.shiftl (Z.land val 0xF8) 2)) in
  let t2 := u16 (Z.lor (Z.land t1 0x7C1F) (Z.shiftl (Z.land val 0x07) 12)) in
  set_scroll_w 0 (set_scroll_t t2 p).

Definition write_ppu_addr (val : Z) (p : nes_ppu_t) : nes_ppu_t :=
  if negb (nz (scroll_w p)) then
    (* First byte - high byte *)
    set_scroll_w 1
      (set_scroll_v (u16 (Z.lor (Z.land (scroll_v p) 0x80FF) (Z.shiftl (Z.land val 0x3F) 8)))
         (set_scroll_t (u16 (Z.lor (Z.land (scroll_t p) 0x80FF) (Z.shiftl (Z.land val 0x3F) 8))) p))
  else
    (* Second byte - low byte *)
    set_scroll_w 0
      (set_scroll_v (Z.lor (Z.land (scroll_v p) 0x7F00) val)
         (set_scroll_t (Z.lor (Z.land (scroll_t p) 0x7F00) val) p)).

(** Copy t to v, used at render start *)
Definition copy_t_to_v (p : nes_ppu_t) : nes_ppu_t :=
  set_scroll_v (Z.lor (Z.land (scroll_v p) 0x841F) (Z.land (scroll_t p) 0x7BE0)) p.

Definition increment_x (p : nes_ppu_t) : nes_ppu_t :=
  if Z.land (scroll_v p) 0x001F =? 31 then
    set_scroll_v (Z.lxor (u16 (Z.land (scroll_v p) (Z.lnot 0x001F))) 0x0400) p
  else set_scroll_v (u16 (scroll_v p + 1)) p.

Definition increment_y (p : nes_ppu_t) : nes_ppu_t :=
  if negb (Z.land (scroll_v p) 0x7000 =? 0x7000) then
    set_scroll_v (u16 (scroll_v p + 0x1000)) p
  else
    let v1 := u16 (Z.land (scroll_v p) (Z.lnot 0x7000)) in
    let y := u8 (Z.shiftr (Z.land v1 0x03E0) 5) in
    if y =? 29 then
      let v2 := Z.lxor v1 0x0800 in
      set_scroll_v (u16 (Z.lor (Z.land v2 (Z.lnot 0x03E0)) (Z.shiftl 0 5))) p
    else if y =? 31 then
      set_scroll_v (u16 (Z.lor (Z.land v1 (Z.lnot 0x03E0)) (Z.shiftl 0 5))) p
    else
      set_scroll_v (u16 (Z.lor (Z.land v1 (Z.lnot 0x03E0)) (Z.shiftl (u8 (y + 1)) 5))) p.

(** Load background shifters with next tile data *)
Definition load_background_shifters (p : nes_ppu_t) : nes_ppu_t :=
  let p1 := set_background_shift_lo
              (u8 (Z.lor (Z.land (background_shift_lo p) 0xFF00) (background_fetch_tile p))) p in
  let p2 := set_background_shift_hi
              (u8 (Z.lor (Z.land (background_shift_hi p1) 0xFF00)
                         (Z.shiftr (background_fetch_tile p1) 8))) p1 in
  let p3 := set_attribute_shift_lo
              (u8 (Z.lor (Z.land (attribute_shift_lo p2) 0xFF00) (attribute_latch_lo p2))) p2 in
  set_attribute_shift_hi
    (u8 (Z.lor (Z.land (attribute_shift_hi p3) 0xFF00) (attribute_latch_hi p3))) p3.

Definition attr_table_addr (v : Z) : Z :=
  Z.lor (Z.lor (Z.lor 0x23C0 (Z.land v 0x0C00)) (Z.land (Z.shiftr v 4) 0x38))
        (Z.land (Z.shiftr v 2) 0x07).

(** Fetch background tile data; the result is [( *addr_lo, *addr_hi )]. *)
Definition fetch_tile_data : Sys (Z * Z) :=
  p <- gets ppu ;;
  let nametable_addr := Z.lor 0x2000 (Z.land (scroll_v p) 0x0FFF) in
  tile_index <- ppu_read_vram nametable_addr ;;
  attr0 <- ppu_read_vram (attr_table_addr (scroll_v p)) ;;
  let attr1 := if tst (scroll_v p) 0x40 then Z.shiftr attr0 2 else attr0 in
  let attr2 := if tst (scroll_v p) 0x02 then Z.shiftr attr1 2 else attr1 in
  let attr := Z.land attr2 0x03 in
  let latch_hi := if tst attr 0x02 then 0xFF else 0x00 in
  mod_ppu (fun q =>
    set_attribute_latch_lo (u8 (Z.lnot latch_hi))
      (set_attribute_latch_hi latch_hi
         (set_background_fetch_attr (if tst attr 0x01 then 0xFF else 0x00) q))) ;;;
  let pattern_table := if tst (ctrl p) PPUCTRL_BG_ADDR then 0x1000 else 0x0000 in
  let addr_lo := u16 (pattern_table + Z.shiftl tile_index 4
                      + Z.land (Z.shiftr (scroll_v p) 12) 0x07) in
  ret (addr_lo, u16 (addr_lo + 8)).

Definition sprite_height (p : nes_ppu_t) : Z :=
  if tst (ctrl p) PPUCTRL_SP_SIZE then 16 else 8.

Definition sprite_at (p : nes_ppu_t) (i : Z) : ppu_sprite_t :=
  mk_sprite (aget (oam p) (i * 4 + 0)) (aget (oam p) (i * 4 + 1))
            (aget (oam p) (i * 4 + 2)) (aget (oam p) (i * 4 + 3)).

(** One iteration of the loop of [evaluate_sprites]; the loop condition
    [ppu->sprite_count < 8] is tested at each entry. *)
Definition evaluate_sprite (p : nes_ppu_t) (i : nat) : nes_ppu_t :=
  if sprite_count p <? 8 then
    let sprite := sprite_at p (Z.of_nat i) in
    let line := scanline p - sp_y sprite in
    if (0 <=? line) && (line <? sprite_height p) then
      set_sprite_count (u8 (sprite_count p + 1))
        (set_sprites (list_set (sprites p) (Z.to_nat (sprite_count p)) sprite) p)
    else p
  else p.

(** Evaluate sprites for current scanline *)
Definition evaluate_sprites (p : nes_ppu_t) : nes_ppu_t :=
  fold_left evaluate_sprite (seq 0 (Z.to_nat PPU_SPRITE_COUNT)) (set_sprite_count 0 p).

(** The sprite loop of the pixel renderer in [nes_ppu_step], from index
    [i]; the result is [(pixel, sprite_pixel)] at loop exit. *)
Fixpoint sprite_scan (sprs : list ppu_sprite_t) (i x pixel sprite_pixel : Z)
  : Sys (Z * Z) :=
  match sprs with
  | [] => ret (pixel, sprite_pixel)
  | sprite :: rest =>
      p <- gets ppu ;;
      let line := scanline p - sp_y sprite in
      if (0 <=? line) && (line <? sprite_height p)
         && (sp_x sprite <=? x) && (x <? sp_x sprite + 8) then
        let attr := sp_attr sprite in
        let pattern_table := if tst (ctrl p) PPUCTRL_SP_ADDR then 0x1000 else 0x0000 in
        let column0 := x - sp_x sprite in
        let column := if tst attr SP_ATTR_FLIP_H then 7 - column0 else column0 in
        let addr := u16 (pattern_table + Z.shiftl (sp_tile sprite) 4 + line) in
        lo <- ppu_read_vram addr ;;
        hi <- ppu_read_vram (u16 (addr + 8)) ;;
        let sp := Z.lor (Z.land (Z.shiftr lo column) 1)
                        (Z.shiftl (Z.land (Z.shiftr hi column) 1) 1) in
        when ((i =? 0) && nz sp && nz pixel)
             (mod_ppu (fun q => set_status (Z.lor (status q) PPUSTATUS_SP0_HIT) q)) ;;;
        if nz sp then
          let sp' := u8 (Z.lor sp (Z.shiftl (Z.land attr SP_ATTR_PAL_MASK) 2)) in
          if tst attr SP_ATTR_PRIORITY then
            sprite_scan rest (i + 1) x 0 sp'      (* Sprite behind *)
          else ret (pixel, sp')                   (* Sprite in front *)
        else sprite_scan rest (i + 1) x pixel sp
      else sprite_scan rest (i + 1) x pixel sprite_pixel
  end.

(** The pixel renderer of [nes_ppu_step] for dot [x = cycle - 1]. *)
Definition render_dot : Sys unit :=
  p <- gets ppu ;;
  let x := ppu_cycle p - 1 in
  bg <-
    (if negb (tst (mask p) PPUMASK_SHOW_BGR8) && (x <? 8) then ret 0
     else
       let shift := u8 (7 - (x + scroll_x p) mod 8) in
       if shift <=? 15 then
         let bg_lo := Z.land (Z.shiftr (background_shift_lo p) shift) 0x01 in
         let bg_hi := Z.land (Z.shiftr (background_shift_hi p) shift) 0x01 in
         let pixel := Z.lor bg_lo (Z.shiftl bg_hi 1) in
         if nz pixel && (Z.land x 3 =? 0) then
           (* Get attribute at tile boundaries *)
           attr0 <- ppu_read_vram (attr_table_addr (scroll_v p)) ;;
           let attr1 := if tst (x / 2) 1 then Z.shiftr attr0 2 else attr0 in
           let attr2 := if tst (scanline p / 2) 1 then Z.shiftr attr1 2 else attr1 in
           ret (u8 (Z.lor pixel (Z.shiftl (Z.land attr2 0x03) 2)))
         else ret pixel
       else ret 0) ;;
  (* Render sprites *)
  r <-
    (if tst (mask p) PPUMASK_SHOW_SPR && (negb (tst (mask p) PPUMASK_SHOW_SPR8) || (8 <=? x))
     then sprite_scan (firstn (Z.to_nat (sprite_count p)) (sprites p)) 0 x bg 0
     else ret (bg, 0)) ;;
  let pixel := fst r in
  let sprite_pixel := snd r in
  let out := if nz sprite_pixel then Z.lor sprite_pixel 0x10
             else if nz pixel then Z.lor pixel 0x20
             else pixel in
  modify (fun s => set_g_frame_buffer
                     (aset (g_frame_buffer s) (scanline p * PPU_WIDTH + x) out) s).

(** The background fetch cadence shared by the visible and the pre-render
    lines. *)
Definition fetch_cadence : Sys unit :=
  p <- gets ppu ;;
  let cycle_mod := ppu_cycle p mod 8 in
  (if cycle_mod =? 1 then mod_ppu load_background_shifters
   else if cycle_mod =? 0 then mod_ppu increment_x
   else ret tt) ;;;
  when (cycle_mod =? 0)
    (a <- fetch_tile_data ;;
     lo <- ppu_read_vram (fst a) ;;
     hi <- ppu_read_vram (snd a) ;;
     mod_ppu (set_background_fetch_tile (u8 (Z.lor lo (Z.shiftl hi 8))))).

Definition in_fetch_window (c : Z) : bool :=
  ((1 <=? c) && (c <=? 256)) || ((321 <=? c) && (c <=? 336)).

Definition shift_background (p : nes_ppu_t) : nes_ppu_t :=
  set_attribute_shift_hi (u8 (Z.shiftl (attribute_shift_hi p) 1))
    (set_attribute_shift_lo (u8 (Z.shiftl (attribute_shift_lo p) 1))
       (set_background_shift_hi (u8 (Z.shiftl (background_shift_hi p) 1))
          (set_background_shift_lo (u8 (Z.shiftl (background_shift_lo p) 1)) p))).

Definition reset_x (p : nes_ppu_t) : nes_ppu_t :=
  set_scroll_v (Z.lor (Z.land (scroll_v p) 0xFBE0) (Z.land (scroll_t p) 0x041F)) p.

Definition clear_status (bits : Z) (p : nes_ppu_t) : nes_ppu_t :=
  set_status (u8 (Z.land (status p) (Z.lnot bits))) p.

(** Advance cycle *)
Definition advance_dot (p : nes_ppu_t) : nes_ppu_t :=
  let p1 := set_ppu_cycle (u16 (ppu_cycle p + 1)) p in
  if 340 <? ppu_cycle p1 then
    let p2 := set_scanline (u16 (scanline p1 + 1)) (set_ppu_cycle 0 p1) in
    if 261 <? scanline p2 then
      set_odd_frame (b2z (negb (nz (odd_frame p2))))
        (set_ppu_frame (u32 (ppu_frame p2 + 1)) (set_scanline 0 p2))
    else p2
  else p1.

(** [int nes_ppu_step(nes_ppu_t* ppu)]; the result is [frame_complete]. *)
Definition nes_ppu_step : Sys Z :=
  p0 <- gets ppu ;;
  let sl := scanline p0 in
  let c := ppu_cycle p0 in
  frame_complete <-
    (if sl <? 240 then
       (* Visible scanline rendering (0-239) *)
       when (c =? 1) (mod_ppu evaluate_sprites) ;;;
       when (in_fetch_window c) fetch_cadence ;;;
       when ((sl =? 261) && (c =? 304)) (mod_ppu copy_t_to_v) ;;;
       p <- gets ppu ;;
       when ((1 <=? c) && (c <=? 256)
             && tst (mask p) (Z.lor PPUMASK_SHOW_BGR PPUMASK_SHOW_SPR)
             && tst (mask p) PPUMASK_SHOW_BGR) render_dot ;;;
       when ((1 <=? c) && (c <=? 256)) (mod_ppu shift_background) ;;;
       when (c =? 256) (mod_ppu increment_y) ;;;
       when (c =? 257) (mod_ppu reset_x) ;;;
       ret 0
     else if sl =? 240 then
       (* Post-render scanline (240) *)
       ret 0
     else if (241 <=? sl) && (sl <=? 260) then
       (* VBlank (241-260) *)
       if (c =? 1) && (sl =? 241) then
         mod_ppu (fun p =>
           clear_status PPUSTATUS_SP_OVF
             (clear_status PPUSTATUS_SP0_HIT
                (set_status (Z.lor (status p) PPUSTATUS_VBLANK) p))) ;;;
         p <- gets ppu ;;
         ret (if tst (ctrl p) PPUCTRL_NMI then 1 else 0)
       else ret 0
     else if sl =? 261 then
       (* Pre-render scanline (261) *)
       when (c =? 1)
         (mod_ppu (fun p =>
            clear_status PPUSTATUS_SP_OVF
              (clear_status PPUSTATUS_SP0_HIT (clear_status PPUSTATUS_VBLANK p)))) ;;;
       when (in_fetch_window c)
         (when (c =? 1) (mod_ppu evaluate_sprites) ;;; fetch_cadence) ;;;
       when ((280 <=? c) && (c <=? 304))
         (p <- gets ppu ;;
          if nz (odd_frame p) && (c =? 304) then ret tt   (* Skip last cycle on odd frames *)
          else mod_ppu copy_t_to_v) ;;;
       when ((1 <=? c) && (c <=? 256)) (mod_ppu shift_background) ;;;
       when (c =? 256) (mod_ppu increment_y) ;;;
       when (c =? 257) (mod_ppu reset_x) ;;;
       ret 0
     else ret 0) ;;
  mod_ppu advance_dot ;;;
  ret frame_complete.

(** [nes_ppu_cpu_write(ppu, addr, val)] *)
Definition nes_ppu_cpu_write (addr0 val0 : Z) : Sys unit :=
  let val := u8 val0 in
  match Z.land addr0 0x0007 with
  | 0 => (* PPUCTRL *)
      mod_ppu (fun p =>
        set_scroll_t (u16 (Z.lor (Z.land (scroll_t p) 0x73FF) (Z.shiftl (Z.land val 0x03) 10)))
          (set_ctrl val p))
  | 1 => (* PPUMASK *)
      mod_ppu (set_mask val)
  | 3 => (* OAMADDR *)
      mod_ppu (set_oam_addr val)
  | 4 => (* OAMDATA *)
      mod_ppu (fun p =>
        set_oam_addr (u8 (oam_addr p + 1)) (set_oam (aset (oam p) (oam_addr p) val) p))
  | 5 => (* PPUSCROLL *)
      mod_ppu (fun p =>
        if negb (nz (scroll_w p)) then write_ppu_scroll_x val p else write_ppu_scroll_y val p)
  | 6 => (* PPUADDR *)
      mod_ppu (write_ppu_addr val)
  | 7 => (* PPUDATA *)
      p <- gets ppu ;;
      ppu_write_vram (scroll_v p) val ;;;
      mod_ppu increment_vram_addr
  | _ => ret tt
  end.

(** [nes_ppu_cpu_read(ppu, addr)] *)
Definition nes_ppu_cpu_read (addr0 : Z) : Sys Z :=
  match Z.land addr0 0x0007 with
  | 2 => (* PPUSTATUS *)
      p <- gets ppu ;;
      let result :=
        Z.lor (Z.land (status p)
                 (Z.lor (Z.lor PPUSTATUS_VBLANK PPUSTATUS_SP0_HIT) PPUSTATUS_SP_OVF))
              (Z.land (data_buffer p) 0x1F) in   (* Open bus *)
      mod_ppu (fun q => set_scroll_w 0 (clear_status PPUSTATUS_VBLANK q)) ;;;
      ret result
  | 4 => (* OAMDATA *)
      p <- gets ppu ;;
      ret (aget (oam p) (oam_addr p))
  | 7 => (* PPUDATA *)
      p <- gets ppu ;;
      let buffered := data_buffer p in
      fresh <- ppu_read_vram (scroll_v p) ;;
      mod_ppu (set_data_buffer fresh) ;;;
      (* Palette reads are not buffered *)
      let result := if 0x3F00 <=? Z.land (scroll_v p) 0x3FFF then fresh else buffered in
      mod_ppu increment_vram_addr ;;;
      ret result
  | _ => ret 0
  end.

(** DMA transfer for OAM: [oam[(oam_addr + i) & 0xFF] = page_data[i]]
    for [i] from the head of [page_data] on. *)
Fixpoint oam_copy (page_data : list Z) (i : Z) (p : nes_ppu_t) : nes_ppu_t :=
  match page_data with
  | [] => p
  | b :: rest =>
      oam_copy rest (i + 1) (set_oam (aset (oam p) (Z.land (oam_addr p + i) 0xFF) b) p)
  end.

Definition nes_ppu_oam_dma (page_data : list Z) (p : nes_ppu_t) : nes_ppu_t :=
  oam_copy page_data 0 p.

Definition zero_sprite : ppu_sprite_t := mk_sprite 0 0 0 0.

(** [nes_ppu_init]: [memset] to zero, the default palette, VBlank set, on
    the pre-render line. *)
Definition nes_ppu_init : nes_ppu_t :=
  mk_ppu 0 0 PPUSTATUS_VBLANK 0 0 0 0 0 0
         (repeat 0 0x1000)
         (map (fun i => Z.of_nat i mod 64) (seq 0 32))
         (repeat 0 0x100)
         261 0 0 0 0 (repeat zero_sprite 8)
         0 0 0 0 0 0 0 0.

Definition nes_ppu_reset (p : nes_ppu_t) : nes_ppu_t :=
  set_sprite_count 0
    (set_odd_frame 0
       (set_ppu_frame 0
          (set_ppu_cycle 0
             (set_scanline 261
                (set_status PPUSTATUS_VBLANK
                   (set_data_buffer 0
                      (set_scroll_w 0
                         (set_oam_addr 0
                            (set_mask 0 (set_ctrl 0 p)))))))))).

(* ------------------------------------------------------------------ *)
(** ** memory/bus.c: the CPU bus *)

(** [nes_sys_cpu_read]. The [mapper] pointer of the system is non-null
    from [nes_sys_init] on. *)
Definition nes_sys_cpu_read (addr0 : Z) : Sys Z :=
  let addr := Z.land addr0 0xFFFF in
  if addr <? NES_RAM_MIRRORS then
    (* Internal RAM *)
    s <- get ;; ret (aget (ram s) (Z.land addr NES_RAM_END))
  else if (NES_ADDR_PPU_REG <=? addr) && (addr <? NES_ADDR_PPU_REG + 8) then
    (* PPU registers *)
    nes_ppu_cpu_read (Z.land addr 7)
  else if (NES_ADDR_APU_REG <=? addr) && (addr <? NES_ADDR_CARTRIDGE) then
    (* APU/Input registers *)
    if addr =? 0x4015 then
      s <- get ;; ret (nes_apu_cpu_read (apu s) addr)
    else if (addr =? CONTROLLER_1) || (addr =? CONTROLLER_2) then
      s <- get ;;
      let r := nes_input_read (input s) (if addr =? CONTROLLER_1 then 0 else 1) in
      modify (set_input (snd r)) ;;;
      ret (fst r)
    else
      s <- get ;; ret (nes_apu_cpu_read (apu s) addr)
  else
    s <- get ;;
    let open_bus := ret (aget (ram s) (Z.land addr NES_RAM_END)) in
    if NES_ADDR_CARTRIDGE <=? addr then
      (* Cartridge space *)
      if (0x6000 <=? addr) && (addr <? 0x8000) then
        (* PRG-RAM *)
        lift (nes_cartridge_read_prg_ram (cartridge s) (addr - 0x6000))
      else
        match mapper_cpu_read (mapper s) addr with
        | Some rd => rd
        | None => open_bus
        end
    else open_bus.

(** The 256 bytes [page_data[0..255]] behind [&sys->ram[base]]. *)
Definition ram_page (ram : list Z) (base : Z) : result (list Z) :=
  if base + 256 <=? Z.of_nat (length ram) then Done (slice ram base 256) else Fault.

Section Bus.

(** [nes_cpu_execute_cycles(sys->cpu, n)], which the DMA re-enters. *)
Variable cpu_execute_cycles : Z -> Sys unit.

(** OAM DMA *)
Definition nes_sys_oam_dma (page : Z) : Sys unit :=
  (* Update CPU timing - DMA takes 513 or 514 cycles *)
  cpu_execute_cycles 514 ;;;
  (* Transfer data to OAM *)
  s <- get ;;
  page_data <- lift (ram_page (ram s) (Z.shiftl (u8 page) 8)) ;;
  mod_ppu (nes_ppu_oam_dma page_data).

Definition nes_sys_cpu_write (addr0 val0 : Z) : Sys unit :=
  let addr := Z.land addr0 0xFFFF in
  let val := u8 val0 in
  if addr <? NES_RAM_MIRRORS then
    (* Internal RAM *)
    modify (fun s => set_ram (aset (ram s) (Z.land addr NES_RAM_END) val) s)
  else if (NES_ADDR_PPU_REG <=? addr) && (addr <? NES_ADDR_PPU_REG + 8) then
    (* PPU registers *)
    nes_ppu_cpu_write (Z.land addr 7) val
  else if (NES_ADDR_APU_REG <=? addr) && (addr <? NES_ADDR_CARTRIDGE) then
    (* APU/Input registers *)
    if addr =? OAM_DMA_ADDR then nes_sys_oam_dma val
    else if addr =? JOY_STROBE then
      modify (fun s => set_input (nes_input_write_strobe (input s) val) s)
    else
      modify (fun s => set_apu (nes_apu_cpu_write (apu s) addr val) s)
  else if 0x6000 <=? addr then
    (* Cartridge space *)
    when ((0x6000 <=? addr) && (addr <? 0x8000))
      (s <- get ;;
       cart' <- lift (nes_cartridge_write_prg_ram (cartridge s) (addr - 0x6000) val) ;;
       modify (set_cartridge cart')) ;;;
    s <- get ;;
    match mapper_cpu_write (mapper s) addr val with
    | Some wr => wr
    | None => ret tt
    end
  else ret tt.

End Bus.

(* ------------------------------------------------------------------ *)
(** ** cpu/cpu.c: the 6502 interpreter *)

Definition NES_STACK_BASE : Z := 0x0100.
Definition NES_VECTOR_NMI : Z := 0xFFFA.
Definition NES_VECTOR_RESET : Z := 0xFFFC.
Definition NES_VECTOR_IRQ_BRK : Z := 0xFFFE.

Definition FLAG_CARRY : Z := 0x01.
Definition FLAG_ZERO : Z := 0x02.
Definition FLAG_INTERRUPT : Z := 0x04.
Definition FLAG_DECIMAL : Z := 0x08.
Definition FLAG_BREAK : Z := 0x10.
Definition FLAG_UNUSED : Z := 0x20.
Definition FLAG_OVERFLOW : Z := 0x40.
Definition FLAG_NEGATIVE : Z := 0x80.

Inductive addr_mode_t : Type :=
| MODE_IMPLIED
| MODE_ACCUMULATOR
| MODE_IMMEDIATE
| MODE_ZERO_PAGE
| MODE_ZERO_PAGE_X
| MODE_ZERO_PAGE_Y
| MODE_ABSOLUTE
| MODE_ABSOLUTE_X
| MODE_ABSOLUTE_Y
| MODE_INDIRECT
| MODE_INDEXED_INDIRECT
| MODE_INDIRECT_INDEXED
| MODE_RELATIVE.

(** [g_opcode_table[256]]: addressing mode and base cycles of each opcode
    (the mnemonic and the length are only used by the disassembler). *)
Definition g_opcode_table : list (addr_mode_t * Z) :=
  [
  (MODE_IMPLIED, 7); (MODE_INDEXED_INDIRECT, 6); (MODE_IMPLIED, 2); (MODE_IMPLIED, 2);
  (MODE_IMPLIED, 2); (MODE_ZERO_PAGE, 3); (MODE_ZERO_PAGE, 5); (MODE_IMPLIED, 2);
  (MODE_IMPLIED, 3); (MODE_IMMEDIATE, 2); (MODE_ACCUMULATOR, 2); (MODE_IMPLIED, 2);
  (MODE_IMPLIED, 2); (MODE_ABSOLUTE, 4); (MODE_ABSOLUTE, 6); (MODE_IMPLIED, 2);
  (MODE_RELATIVE, 2); (MODE_INDIRECT_INDEXED, 5); (MODE_IMPLIED, 2); (MODE_IMPLIED, 2);
  (MODE_IMPLIED, 2); (MODE_ZERO_PAGE_X, 4); (MODE_ZERO_PAGE_X, 6); (MODE_IMPLIED, 2);
  (MODE_IMPLIED, 2); (MODE_ABSOLUTE_Y, 4); (MODE_IMPLIED, 2); (MODE_IMPLIED, 2);
  (MODE_IMPLIED, 2); (MODE_ABSOLUTE_X, 4); (MODE_ABSOLUTE_X, 7); (MODE_IMPLIED, 2);
  (MODE_ABSOLUTE, 6); (MODE_INDEXED_INDIRECT, 6); (MODE_IMPLIED, 2); (MODE_IMPLIED, 2);
  (MODE_ZERO_PAGE, 3); (MODE_ZERO_PAGE, 3); (MODE_ZERO_PAGE, 5); (MODE_IMPLIED, 2);
  (MODE_IMPLIED, 4); (MODE_IMMEDIATE, 2); (MODE_ACCUMULATOR, 2); (MODE_IMPLIED, 2);
  (MODE_ABSOLUTE, 4); (MODE_ABSOLUTE, 4); (MODE_ABSOLUTE, 6); (MODE_IMPLIED, 2);
  (MODE_RELATIVE, 2); (MODE_INDIRECT_INDEXED, 5); (MODE_IMPLIED, 2); (MODE_IMPLIED, 2);
  (MODE_IMPLIED, 2); (MODE_ZERO_PAGE_X, 4); (MODE_ZERO_PAGE_X, 6); (MODE_IMPLIED, 2);
  (MODE_IMPLIED, 2); (MODE_ABSOLUTE_Y, 4); (MODE_IMPLIED, 2); (MODE_IMPLIED, 2);
  (MODE_IMPLIED, 2); (MODE_ABSOLUTE_X, 4); (MODE_ABSOLUTE_X, 7); (MODE_IMPLIED, 2);
  (MODE_IMPLIED, 6); (MODE_INDEXED_INDIRECT, 6); (MODE_IMPLIED, 2); (MODE_IMPLIED, 2);
  (MODE_IMPLIED, 2); (MODE_ZERO_PAGE, 3); (MODE_ZERO_PAGE, 5); (MODE_IMPLIED, 2);
  (MODE_IMPLIED, 3); (MODE_IMMEDIATE, 2); (MODE_ACCUMULATOR, 2); (MODE_IMPLIED, 2);
  (MODE_ABSOLUTE, 3); (MODE_ABSOLUTE, 4); (MODE_ABSOLUTE, 6); (MODE_IMPLIED, 2);
  (MODE_RELATIVE, 2); (MODE_INDIRECT_INDEXED, 5); (MODE_IMPLIED, 2); (MODE_IMPLIED, 2);
  (MODE_IMPLIED, 2); (MODE_ZERO_PAGE_X, 4); (MODE_ZERO_PAGE_X, 6); (MODE_IMPLIED, 2);
  (MODE_IMPLIED, 2); (MODE_ABSOLUTE_Y, 4); (MODE_IMPLIED, 2); (MODE_IMPLIED, 2);
  (MODE_IMPLIED, 2); (MODE_ABSOLUTE_X, 4); (MODE_ABSOLUTE_X, 7); (MODE_IMPLIED, 2);
  (MODE_IMPLIED, 6); (MODE_INDEXED_INDIRECT, 6); (MODE_IMPLIED, 2); (MODE_IMPLIED, 2);
  (MODE_IMPLIED, 2); (MODE_ZERO_PAGE, 3); (MODE_ZERO_PAGE, 5); (MODE_IMPLIED, 2);
  (MODE_IMPLIED, 4); (MODE_IMMEDIATE, 2); (MODE_ACCUMULATOR, 2); (MODE_IMPLIED, 2);
  (MODE_INDIRECT, 5); (MODE_ABSOLUTE, 4); (MODE_ABSOLUTE, 6); (MODE_IMPLIED, 2);
  (MODE_RELATIVE, 2); (MODE_INDIRECT_INDEXED, 5); (MODE_IMPLIED, 2); (MODE_IMPLIED, 2);
  (MODE_IMPLIED, 2); (MODE_ZERO_PAGE_X, 4); (MODE_ZERO_PAGE_X, 6); (MODE_IMPLIED, 2);
  (MODE_IMPLIED, 2); (MODE_ABSOLUTE_Y, 4); (MODE_IMPLIED, 2); (MODE_IMPLIED, 2);
  (MODE_IMPLIED, 2); (MODE_ABSOLUTE_X, 4); (MODE_ABSOLUTE_X, 7); (MODE_IMPLIED, 2);
  (MODE_IMPLIED, 2); (MODE_INDEXED_INDIRECT, 6); (MODE_IMPLIED, 2); (MODE_IMPLIED, 2);
  (MODE_ZERO_PAGE, 3); (MODE_ZERO_PAGE, 3); (MODE_ZERO_PAGE, 3); (MODE_IMPLIED, 2);
  (MODE_IMPLIED, 2); (MODE_IMPLIED, 2); (MODE_IMPLIED, 2); (MODE_IMPLIED, 2);
  (MODE_ABSOLUTE, 4); (MODE_ABSOLUTE, 4); (MODE_ABSOLUTE, 4); (MODE_IMPLIED, 2);
  (MODE_RELATIVE, 2); (MODE_INDIRECT_INDEXED, 6); (MODE_IMPLIED, 2); (MODE_IMPLIED, 2);
  (MODE_ZERO_PAGE_X, 4); (MODE_ZERO_PAGE_X, 4); (MODE_ZERO_PAGE_Y, 4); (MODE_IMPLIED, 2);
  (MODE_IMPLIED, 2); (MODE_ABSOLUTE_Y, 5); (MODE_IMPLIED, 2); (MODE_IMPLIED, 2);
  (MODE_IMPLIED, 2); (MODE_ABSOLUTE_X, 5); (MODE_IMPLIED, 2); (MODE_IMPLIED, 2);
  (MODE_IMMEDIATE, 2); (MODE_INDEXED_INDIRECT, 6); (MODE_IMMEDIATE, 2); (MODE_IMPLIED, 2);
  (MODE_ZERO_PAGE, 3); (MODE_ZERO_PAGE, 3); (MODE_ZERO_PAGE, 3); (MODE_IMPLIED, 2);
  (MODE_IMPLIED, 2); (MODE_IMMEDIATE, 2); (MODE_IMPLIED, 2); (MODE_IMPLIED, 2);
  (MODE_ABSOLUTE, 4); (MODE_ABSOLUTE, 4); (MODE_ABSOLUTE, 4); (MODE_IMPLIED, 2);
  (MODE_RELATIVE, 2); (MODE_INDIRECT_INDEXED, 5); (MODE_IMPLIED, 2); (MODE_IMPLIED, 2);
  (MODE_ZERO_PAGE_X, 4); (MODE_ZERO_PAGE_X, 4); (MODE_ZERO_PAGE_Y, 4); (MODE_IMPLIED, 2);
  (MODE_IMPLIED, 2); (MODE_ABSOLUTE_Y, 4); (MODE_IMPLIED, 2); (MODE_IMPLIED, 2);
  (MODE_ABSOLUTE_X, 4); (MODE_ABSOLUTE_X, 4); (MODE_ABSOLUTE_Y, 4); (MODE_IMPLIED, 2);
  (MODE_IMMEDIATE, 2); (MODE_INDEXED_INDIRECT, 6); (MODE_IMPLIED, 2); (MODE_IMPLIED, 2);
  (MODE_ZERO_PAGE, 3); (MODE_ZERO_PAGE, 3); (MODE_ZERO_PAGE, 5); (MODE_IMPLIED, 2);
  (MODE_IMPLIED, 2); (MODE_IMMEDIATE, 2); (MODE_IMPLIED, 2); (MODE_IMPLIED, 2);
  (MODE_ABSOLUTE, 4); (MODE_ABSOLUTE, 4); (MODE_ABSOLUTE, 6); (MODE_IMPLIED, 2);
  (MODE_RELATIVE, 2); (MODE_INDIRECT_INDEXED, 5); (MODE_IMPLIED, 2); (MODE_IMPLIED, 2);
  (MODE_IMPLIED, 2); (MODE_ZERO_PAGE_X, 4); (MODE_ZERO_PAGE_X, 6); (MODE_IMPLIED, 2);
  (MODE_IMPLIED, 2); (MODE_ABSOLUTE_Y, 4); (MODE_IMPLIED, 2); (MODE_IMPLIED, 2);
  (MODE_IMPLIED, 2); (MODE_ABSOLUTE_X, 4); (MODE_ABSOLUTE_X, 7); (MODE_IMPLIED, 2);
  (MODE_IMMEDIATE, 2); (MODE_INDEXED_INDIRECT, 6); (MODE_IMPLIED, 2); (MODE_IMPLIED, 2);
  (MODE_ZERO_PAGE, 3); (MODE_ZERO_PAGE, 3); (MODE_ZERO_PAGE, 5); (MODE_IMPLIED, 2);
  (MODE_IMPLIED, 2); (MODE_IMMEDIATE, 2); (MODE_IMPLIED, 2); (MODE_IMPLIED, 2);
  (MODE_ABSOLUTE, 4); (MODE_ABSOLUTE, 4); (MODE_ABSOLUTE, 6); (MODE_IMPLIED, 2);
  (MODE_RELATIVE, 2); (MODE_INDIRECT_INDEXED, 5); (MODE_IMPLIED, 2); (MODE_IMPLIED, 2);
  (MODE_IMPLIED, 2); (MODE_ZERO_PAGE_X, 4); (MODE_ZERO_PAGE_X, 6); (MODE_IMPLIED, 2);
  (MODE_IMPLIED, 2); (MODE_ABSOLUTE_Y, 4); (MODE_IMPLIED, 2); (MODE_IMPLIED, 2);
  (MODE_IMPLIED, 2); (MODE_ABSOLUTE_X, 4); (MODE_ABSOLUTE_X, 7); (MODE_IMPLIED, 2)  ].

Definition opcode_info (opcode : Z) : addr_mode_t * Z :=
  nth (Z.to_nat opcode) g_opcode_table (MODE_IMPLIED, 2).

(** The groups of [case] labels of the [switch (opcode)] in
    [nes_cpu_step], one constructor per group. *)
Inductive instruction : Type :=
| I_ADC | I_AND | I_ASL_A | I_ASL | I_BCC | I_BCS | I_BEQ | I_BIT | I_BMI
| I_BNE | I_BPL | I_BRK | I_BVC | I_BVS | I_CLC | I_CLD | I_CLI | I_CLV
| I_CMP | I_CPX | I_CPY | I_DEC | I_DEX | I_DEY | I_EOR | I_INC | I_INX
| I_INY | I_JMP | I_JMP_IND | I_JSR | I_LDA | I_LDX | I_LDY | I_LSR_A
| I_LSR | I_NOP | I_ORA | I_PHA | I_PHP | I_PLA | I_PLP | I_ROL_A | I_ROL
| I_ROR_A | I_ROR | I_RTI | I_RTS | I_SBC | I_SEC | I_SED | I_SEI | I_STA
| I_STX | I_STY | I_TAX | I_TAY | I_TSX | I_TXA | I_TXS | I_TYA
| I_UNOFFICIAL.

Definition decode (opcode : Z) : instruction :=
  match opcode with
  | 0x69 | 0x65 | 0x75 | 0x6D | 0x7D | 0x79 | 0x61 | 0x71 => I_ADC
  | 0x29 | 0x25 | 0x35 | 0x2D | 0x3D | 0x39 | 0x21 | 0x31 => I_AND
  | 0x0A => I_ASL_A
  | 0x06 | 0x16 | 0x0E | 0x1E => I_ASL
  | 0x90 => I_BCC
  | 0xB0 => I_BCS
  | 0xF0 => I_BEQ
  | 0x24 | 0x2C => I_BIT
  | 0x30 => I_BMI
  | 0xD0 => I_BNE
  | 0x10 => I_BPL
  | 0x00 => I_BRK
  | 0x50 => I_BVC
  | 0x70 => I_BVS
  | 0x18 => I_CLC
  | 0xD8 => I_CLD
  | 0x58 => I_CLI
  | 0xB8 => I_CLV
  | 0xC9 | 0xC5 | 0xD5 | 0xCD | 0xDD | 0xD9 | 0xC1 | 0xD1 => I_CMP
  | 0xE0 | 0xE4 | 0xEC => I_CPX
  | 0xC0 | 0xC4 | 0xCC => I_CPY
  | 0xC6 | 0xD6 | 0xCE | 0xDE => I_DEC
  | 0xCA => I_DEX
  | 0x88 => I_DEY
  | 0x49 | 0x45 | 0x55 | 0x4D | 0x5D | 0x59 | 0x41 | 0x51 => I_EOR
  | 0xE6 | 0xF6 | 0xEE | 0xFE => I_INC
  | 0xE8 => I_INX
  | 0xC8 => I_INY
  | 0x4C => I_JMP
  | 0x6C => I_JMP_IND
  | 0x20 => I_JSR
  | 0xA9 | 0xA5 | 0xB5 | 0xAD | 0xBD | 0xB9 | 0xA1 | 0xB1 => I_LDA
  | 0xA2 | 0xA6 | 0xB6 | 0xAE | 0xBE => I_LDX
  | 0xA0 | 0xA4 | 0xB4 | 0xAC | 0xBC => I_LDY
  | 0x4A => I_LSR_A
  | 0x46 | 0x56 | 0x4E | 0x5E => I_LSR
  | 0xEA => I_NOP
  | 0x09 | 0x05 | 0x15 | 0x0D | 0x1D | 0x19 | 0x01 | 0x11 => I_ORA
  | 0x48 => I_PHA
  | 0x08 => I_PHP
  | 0x68 => I_PLA
  | 0x28 => I_PLP
  | 0x2A => I_ROL_A
  | 0x26 | 0x36 | 0x2E | 0x3E => I_ROL
  | 0x6A => I_ROR_A
  | 0x66 | 0x76 | 0x6E | 0x7E => I_ROR
  | 0x40 => I_RTI
  | 0x60 => I_RTS
  | 0xE9 | 0xE5 | 0xF5 | 0xED | 0xFD | 0xF9 | 0xE1 | 0xF1 => I_SBC
  | 0x38 => I_SEC
  | 0xF8 => I_SED
  | 0x78 => I_SEI
  | 0x85 | 0x95 | 0x8D | 0x9D | 0x99 | 0x81 | 0x91 => I_STA
  | 0x86 | 0x96 | 0x8E => I_STX
  | 0x84 | 0x94 | 0x8C => I_STY
  | 0xAA => I_TAX
  | 0xA8 => I_TAY
  | 0xBA => I_TSX
  | 0x8A => I_TXA
  | 0x9A => I_TXS
  | 0x98 => I_TYA
  | _ => I_UNOFFICIAL
  end.

Definition nes_cpu_get_flag (c : nes_cpu_t) (flag : Z) : Z :=
  if tst (reg_p c) flag then 1 else 0.

Definition nes_cpu_set_flag (flag value : Z) (c : nes_cpu_t) : nes_cpu_t :=
  if nz value then set_reg_p (Z.lor (reg_p c) flag) c
  else set_reg_p (u8 (Z.land (reg_p c) (Z.lnot flag))) c.

(** Update Zero and Negative flags based on a value *)
Definition nes_cpu_update_zn (val : Z) (c : nes_cpu_t) : nes_cpu_t :=
  nes_cpu_set_flag FLAG_NEGATIVE (b2z (tst val 0x80))
    (nes_cpu_set_flag FLAG_ZERO (b2z (val =? 0)) c).

(** Helper for comparing (CMP, CPX, CPY) *)
Definition compare (reg_val mem_val : Z) (c : nes_cpu_t) : nes_cpu_t :=
  let result := u8 (reg_val - mem_val) in
  nes_cpu_set_flag FLAG_NEGATIVE (b2z (tst result 0x80))
    (nes_cpu_set_flag FLAG_ZERO (b2z (result =? 0))
       (nes_cpu_set_flag FLAG_CARRY (b2z (mem_val <=? reg_val)) c)).

Definition do_adc (value : Z) (c : nes_cpu_t) : nes_cpu_t :=
  let result := u16 (reg_a c + value + nes_cpu_get_flag c FLAG_CARRY) in
  let c1 := nes_cpu_set_flag FLAG_CARRY (b2z (0xFF <? result)) c in
  let c2 := nes_cpu_set_flag FLAG_OVERFLOW
              (b2z (nz (Z.land (Z.land (Z.lnot (Z.lxor (reg_a c1) value))
                                       (Z.lxor (reg_a c1) result)) 0x80))) c1 in
  let c3 := set_reg_a (u8 result) c2 in
  nes_cpu_update_zn (reg_a c3) c3.

Definition do_sbc (value : Z) (c : nes_cpu_t) : nes_cpu_t :=
  do_adc (u8 (Z.lnot value)) c.

(** The shift helpers return [(result, *carry_out)]. *)
Definition do_rol (value carry_in : Z) : Z * Z :=
  let result := u16 (Z.lor (Z.shiftl value 1) carry_in) in
  (u8 result, if 0xFF <? result then 1 else 0).

Definition do_ror (value carry_in : Z) : Z * Z :=
  let result := u16 (Z.lor (Z.shiftr value 1) (Z.shiftl carry_in 7)) in
  (u8 result, Z.land value 1).

Definition do_asl_cpu (value : Z) : Z * Z :=
  (u8 (Z.shiftl value 1), if tst value 0x80 then 1 else 0).

Definition do_lsr_cpu (value : Z) : Z * Z :=
  (Z.shiftr value 1, Z.land value 1).

(** [g_bus->read(g_bus->context, addr)] *)
Definition bus_read (addr : Z) : Sys Z := nes_sys_cpu_read addr.

(** [g_bus->read(g_bus->context, cpu->reg.pc++)] *)
Definition fetch_operand : Sys Z :=
  c <- gets cpu ;;
  mod_cpu (set_reg_pc (u16 (reg_pc c + 1))) ;;;
  bus_read (reg_pc c).

Definition read16 (addr : Z) : Sys Z :=
  lo <- bus_read addr ;;
  hi <- bus_read (addr + 1) ;;
  ret (u16 (Z.lor lo (Z.shiftl hi 8))).

(** The page boundary penalty of the indexed modes. *)
Definition page_penalty (base addr : Z) : Sys unit :=
  when (negb (Z.land base 0xFF00 =? Z.land addr 0xFF00)) (mod_cpu (set_stall_cycles 1)).

(** Get effective address based on addressing mode *)
Definition get_effective_address (mode : addr_mode_t) : Sys Z :=
  match mode with
  | MODE_IMMEDIATE =>
      c <- gets cpu ;;
      mod_cpu (set_reg_pc (u16 (reg_pc c + 1))) ;;;
      ret (reg_pc c)
  | MODE_ZERO_PAGE => fetch_operand
  | MODE_ZERO_PAGE_X =>
      b <- fetch_operand ;;
      c <- gets cpu ;;
      ret (Z.land (b + reg_x c) 0xFF)
  | MODE_ZERO_PAGE_Y =>
      b <- fetch_operand ;;
      c <- gets cpu ;;
      ret (Z.land (b + reg_y c) 0xFF)
  | MODE_ABSOLUTE =>
      c <- gets cpu ;;
      addr <- read16 (reg_pc c) ;;
      mod_cpu (fun c => set_reg_pc (u16 (reg_pc c + 2)) c) ;;;
      ret addr
  | MODE_ABSOLUTE_X =>
      c <- gets cpu ;;
      base <- read16 (reg_pc c) ;;
      mod_cpu (fun c => set_reg_pc (u16 (reg_pc c + 2)) c) ;;;
      let addr := u16 (base + reg_x c) in
      page_penalty base addr ;;;
      ret addr
  | MODE_ABSOLUTE_Y =>
      c <- gets cpu ;;
      base <- read16 (reg_pc c) ;;
      mod_cpu (fun c => set_reg_pc (u16 (reg_pc c + 2)) c) ;;;
      let addr := u16 (base + reg_y c) in
      page_penalty base addr ;;;
      ret addr
  | MODE_INDIRECT =>
      c <- gets cpu ;;
      ptr <- read16 (reg_pc c) ;;
      mod_cpu (fun c => set_reg_pc (u16 (reg_pc c + 2)) c) ;;;
      (* Indirect JMP bug: low byte high byte from same page *)
      lo <- bus_read ptr ;;
      hi <- bus_read (Z.lor (Z.land ptr 0xFF00) (Z.land (ptr + 1) 0xFF)) ;;
      ret (u16 (Z.lor lo (Z.shiftl hi 8)))
  | MODE_INDEXED_INDIRECT =>
      b <- fetch_operand ;;
      c <- gets cpu ;;
      let ptr := u8 (Z.land (b + reg_x c) 0xFF) in
      lo <- bus_read ptr ;;
      hi <- bus_read (Z.land (ptr + 1) 0xFF) ;;
      ret (u16 (Z.lor lo (Z.shiftl hi 8)))
  | MODE_INDIRECT_INDEXED =>
      ptr <- fetch_operand ;;
      lo <- bus_read ptr ;;
      hi <- bus_read (Z.land (ptr + 1) 0xFF) ;;
      let base := u16 (Z.lor lo (Z.shiftl hi 8)) in
      c <- gets cpu ;;
      let addr := u16 (base + reg_y c) in
      page_penalty base addr ;;;
      ret addr
  | MODE_RELATIVE =>
      b <- fetch_operand ;;
      c <- gets cpu ;;
      ret (u16 (reg_pc c + s8 b))
  | _ => ret 0
  end.

(** Load a byte from memory based on addressing mode *)
Definition load_byte (mode : addr_mode_t) : Sys Z :=
  match mode with
  | MODE_ACCUMULATOR => gets (fun s => reg_a (cpu s))
  | MODE_IMMEDIATE => fetch_operand
  | _ =>
      addr <- get_effective_address mode ;;
      bus_read addr
  end.

Definition nes_cpu_pop : Sys Z :=
  c <- gets cpu ;;
  let sp' := u8 (reg_sp c + 1) in
  mod_cpu (set_reg_sp sp') ;;;
  bus_read (NES_STACK_BASE + sp').

Definition nes_cpu_pop_word : Sys Z :=
  lo <- nes_cpu_pop ;;
  hi <- nes_cpu_pop ;;
  ret (u16 (Z.lor (Z.shiftl hi 8) lo)).

(** Branch instruction helper *)
Definition do_branch (condition : Z) : Sys unit :=
  b <- fetch_operand ;;
  let offset := s8 b in
  when (nz condition)
    (c <- gets cpu ;;
     let old_pc := reg_pc c in
     let new_pc := u16 (old_pc + offset) in
     mod_cpu (set_reg_pc new_pc) ;;;
     page_penalty old_pc new_pc).

Definition flag (f : Z) : Sys Z := gets (fun s => nes_cpu_get_flag (cpu s) f).
Definition not_flag (f : Z) : Sys Z :=
  gets (fun s => b2z (negb (nz (nes_cpu_get_flag (cpu s) f)))).

Section Core.

Variable cpu_execute_cycles : Z -> Sys unit.

(** [g_bus->write(g_bus->context, addr, val)] *)
Definition bus_write (addr val : Z) : Sys unit :=
  nes_sys_cpu_write cpu_execute_cycles addr val.

(** Store a byte to memory based on addressing mode *)
Definition store_byte (mode : addr_mode_t) (value : Z) : Sys unit :=
  addr <- get_effective_address mode ;;
  bus_write addr value.

Definition nes_cpu_push (val : Z) : Sys unit :=
  c <- gets cpu ;;
  mod_cpu (set_reg_sp (u8 (reg_sp c - 1))) ;;;
  bus_write (NES_STACK_BASE + reg_sp c) val.

Definition nes_cpu_push_word (val : Z) : Sys unit :=
  nes_cpu_push (Z.land (Z.shiftr val 8) 0xFF) ;;;
  nes_cpu_push (Z.land val 0xFF).

(** The body shared, word for word, by the NMI and the IRQ branch of
    [nes_cpu_step] once the latch is cleared. *)
Definition service_interrupt (vector : Z) : Sys Z :=
  c <- gets cpu ;;
  nes_cpu_push_word (reg_pc c) ;;;
  c1 <- gets cpu ;;
  nes_cpu_push (Z.lor (reg_p c1) FLAG_UNUSED) ;;;
  lo <- bus_read vector ;;
  hi <- bus_read (vector + 1) ;;
  mod_cpu (fun c => set_reg_pc (u16 (Z.lor lo (Z.shiftl hi 8))) c) ;;;
  mod_cpu (fun c => set_cycle_count (u32 (cycle_count c + 7))
                      (set_reg_p (Z.lor (reg_p c) FLAG_INTERRUPT) c)) ;;;
  ret 7.

(** The IRQ-dispatch branch of [nes_cpu_step]. *)
Definition irq_dispatch : Sys Z :=
  mod_cpu (set_pending_irq 0) ;;;
  service_interrupt NES_VECTOR_IRQ_BRK.

(** A read-modify-write instruction on memory: [f] maps the byte and the
    carry-in to the new byte and the carry-out. *)
Definition shift_memory (mode : addr_mode_t) (f : Z -> Z -> Z * Z) : Sys unit :=
  addr <- get_effective_address mode ;;
  val <- bus_read addr ;;
  carry_in <- flag FLAG_CARRY ;;
  let r := f val carry_in in
  bus_write addr (fst r) ;;;
  mod_cpu (fun c => nes_cpu_update_zn (fst r) (nes_cpu_set_flag FLAG_CARRY (snd r) c)).

Definition shift_accumulator (f : Z -> Z -> Z * Z) : Sys unit :=
  mod_cpu (fun c =>
    let r := f (reg_a c) (nes_cpu_get_flag c FLAG_CARRY) in
    let c1 := nes_cpu_set_flag FLAG_CARRY (snd r) (set_reg_a (fst r) c) in
    nes_cpu_update_zn (reg_a c1) c1).

Definition step_memory (mode : addr_mode_t) (delta : Z) : Sys unit :=
  addr <- get_effective_address mode ;;
  old <- bus_read addr ;;
  let val := u8 (Z.land (old + delta) 0xFF) in
  bus_write addr val ;;;
  mod_cpu (nes_cpu_update_zn val).

(** The body of one [case] group of the [switch] in [nes_cpu_step]. *)
Definition execute (i : instruction) (mode : addr_mode_t) : Sys unit :=
  match i with
  | I_ADC => v <- load_byte mode ;; mod_cpu (do_adc v)
  | I_AND =>
      v <- load_byte mode ;;
      mod_cpu (fun c => let c1 := set_reg_a (Z.land (reg_a c) v) c in
                        nes_cpu_update_zn (reg_a c1) c1)
  | I_ASL_A => shift_accumulator (fun v _ => do_asl_cpu v)
  | I_ASL => shift_memory mode (fun v _ => do_asl_cpu v)
  | I_BCC => b <- not_flag FLAG_CARRY ;; do_branch b
  | I_BCS => b <- flag FLAG_CARRY ;; do_branch b
  | I_BEQ => b <- flag FLAG_ZERO ;; do_branch b
  | I_BIT =>
      val <- load_byte mode ;;
      mod_cpu (fun c =>
        let temp := Z.land (reg_a c) val in
        nes_cpu_set_flag FLAG_NEGATIVE (b2z (tst val 0x80))
          (nes_cpu_set_flag FLAG_OVERFLOW (b2z (tst val 0x40))
             (nes_cpu_set_flag FLAG_ZERO (b2z (temp =? 0)) c)))
  | I_BMI => b <- flag FLAG_NEGATIVE ;; do_branch b
  | I_BNE => b <- not_flag FLAG_ZERO ;; do_branch b
  | I_BPL => b <- not_flag FLAG_NEGATIVE ;; do_branch b
  | I_BRK =>
      mod_cpu (fun c => set_reg_pc (u16 (reg_pc c + 1)) c) ;;;
      c <- gets cpu ;;
      nes_cpu_push_word (reg_pc c) ;;;
      c1 <- gets cpu ;;
      nes_cpu_push (Z.lor (Z.lor (reg_p c1) FLAG_BREAK) FLAG_UNUSED) ;;;
      lo <- bus_read NES_VECTOR_IRQ_BRK ;;
      hi <- bus_read (NES_VECTOR_IRQ_BRK + 1) ;;
      mod_cpu (fun c => set_reg_p (Z.lor (reg_p c) FLAG_INTERRUPT)
                          (set_reg_pc (u16 (Z.lor lo (Z.shiftl hi 8))) c))
  | I_BVC => b <- not_flag FLAG_OVERFLOW ;; do_branch b
  | I_BVS => b <- flag FLAG_OVERFLOW ;; do_branch b
  | I_CLC => mod_cpu (nes_cpu_set_flag FLAG_CARRY 0)
  | I_CLD => mod_cpu (nes_cpu_set_flag FLAG_DECIMAL 0)
  | I_CLI => mod_cpu (nes_cpu_set_flag FLAG_INTERRUPT 0)
  | I_CLV => mod_cpu (nes_cpu_set_flag FLAG_OVERFLOW 0)
  | I_CMP => v <- load_byte mode ;; mod_cpu (fun c => compare (reg_a c) v c)
  | I_CPX => v <- load_byte mode ;; mod_cpu (fun c => compare (reg_x c) v c)
  | I_CPY => v <- load_byte mode ;; mod_cpu (fun c => compare (reg_y c) v c)
  | I_DEC => step_memory mode (-1)
  | I_DEX =>
      mod_cpu (fun c => let c1 := set_reg_x (Z.land (reg_x c - 1) 0xFF) c in
                        nes_cpu_update_zn (reg_x c1) c1)
  | I_DEY =>
      mod_cpu (fun c => let c1 := set_reg_y (Z.land (reg_y c - 1) 0xFF) c in
                        nes_cpu_update_zn (reg_y c1) c1)
  | I_EOR =>
      v <- load_byte mode ;;
      mod_cpu (fun c => let c1 := set_reg_a (Z.lxor (reg_a c) v) c in
                        nes_cpu_update_zn (reg_a c1) c1)
  | I_INC => step_memory mode 1
  | I_INX =>
      mod_cpu (fun c => let c1 := set_reg_x (Z.land (reg_x c + 1) 0xFF) c in
                        nes_cpu_update_zn (reg_x c1) c1)
  | I_INY =>
      mod_cpu (fun c => let c1 := set_reg_y (Z.land (reg_y c + 1) 0xFF) c in
                        nes_cpu_update_zn (reg_y c1) c1)
  | I_JMP =>
      addr <- get_effective_address MODE_ABSOLUTE ;;
      mod_cpu (set_reg_pc addr)
  | I_JMP_IND =>
      addr <- get_effective_address MODE_INDIRECT ;;
      mod_cpu (set_reg_pc addr)
  | I_JSR =>
      addr <- get_effective_address MODE_ABSOLUTE ;;
      mod_cpu (fun c => set_reg_pc (u16 (reg_pc c - 1)) c) ;;;  (* JSR pushes return address - 1 *)
      c <- gets cpu ;;
      nes_cpu_push_word (reg_pc c) ;;;
      mod_cpu (set_reg_pc (u16 (addr + 1)))
  | I_LDA =>
      v <- load_byte mode ;;
      mod_cpu (fun c => nes_cpu_update_zn v (set_reg_a v c))
  | I_LDX =>
      v <- load_byte mode ;;
      mod_cpu (fun c => nes_cpu_update_zn v (set_reg_x v c))
  | I_LDY =>
      v <- load_byte mode ;;
      mod_cpu (fun c => nes_cpu_update_zn v (set_reg_y v c))
  | I_LSR_A => shift_accumulator (fun v _ => do_lsr_cpu v)
  | I_LSR => shift_memory mode (fun v _ => do_lsr_cpu v)
  | I_NOP => ret tt
  | I_ORA =>
      v <- load_byte mode ;;
      mod_cpu (fun c => let c1 := set_reg_a (Z.lor (reg_a c) v) c in
                        nes_cpu_update_zn (reg_a c1) c1)
  | I_PHA => c <- gets cpu ;; nes_cpu_push (reg_a c)
  | I_PHP => c <- gets cpu ;; nes_cpu_push (Z.lor (Z.lor (reg_p c) FLAG_BREAK) FLAG_UNUSED)
  | I_PLA =>
      v <- nes_cpu_pop ;;
      mod_cpu (fun c => nes_cpu_update_zn v (set_reg_a v c))
  | I_PLP =>
      st <- nes_cpu_pop ;;
      mod_cpu (set_reg_p (Z.lor (u8 (Z.land st (Z.lnot (Z.lor FLAG_BREAK FLAG_UNUSED))))
                                FLAG_UNUSED))
  | I_ROL_A => shift_accumulator do_rol
  | I_ROL => shift_memory mode do_rol
  | I_ROR_A => shift_accumulator do_ror
  | I_ROR => shift_memory mode do_ror
  | I_RTI =>
      st <- nes_cpu_pop ;;
      mod_cpu (set_reg_p (Z.lor (u8 (Z.land st (Z.lnot (Z.lor FLAG_BREAK FLAG_UNUSED))))
                                FLAG_UNUSED)) ;;;
      pc <- nes_cpu_pop_word ;;
      mod_cpu (set_reg_pc pc)
  | I_RTS =>
      pc <- nes_cpu_pop_word ;;
      mod_cpu (set_reg_pc (u16 (pc + 1)))
  | I_SBC => v <- load_byte mode ;; mod_cpu (do_sbc v)
  | I_SEC => mod_cpu (nes_cpu_set_flag FLAG_CARRY 1)
  | I_SED => mod_cpu (nes_cpu_set_flag FLAG_DECIMAL 1)
  | I_SEI => mod_cpu (nes_cpu_set_flag FLAG_INTERRUPT 1)
  | I_STA => c <- gets cpu ;; store_byte mode (reg_a c)
  | I_STX => c <- gets cpu ;; store_byte mode (reg_x c)
  | I_STY => c <- gets cpu ;; store_byte mode (reg_y c)
  | I_TAX => mod_cpu (fun c => let c1 := set_reg_x (reg_a c) c in nes_cpu_update_zn (reg_x c1) c1)
  | I_TAY => mod_cpu (fun c => let c1 := set_reg_y (reg_a c) c in nes_cpu_update_zn (reg_y c1) c1)
  | I_TSX => mod_cpu (fun c => let c1 := set_reg_x (reg_sp c) c in nes_cpu_update_zn (reg_x c1) c1)
  | I_TXA => mod_cpu (fun c => let c1 := set_reg_a (reg_x c) c in nes_cpu_update_zn (reg_a c1) c1)
  | I_TXS => mod_cpu (fun c => set_reg_sp (reg_x c) c)   (* TXS doesn't set flags *)
  | I_TYA => mod_cpu (fun c => let c1 := set_reg_a (reg_y c) c in nes_cpu_update_zn (reg_a c1) c1)
  | I_UNOFFICIAL => ret tt
  end.

(** One call of [nes_cpu_step]; [irq_branch] is the code run when the IRQ
    latch is set and the I flag clear ([irq_dispatch] in the program). *)
Definition nes_cpu_step_body (irq_branch : Sys Z) : Sys Z :=
  c <- gets cpu ;;
  (* Handle any stall cycles from previous instruction *)
  if 0 <? stall_cycles c then
    mod_cpu (fun c => set_cycle_count (u32 (cycle_count c + 1))
                        (set_stall_cycles (u8 (stall_cycles c - 1)) c)) ;;;
    ret 1
  (* Check for interrupts *)
  else if nz (pending_nmi c) then
    mod_cpu (set_pending_nmi 0) ;;;
    service_interrupt NES_VECTOR_NMI
  else if nz (pending_irq c) && negb (nz (nes_cpu_get_flag c FLAG_INTERRUPT)) then
    irq_branch
  else
    (* Fetch opcode *)
    opcode <- bus_read (reg_pc c) ;;
    let info := opcode_info opcode in
    mod_cpu (fun c => set_reg_pc (u16 (reg_pc c + 1)) c) ;;;
    let cycles := snd info in
    (* Execute instruction *)
    execute (decode opcode) (fst info) ;;;
    c1 <- gets cpu ;;
    mod_cpu (fun c => set_stall_cycles 0
                        (set_cycle_count (u32 (cycle_count c + (cycles + stall_cycles c))) c)) ;;;
    ret (u8 (cycles + stall_cycles c1)).

End Core.

(** [while (executed < cycles) executed += nes_cpu_step(cpu);] with at
    most [n] iterations. *)
Fixpoint execute_loop (step : Sys Z) (n : nat) (executed cycles : Z) : Sys unit :=
  if executed <? cycles then
    match n with
    | O => out_of_fuel
    | S n' =>
        k <- step ;;
        execute_loop step n' (u32 (executed + k)) cycles
    end
  else ret tt.

(** [nes_cpu_step] with [fuel] bounding the depth of re-entry through the
    OAM DMA and the length of each re-entered loop. [irq_override], when
    given, stands in for the IRQ-dispatch branch. *)
Fixpoint nes_cpu_step_with (irq_override : option (Sys Z)) (fuel : nat) : Sys Z :=
  match fuel with
  | O => out_of_fuel
  | S fuel' =>
      let reenter := fun cycles =>
        execute_loop (nes_cpu_step_with irq_override fuel') fuel' 0 (u32 cycles) in
      nes_cpu_step_body reenter
        match irq_override with
        | Some branch => branch
        | None => irq_dispatch reenter
        end
  end.

Definition nes_cpu_step (fuel : nat) : Sys Z := nes_cpu_step_with None fuel.

(** [nes_cpu_execute_cycles(cpu, cycles)] *)
Definition nes_cpu_execute_cycles (fuel : nat) (cycles : Z) : Sys unit :=
  execute_loop (nes_cpu_step fuel) fuel 0 (u32 cycles).

Definition nes_cpu_trigger_nmi (c : nes_cpu_t) : nes_cpu_t := set_pending_nmi 1 c.
Definition nes_cpu_trigger_irq (c : nes_cpu_t) : nes_cpu_t := set_pending_irq 1 c.

(** [nes_cpu_reset], with the bus installed as [nes_sys_init] leaves it. *)
Definition nes_cpu_reset : Sys unit :=
  mod_cpu (fun c =>
    set_pending_irq 0
      (set_pending_nmi 0
         (set_cycle_count 0
            (set_stall_cycles 0
               (set_reg_sp 0xFD (set_reg_p (Z.lor FLAG_UNUSED FLAG_INTERRUPT) c)))))) ;;;
  (* Read reset vector *)
  lo <- bus_read NES_VECTOR_RESET ;;
  hi <- bus_read (NES_VECTOR_RESET + 1) ;;
  mod_cpu (set_reg_pc (u16 (Z.lor lo (Z.shiftl hi 8)))).

Definition nes_cpu_init : nes_cpu_t := mk_cpu 0 0 0 0 0 0 0 0 0 0.

(* ------------------------------------------------------------------ *)
(** ** memory/bus.c: the system driver *)

(** [nes_sys_init]: every component in its initial state, RAM cleared.
    The mapper table is only filled by [nes_mapper_create]; until then it
    is taken with null callbacks. The statics of ppu.c start as the C
    initialisers leave them. *)
Definition nes_sys_init : nes_system_t :=
  mk_system nes_cpu_init nes_ppu_init nes_apu_init nes_input_init nes_cartridge_init
            mapper_none (repeat 0 (Z.to_nat NES_RAM_SIZE))
            NES_CPU_CYCLES_PER_FRAME NES_PPU_CYCLES_PER_FRAME 0 1 0
            (repeat 0 (Z.to_nat (PPU_WIDTH * PPU_HEIGHT))) MIRROR_HORIZONTAL.

Definition nes_sys_reset : Sys unit :=
  nes_cpu_reset ;;;
  mod_ppu nes_ppu_reset ;;;
  modify (fun s => set_apu (nes_apu_reset (apu s)) s) ;;;
  modify (fun s => set_input (nes_input_reset (input s)) s) ;;;
  modify (fun s => set_mapper (nes_mapper_reset (mapper s)) s).

(** [nes_sys_load_rom] on the bytes of the file ([None]: it cannot be
    opened). The result is the C return value. *)
Definition nes_sys_load_rom (alloc : Z -> bool) (file : option (list Z)) : Sys Z :=
  s <- get ;;
  let loaded :=
    match file with
    | None => (NES_ROM_ERROR_FILE_NOT_FOUND, cartridge s)
    | Some data =>
        if alloc (Z.of_nat (length data))
        then nes_cartridge_load_memory alloc (cartridge s) data
        else (NES_ROM_ERROR_MEMORY, cartridge s)
    end in
  modify (set_cartridge (snd loaded)) ;;;
  match fst loaded with
  | NES_ROM_OK =>
      (* Create mapper *)
      let created := nes_mapper_create (snd loaded) (mapper s) in
      modify (set_mapper (snd created)) ;;;
      if negb (fst created =? 0) then ret (-1)
      else
        (* Set mirroring *)
        nes_ppu_set_mirror_mode (mirror_value (mirroring (info (snd loaded)))) ;;;
        (* Reset system with new cartridge *)
        nes_sys_reset ;;;
        ret 0
  | _ => ret (-1)
  end.

Section Driver.

(** [nes_cpu_execute_cycles] on the system's CPU. *)
Variable cpu_execute_cycles : Z -> Sys unit.

(** The loop of [nes_sys_step_frame] with [n] iterations left. *)
Fixpoint frame_loop (n : nat) : Sys unit :=
  match n with
  | O => ret tt
  | S n' =>
      s <- get ;;
      if nz (frame_complete s) then ret tt
      else
        vblank <- nes_ppu_step ;;
        (* Trigger NMI in CPU *)
        p <- gets ppu ;;
        when (nz vblank && tst (ctrl p) PPUCTRL_NMI) (mod_cpu nes_cpu_trigger_nmi) ;;;
        (* Run 3 CPU cycles per 1 PPU cycle *)
        cpu_execute_cycles NES_CPU_PPU_RATIO ;;;
        frame_loop n'
  end.

(** Run one frame *)
Definition step_frame_body : Sys Z :=
  s <- get ;;
  if negb (nz (running s)) || nz (paused s) then ret 0
  else
    modify (set_frame_complete 0) ;;;
    frame_loop (Z.to_nat NES_PPU_CYCLES_PER_FRAME) ;;;
    (* Run APU for the frame *)
    modify (fun s => set_apu (nes_apu_execute_cycles None (apu s) NES_CPU_CYCLES_PER_FRAME) s) ;;;
    modify (set_frame_complete 1) ;;;
    ret 1.

End Driver.

Definition nes_sys_step_frame (fuel : nat) : Sys Z :=
  step_frame_body (nes_cpu_execute_cycles fuel).

(** The driver with the IRQ-dispatch branch of the CPU replaced. *)
Definition nes_sys_step_frame_with (irq_override : option (Sys Z)) (fuel : nat) : Sys Z :=
  step_frame_body
    (fun cycles => execute_loop (nes_cpu_step_with irq_override fuel) fuel 0 (u32 cycles)).

(** [n] frames in a row, as the main loop runs them. *)
Fixpoint run_frames (fuel : nat) (n : nat) : Sys unit :=
  match n with
  | O => ret tt
  | S n' => nes_sys_step_frame fuel ;;; run_frames fuel n'
  end.


(* ------------------------------------------------------------------ *)
(** ** Vocabulary of the statements *)

(** The APU states the program can be in: what [nes_apu_init] or
    [nes_apu_reset] leaves, and whatever clock ticks and register writes
    then make of it. *)
Inductive apu_reachable (bus : option (Z -> Z)) : nes_apu_t -> Prop :=
| reach_init : apu_reachable bus nes_apu_init
| reach_reset : forall apu, apu_reachable bus (nes_apu_reset apu)
| reach_step : forall apu,
    apu_reachable bus apu -> apu_reachable bus (nes_apu_step bus apu)
| reach_write : forall apu addr val,
    apu_reachable bus apu -> apu_reachable bus (nes_apu_cpu_write apu addr val).

(** [n] clocks of the noise timer. *)
Definition noise_clocks (n : nat) (ns : apu_noise_t) : apu_noise_t :=
  Nat.iter n noise_timer_clock ns.

(** [n] reads of the same bus address in a row, oldest result first. *)
Fixpoint read_n (n : nat) (addr : Z) : Sys (list Z) :=
  match n with
  | O => ret []
  | S n' =>
      v <- nes_sys_cpu_read addr ;;
      vs <- read_n n' addr ;;
      ret (v :: vs)
  end.

(** The value and the final state of a finished computation. *)
Definition value_of {A : Type} (r : result (A * nes_system_t)) : option A :=
  match r with
  | Done (a, _) => Some a
  | _ => None
  end.

Definition state_of {A : Type} (r : result (A * nes_system_t)) : option nes_system_t :=
  match r with
  | Done (_, s) => Some s
  | _ => None
  end.

(** A machine fresh from [nes_sys_init] whose first controller holds
    A, Select, Start and Left. *)
Definition pad_machine : nes_system_t :=
  set_input (mk_input [[1; 0; 1; 1; 0; 0; 1; 0]; repeat 0 8] 0 [0; 0]) nes_sys_init.

(** A store on the bus as the CPU performs it, outside any instruction. *)
Definition sys_write (fuel : nat) (addr val : Z) : Sys unit :=
  nes_sys_cpu_write (nes_cpu_execute_cycles fuel) addr val.

(** RAM with the listed bytes stored over a background value. *)
Definition ram_image (background : Z) (bytes : list (Z * Z)) : list Z :=
  fold_left (fun r p => aset r (fst p) (snd p)) bytes (repeat background (Z.to_nat NES_RAM_SIZE)).

(** The condition under which [nes_cpu_step] services an interrupt
    instead of fetching an opcode. *)
Definition interrupt_due (c : nes_cpu_t) : bool :=
  nz (pending_nmi c)
  || (nz (pending_irq c) && negb (nz (nes_cpu_get_flag c FLAG_INTERRUPT))).

(** *** An iNES image and its loading *)

(** A one-bank PRG, one-bank CHR image with the given flag bytes. *)
Definition ines_image (f6 f7 : Z) : list Z :=
  NES_MAGIC ++ [1; 1; f6; f7; 0; 0; 0; 0; 0; 0; 0; 0]
            ++ repeat 0xEA (Z.to_nat NES_PRG_ROM_SIZE) ++ repeat 0 (Z.to_nat NES_CHR_ROM_SIZE).

Definition always_alloc (size : Z) : bool := true.

Definition load_image (f6 f7 : Z) : nes_rom_result_t * nes_cartridge_t :=
  nes_cartridge_load_memory always_alloc nes_cartridge_init (ines_image f6 f7).

(** *** MMC1 *)

(** A machine with the MMC1 table installed. *)
Definition mmc1_machine : nes_system_t := set_mapper mapper_1_init nes_sys_init.

(** The five stores that shift the 5-bit value [c] into the MMC1, least
    significant bit first, all at [addr]. *)
Definition mmc1_serial_write (addr c : Z) : Sys unit :=
  sys_write 0 addr (Z.land c 1) ;;;
  sys_write 0 addr (Z.land (Z.shiftr c 1) 1) ;;;
  sys_write 0 addr (Z.land (Z.shiftr c 2) 1) ;;;
  sys_write 0 addr (Z.land (Z.shiftr c 3) 1) ;;;
  sys_write 0 addr (Z.land (Z.shiftr c 4) 1).

(** The mirroring the specification names for the low two bits of the
    MMC1 control register: 00 single-low, 01 single-high, 10 vertical,
    11 horizontal. *)
Definition mmc1_mirroring_in_spec (c : Z) : mirror_mode_t :=
  match Z.land c 3 with
  | 0 => MIRROR_SINGLE_0
  | 1 => MIRROR_SINGLE_1
  | 2 => MIRROR_VERTICAL
  | _ => MIRROR_HORIZONTAL
  end.

Definition mirror_after_control (c : Z) : option mirror_mode_t :=
  option_map g_mirror_mode (state_of (mmc1_serial_write 0x8000 c mmc1_machine)).

(** The physical nametable that each of the four logical nametables
    [$2000], [$2400], [$2800], [$2C00] lands on under a mirroring mode,
    as [read_name_table_addr] folds them. *)
Definition nametable_layout (m : mirror_mode_t) : list Z :=
  map (fun nt => Z.land (Z.shiftr (read_name_table_addr m (0x2000 + 0x0400 * nt)) 10) 3)
      [0; 1; 2; 3].

(** *** Programs in RAM *)

(** [JSR $1234] at [$0010], with [RTS] at [$1235] (RAM mirror of [$0235])
    and at [$1234]. *)
Definition jsr_machine : nes_system_t :=
  set_cpu (set_reg_sp 0xFD (set_reg_pc 0x0010 nes_cpu_init))
    (set_ram (ram_image 0 [(0x10, 0x20); (0x11, 0x34); (0x12, 0x12);
                           (0x234, 0x60); (0x235, 0x60)]) nes_sys_init).

(** [STA $4014] at [$0000] with [A = $02], followed by [NOP]s; page 2
    starts with [$11] and ends with [$22]. [start] is the value of the
    cycle counter. *)
Definition dma_machine (start : Z) : nes_system_t :=
  set_cpu (set_cycle_count start (set_reg_a 0x02 nes_cpu_init))
    (set_ram (ram_image 0xEA [(0x000, 0x8D); (0x001, 0x14); (0x002, 0x40);
                              (0x200, 0x11); (0x2FF, 0x22)]) nes_sys_init).

(** What one CPU step makes of the program counter, the cycle counter
    and the stack pointer. *)
Definition cpu_after (r : result (Z * nes_system_t)) : option (Z * Z * Z) :=
  match r with
  | Done (_, s) => Some (reg_pc (cpu s), cycle_count (cpu s), reg_sp (cpu s))
  | _ => None
  end.

(** *** The indirect jump *)

(** An NROM cartridge whose PRG bank starts with [JMP ($02FF)]. *)
Definition jmp_cartridge : nes_cartridge_t :=
  mk_cartridge (set_prg_rom_banks 1 zero_rom_info)
               (Some ([0x6C; 0xFF; 0x02] ++ repeat 0xEA (Z.to_nat 16381)))
               (Some (repeat 0 (Z.to_nat 8192))) (Some (repeat 0 (Z.to_nat 8192)))
               16384 8192 8192.

Definition jmp_machine : nes_system_t :=
  set_cpu (set_reg_pc 0x8000 nes_cpu_init)
    (set_ram (ram_image 0 [(0x2FF, 0x40); (0x200, 0x80); (0x300, 0x99)])
       (set_mapper mapper_0 (set_cartridge jmp_cartridge nes_sys_init))).

(** The same outcome with the final machine mapped through [f]. *)
Definition on_state {A : Type} (f : nes_system_t -> nes_system_t)
    (r : result (A * nes_system_t)) : result (A * nes_system_t) :=
  match r with
  | Done (a, s) => Done (a, f s)
  | OutOfFuel => OutOfFuel
  | Fault => Fault
  end.

(** *** PPUDATA *)

(** The VRAM address [v] selects a nametable or attribute byte. *)
Definition in_nametable_space (v : Z) : bool :=
  (0x2000 <=? Z.land v 0x3FFF) && (Z.land v 0x3FFF <? 0x3F00).

(** The cell of [vram] a nametable address is stored into. *)
Definition vram_cell (s : nes_system_t) (v : Z) : Z :=
  Z.land (read_name_table_addr (g_mirror_mode s) (Z.land v 0x3FFF) - 0x2000) 0xFFF.

(** The machine with the contents of the PPU's [vram] array dropped. *)
Definition forget_vram (s : nes_system_t) : nes_system_t :=
  set_ppu (set_vram [] (ppu s)) s.

(** [m] does not read the [vram] array: run on the machine with the
    array dropped, it returns what it returns on the machine itself and
    leaves the same machine, the array apart. *)
Definition vram_blind {A : Type} (m : Sys A) : Prop :=
  forall s, m (forget_vram s) = on_state forget_vram (m s).

(** [nes_sys_save_state] writes the CPU, PPU, APU and input structs and
    the RAM to a file, each as a whole; [nes_sys_load_state] reads them
    back. (The [state] buffer of the mapper, which they also copy, is
    used by no other function and is left out.) A file is what a save
    of this run has written. *)
Record saved_state_t : Type := mk_saved_state {
  saved_cpu : nes_cpu_t;
  saved_ppu : nes_ppu_t;
  saved_apu : nes_apu_t;
  saved_input : nes_input_t;
  saved_ram : list Z
}.

(** The files by name, the latest save of a name first. *)
Definition disk_t : Type := list (String.string * saved_state_t).

Fixpoint disk_find (d : disk_t) (filename : String.string) : option saved_state_t :=
  match d with
  | [] => None
  | (name, f) :: rest => if String.eqb name filename then Some f else disk_find rest filename
  end.

(** [nes_sys_save_state(sys, filename)]; [opened] tells whether [fopen]
    gave a file. The result is the C return value and the files. *)
Definition nes_sys_save_state (d : disk_t) (filename : String.string) (opened : bool)
  : Sys (Z * disk_t) :=
  if negb opened then ret (-1, d)
  else
    s <- get ;;
    ret (0, (filename, mk_saved_state (cpu s) (ppu s) (apu s) (input s) (ram s)) :: d).

(** [nes_sys_load_state(sys, filename)]; [fopen] fails on a name that no
    save has written. *)
Definition nes_sys_load_state (d : disk_t) (filename : String.string) : Sys (Z * disk_t) :=
  match disk_find d filename with
  | None => ret (-1, d)
  | Some f =>
      modify (set_cpu (saved_cpu f)) ;;;
      modify (set_ppu (saved_ppu f)) ;;;
      modify (set_apu (saved_apu f)) ;;;
      modify (set_input (saved_input f)) ;;;
      modify (set_ram (saved_ram f)) ;;;
      ret (0, d)
  end.

(** What can happen to the machine: a load or a store of the CPU on the
    bus, a direct access to a PPU register, one call of [nes_cpu_step]
    or of [nes_ppu_step], a whole frame, a reset, a button event, a new
    cartridge, a change of the running flag, a save or a load of the
    state. *)
Inductive machine_action : Type :=
| act_load (addr : Z)
| act_store (addr val : Z)
| act_ppu_load (reg : Z)
| act_ppu_store (reg val : Z)
| act_cpu_step
| act_ppu_step
| act_frame
| act_reset
| act_button (controller button pressed : Z)
| act_load_rom (alloc : Z -> bool) (file : option (list Z))
| act_set_running (running : Z)
| act_save_state (filename : String.string) (opened : bool)
| act_load_state (filename : String.string).

(** The action on the machine alone, with the value it returns (0 when
    it returns none); a save or a load of the state is run by
    [run_action]. *)
Definition machine_step (fuel : nat) (a : machine_action) : Sys Z :=
  match a with
  | act_load addr => nes_sys_cpu_read addr
  | act_store addr val => sys_write fuel addr val ;;; ret 0
  | act_ppu_load reg => nes_ppu_cpu_read reg
  | act_ppu_store reg val => nes_ppu_cpu_write reg val ;;; ret 0
  | act_cpu_step => nes_cpu_step fuel
  | act_ppu_step => nes_ppu_step
  | act_frame => nes_sys_step_frame fuel
  | act_reset => nes_sys_reset ;;; ret 0
  | act_button controller button pressed =>
      modify (fun s => set_input (nes_input_set_button (input s) controller button pressed) s) ;;;
      ret 0
  | act_load_rom alloc file => nes_sys_load_rom alloc file
  | act_set_running running => modify (set_running running) ;;; ret 0
  | act_save_state _ _ | act_load_state _ => ret 0
  end.

(** The action on the machine and the files. *)
Definition run_action (fuel : nat) (d : disk_t) (a : machine_action) : Sys (Z * disk_t) :=
  match a with
  | act_save_state filename opened => nes_sys_save_state d filename opened
  | act_load_state filename => nes_sys_load_state d filename
  | _ => v <- machine_step fuel a ;; ret (v, d)
  end.

(** A run of actions; the result lists what they returned. *)
Fixpoint run_actions (fuel : nat) (d : disk_t) (l : list machine_action) : Sys (list Z) :=
  match l with
  | [] => ret []
  | a :: rest =>
      r <- run_action fuel d a ;;
      vs <- run_actions fuel (snd r) rest ;;
      ret (fst r :: vs)
  end.

(** A file, and the files, with the [vram] array of the saved PPU
    dropped. *)
Definition forget_saved_vram (f : saved_state_t) : saved_state_t :=
  mk_saved_state (saved_cpu f) (set_vram [] (saved_ppu f)) (saved_apu f) (saved_input f)
                 (saved_ram f).

Definition forget_disk_vram (d : disk_t) : disk_t :=
  map (fun e => (fst e, forget_saved_vram (snd e))) d.

(** A machine with the cartridge of [jmp_machine] whose VRAM address
    points at the nametable cell [$2000], with [$33] in the cell of the
    frame buffer that serves its reads. *)
Definition nametable_machine : nes_system_t :=
  set_g_frame_buffer (aset (g_frame_buffer jmp_machine) 0 0x33)
    (set_ppu (set_scroll_v 0x2000 nes_ppu_init) jmp_machine).

(** The file of save slot 0, as platform.c names it. *)
Module SaveFiles.
Import String.
Definition slot_0 : string := "save/state00.sav".
End SaveFiles.

(** A dot of the PPU, an instruction and a save of the state; [v] set
    back to [$2000] through [$2006] and two loads of [$2007] on the bus;
    the state loaded again, and the same two loads once more. *)
Definition nametable_actions : list machine_action :=
  [act_ppu_step; act_cpu_step; act_save_state SaveFiles.slot_0 true;
   act_store 0x2006 0x20; act_store 0x2006 0x00; act_load 0x2007; act_load 0x2007;
   act_load_state SaveFiles.slot_0;
   act_store 0x2006 0x20; act_store 0x2006 0x00; act_load 0x2007; act_load 0x2007].

(** *** The IRQ latch *)

(** The IRQ latch of the CPU is clear. *)
Definition irq_clear (s : nes_system_t) : Prop := pending_irq (cpu s) = 0.

(** From every machine in [P] the two computations have the same outcome,
    and a finished run ends in [P] again. With the same computation on
    both sides this says that it keeps [P]. *)
Definition agree {A : Type} (P : nes_system_t -> Prop) (m1 m2 : Sys A) : Prop :=
  forall s, P s ->
    m1 s = m2 s /\ forall a s', m1 s = Done (a, s') -> P s'.

(** A branch that faults, to stand in for the IRQ-dispatch branch. *)
Definition faulting_branch : Sys Z := fun _ => Fault.

(** A machine fresh from [nes_sys_init] with [NOP]s in RAM and the open
    bus behind the vectors. *)
Definition nop_machine : nes_system_t :=
  set_ram (ram_image 0xEA []) nes_sys_init.

(** [n] frames in a row with the IRQ-dispatch branch of the CPU replaced. *)
Fixpoint run_frames_with (irq_override : option (Sys Z)) (fuel : nat) (n : nat) : Sys unit :=
  match n with
  | O => ret tt
  | S n' => nes_sys_step_frame_with irq_override fuel ;;; run_frames_with irq_override fuel n'
  end.

(** The first [dots] iterations of the loop of [nes_sys_step_frame]: the
    frame in progress. *)
Definition frame_prefix (cpu_execute_cycles : Z -> Sys unit) (dots : nat) : Sys unit :=
  s <- get ;;
  if negb (nz (running s)) || nz (paused s) then ret tt
  else modify (set_frame_complete 0) ;;; frame_loop cpu_execute_cycles dots.

(** An execution of the driver up to some dot: reset, [frames] whole
    frames, then [dots] dots of the next one. *)
Definition driver_run (irq_override : option (Sys Z)) (fuel frames dots : nat) : Sys unit :=
  nes_sys_reset ;;;
  run_frames_with irq_override fuel frames ;;;
  frame_prefix
    (fun cycles => execute_loop (nes_cpu_step_with irq_override fuel) fuel 0 (u32 cycles))
    dots.

(** The noise shift register holds a nonzero 16-bit value. *)
Definition lfsr_ok (ns : apu_noise_t) : Prop := 0 < lfsr ns < 65536.

(* ------------------------------------------------------------------ *)
(** ** Further functions of the cited files *)

(** *** input/input.c *)

Definition nes_input_get_button (input : nes_input_t) (controller button : Z) : Z :=
  if (0 <=? controller) && (controller <? 2) && (0 <=? button) && (button <? NUM_BUTTONS)
  then b2z (nz (button_at input controller button))
  else 0.

(** [nes_input_check_combo]: the first row against [combo[0..7]]. *)
Fixpoint check_combo_from (row combo : list Z) (i : nat) (n : nat) : Z :=
  match n with
  | O => 1
  | S n' =>
      if negb (nth i row 0 =? nth i combo 0) then 0
      else check_combo_from row combo (S i) n'
  end.

Definition nes_input_check_combo (input : nes_input_t) (combo : list Z) : Z :=
  check_combo_from (nth 0 (buttons input) []) combo 0 (Z.to_nat NUM_BUTTONS).

(** [n] reads of one controller port in a row, oldest result first. *)
Fixpoint pad_reads (n : nat) (input : nes_input_t) (controller : Z) : list Z * nes_input_t :=
  match n with
  | O => ([], input)
  | S n' =>
      let r := nes_input_read input controller in
      let rest := pad_reads n' (snd r) controller in
      (fst r :: fst rest, snd rest)
  end.

(** The shape [memset] and the fixed array sizes give the controller
    state: two rows of eight buttons, two read indices. *)
Definition input_shape (input : nes_input_t) : Prop :=
  length (buttons input) = 2%nat /\
  (forall row, In row (buttons input) -> length row = 8%nat) /\
  length (read_index input) = 2%nat.

(** The controller states the API can produce from [nes_input_init]. *)
Inductive input_reachable : nes_input_t -> Prop :=
| in_init : input_reachable nes_input_init
| in_reset : forall i, input_reachable i -> input_reachable (nes_input_reset i)
| in_set_button : forall i c b p,
    input_reachable i -> input_reachable (nes_input_set_button i c b p)
| in_write_strobe : forall i v,
    input_reachable i -> input_reachable (nes_input_write_strobe i v)
| in_read : forall i c,
    input_reachable i -> input_reachable (snd (nes_input_read i c)).

(** What the controller API keeps true of the state besides its shape:
    the strobe is 0 or 1, a read index never passes 8, and the indices
    are 0 whenever the strobe is high. *)
Definition input_ok (i : nes_input_t) : Prop :=
  input_shape i /\
  (strobe i = 0 \/ strobe i = 1) /\
  (forall cid, cid = 0 \/ cid = 1 -> 0 <= aget (read_index i) cid <= 8) /\
  (strobe i = 1 -> read_index i = [0; 0]).

(** The byte a read returns for button [k] of controller [cid]. *)
Definition pad_bit (input : nes_input_t) (cid k : Z) : Z :=
  Z.lor (b2z (nz (button_at input cid k))) 0x40.

(** *** apu/apu.c *)

Definition g_square_duty_table : list (list Z) :=
  [[0; 1; 0; 0; 0; 0; 0; 0];
   [0; 1; 1; 0; 0; 0; 0; 0];
   [0; 1; 1; 1; 1; 0; 0; 0];
   [1; 0; 0; 1; 1; 1; 1; 1]].

Definition g_triangle_seq : list Z :=
  [15; 14; 13; 12; 11; 10; 9; 8;
   7; 6; 5; 4; 3; 2; 1; 0;
   0; 1; 2; 3; 4; 5; 6; 7;
   8; 9; 10; 11; 12; 13; 14; 15].

Definition envelope_output (env : apu_envelope_t) : Z :=
  if nz (env_constant env) then env_volume env else decay_level env.

Definition square_output (sq : apu_square_t) : Z :=
  if sq_length_counter sq =? 0 then 0
  else if aget (nth (Z.to_nat (duty sq)) g_square_duty_table []) (duty_index sq) =? 0 then 0
  (* Sweep muting *)
  else if (sq_timer_period sq <? 8) || (0x7FF <? sq_timer_period sq) then 0
  else 1.

Definition triangle_output (tri : apu_triangle_t) : Z :=
  if tri_length_counter tri =? 0 then 0
  else if linear_counter tri =? 0 then 0
  else aget g_triangle_seq (sequencing tri).

Definition noise_output (n : apu_noise_t) : Z :=
  if noise_length_counter n =? 0 then 0
  else if Z.land (lfsr n) 1 =? 0 then 0
  else envelope_output (noise_envelope n).

Definition nes_apu_square_output (apu : nes_apu_t) (channel : Z) : Z :=
  square_output (if channel =? 0 then square1 apu else square2 apu).

Definition nes_apu_triangle_output (apu : nes_apu_t) : Z := triangle_output (triangle apu).
Definition nes_apu_noise_output (apu : nes_apu_t) : Z := noise_output (noise apu).
Definition nes_apu_dmc_output (apu : nes_apu_t) : Z := dmc_output (dmc apu).

(** The ranges the register writes and the clocks keep the audio state
    in: what the channel outputs are read from, and the indices into
    [g_square_duty_table] and [g_triangle_seq]. *)
Definition envelope_ok (env : apu_envelope_t) : Prop :=
  0 <= env_volume env <= 15 /\ 0 <= decay_level env <= 15.

Definition square_ok (sq : apu_square_t) : Prop :=
  envelope_ok (sq_envelope sq) /\ 0 <= duty sq <= 3 /\ 0 <= duty_index sq <= 7.

Definition apu_levels_ok (apu : nes_apu_t) : Prop :=
  square_ok (square1 apu) /\
  square_ok (square2 apu) /\
  envelope_ok (noise_envelope (noise apu)) /\
  0 <= sequencing (triangle apu) <= 31 /\
  0 <= dmc_output (dmc apu) <= 127.

(** *** cartridge/rom.c *)

(** [~x] on a [uint32_t]. *)
Definition not32 (x : Z) : Z := u32 (Z.lnot x).

(** One round of the inner loop of [init_crc32_table]. *)
Definition crc32_round (crc : Z) : Z :=
  Z.lxor (Z.shiftr crc 1) (if nz (Z.land crc 1) then 0xEDB88320 else 0).

(** [g_crc32_table], as [init_crc32_table] fills it on the first
    [nes_cartridge_init]. *)
Definition g_crc32_table : list Z :=
  map (fun i => Nat.iter 8 crc32_round (Z.of_nat i)) (seq 0 256).

(** The loop of [crc32_update] on the already complemented value. *)
Definition crc32_loop (crc : Z) (data : list Z) : Z :=
  fold_left
    (fun crc b => Z.lxor (aget g_crc32_table (Z.land (Z.lxor crc b) 0xFF)) (Z.shiftr crc 8))
    data crc.

Definition crc32_update (crc : Z) (data : list Z) : Z :=
  not32 (crc32_loop (not32 crc) data).

(** The first [n] bytes behind a pointer, as a loop over [0 .. n-1]
    reads them; no byte is read when [n] is 0. *)
Definition buf_prefix (b : buffer) (n : Z) : result (list Z) :=
  if n <=? 0 then Done []
  else match b with
       | None => Fault
       | Some l => if n <=? Z.of_nat (length l) then Done (firstn (Z.to_nat n) l) else Fault
       end.

Definition nes_cartridge_calc_crc32 (cart : nes_cartridge_t) : result Z :=
  rbind (buf_prefix (prg_rom cart) (info_prg_rom_size (info cart))) (fun prg =>
  let crc := crc32_update 0 prg in
  if 0 <? chr_rom_banks (info cart) then
    rbind (buf_prefix (chr_rom cart) (info_chr_rom_size (info cart))) (fun chr =>
    Done (crc32_update crc chr))
  else Done crc).

Definition nes_cartridge_get_mapper (cart : nes_cartridge_t) : Z := mapper_number (info cart).
Definition nes_cartridge_has_battery (cart : nes_cartridge_t) : Z := has_battery (info cart).
Definition nes_cartridge_get_mirroring (cart : nes_cartridge_t) : mirror_mode_t :=
  mirroring (info cart).

Definition nes_cartridge_read_prg (cart : nes_cartridge_t) (addr0 : Z) : result Z :=
  let addr := Z.land (u32 addr0) 0x7FFF in   (* 32KB mask *)
  if addr <? info_prg_rom_size (info cart) then buf_get (prg_rom cart) addr
  else
    (* Mirror PRG-ROM *)
    rbind (umod addr (info_prg_rom_size (info cart))) (fun i => buf_get (prg_rom cart) i).

(** The offset of the PRG data in an image whose flags 6 byte is [f6]. *)
Definition prg_offset (f6 : Z) : Z :=
  if tst f6 FLAGS6_TRAINER then NES_ROM_HEADER_SIZE + 512 else NES_ROM_HEADER_SIZE.

(** *** Cartridges and machines the examples run on *)

(** A UxROM cartridge of four PRG banks, bank [i] filled with the byte
    [i], and 8 KiB of CHR-RAM. *)
Definition uxrom_cartridge : nes_cartridge_t :=
  mk_cartridge (set_has_chrram 1 (set_prg_rom_banks 4 (set_mapper_number 2 zero_rom_info)))
               (Some (flat_map (fun i => repeat i (Z.to_nat 16384)) [0; 1; 2; 3]))
               (Some (repeat 0 (Z.to_nat 8192))) (Some (repeat 0 (Z.to_nat 8192)))
               65536 8192 8192.

Definition uxrom_machine : nes_system_t :=
  set_mapper (mapper_2 0) (set_cartridge uxrom_cartridge nes_sys_init).

(** An MMC1 machine whose cartridge has 8 KiB of PRG-RAM. *)
Definition mmc1_ram_machine : nes_system_t := set_cartridge jmp_cartridge mmc1_machine.

(* ================================================================== *)
(** * Part II: lemmas and theorems *)
(* ================================================================== *)

(** ** Controllers (input/input.c) *)

Lemma input_read_bit6 :
  forall input controller, Z.testbit (fst (nes_input_read input controller)) 6 = true.
Proof.
  intros input controller. unfold nes_input_read.
  destruct (nz (strobe input)); [|destruct (_ <? NUM_BUTTONS)]; cbn [fst];
    rewrite Z.lor_spec; apply orb_true_r.
Qed.

(** While the strobe is low and fewer than eight buttons were shifted
    out, a read returns the button the index points at and advances. *)
Lemma input_read_shifts :
  forall input cid,
    strobe input = 0 -> (cid = 0 \/ cid = 1) ->
    aget (read_index input) cid < 8 ->
    nes_input_read input cid =
      (Z.lor (b2z (nz (button_at input cid (aget (read_index input) cid)))) 0x40,
       mk_input (buttons input) 0
                (aset (read_index input) cid (u8 (aget (read_index input) cid + 1)))).
Proof.
  intros input cid Hs Hc Hi. unfold nes_input_read. rewrite Hs. cbn [nz Z.eqb negb].
  assert (E : (if cid =? 0 then 0 else 1) = cid) by (destruct Hc; subst; reflexivity).
  rewrite E. unfold NUM_BUTTONS.
  destruct (Z.ltb_spec (aget (read_index input) cid) 8); [reflexivity | lia].
Qed.

(** Once eight buttons were shifted out, a read with the strobe low
    returns [0x40], bit 0 clear, and changes nothing. *)
Lemma input_read_exhausted :
  forall input controller,
    strobe input = 0 ->
    8 <= aget (read_index input) (if controller =? 0 then 0 else 1) ->
    nes_input_read input controller = (0x40, input).
Proof.
  intros input controller Hs Hi. unfold nes_input_read. rewrite Hs. cbn [nz Z.eqb negb].
  unfold NUM_BUTTONS.
  destruct (Z.ltb_spec (aget (read_index input) (if controller =? 0 then 0 else 1)) 8);
    [lia | reflexivity].
Qed.

(** C6. Ten reads of [$4016] with the strobe low on a pad holding A,
    Select, Start and Left: the first eight return the buttons in the
    order A, B, Select, Start, Up, Down, Left, Right with bit 6 set; the
    ninth and the tenth return [0x40], so bit 0 is 0 there and not 1 as
    the specification (and the comment in [nes_input_read]) has it. *)
Theorem C6_reads_after_the_eighth_return_zero :
  value_of (read_n 10 0x4016 pad_machine)
  = Some [0x41; 0x40; 0x41; 0x41; 0x40; 0x40; 0x41; 0x40; 0x40; 0x40].
Proof. vm_compute. reflexivity. Qed.

(** ** The noise LFSR (apu/apu.c) *)

Lemma u16_small : forall x, 0 <= x < 65536 -> u16 x = x.
Proof. intros x H. unfold u16. apply Z.mod_small. exact H. Qed.

Lemma bit_bound : forall x, 0 <= x -> 0 <= Z.land x 1 <= 1.
Proof.
  intros x Hx. change (Z.land x 1) with (Z.land x (Z.ones 1)).
  rewrite Z.land_ones by lia. change (2 ^ 1) with 2.
  pose proof (Z.mod_pos_bound x 2 ltac:(lia)). lia.
Qed.

Lemma lxor_bit_bound :
  forall a b, 0 <= a <= 1 -> 0 <= b <= 1 -> 0 <= Z.lxor a b <= 1.
Proof.
  intros a b Ha Hb.
  assert (A : a = 0 \/ a = 1) by lia. assert (B : b = 0 \/ b = 1) by lia.
  destruct A, B; subst; cbn; lia.
Qed.

(** One step of the shift register: a nonzero 16-bit value stays nonzero
    (and fits 15 bits), whichever higher bit is tapped. *)
Lemma lfsr_step_nonzero :
  forall l k, 0 < l < 65536 -> 0 < k ->
    let feedback := Z.lxor (Z.land l 1) (Z.land (Z.shiftr l k) 1) in
    0 < u16 (Z.lor (Z.shiftr l 1) (Z.shiftl feedback 14)) < 65536.
Proof.
  intros l k Hl Hk feedback.
  assert (Hf : 0 <= feedback <= 1).
  { apply lxor_bit_bound; apply bit_bound; [lia | apply Z.shiftr_nonneg; lia]. }
  assert (Hs : 0 <= Z.shiftr l 1 < 32768).
  { rewrite Z.shiftr_div_pow2 by lia. change (2 ^ 1) with 2.
    split; [apply Z.div_pos; lia | apply Z.div_lt_upper_bound; lia]. }
  assert (Hm : Z.shiftl feedback 14 = feedback * 16384).
  { rewrite Z.shiftl_mul_pow2 by lia. reflexivity. }
  assert (Hnn : 0 <= Z.lor (Z.shiftr l 1) (Z.shiftl feedback 14)).
  { apply Z.lor_nonneg. lia. }
  assert (Hub : Z.lor (Z.shiftr l 1) (Z.shiftl feedback 14) < 65536).
  { pose proof (Z.add_lor_land (Z.shiftr l 1) (Z.shiftl feedback 14)) as E.
    assert (0 <= Z.land (Z.shiftr l 1) (Z.shiftl feedback 14)) by (apply Z.land_nonneg; lia).
    lia. }
  rewrite u16_small by lia. split; [|lia].
  assert (Hne : Z.lor (Z.shiftr l 1) (Z.shiftl feedback 14) <> 0); [|lia].
  intro E. apply Z.lor_eq_0_iff in E. destruct E as [E1 E2].
  assert (l = 1).
  { rewrite Z.shiftr_div_pow2 in E1 by lia. change (2 ^ 1) with 2 in E1.
    pose proof (Z.div_mod l 2 ltac:(lia)) as D.
    pose proof (Z.mod_pos_bound l 2 ltac:(lia)). lia. }
  subst l. assert (F0 : feedback = 0) by lia.
  unfold feedback in F0.
  rewrite Z.shiftr_div_pow2 in F0 by lia.
  rewrite Z.div_small in F0 by (split; [lia | apply Z.pow_gt_1; lia]).
  cbn in F0. discriminate F0.
Qed.

Lemma noise_timer_clock_ok : forall ns, lfsr_ok ns -> lfsr_ok (noise_timer_clock ns).
Proof.
  intros ns H. unfold lfsr_ok, noise_timer_clock in *.
  destruct (noise_timer_value ns =? 0); [|exact H].
  destruct (nz (noise_mode ns)); cbn [lfsr set_noise_timer_value set_lfsr];
    apply lfsr_step_nonzero; (exact H || lia).
Qed.

Lemma noise_clocks_ok : forall n ns, lfsr_ok ns -> lfsr_ok (noise_clocks n ns).
Proof.
  induction n as [|n IH]; intros ns H; [exact H|].
  unfold noise_clocks in *. cbn [Nat.iter]. apply noise_timer_clock_ok. apply IH. exact H.
Qed.

Lemma lfsr_frame_clock :
  forall apu step, lfsr (noise (frame_clock apu step)) = lfsr (noise apu).
Proof.
  intros apu step. unfold frame_clock.
  destruct ((step =? 0) || (step =? 2)); destruct (step =? 1); reflexivity.
Qed.

Lemma lfsr_apu_step_frame :
  forall bus apu, lfsr_ok (noise apu) -> lfsr_ok (noise (nes_apu_step bus apu)).
Proof.
  intros bus apu H. unfold nes_apu_step. cbv zeta.
  set (a5 := set_dmc _ _).
  assert (H5 : lfsr_ok (noise a5)).
  { subst a5. cbn [noise set_dmc set_noise]. apply noise_timer_clock_ok. exact H. }
  clearbody a5. unfold lfsr_ok in *.
  repeat match goal with
         | |- context [if ?b then _ else _] => destruct b
         end;
    cbn [noise set_apu_cycle_count]; rewrite ?lfsr_frame_clock; exact H5.
Qed.

Lemma lfsr_apu_write :
  forall apu addr val, lfsr (noise (nes_apu_cpu_write apu addr val)) = lfsr (noise apu).
Proof.
  intros apu addr val. unfold nes_apu_cpu_write. cbv zeta.
  destruct (u16 addr) as [|p|p]; try reflexivity.
  repeat (destruct p as [p|p|]; try reflexivity);
    repeat match goal with
           | |- context [if ?b then _ else _] => destruct b
           end;
    rewrite ?lfsr_frame_clock; reflexivity.
Qed.

Lemma apu_reachable_lfsr_ok :
  forall bus apu, apu_reachable bus apu -> lfsr_ok (noise apu).
Proof.
  intros bus apu H. induction H.
  - unfold lfsr_ok. cbn. lia.
  - unfold lfsr_ok. cbn. lia.
  - apply lfsr_apu_step_frame. exact IHapu_reachable.
  - unfold lfsr_ok in *. rewrite lfsr_apu_write. exact IHapu_reachable.
Qed.

(** C7. In every APU state reachable from [nes_apu_init] or
    [nes_apu_reset] by clock ticks and register writes, the noise LFSR is
    nonzero, and it stays nonzero under any number of noise timer clocks,
    in long mode (taps 0 and 1) as in short mode (taps 0 and 6). *)
Theorem C7_noise_lfsr_never_zero :
  forall bus apu n,
    apu_reachable bus apu ->
    lfsr (noise apu) <> 0 /\ lfsr (noise_clocks n (noise apu)) <> 0.
Proof.
  intros bus apu n H. apply apu_reachable_lfsr_ok in H.
  pose proof (noise_clocks_ok n _ H) as Hn. unfold lfsr_ok in *. lia.
Qed.

Lemma C7_witness :
  apu_reachable None (nes_apu_step None (nes_apu_cpu_write nes_apu_init 0x400E 0x80))
  /\ lfsr (noise_clocks 40 (noise (nes_apu_step None (nes_apu_cpu_write nes_apu_init 0x400E 0x80)))) <> 0.
Proof.
  assert (R : apu_reachable None (nes_apu_step None (nes_apu_cpu_write nes_apu_init 0x400E 0x80))).
  { apply reach_step. apply reach_write. apply reach_init. }
  split; [exact R|].
  exact (proj2 (C7_noise_lfsr_never_zero None _ 40%nat R)).
Defined.

(** ** The iNES loader (cartridge/rom.c) *)

(** What [parse_header] stores in [is_nes_2_0] on its success path. *)
Lemma parse_header_nes2 :
  forall alloc header cart cart',
    parse_header alloc header cart = (NES_ROM_OK, cart') ->
    is_nes_2_0 (info cart') = b2z (Z.land (flags7 header) FLAGS7_NES_2_0 =? FLAGS7_NES_2_0).
Proof.
  intros alloc header cart cart'. unfold parse_header. cbv zeta.
  destruct (negb (bytes_eqb (magic header) NES_MAGIC)); [discriminate|].
  match goal with |- context [set_prg_rom ?b ?c] => generalize b; intros pb end.
  cbn [prg_rom set_prg_rom].
  destruct pb as [l|]; [|discriminate].
  match goal with |- context [chr_rom ?c] => destruct (chr_rom c) eqn:E end; [|discriminate].
  intros H. inversion H; subst cart'; clear H E.
  repeat match goal with
         | |- context [if ?b then _ else _] => destruct b
         end; reflexivity.
Qed.

(** The loader keeps the flag [parse_header] computed. *)
Lemma load_memory_nes2 :
  forall alloc cart data cart',
    nes_cartridge_load_memory alloc cart data = (NES_ROM_OK, cart') ->
    is_nes_2_0 (info cart')
    = b2z (Z.land (flags7 (header_of_bytes data)) 0x0C =? 0x0C).
Proof.
  intros alloc cart data cart'. unfold nes_cartridge_load_memory. cbv zeta.
  destruct (Z.of_nat (length data) <? NES_ROM_HEADER_SIZE); [discriminate|].
  destruct (parse_header alloc (header_of_bytes data) cart) as [r c1] eqn:P.
  destruct r; try discriminate.
  apply parse_header_nes2 in P.
  destruct (_ <? _); [discriminate|].
  intros H. inversion H; subst cart'; clear H.
  destruct (0 <? _); cbn [info set_chr_rom set_prg_rom]; exact P.
Qed.

(** C8. An image whose flags 7 byte is [0x08] (bits 2-3 equal to 10, the
    NES 2.0 signature) is accepted and parsed as plain iNES; the loader
    raises the flag for [0x0C] instead, because it compares the masked
    byte with the mask. *)
Theorem C8_nes2_signature_not_detected :
  fst (load_image 0 0x08) = NES_ROM_OK
  /\ is_nes_2_0 (info (snd (load_image 0 0x08))) = 0
  /\ fst (load_image 0 0x0C) = NES_ROM_OK
  /\ is_nes_2_0 (info (snd (load_image 0 0x0C))) = 1.
Proof. vm_compute. repeat split. Qed.

(** ** MMC1 mirroring (mapper/mapper.c, ppu/ppu.c) *)

Lemma mmc1_control_mirror_all :
  forallb (fun c => match mirror_after_control c with
                    | Some m => mirror_value m =? Z.land c 3
                    | None => false
                    end)
          (map Z.of_nat (seq 0 32)) = true.
Proof. vm_compute. reflexivity. Qed.

(** C5. Latching the control values 0, 1, 2, 3 through five serial
    stores at [$8000] leaves the PPU mirroring horizontal, vertical,
    single-low, single-high: the two bits are handed unchanged to
    [nes_ppu_set_mirror_mode], whose numbering is not the MMC1's. The
    specification names single-low, single-high, vertical, horizontal.
    The nametable layouts the PPU ends up with differ from those of the
    modes the specification names for each of the four values. *)
Theorem C5_mmc1_mirroring_not_translated :
  map mirror_after_control [0; 1; 2; 3]
  = [Some MIRROR_HORIZONTAL; Some MIRROR_VERTICAL; Some MIRROR_SINGLE_0; Some MIRROR_SINGLE_1]
  /\ map mmc1_mirroring_in_spec [0; 1; 2; 3]
     = [MIRROR_SINGLE_0; MIRROR_SINGLE_1; MIRROR_VERTICAL; MIRROR_HORIZONTAL]
  /\ map (fun c => option_map nametable_layout (mirror_after_control c)) [0; 1; 2; 3]
     = [Some [0; 1; 0; 1]; Some [0; 0; 1; 1]; Some [0; 0; 0; 0]; Some [0; 1; 1; 1]]
  /\ map (fun c => nametable_layout (mmc1_mirroring_in_spec c)) [0; 1; 2; 3]
     = [[0; 0; 0; 0]; [0; 1; 1; 1]; [0; 0; 1; 1]; [0; 1; 0; 1]].
Proof. vm_compute. repeat split. Qed.

(** ** The CPU bus (memory/bus.c) *)

Lemma land_ffff : forall a, 0 <= a <= 0xFFFF -> Z.land a 0xFFFF = a.
Proof.
  intros a H. change 0xFFFF with (Z.ones 16). rewrite Z.land_ones by lia.
  apply Z.mod_small. change (2 ^ 16) with 65536. lia.
Qed.

(** Reads of cartridge ROM space do not look at the CPU. *)
Lemma read_rom_frame :
  forall addr c s,
    0x8000 <= addr <= 0xFFFF ->
    nes_sys_cpu_read addr (set_cpu c s) = on_state (set_cpu c) (nes_sys_cpu_read addr s).
Proof.
  intros addr c s H. unfold nes_sys_cpu_read. rewrite land_ffff by lia.
  unfold NES_RAM_MIRRORS, NES_ADDR_PPU_REG, NES_ADDR_APU_REG, NES_ADDR_CARTRIDGE.
  destruct (Z.ltb_spec addr 0x1FFF); [lia|].
  destruct (Z.leb_spec 0x2000 addr); [|lia].
  destruct (Z.ltb_spec addr (0x2000 + 8)); [lia|].
  destruct (Z.leb_spec 0x4000 addr); [|lia].
  destruct (Z.ltb_spec addr 0x4020); [lia|].
  cbn [andb]. unfold bind, get.
  destruct (Z.leb_spec 0x4020 addr); [|lia].
  destruct (Z.leb_spec 0x6000 addr); [|lia].
  destruct (Z.ltb_spec addr 0x8000); [lia|]. cbn [andb].
  cbn [mapper set_cpu].
  destruct (mapper s) as [| |m|b|cb|m|b]; cbn [mapper_cpu_read];
    unfold mapper_4_cpu_read; unfold ret, bind, gets, lift, modify;
    cbn [cartridge set_cpu set_mapper ram on_state];
    try reflexivity;
    match goal with
    | |- context [match ?r with Done _ => _ | OutOfFuel => _ | Fault => _ end] =>
        destruct r; reflexivity
    | _ => idtac
    end.
  destruct (32768 <=? addr);
    match goal with
    | |- context [match ?r with Done _ => _ | OutOfFuel => _ | Fault => _ end] =>
        destruct r; reflexivity
    end.
Qed.

Lemma read_rom_stable :
  forall addr v c s,
    0x8000 <= addr <= 0xFFFF ->
    nes_sys_cpu_read addr s = Done (v, s) ->
    nes_sys_cpu_read addr (set_cpu c s) = Done (v, set_cpu c s).
Proof.
  intros addr v c s H E. rewrite read_rom_frame by exact H. rewrite E. reflexivity.
Qed.

Lemma read_ram :
  forall addr s,
    0 <= addr < 0x1FFF ->
    nes_sys_cpu_read addr s = Done (aget (ram s) (Z.land addr 0x07FF), s).
Proof.
  intros addr s H. unfold nes_sys_cpu_read. rewrite land_ffff by lia.
  unfold NES_RAM_MIRRORS. destruct (Z.ltb_spec addr 0x1FFF); [reflexivity | lia].
Qed.

Lemma bind_done :
  forall (A B : Type) (m : Sys A) (k : A -> Sys B) s a s',
    m s = Done (a, s') -> bind m k s = k a s'.
Proof. intros A B m k s a s' E. unfold bind. rewrite E. reflexivity. Qed.

Lemma write_ram :
  forall e addr val s,
    0 <= addr < 0x1FFF ->
    nes_sys_cpu_write e addr val s
    = Done (tt, set_ram (aset (ram s) (Z.land addr 0x07FF) (u8 val)) s).
Proof.
  intros e addr val s H. unfold nes_sys_cpu_write. rewrite land_ffff by lia.
  cbv zeta. unfold NES_RAM_MIRRORS. destruct (Z.ltb_spec addr 0x1FFF); [reflexivity | lia].
Qed.

(** Between [$2008] and [$3FFF] a read is served by the open-bus path:
    it returns a byte of RAM and touches nothing. *)
Lemma read_above_ppu_registers :
  forall addr s,
    0x2008 <= addr <= 0x3FFF ->
    nes_sys_cpu_read addr s = Done (aget (ram s) (Z.land addr NES_RAM_END), s).
Proof.
  intros addr s H. unfold nes_sys_cpu_read. rewrite land_ffff by lia.
  unfold NES_RAM_MIRRORS, NES_ADDR_PPU_REG, NES_ADDR_APU_REG, NES_ADDR_CARTRIDGE.
  destruct (Z.ltb_spec addr 0x1FFF); [lia|].
  destruct (Z.leb_spec 0x2000 addr); [|lia].
  destruct (Z.ltb_spec addr (0x2000 + 8)); [lia|].
  destruct (Z.leb_spec 0x4000 addr); [lia|].
  cbn [andb]. unfold bind, get.
  destruct (Z.leb_spec 0x4020 addr); [lia|]. reflexivity.
Qed.

(** Between [$2008] and [$3FFF] a store is dropped. *)
Lemma write_above_ppu_registers :
  forall e addr val s,
    0x2008 <= addr <= 0x3FFF ->
    nes_sys_cpu_write e addr val s = Done (tt, s).
Proof.
  intros e addr val s H. unfold nes_sys_cpu_write. rewrite land_ffff by lia.
  unfold NES_RAM_MIRRORS, NES_ADDR_PPU_REG, NES_ADDR_APU_REG, NES_ADDR_CARTRIDGE.
  cbv zeta.
  destruct (Z.ltb_spec addr 0x1FFF); [lia|].
  destruct (Z.leb_spec 0x2000 addr); [|lia].
  destruct (Z.ltb_spec addr (0x2000 + 8)); [lia|].
  destruct (Z.leb_spec 0x4000 addr); [lia|].
  cbn [andb].
  destruct (Z.leb_spec 0x6000 addr); [lia|]. reflexivity.
Qed.

(** C2. On a machine fresh from [nes_sys_init]: a read of [$2002]
    returns the status [0x80] and clears VBlank, a read of its mirror
    [$200A] returns the RAM byte at [$000A] and leaves the status alone;
    a store of [0x80] to [$2000] sets PPUCTRL, the same store to its
    mirror [$2008] is dropped. *)
Theorem C2_ppu_registers_not_mirrored :
  value_of (nes_sys_cpu_read 0x2002 nes_sys_init) = Some 0x80
  /\ option_map (fun s => status (ppu s)) (state_of (nes_sys_cpu_read 0x2002 nes_sys_init)) = Some 0
  /\ value_of (nes_sys_cpu_read 0x200A nes_sys_init) = Some 0
  /\ option_map (fun s => status (ppu s)) (state_of (nes_sys_cpu_read 0x200A nes_sys_init)) = Some 0x80
  /\ option_map (fun s => ctrl (ppu s)) (state_of (sys_write 0 0x2000 0x80 nes_sys_init)) = Some 0x80
  /\ option_map (fun s => ctrl (ppu s)) (state_of (sys_write 0 0x2008 0x80 nes_sys_init)) = Some 0.
Proof. vm_compute. repeat split. Qed.

(** ** The indirect jump (cpu/cpu.c) *)

(** C3. From any machine about to run [6C FF 02] at [$8000], with no
    stall and no interrupt due, and with [$02FF] = [$40] and [$0200] =
    [$80] in RAM, one CPU step takes 5 cycles and leaves PC = [$8040]:
    the high byte of the target comes from [$0200], the start of the
    pointer's page, whatever [$0300] holds. *)
Theorem C3_indirect_jmp_wraps_within_page :
  forall fuel s,
    reg_pc (cpu s) = 0x8000 ->
    stall_cycles (cpu s) = 0 ->
    interrupt_due (cpu s) = false ->
    nes_sys_cpu_read 0x8000 s = Done (0x6C, s) ->
    nes_sys_cpu_read 0x8001 s = Done (0xFF, s) ->
    nes_sys_cpu_read 0x8002 s = Done (0x02, s) ->
    aget (ram s) 0x2FF = 0x40 ->
    aget (ram s) 0x200 = 0x80 ->
    exists s', nes_cpu_step (S fuel) s = Done (5, s') /\ reg_pc (cpu s') = 0x8040.
Proof.
  intros fuel s Hpc Hst Hint R0 R1 R2 M1 M2.
  unfold interrupt_due in Hint. apply orb_false_iff in Hint. destruct Hint as [Hnmi Hirq].
  unfold nes_cpu_step. cbn [nes_cpu_step_with]. unfold nes_cpu_step_body.
  unfold gets at 1. unfold bind at 1.
  rewrite Hst, Hnmi, Hirq, Hpc. cbn [Z.ltb Z.compare].
  unfold bus_read.
  rewrite (bind_done _ _ _ _ _ _ _ R0).
  change (opcode_info 0x6C) with (MODE_INDIRECT, 5).
  change (decode 0x6C) with I_JMP_IND. cbn [fst snd execute].
  unfold mod_cpu at 1, modify at 1. unfold bind at 1.
  rewrite Hpc. change (u16 (0x8000 + 1)) with 0x8001.
  cbn [get_effective_address]. unfold read16, bus_read.
  unfold bind, gets, mod_cpu, modify, ret.
  cbn [cpu set_cpu reg_pc set_reg_pc].
  rewrite (read_rom_stable 0x8001 0xFF _ s ltac:(lia) R1).
  change (0x8001 + 1) with 0x8002.
  rewrite (read_rom_stable 0x8002 0x02 _ s ltac:(lia) R2).
  cbn [cpu set_cpu reg_pc set_reg_pc].
  change (u16 (Z.lor 255 (Z.shiftl 2 8))) with 0x2FF.
  change (Z.lor (Z.land 0x2FF 65280) (Z.land (0x2FF + 1) 255)) with 0x200.
  rewrite (read_ram 0x2FF) by lia. rewrite (read_ram 0x200) by lia.
  cbn [ram set_cpu].
  change (Z.land 0x2FF 2047) with 0x2FF. change (Z.land 0x200 2047) with 0x200.
  rewrite M1, M2.
  cbn [cpu set_cpu reg_pc set_reg_pc stall_cycles set_stall_cycles set_cycle_count].
  rewrite Hst.
  eexists. split; [reflexivity|]. reflexivity.
Qed.

Lemma C3_witness :
  exists s', nes_cpu_step 1 jmp_machine = Done (5, s') /\ reg_pc (cpu s') = 0x8040.
Proof.
  apply (C3_indirect_jmp_wraps_within_page 0 jmp_machine); reflexivity.
Defined.

(** ** JSR (cpu/cpu.c) *)

(** [JSR] fetched from cartridge ROM, on any machine: the step pushes
    the address of its last byte, high byte first, and leaves the
    program counter one past the operand. *)
Lemma jsr_sets_pc_one_past_target :
  forall fuel s lo hi,
    0x8000 <= reg_pc (cpu s) <= 0xFFFD ->
    0 <= reg_sp (cpu s) <= 0xFF ->
    stall_cycles (cpu s) = 0 ->
    interrupt_due (cpu s) = false ->
    nes_sys_cpu_read (reg_pc (cpu s)) s = Done (0x20, s) ->
    nes_sys_cpu_read (reg_pc (cpu s) + 1) s = Done (lo, s) ->
    nes_sys_cpu_read (reg_pc (cpu s) + 2) s = Done (hi, s) ->
    exists s',
      nes_cpu_step (S fuel) s = Done (6, s')
      /\ reg_pc (cpu s') = u16 (u16 (Z.lor lo (Z.shiftl hi 8)) + 1)
      /\ reg_sp (cpu s') = u8 (u8 (reg_sp (cpu s) - 1) - 1)
      /\ ram s' =
         aset (aset (ram s) (Z.land (0x0100 + reg_sp (cpu s)) 0x07FF)
                    (u8 (Z.land (Z.shiftr (reg_pc (cpu s) + 2) 8) 0xFF)))
              (Z.land (0x0100 + u8 (reg_sp (cpu s) - 1)) 0x07FF)
              (u8 (Z.land (reg_pc (cpu s) + 2) 0xFF)).
Proof.
  intros fuel s lo hi Hpc Hsp Hst Hint R0 R1 R2.
  unfold interrupt_due in Hint. apply orb_false_iff in Hint. destruct Hint as [Hnmi Hirq].
  unfold nes_cpu_step. cbn [nes_cpu_step_with]. unfold nes_cpu_step_body.
  unfold gets at 1. unfold bind at 1.
  rewrite Hst, Hnmi, Hirq. cbn [Z.ltb Z.compare].
  unfold bus_read.
  rewrite (bind_done _ _ _ _ _ _ _ R0).
  change (opcode_info 0x20) with (MODE_ABSOLUTE, 6).
  change (decode 0x20) with I_JSR. cbn [fst snd execute].
  unfold mod_cpu at 1, modify at 1. unfold bind at 1.
  cbn [get_effective_address]. unfold read16, bus_read.
  unfold bind at 1. unfold bind at 1. unfold bind at 1. unfold gets at 1.
  cbn [cpu set_cpu reg_pc set_reg_pc].
  rewrite (u16_small (reg_pc (cpu s) + 1)) by lia.
  replace (reg_pc (cpu s) + 1 + 1) with (reg_pc (cpu s) + 2) by lia.
  unfold bind, gets, mod_cpu, modify, ret.
  rewrite (read_rom_stable (reg_pc (cpu s) + 1) lo _ s ltac:(lia) R1).
  rewrite (read_rom_stable (reg_pc (cpu s) + 2) hi _ s ltac:(lia) R2).
  cbn [cpu set_cpu reg_pc set_reg_pc].
  replace (u16 (u16 (reg_pc (cpu s) + 1 + 2) - 1)) with (reg_pc (cpu s) + 2)
    by (unfold u16; rewrite Zminus_mod_idemp_l;
        replace (reg_pc (cpu s) + 1 + 2 - 1) with (reg_pc (cpu s) + 2) by lia;
        symmetry; apply Z.mod_small; lia).
  unfold nes_cpu_push_word, nes_cpu_push, bus_write.
  unfold bind, gets, mod_cpu, modify, ret.
  cbn [cpu set_cpu reg_pc set_reg_pc reg_sp set_reg_sp].
  unfold NES_STACK_BASE.
  rewrite write_ram by lia.
  cbn [cpu set_cpu set_ram reg_pc set_reg_pc reg_sp set_reg_sp].
  rewrite write_ram by (pose proof (Z.mod_pos_bound (reg_sp (cpu s) - 1) 256); unfold u8; lia).
  cbn [cpu set_cpu set_ram reg_pc set_reg_pc reg_sp set_reg_sp stall_cycles
       set_stall_cycles set_cycle_count].
  rewrite Hst.
  eexists. repeat split; reflexivity.
Qed.

(** C4. [JSR $1234] at [$0010]: the step pushes [$0012] (high byte
    [$00] at [$01FD], low byte [$12] at [$01FC]) and then leaves
    [PC = $1235], one past the operand; the [RTS] found there resumes at
    [$0013]. *)
Theorem C4_jsr_lands_one_past_target :
  cpu_after (nes_cpu_step 1 jsr_machine) = Some (0x1235, 6, 0xFB)
  /\ option_map (fun s => (aget (ram s) 0x1FD, aget (ram s) 0x1FC))
                (state_of (nes_cpu_step 1 jsr_machine)) = Some (0x00, 0x12)
  /\ cpu_after (bind (nes_cpu_step 1) (fun _ => nes_cpu_step 1) jsr_machine)
     = Some (0x0013, 12, 0xFD).
Proof. vm_compute. repeat split. Qed.

(** ** OAM DMA (memory/bus.c) *)

(** The page is taken from the RAM array and not through the bus: for a
    page number of 8 or more it lies outside the array. *)
Lemma oam_dma_page_outside_ram :
  forall e page s s1,
    e 514 s = Done (tt, s1) ->
    Z.of_nat (length (ram s1)) = NES_RAM_SIZE ->
    8 <= u8 page ->
    nes_sys_oam_dma e page s = Fault.
Proof.
  intros e page s s1 E L H. unfold nes_sys_oam_dma.
  rewrite (bind_done _ _ _ _ _ _ _ E).
  unfold bind, get, lift, ram_page. rewrite L.
  rewrite Z.shiftl_mul_pow2 by lia. unfold NES_RAM_SIZE.
  destruct (Z.leb_spec (u8 page * 2 ^ 8 + 256) 2048); [lia | reflexivity].
Qed.

(** C1. [STA $4014] with [A = $02] followed by [NOP]s: inside the store
    the CPU runs on for 514 cycles, that is 257 of the following [NOP]s,
    then page 2 is copied to OAM, then the store's own 4 cycles are
    charged. The counter advances by 518 from an even start and from an
    odd one alike, and the program counter is 257 instructions further. *)
Theorem C1_dma_runs_514_cycles_of_code :
  cpu_after (nes_cpu_step 600 (dma_machine 0)) = Some (3 + 257, 0 + 514 + 4, 0)
  /\ cpu_after (nes_cpu_step 600 (dma_machine 1)) = Some (3 + 257, 1 + 514 + 4, 0)
  /\ option_map (fun s => (aget (oam (ppu s)) 0, aget (oam (ppu s)) 255))
                (state_of (nes_cpu_step 600 (dma_machine 0))) = Some (0x11, 0x22).
Proof. vm_compute. repeat split. Qed.

(** ** PPUDATA stores in nametable space (ppu/ppu.c)

    [ppu_write_vram] is the only function that names the [vram] array,
    and it only stores into it; [nes_sys_save_state] and
    [nes_sys_load_state] copy the PPU struct to a file and back as a
    whole. Every function of the machine is shown to be [vram_blind]:
    it runs the same once the contents of the array are dropped. *)

Lemma aset_nil : forall i v, aset [] i v = [].
Proof. intros i v. unfold aset. destruct (i <? 0); [reflexivity|]. destruct (Z.to_nat i); reflexivity. Qed.

Lemma blind_ret : forall (A : Type) (a : A), vram_blind (ret a).
Proof. intros A a s. reflexivity. Qed.

Lemma blind_bind :
  forall (A B : Type) (m : Sys A) (k : A -> Sys B),
    vram_blind m -> (forall a, vram_blind (k a)) -> vram_blind (bind m k).
Proof.
  intros A B m k Hm Hk s. unfold bind. rewrite Hm.
  destruct (m s) as [[a s']| |]; cbn [on_state]; [apply Hk | reflexivity | reflexivity].
Qed.

Lemma blind_gets :
  forall (A : Type) (f : nes_system_t -> A),
    (forall s, f (forget_vram s) = f s) -> vram_blind (gets f).
Proof. intros A f H s. unfold gets. rewrite H. reflexivity. Qed.

(** After [gets ppu] the continuation receives the PPU without the
    array; it must not tell the difference. *)
Lemma blind_bind_ppu :
  forall (A : Type) (k : nes_ppu_t -> Sys A),
    (forall p, k (set_vram [] p) = k p) ->
    (forall p, vram_blind (k p)) ->
    vram_blind (bind (gets ppu) k).
Proof.
  intros A k H1 H2 s. unfold bind, gets.
  change (ppu (forget_vram s)) with (set_vram [] (ppu s)).
  rewrite H1. apply H2.
Qed.

Lemma blind_bind_get :
  forall (A : Type) (k : nes_system_t -> Sys A),
    (forall s, k (forget_vram s) = k s) ->
    (forall s0, vram_blind (k s0)) ->
    vram_blind (bind get k).
Proof. intros A k H1 H2 s. unfold bind, get. rewrite H1. apply H2. Qed.

Lemma blind_lift : forall (A : Type) (r : result A), vram_blind (lift r).
Proof. intros A r s. unfold lift. destruct r; reflexivity. Qed.

Lemma blind_modify :
  forall h, (forall s, h (forget_vram s) = forget_vram (h s)) -> vram_blind (modify h).
Proof. intros h H s. unfold modify. rewrite H. reflexivity. Qed.

Lemma blind_mod_cpu : forall f, vram_blind (mod_cpu f).
Proof. intros f s. reflexivity. Qed.

Lemma blind_mod_ppu :
  forall f, (forall p, f (set_vram [] p) = set_vram [] (f p)) -> vram_blind (mod_ppu f).
Proof.
  intros f H s. unfold mod_ppu, modify.
  change (ppu (forget_vram s)) with (set_vram [] (ppu s)). rewrite H. reflexivity.
Qed.

Lemma blind_when : forall b (m : Sys unit), vram_blind m -> vram_blind (when b m).
Proof. intros b m H. destruct b; [exact H | apply blind_ret]. Qed.

Lemma blind_out_of_fuel : forall (A : Type), vram_blind (@out_of_fuel _ A).
Proof. intros A s. reflexivity. Qed.

(** A function of the PPU registers commutes with dropping the array. *)
Ltac ppu_frame :=
  intros;
  repeat match goal with
         | p : nes_ppu_t |- _ => destruct p
         end;
  cbv beta iota zeta delta
    [ctrl mask status oam_addr data_buffer scroll_v scroll_t scroll_x scroll_w vram palette
     oam scanline ppu_cycle ppu_frame odd_frame sprite_count sprites background_shift_lo
     background_shift_hi attribute_shift_lo attribute_shift_hi attribute_latch_lo
     attribute_latch_hi background_fetch_tile background_fetch_attr
     set_ctrl set_mask set_status set_oam_addr set_data_buffer set_scroll_v set_scroll_t
     set_scroll_x set_scroll_w set_vram set_palette set_oam set_scanline set_ppu_cycle
     set_ppu_frame set_odd_frame set_sprite_count set_sprites set_background_shift_lo
     set_background_shift_hi set_attribute_shift_lo set_attribute_shift_hi
     set_attribute_latch_lo set_attribute_latch_hi set_background_fetch_tile
     set_background_fetch_attr];
  repeat match goal with
         | |- context [if ?c then _ else _] => destruct c
         end;
  reflexivity.

Create HintDb blind.

Ltac blind_step :=
  match goal with
  | |- forall _, _ => intro
  | |- vram_blind (bind (gets ppu) _) => apply blind_bind_ppu; [intro; reflexivity|]
  | |- vram_blind (bind get _) => apply blind_bind_get; [intro; reflexivity|]
  | |- vram_blind (bind _ _) => apply blind_bind
  | |- vram_blind (ret _) => apply blind_ret
  | |- vram_blind (gets _) => apply blind_gets; intro; reflexivity
  | |- vram_blind (lift _) => apply blind_lift
  | |- vram_blind (when _ _) => apply blind_when
  | |- vram_blind (mod_cpu _) => apply blind_mod_cpu
  | |- vram_blind (mod_ppu _) => solve [auto with blind] || (apply blind_mod_ppu; ppu_frame)
  | |- vram_blind (modify _) => solve [auto with blind] || (apply blind_modify; intro; reflexivity)
  | |- vram_blind out_of_fuel => apply blind_out_of_fuel
  | |- vram_blind (if ?b then _ else _) => destruct b
  | |- vram_blind (match ?x with _ => _ end) => destruct x eqn:?
  | |- vram_blind _ => solve [auto with blind]
  end.

Ltac blind_auto := cbv zeta; repeat blind_step.

Lemma blind_set_mirror : forall m, vram_blind (nes_ppu_set_mirror_mode m).
Proof. intros m. unfold nes_ppu_set_mirror_mode. blind_auto. Qed.
#[local] Hint Resolve blind_set_mirror : blind.

Lemma blind_mapper_1_write : forall m a v, vram_blind (mapper_1_write m a v).
Proof. intros. unfold mapper_1_write. blind_auto. Qed.
Lemma blind_mapper_2_cpu_write : forall m a v, vram_blind (mapper_2_cpu_write m a v).
Proof. intros. unfold mapper_2_cpu_write. blind_auto. Qed.
Lemma blind_mapper_3_cpu_write : forall m a v, vram_blind (mapper_3_cpu_write m a v).
Proof. intros. unfold mapper_3_cpu_write. blind_auto. Qed.
Lemma blind_mapper_4_write : forall m a v, vram_blind (mapper_4_write m a v).
Proof. intros. unfold mapper_4_write. blind_auto. Qed.
Lemma blind_mapper_7_cpu_write : forall m a v, vram_blind (mapper_7_cpu_write m a v).
Proof. intros. unfold mapper_7_cpu_write. blind_auto. Qed.
Lemma blind_mapper_4_cpu_read : forall m a, vram_blind (mapper_4_cpu_read m a).
Proof. intros. unfold mapper_4_cpu_read. blind_auto. Qed.
#[local] Hint Resolve blind_mapper_1_write blind_mapper_2_cpu_write blind_mapper_3_cpu_write
  blind_mapper_4_write blind_mapper_7_cpu_write blind_mapper_4_cpu_read : blind.

Lemma blind_mapper_cpu_read :
  forall mp a rd, mapper_cpu_read mp a = Some rd -> vram_blind rd.
Proof.
  intros mp a rd E. destruct mp; cbn [mapper_cpu_read] in E; inversion E; subst; blind_auto.
Qed.

Lemma blind_mapper_cpu_write :
  forall mp a v wr, mapper_cpu_write mp a v = Some wr -> vram_blind wr.
Proof.
  intros mp a v wr E. destruct mp; cbn [mapper_cpu_write] in E; inversion E; subst; blind_auto.
Qed.

Lemma blind_sys_ppu_read : forall a, vram_blind (nes_sys_ppu_read a).
Proof. intros. unfold nes_sys_ppu_read. blind_auto. Qed.
Lemma blind_sys_ppu_write : forall a v, vram_blind (nes_sys_ppu_write a v).
Proof. intros. unfold nes_sys_ppu_write. blind_auto. Qed.
#[local] Hint Resolve blind_sys_ppu_read blind_sys_ppu_write : blind.

Lemma blind_ppu_read_vram : forall a, vram_blind (ppu_read_vram a).
Proof. intros. unfold ppu_read_vram. blind_auto. Qed.

(** The store itself: the one place where the array is named. On the
    machine without the array it stores into the empty list, which
    stays empty. *)
Lemma blind_ppu_write_vram : forall a v, vram_blind (ppu_write_vram a v).
Proof.
  intros. unfold ppu_write_vram. blind_auto.
  apply blind_mod_ppu. intros p. cbn [vram set_vram]. rewrite aset_nil. reflexivity.
Qed.
#[local] Hint Resolve blind_ppu_read_vram blind_ppu_write_vram : blind.

(** The functions of the PPU registers that [nes_ppu_step] and the
    register file apply do not touch the array. *)
Lemma blind_mod_increment_vram_addr : vram_blind (mod_ppu increment_vram_addr).
Proof. apply blind_mod_ppu. unfold increment_vram_addr. ppu_frame. Qed.
Lemma blind_mod_write_ppu_addr : forall v, vram_blind (mod_ppu (write_ppu_addr v)).
Proof. intros v. apply blind_mod_ppu. unfold write_ppu_addr. ppu_frame. Qed.
Lemma blind_mod_copy_t_to_v : vram_blind (mod_ppu copy_t_to_v).
Proof. apply blind_mod_ppu. unfold copy_t_to_v. ppu_frame. Qed.
Lemma blind_mod_increment_x : vram_blind (mod_ppu increment_x).
Proof. apply blind_mod_ppu. unfold increment_x. ppu_frame. Qed.
Lemma blind_mod_increment_y : vram_blind (mod_ppu increment_y).
Proof. apply blind_mod_ppu. unfold increment_y. ppu_frame. Qed.
Lemma blind_mod_load_background_shifters : vram_blind (mod_ppu load_background_shifters).
Proof. apply blind_mod_ppu. unfold load_background_shifters. ppu_frame. Qed.
Lemma blind_mod_shift_background : vram_blind (mod_ppu shift_background).
Proof. apply blind_mod_ppu. unfold shift_background. ppu_frame. Qed.
Lemma blind_mod_reset_x : vram_blind (mod_ppu reset_x).
Proof. apply blind_mod_ppu. unfold reset_x. ppu_frame. Qed.
Lemma blind_mod_advance_dot : vram_blind (mod_ppu advance_dot).
Proof. apply blind_mod_ppu. unfold advance_dot. ppu_frame. Qed.
Lemma blind_mod_ppu_reset : vram_blind (mod_ppu nes_ppu_reset).
Proof. apply blind_mod_ppu. unfold nes_ppu_reset. ppu_frame. Qed.

Lemma evaluate_sprite_frame :
  forall i p, evaluate_sprite (set_vram [] p) i = set_vram [] (evaluate_sprite p i).
Proof. intros i p. unfold evaluate_sprite, sprite_at, sprite_height. ppu_frame. Qed.

Lemma blind_mod_evaluate_sprites : vram_blind (mod_ppu evaluate_sprites).
Proof.
  apply blind_mod_ppu. intros p. unfold evaluate_sprites.
  change (set_sprite_count 0 (set_vram [] p)) with (set_vram [] (set_sprite_count 0 p)).
  generalize (set_sprite_count 0 p) as q. generalize (seq 0 (Z.to_nat PPU_SPRITE_COUNT)) as l.
  induction l as [|i l IH]; intros q; cbn [fold_left]; [reflexivity|].
  rewrite evaluate_sprite_frame. apply IH.
Qed.

Lemma blind_mod_oam_dma : forall page, vram_blind (mod_ppu (nes_ppu_oam_dma page)).
Proof.
  intros page. apply blind_mod_ppu. intros p. unfold nes_ppu_oam_dma.
  generalize 0 as i. revert p.
  induction page as [|b rest IH]; intros p i; cbn [oam_copy]; [reflexivity|].
  rewrite <- IH. reflexivity.
Qed.

#[local] Hint Resolve blind_mod_increment_vram_addr blind_mod_write_ppu_addr blind_mod_copy_t_to_v
  blind_mod_increment_x blind_mod_increment_y blind_mod_load_background_shifters
  blind_mod_shift_background blind_mod_reset_x blind_mod_advance_dot blind_mod_ppu_reset
  blind_mod_evaluate_sprites blind_mod_oam_dma : blind.

Lemma blind_fetch_tile_data : vram_blind fetch_tile_data.
Proof. unfold fetch_tile_data. blind_auto. Qed.
#[local] Hint Resolve blind_fetch_tile_data : blind.

Lemma blind_sprite_scan :
  forall sprs i x px sp, vram_blind (sprite_scan sprs i x px sp).
Proof.
  induction sprs as [|sprite rest IH]; intros; cbn [sprite_scan]; blind_auto; apply IH.
Qed.
#[local] Hint Resolve blind_sprite_scan : blind.

Lemma blind_render_dot : vram_blind render_dot.
Proof. unfold render_dot. blind_auto. Qed.
Lemma blind_fetch_cadence : vram_blind fetch_cadence.
Proof. unfold fetch_cadence. blind_auto. Qed.
#[local] Hint Resolve blind_render_dot blind_fetch_cadence : blind.

Lemma blind_ppu_step : vram_blind nes_ppu_step.
Proof. unfold nes_ppu_step. blind_auto. Qed.

Lemma blind_ppu_cpu_write : forall a v, vram_blind (nes_ppu_cpu_write a v).
Proof. intros. unfold nes_ppu_cpu_write. blind_auto. Qed.
Lemma blind_ppu_cpu_read : forall a, vram_blind (nes_ppu_cpu_read a).
Proof. intros. unfold nes_ppu_cpu_read. blind_auto. Qed.
#[local] Hint Resolve blind_ppu_step blind_ppu_cpu_write blind_ppu_cpu_read : blind.

Lemma blind_sys_cpu_read : forall a, vram_blind (nes_sys_cpu_read a).
Proof.
  intros. unfold nes_sys_cpu_read. blind_auto.
  all: try (eapply blind_mapper_cpu_read; eassumption).
Qed.
#[local] Hint Resolve blind_sys_cpu_read : blind.

Lemma blind_bus_read : forall a, vram_blind (bus_read a).
Proof. intros. unfold bus_read. blind_auto. Qed.
#[local] Hint Resolve blind_bus_read : blind.
Lemma blind_fetch_operand : vram_blind fetch_operand.
Proof. unfold fetch_operand. blind_auto. Qed.
Lemma blind_read16 : forall a, vram_blind (read16 a).
Proof. intros. unfold read16. blind_auto. Qed.
Lemma blind_page_penalty : forall a b, vram_blind (page_penalty a b).
Proof. intros. unfold page_penalty. blind_auto. Qed.
#[local] Hint Resolve blind_fetch_operand blind_read16 blind_page_penalty : blind.
Lemma blind_get_effective_address : forall mode, vram_blind (get_effective_address mode).
Proof. intros. unfold get_effective_address. blind_auto. Qed.
#[local] Hint Resolve blind_get_effective_address : blind.
Lemma blind_load_byte : forall mode, vram_blind (load_byte mode).
Proof. intros. unfold load_byte. blind_auto. Qed.
Lemma blind_pop : vram_blind nes_cpu_pop.
Proof. unfold nes_cpu_pop. blind_auto. Qed.
#[local] Hint Resolve blind_load_byte blind_pop : blind.
Lemma blind_pop_word : vram_blind nes_cpu_pop_word.
Proof. unfold nes_cpu_pop_word. blind_auto. Qed.
Lemma blind_do_branch : forall c, vram_blind (do_branch c).
Proof. intros. unfold do_branch. blind_auto. Qed.
Lemma blind_flag : forall f, vram_blind (flag f).
Proof. intros. unfold flag. blind_auto. Qed.
Lemma blind_not_flag : forall f, vram_blind (not_flag f).
Proof. intros. unfold not_flag. blind_auto. Qed.
#[local] Hint Resolve blind_pop_word blind_do_branch blind_flag blind_not_flag : blind.

(** The functions that reach the OAM DMA, over a CPU loop that is blind. *)
Section BlindCore.
Variable e : Z -> Sys unit.
Hypothesis He : forall cycles, vram_blind (e cycles).

Lemma blind_sys_oam_dma : forall page, vram_blind (nes_sys_oam_dma e page).
Proof. intros. unfold nes_sys_oam_dma. blind_auto. Qed.
#[local] Hint Resolve blind_sys_oam_dma : blind.

Lemma blind_sys_cpu_write : forall a v, vram_blind (nes_sys_cpu_write e a v).
Proof.
  intros. unfold nes_sys_cpu_write. blind_auto.
  all: try (eapply blind_mapper_cpu_write; eassumption).
Qed.
#[local] Hint Resolve blind_sys_cpu_write : blind.

Lemma blind_bus_write : forall a v, vram_blind (bus_write e a v).
Proof. intros. unfold bus_write. blind_auto. Qed.
#[local] Hint Resolve blind_bus_write : blind.

Lemma blind_store_byte : forall m v, vram_blind (store_byte e m v).
Proof. intros. unfold store_byte. blind_auto. Qed.
Lemma blind_push : forall v, vram_blind (nes_cpu_push e v).
Proof. intros. unfold nes_cpu_push. blind_auto. Qed.
#[local] Hint Resolve blind_store_byte blind_push : blind.
Lemma blind_push_word : forall v, vram_blind (nes_cpu_push_word e v).
Proof. intros. unfold nes_cpu_push_word. blind_auto. Qed.
#[local] Hint Resolve blind_push_word : blind.
Lemma blind_service_interrupt : forall v, vram_blind (service_interrupt e v).
Proof. intros. unfold service_interrupt. blind_auto. Qed.
Lemma blind_shift_memory : forall m f, vram_blind (shift_memory e m f).
Proof. intros. unfold shift_memory. blind_auto. Qed.
Lemma blind_shift_accumulator : forall f, vram_blind (shift_accumulator f).
Proof. intros. unfold shift_accumulator. blind_auto. Qed.
Lemma blind_step_memory : forall m d, vram_blind (step_memory e m d).
Proof. intros. unfold step_memory. blind_auto. Qed.
#[local] Hint Resolve blind_service_interrupt blind_shift_memory blind_shift_accumulator
  blind_step_memory : blind.

Lemma blind_irq_dispatch : vram_blind (irq_dispatch e).
Proof. unfold irq_dispatch. blind_auto. Qed.

Lemma blind_execute : forall i m, vram_blind (execute e i m).
Proof. intros. destruct i; cbn [execute]; blind_auto. Qed.
#[local] Hint Resolve blind_irq_dispatch blind_execute : blind.

Lemma blind_step_body :
  forall irq_branch, vram_blind irq_branch -> vram_blind (nes_cpu_step_body e irq_branch).
Proof. intros irq_branch Hirq. unfold nes_cpu_step_body. blind_auto. Qed.

End BlindCore.

Lemma blind_execute_loop :
  forall step : Sys Z,
    vram_blind step ->
    forall n executed cycles, vram_blind (execute_loop step n executed cycles).
Proof.
  intros step Hstep. induction n as [|n IH]; intros executed cycles;
    cbn [execute_loop]; blind_auto.
Qed.

Lemma blind_cpu_step : forall fuel, vram_blind (nes_cpu_step fuel).
Proof.
  unfold nes_cpu_step.
  induction fuel as [|fuel IH]; cbn [nes_cpu_step_with].
  - apply blind_out_of_fuel.
  - cbv zeta.
    assert (He : forall cycles,
               vram_blind (execute_loop (nes_cpu_step_with None fuel) fuel 0 (u32 cycles))).
    { intros cycles. apply blind_execute_loop. exact IH. }
    apply blind_step_body; [exact He|]. apply blind_irq_dispatch. exact He.
Qed.

Lemma blind_cpu_execute_cycles :
  forall fuel cycles, vram_blind (nes_cpu_execute_cycles fuel cycles).
Proof.
  intros. unfold nes_cpu_execute_cycles. apply blind_execute_loop. apply blind_cpu_step.
Qed.

Lemma blind_sys_write : forall fuel a v, vram_blind (sys_write fuel a v).
Proof.
  intros. unfold sys_write. apply blind_sys_cpu_write. apply blind_cpu_execute_cycles.
Qed.

Lemma blind_frame_loop :
  forall e : Z -> Sys unit,
    (forall cycles, vram_blind (e cycles)) ->
    forall n, vram_blind (frame_loop e n).
Proof.
  intros e He. induction n as [|n IH]; cbn [frame_loop]; blind_auto.
Qed.

Lemma blind_modify_apu :
  forall f : nes_apu_t -> nes_apu_t, vram_blind (modify (fun s => set_apu (f (apu s)) s)).
Proof. intros f s. reflexivity. Qed.

Lemma blind_apu_frame :
  vram_blind
    (modify (fun s => set_apu (nes_apu_execute_cycles None (apu s) NES_CPU_CYCLES_PER_FRAME) s)).
Proof.
  exact (blind_modify_apu (fun a => nes_apu_execute_cycles None a NES_CPU_CYCLES_PER_FRAME)).
Qed.
#[local] Hint Resolve blind_apu_frame : blind.

Lemma blind_step_frame : forall fuel, vram_blind (nes_sys_step_frame fuel).
Proof.
  intros. unfold nes_sys_step_frame, step_frame_body.
  blind_auto. apply blind_frame_loop. intros cycles. apply blind_cpu_execute_cycles.
Qed.

Lemma blind_cpu_reset : vram_blind nes_cpu_reset.
Proof. unfold nes_cpu_reset. blind_auto. Qed.
#[local] Hint Resolve blind_cpu_reset : blind.

Lemma blind_sys_reset : vram_blind nes_sys_reset.
Proof. unfold nes_sys_reset. blind_auto. Qed.

#[local] Hint Resolve blind_cpu_step blind_sys_write blind_step_frame blind_sys_reset : blind.

Lemma blind_load_rom : forall alloc file, vram_blind (nes_sys_load_rom alloc file).
Proof. intros. unfold nes_sys_load_rom. blind_auto. Qed.
#[local] Hint Resolve blind_load_rom : blind.

Lemma blind_machine_step : forall fuel a, vram_blind (machine_step fuel a).
Proof. intros fuel a. destruct a; cbn [machine_step]; blind_auto. Qed.

(** Saving and loading the state move the array to a file and back
    without looking into it. *)
Lemma disk_find_forget :
  forall d filename,
    disk_find (forget_disk_vram d) filename = option_map forget_saved_vram (disk_find d filename).
Proof.
  induction d as [|[name f] rest IH]; intros filename; cbn [forget_disk_vram map disk_find fst snd].
  - reflexivity.
  - destruct (String.eqb name filename); [reflexivity|]. apply IH.
Qed.

Lemma blind_run_action :
  forall fuel d a s,
    run_action fuel (forget_disk_vram d) a (forget_vram s)
    = match run_action fuel d a s with
      | Done (r, s') => Done ((fst r, forget_disk_vram (snd r)), forget_vram s')
      | OutOfFuel => OutOfFuel
      | Fault => Fault
      end.
Proof.
  intros fuel d a s.
  assert (M : forall b : machine_action,
             bind (machine_step fuel b) (fun v => ret (v, forget_disk_vram d)) (forget_vram s)
             = match bind (machine_step fuel b) (fun v => ret (v, d)) s with
               | Done (r, s') => Done ((fst r, forget_disk_vram (snd r)), forget_vram s')
               | OutOfFuel => OutOfFuel
               | Fault => Fault
               end).
  { intros b. unfold bind. rewrite (blind_machine_step fuel b s).
    destruct (machine_step fuel b s) as [[v s']| |]; reflexivity. }
  destruct a; try exact (M _).
  - cbn [run_action]. unfold nes_sys_save_state. destruct opened; reflexivity.
  - cbn [run_action]. unfold nes_sys_load_state. rewrite disk_find_forget.
    destruct (disk_find d filename) as [f|]; reflexivity.
Qed.

Lemma blind_run_actions :
  forall fuel l d s,
    run_actions fuel (forget_disk_vram d) l (forget_vram s)
    = on_state forget_vram (run_actions fuel d l s).
Proof.
  intros fuel. induction l as [|a rest IH]; intros d s; cbn [run_actions]; [reflexivity|].
  unfold bind at 1 3. rewrite blind_run_action.
  destruct (run_action fuel d a s) as [[[v d'] s']| |]; [|reflexivity|reflexivity].
  cbn [fst snd]. unfold bind. rewrite IH.
  destruct (run_actions fuel d' rest s') as [[vs s'']| |]; reflexivity.
Qed.

(** Two machines that differ in the array alone run alike. *)
Lemma run_actions_forget :
  forall fuel d l s1 s2,
    forget_vram s1 = forget_vram s2 ->
    on_state forget_vram (run_actions fuel d l s1)
    = on_state forget_vram (run_actions fuel d l s2).
Proof.
  intros fuel d l s1 s2 H. rewrite <- !blind_run_actions. rewrite H. reflexivity.
Qed.

(** A store through [$2007] at a nametable address: the byte goes into
    the [vram] array and [v] advances; nothing else changes. *)
Lemma ppudata_store_nametable :
  forall s b,
    in_nametable_space (scroll_v (ppu s)) = true ->
    nes_ppu_cpu_write 7 b s
    = Done (tt, set_ppu (increment_vram_addr
                           (set_vram (aset (vram (ppu s)) (vram_cell s (scroll_v (ppu s))) (u8 b))
                                     (ppu s))) s).
Proof.
  intros s b H. unfold in_nametable_space in H. apply andb_true_iff in H. destruct H as [H1 H2].
  unfold nes_ppu_cpu_write. cbv zeta. change (Z.land 7 7) with 7. cbv iota.
  unfold bind, gets, ppu_write_vram. cbv zeta.
  apply Z.leb_le in H1. apply Z.ltb_lt in H2.
  destruct (Z.ltb_spec (Z.land (scroll_v (ppu s)) 0x3FFF) 0x2000); [lia|].
  destruct (Z.ltb_spec (Z.land (scroll_v (ppu s)) 0x3FFF) 0x3F00); [|lia].
  unfold bind, get, mod_ppu, modify. cbn [set_ppu ppu]. reflexivity.
Qed.

(** A load through [$2007] at a nametable address returns the old data
    buffer and refills the buffer from [g_frame_buffer]. *)
Lemma ppudata_load_nametable :
  forall s,
    in_nametable_space (scroll_v (ppu s)) = true ->
    nes_ppu_cpu_read 7 s
    = Done (data_buffer (ppu s),
            set_ppu (increment_vram_addr
                       (set_data_buffer (aget (g_frame_buffer s) (vram_cell s (scroll_v (ppu s))))
                                        (ppu s))) s).
Proof.
  intros s H. unfold in_nametable_space in H. apply andb_true_iff in H. destruct H as [H1 H2].
  unfold nes_ppu_cpu_read. cbv zeta. change (Z.land 7 7) with 7. cbv iota.
  unfold bind, gets, ppu_read_vram. cbv zeta.
  apply Z.leb_le in H1. apply Z.ltb_lt in H2.
  destruct (Z.ltb_spec (Z.land (scroll_v (ppu s)) 0x3FFF) 0x2000); [lia|].
  destruct (Z.ltb_spec (Z.land (scroll_v (ppu s)) 0x3FFF) 0x3F00); [|lia].
  destruct (Z.leb_spec 0x3F00 (Z.land (scroll_v (ppu s)) 0x3FFF)); [lia|].
  unfold bind, get, ret, mod_ppu, modify. cbn [set_ppu ppu]. reflexivity.
Qed.

(** C9. While the VRAM address [v] is in nametable space [$2000]-[$3EFF]:
    a store through [$2007] finishes, changes the PPU's [vram] array at
    one cell and advances [v] by the step that [PPUCTRL] selects, and
    changes nothing else; a load through [$2007] returns the data buffer
    and refills it from the static [g_frame_buffer], not from [vram];
    and whatever the machine does after the store (loads and stores of
    the CPU on the bus, among them every later [$2007] read, direct
    accesses to the PPU registers, CPU instructions, PPU dots, whole
    frames, resets, button events, a new cartridge, saves and loads of
    the state), everything it returns and the machine it leaves (the
    [vram] array apart) are the same for any two stored bytes: no later
    read observes the byte. *)
Theorem C9_nametable_store_is_never_read_back :
  forall s b1 b2 fuel d acts,
    in_nametable_space (scroll_v (ppu s)) = true ->
    (exists s1, nes_ppu_cpu_write 7 b1 s = Done (tt, s1)
                /\ vram (ppu s1) = aset (vram (ppu s)) (vram_cell s (scroll_v (ppu s))) (u8 b1)
                /\ forget_vram s1 = forget_vram (set_ppu (increment_vram_addr (ppu s)) s))
    /\ nes_ppu_cpu_read 7 s
       = Done (data_buffer (ppu s),
               set_ppu (increment_vram_addr
                          (set_data_buffer
                             (aget (g_frame_buffer s) (vram_cell s (scroll_v (ppu s)))) (ppu s))) s)
    /\ on_state forget_vram
         (bind (nes_ppu_cpu_write 7 b1) (fun _ => run_actions fuel d acts) s)
       = on_state forget_vram
         (bind (nes_ppu_cpu_write 7 b2) (fun _ => run_actions fuel d acts) s).
Proof.
  intros s b1 b2 fuel d acts H. split; [|split].
  - eexists. split; [apply ppudata_store_nametable; exact H|]. split; reflexivity.
  - apply ppudata_load_nametable. exact H.
  - unfold bind. rewrite !ppudata_store_nametable by exact H.
    apply run_actions_forget. reflexivity.
Qed.

Lemma C9_witness :
  in_nametable_space (scroll_v (ppu nametable_machine)) = true
  /\ value_of (bind (nes_ppu_cpu_write 7 0x55) (fun _ => run_actions 2 [] nametable_actions)
                    nametable_machine)
     = Some [0; 5; 0; 0; 0; 0; 0x33; 0; 0; 0; 0; 0x33]
  /\ (exists s1, nes_ppu_cpu_write 7 0x55 nametable_machine = Done (tt, s1)
                 /\ vram (ppu s1)
                    = aset (vram (ppu nametable_machine))
                           (vram_cell nametable_machine (scroll_v (ppu nametable_machine)))
                           (u8 0x55)
                 /\ forget_vram s1
                    = forget_vram (set_ppu (increment_vram_addr (ppu nametable_machine))
                                           nametable_machine))
  /\ nes_ppu_cpu_read 7 nametable_machine
     = Done (data_buffer (ppu nametable_machine),
             set_ppu (increment_vram_addr
                        (set_data_buffer
                           (aget (g_frame_buffer nametable_machine)
                                 (vram_cell nametable_machine
                                            (scroll_v (ppu nametable_machine))))
                           (ppu nametable_machine))) nametable_machine)
  /\ on_state forget_vram
       (bind (nes_ppu_cpu_write 7 0x55) (fun _ => run_actions 2 [] nametable_actions)
             nametable_machine)
     = on_state forget_vram
       (bind (nes_ppu_cpu_write 7 0xAA) (fun _ => run_actions 2 [] nametable_actions)
             nametable_machine).
Proof.
  split; [reflexivity|]. split; [vm_compute; reflexivity|].
  exact (C9_nametable_store_is_never_read_back nametable_machine 0x55 0xAA 2 []
           nametable_actions eq_refl).
Defined.

(** ** The IRQ latch (cpu/cpu.c, memory/bus.c)

    [nes_cpu_trigger_irq] has no caller, so [pending_irq] is only ever
    written with 0. Every function the driver reaches is shown to keep
    [irq_clear], and, in the same pass, to run the same whether the CPU
    loop it re-enters through the OAM DMA has the IRQ-dispatch branch or
    something else in its place. *)

Section Agree.
Variable P : nes_system_t -> Prop.

Lemma agree_ret : forall (A : Type) (a : A), agree P (ret a) (ret a).
Proof. intros A a s H. split; [reflexivity|]. intros a' s' E. inversion E; subst; exact H. Qed.

Lemma agree_bind :
  forall (A B : Type) (m1 m2 : Sys A) (k1 k2 : A -> Sys B),
    agree P m1 m2 -> (forall a, agree P (k1 a) (k2 a)) ->
    agree P (bind m1 k1) (bind m2 k2).
Proof.
  intros A B m1 m2 k1 k2 Hm Hk s H. unfold bind.
  destruct (Hm s H) as [E Hpost]. rewrite <- E.
  destruct (m1 s) as [[a s1]| |]; [|split; [reflexivity | discriminate] ..].
  apply Hk. apply (Hpost a s1). reflexivity.
Qed.

(** As [agree_bind] after a read of the state, keeping the link between
    the value read and the state. *)
Lemma agree_bind_gets :
  forall (A B : Type) (f : nes_system_t -> A) (k1 k2 : A -> Sys B),
    (forall s, P s ->
       k1 (f s) s = k2 (f s) s /\
       forall b s', k1 (f s) s = Done (b, s') -> P s') ->
    agree P (bind (gets f) k1) (bind (gets f) k2).
Proof. intros A B f k1 k2 H s Hs. unfold bind, gets. cbn. exact (H s Hs). Qed.

(** [m] establishes [P], what follows keeps it. *)
Lemma establish_bind :
  forall (A B : Type) (m : Sys A) (k1 k2 : A -> Sys B),
    (forall s a s', m s = Done (a, s') -> P s') ->
    (forall a, agree P (k1 a) (k2 a)) ->
    forall s,
      bind m k1 s = bind m k2 s /\
      forall b s', bind m k1 s = Done (b, s') -> P s'.
Proof.
  intros A B m k1 k2 Hm Hk s. unfold bind.
  destruct (m s) as [[a s1]| |] eqn:E.
  - exact (Hk a s1 (Hm s a s1 E)).
  - split; [reflexivity|]. intros b s' C. discriminate C.
  - split; [reflexivity|]. intros b s' C. discriminate C.
Qed.

Lemma agree_gets : forall (A : Type) (f : nes_system_t -> A), agree P (gets f) (gets f).
Proof. intros A f s H. split; [reflexivity|]. intros a s' E. inversion E; subst; exact H. Qed.

Lemma agree_get : agree P get get.
Proof. intros s H. split; [reflexivity|]. intros a s' E. inversion E; subst; exact H. Qed.

Lemma agree_lift : forall (A : Type) (r : result A), agree P (lift r) (lift r).
Proof.
  intros A r s H. split; [reflexivity|]. unfold lift. intros a s' E.
  destruct r; inversion E; subst; exact H.
Qed.

Lemma agree_modify :
  forall f, (forall s, P s -> P (f s)) -> agree P (modify f) (modify f).
Proof.
  intros f Hf s H. split; [reflexivity|]. intros a s' E. inversion E; subst. apply Hf, H.
Qed.

Lemma agree_when :
  forall b (m1 m2 : Sys unit), agree P m1 m2 -> agree P (when b m1) (when b m2).
Proof. intros b m1 m2 Hm. destruct b; [exact Hm | apply agree_ret]. Qed.

Lemma agree_out_of_fuel : forall (A : Type), agree P (@out_of_fuel _ A) out_of_fuel.
Proof. intros A s H. split; [reflexivity | discriminate]. Qed.

End Agree.

Lemma agree_mod_ppu : forall f, agree irq_clear (mod_ppu f) (mod_ppu f).
Proof. intros f. apply agree_modify. intros s H. exact H. Qed.

Lemma agree_mod_cpu :
  forall f, (forall c, pending_irq c = 0 -> pending_irq (f c) = 0) ->
            agree irq_clear (mod_cpu f) (mod_cpu f).
Proof. intros f Hf. apply agree_modify. intros s H. apply Hf, H. Qed.

(** The CPU helpers leave the latch alone. *)
Lemma pirq_set_flag :
  forall flag value c, pending_irq (nes_cpu_set_flag flag value c) = pending_irq c.
Proof. intros. unfold nes_cpu_set_flag. destruct (nz value); reflexivity. Qed.

Lemma pirq_update_zn : forall val c, pending_irq (nes_cpu_update_zn val c) = pending_irq c.
Proof. intros. unfold nes_cpu_update_zn. rewrite !pirq_set_flag. reflexivity. Qed.

Lemma pirq_compare : forall r m c, pending_irq (compare r m c) = pending_irq c.
Proof. intros. unfold compare. cbv zeta. rewrite !pirq_set_flag. reflexivity. Qed.

Lemma pirq_do_adc : forall v c, pending_irq (do_adc v c) = pending_irq c.
Proof.
  intros. unfold do_adc. cbv zeta. rewrite pirq_update_zn. cbn [pending_irq set_reg_a].
  rewrite !pirq_set_flag. reflexivity.
Qed.

Lemma pirq_do_sbc : forall v c, pending_irq (do_sbc v c) = pending_irq c.
Proof. intros. unfold do_sbc. apply pirq_do_adc. Qed.

Create Rewrite HintDb pirq.
#[local] Hint Rewrite pirq_set_flag pirq_update_zn pirq_compare pirq_do_adc pirq_do_sbc : pirq.

(** A register update leaves a clear latch clear. *)
Ltac cpu_frame :=
  intros; cbv beta zeta;
  repeat (autorewrite with pirq;
          cbn [pending_irq set_reg_pc set_reg_a set_reg_x set_reg_y set_reg_sp set_reg_p
               set_cycle_count set_pending_nmi set_pending_irq set_stall_cycles]);
  solve [reflexivity | assumption].

Create HintDb agree.

(** One step down the syntax of a monadic definition. *)
Ltac agree_step :=
  match goal with
  | |- forall _, _ => intro
  | |- agree _ (bind _ _) (bind _ _) => apply agree_bind
  | |- agree _ (ret _) (ret _) => apply agree_ret
  | |- agree _ (gets _) (gets _) => apply agree_gets
  | |- agree _ get get => apply agree_get
  | |- agree _ (lift _) (lift _) => apply agree_lift
  | |- agree _ (when _ _) (when _ _) => apply agree_when
  | |- agree _ (mod_ppu _) (mod_ppu _) => apply agree_mod_ppu
  | |- agree _ (mod_cpu _) (mod_cpu _) => apply agree_mod_cpu; cpu_frame
  | |- agree _ (modify _) (modify _) =>
      apply agree_modify; let s := fresh "s" in let H := fresh "H" in intros s H; exact H
  | |- agree _ out_of_fuel out_of_fuel => apply agree_out_of_fuel
  | |- agree _ (if ?b then _ else _) (if ?b then _ else _) => destruct b
  | |- agree _ (match ?x with _ => _ end) (match ?x with _ => _ end) => destruct x eqn:?
  | |- agree _ _ _ => solve [auto with agree]
  end.

Ltac agree_auto := cbv zeta; repeat agree_step.

Lemma agree_set_mirror : forall m, agree irq_clear (nes_ppu_set_mirror_mode m) (nes_ppu_set_mirror_mode m).
Proof. intros m. unfold nes_ppu_set_mirror_mode. agree_auto. Qed.
#[local] Hint Resolve agree_set_mirror : agree.

Lemma agree_mapper_1_write : forall m a v, agree irq_clear (mapper_1_write m a v) (mapper_1_write m a v).
Proof. intros. unfold mapper_1_write. agree_auto. Qed.
Lemma agree_mapper_2_cpu_write : forall m a v, agree irq_clear (mapper_2_cpu_write m a v) (mapper_2_cpu_write m a v).
Proof. intros. unfold mapper_2_cpu_write. agree_auto. Qed.
Lemma agree_mapper_3_cpu_write : forall m a v, agree irq_clear (mapper_3_cpu_write m a v) (mapper_3_cpu_write m a v).
Proof. intros. unfold mapper_3_cpu_write. agree_auto. Qed.
Lemma agree_mapper_4_write : forall m a v, agree irq_clear (mapper_4_write m a v) (mapper_4_write m a v).
Proof. intros. unfold mapper_4_write. agree_auto. Qed.
Lemma agree_mapper_7_cpu_write : forall m a v, agree irq_clear (mapper_7_cpu_write m a v) (mapper_7_cpu_write m a v).
Proof. intros. unfold mapper_7_cpu_write. agree_auto. Qed.
Lemma agree_mapper_4_cpu_read : forall m a, agree irq_clear (mapper_4_cpu_read m a) (mapper_4_cpu_read m a).
Proof. intros. unfold mapper_4_cpu_read. agree_auto. Qed.
#[local] Hint Resolve agree_mapper_1_write agree_mapper_2_cpu_write agree_mapper_3_cpu_write
  agree_mapper_4_write agree_mapper_7_cpu_write agree_mapper_4_cpu_read : agree.

Lemma agree_mapper_cpu_read :
  forall mp a rd, mapper_cpu_read mp a = Some rd -> agree irq_clear rd rd.
Proof.
  intros mp a rd E. destruct mp; cbn [mapper_cpu_read] in E; inversion E; subst; agree_auto.
Qed.

Lemma agree_mapper_cpu_write :
  forall mp a v wr, mapper_cpu_write mp a v = Some wr -> agree irq_clear wr wr.
Proof.
  intros mp a v wr E. destruct mp; cbn [mapper_cpu_write] in E; inversion E; subst; agree_auto.
Qed.

Lemma agree_sys_ppu_read : forall a, agree irq_clear (nes_sys_ppu_read a) (nes_sys_ppu_read a).
Proof. intros. unfold nes_sys_ppu_read. agree_auto. Qed.
Lemma agree_sys_ppu_write : forall a v, agree irq_clear (nes_sys_ppu_write a v) (nes_sys_ppu_write a v).
Proof. intros. unfold nes_sys_ppu_write. agree_auto. Qed.
#[local] Hint Resolve agree_sys_ppu_read agree_sys_ppu_write : agree.

Lemma agree_ppu_read_vram : forall a, agree irq_clear (ppu_read_vram a) (ppu_read_vram a).
Proof. intros. unfold ppu_read_vram. agree_auto. Qed.
Lemma agree_ppu_write_vram : forall a v, agree irq_clear (ppu_write_vram a v) (ppu_write_vram a v).
Proof. intros. unfold ppu_write_vram. agree_auto. Qed.
#[local] Hint Resolve agree_ppu_read_vram agree_ppu_write_vram : agree.

Lemma agree_fetch_tile_data : agree irq_clear fetch_tile_data fetch_tile_data.
Proof. unfold fetch_tile_data. agree_auto. Qed.
#[local] Hint Resolve agree_fetch_tile_data : agree.

Lemma agree_sprite_scan :
  forall sprs i x px sp, agree irq_clear (sprite_scan sprs i x px sp) (sprite_scan sprs i x px sp).
Proof.
  induction sprs as [|sprite rest IH]; intros; cbn [sprite_scan]; agree_auto; apply IH.
Qed.
#[local] Hint Resolve agree_sprite_scan : agree.

Lemma agree_render_dot : agree irq_clear render_dot render_dot.
Proof. unfold render_dot. agree_auto. Qed.
Lemma agree_fetch_cadence : agree irq_clear fetch_cadence fetch_cadence.
Proof. unfold fetch_cadence. agree_auto. Qed.
#[local] Hint Resolve agree_render_dot agree_fetch_cadence : agree.

Lemma agree_ppu_step : agree irq_clear nes_ppu_step nes_ppu_step.
Proof. unfold nes_ppu_step. agree_auto. Qed.

Lemma agree_ppu_cpu_write : forall a v, agree irq_clear (nes_ppu_cpu_write a v) (nes_ppu_cpu_write a v).
Proof. intros. unfold nes_ppu_cpu_write. agree_auto. Qed.
Lemma agree_ppu_cpu_read : forall a, agree irq_clear (nes_ppu_cpu_read a) (nes_ppu_cpu_read a).
Proof. intros. unfold nes_ppu_cpu_read. agree_auto. Qed.
#[local] Hint Resolve agree_ppu_step agree_ppu_cpu_write agree_ppu_cpu_read : agree.

Lemma agree_sys_cpu_read : forall a, agree irq_clear (nes_sys_cpu_read a) (nes_sys_cpu_read a).
Proof.
  intros. unfold nes_sys_cpu_read. agree_auto.
  all: try (eapply agree_mapper_cpu_read; eassumption).
Qed.

#[local] Hint Resolve agree_sys_cpu_read : agree.

Lemma agree_bus_read : forall a, agree irq_clear (bus_read a) (bus_read a).
Proof. intros. unfold bus_read. agree_auto. Qed.
#[local] Hint Resolve agree_bus_read : agree.
Lemma agree_fetch_operand : agree irq_clear fetch_operand fetch_operand.
Proof. unfold fetch_operand. agree_auto. Qed.
Lemma agree_read16 : forall a, agree irq_clear (read16 a) (read16 a).
Proof. intros. unfold read16. agree_auto. Qed.
Lemma agree_page_penalty : forall a b, agree irq_clear (page_penalty a b) (page_penalty a b).
Proof. intros. unfold page_penalty. agree_auto. Qed.
#[local] Hint Resolve agree_fetch_operand agree_read16 agree_page_penalty : agree.
Lemma agree_get_effective_address :
  forall mode, agree irq_clear (get_effective_address mode) (get_effective_address mode).
Proof. intros. unfold get_effective_address. agree_auto. Qed.
#[local] Hint Resolve agree_get_effective_address : agree.
Lemma agree_load_byte : forall mode, agree irq_clear (load_byte mode) (load_byte mode).
Proof. intros. unfold load_byte. agree_auto. Qed.
Lemma agree_pop : agree irq_clear nes_cpu_pop nes_cpu_pop.
Proof. unfold nes_cpu_pop. agree_auto. Qed.
#[local] Hint Resolve agree_load_byte agree_pop : agree.
Lemma agree_pop_word : agree irq_clear nes_cpu_pop_word nes_cpu_pop_word.
Proof. unfold nes_cpu_pop_word. agree_auto. Qed.
Lemma agree_do_branch : forall c, agree irq_clear (do_branch c) (do_branch c).
Proof. intros. unfold do_branch. agree_auto. Qed.
Lemma agree_flag : forall f, agree irq_clear (flag f) (flag f).
Proof. intros. unfold flag. agree_auto. Qed.
Lemma agree_not_flag : forall f, agree irq_clear (not_flag f) (not_flag f).
Proof. intros. unfold not_flag. agree_auto. Qed.
#[local] Hint Resolve agree_pop_word agree_do_branch agree_flag agree_not_flag : agree.

(** The functions that reach the OAM DMA, over two CPU loops that agree. *)
Section TwoCores.
Variables e1 e2 : Z -> Sys unit.
Hypothesis He : forall cycles, agree irq_clear (e1 cycles) (e2 cycles).

Lemma agree_oam_dma : forall page, agree irq_clear (nes_sys_oam_dma e1 page) (nes_sys_oam_dma e2 page).
Proof. intros. unfold nes_sys_oam_dma. agree_auto. Qed.
#[local] Hint Resolve agree_oam_dma : agree.

Lemma agree_sys_cpu_write :
  forall a v, agree irq_clear (nes_sys_cpu_write e1 a v) (nes_sys_cpu_write e2 a v).
Proof.
  intros. unfold nes_sys_cpu_write. agree_auto.
  all: try (eapply agree_mapper_cpu_write; eassumption).
Qed.
#[local] Hint Resolve agree_sys_cpu_write : agree.

Lemma agree_bus_write : forall a v, agree irq_clear (bus_write e1 a v) (bus_write e2 a v).
Proof. intros. unfold bus_write. agree_auto. Qed.
#[local] Hint Resolve agree_bus_write : agree.

Lemma agree_store_byte : forall m v, agree irq_clear (store_byte e1 m v) (store_byte e2 m v).
Proof. intros. unfold store_byte. agree_auto. Qed.
Lemma agree_push : forall v, agree irq_clear (nes_cpu_push e1 v) (nes_cpu_push e2 v).
Proof. intros. unfold nes_cpu_push. agree_auto. Qed.
#[local] Hint Resolve agree_store_byte agree_push : agree.
Lemma agree_push_word : forall v, agree irq_clear (nes_cpu_push_word e1 v) (nes_cpu_push_word e2 v).
Proof. intros. unfold nes_cpu_push_word. agree_auto. Qed.
#[local] Hint Resolve agree_push_word : agree.
Lemma agree_service_interrupt :
  forall v, agree irq_clear (service_interrupt e1 v) (service_interrupt e2 v).
Proof. intros. unfold service_interrupt. agree_auto. Qed.
Lemma agree_shift_memory :
  forall m f, agree irq_clear (shift_memory e1 m f) (shift_memory e2 m f).
Proof. intros. unfold shift_memory. agree_auto. Qed.
Lemma agree_shift_accumulator :
  forall f, agree irq_clear (shift_accumulator f) (shift_accumulator f).
Proof. intros. unfold shift_accumulator. agree_auto. Qed.
Lemma agree_step_memory :
  forall m d, agree irq_clear (step_memory e1 m d) (step_memory e2 m d).
Proof. intros. unfold step_memory. agree_auto. Qed.
#[local] Hint Resolve agree_service_interrupt agree_shift_memory agree_shift_accumulator agree_step_memory : agree.

Lemma agree_execute :
  forall i m, agree irq_clear (execute e1 i m) (execute e2 i m).
Proof. intros. destruct i; cbn [execute]; agree_auto. Qed.
#[local] Hint Resolve agree_execute : agree.

Lemma agree_step_body :
  forall irq1 irq2,
    agree irq_clear (nes_cpu_step_body e1 irq1) (nes_cpu_step_body e2 irq2).
Proof.
  intros irq1 irq2. unfold nes_cpu_step_body.
  apply agree_bind_gets. intros s H.
  red in H. rewrite H. change (nz 0) with false. cbn [andb].
  match goal with
  | |- ?m1 s = ?m2 s /\ _ => assert (A : agree irq_clear m1 m2); [|exact (A s H)]
  end.
  agree_auto.
Qed.

End TwoCores.

Lemma agree_execute_loop :
  forall step1 step2 : Sys Z,
    agree irq_clear step1 step2 ->
    forall n executed cycles,
      agree irq_clear (execute_loop step1 n executed cycles)
                      (execute_loop step2 n executed cycles).
Proof.
  intros step1 step2 Hstep. induction n as [|n IH]; intros executed cycles;
    cbn [execute_loop]; agree_auto.
Qed.

Lemma agree_step_with :
  forall irq_override fuel,
    agree irq_clear (nes_cpu_step_with irq_override fuel) (nes_cpu_step fuel).
Proof.
  intros irq_override. unfold nes_cpu_step.
  induction fuel as [|fuel IH]; cbn [nes_cpu_step_with].
  - apply agree_out_of_fuel.
  - cbv zeta. apply agree_step_body. intros cycles.
    apply agree_execute_loop. exact IH.
Qed.

Lemma agree_execute_cycles :
  forall irq_override fuel cycles,
    agree irq_clear
      (execute_loop (nes_cpu_step_with irq_override fuel) fuel 0 (u32 cycles))
      (nes_cpu_execute_cycles fuel cycles).
Proof.
  intros. unfold nes_cpu_execute_cycles. apply agree_execute_loop. apply agree_step_with.
Qed.

Lemma agree_frame_loop :
  forall e1 e2 : Z -> Sys unit,
    (forall cycles, agree irq_clear (e1 cycles) (e2 cycles)) ->
    forall n, agree irq_clear (frame_loop e1 n) (frame_loop e2 n).
Proof.
  intros e1 e2 He. induction n as [|n IH]; cbn [frame_loop]; agree_auto.
Qed.

Lemma agree_step_frame :
  forall irq_override fuel,
    agree irq_clear (nes_sys_step_frame_with irq_override fuel) (nes_sys_step_frame fuel).
Proof.
  intros. unfold nes_sys_step_frame_with, nes_sys_step_frame, step_frame_body.
  agree_auto. apply agree_frame_loop. intros cycles. apply agree_execute_cycles.
Qed.

Lemma agree_run_frames :
  forall irq_override fuel n,
    agree irq_clear (run_frames_with irq_override fuel n) (run_frames fuel n).
Proof.
  intros irq_override fuel. induction n as [|n IH]; cbn [run_frames_with run_frames];
    agree_auto. apply agree_step_frame.
Qed.

Lemma bind_mod_cpu :
  forall (A B : Type) (f : nes_cpu_t -> nes_cpu_t) (k1 : unit -> Sys A) (k2 : A -> Sys B) s,
    bind (bind (mod_cpu f) k1) k2 s = bind (k1 tt) k2 (set_cpu (f (cpu s)) s).
Proof. reflexivity. Qed.

Lemma reset_clears_irq :
  forall s u s', nes_sys_reset s = Done (u, s') -> irq_clear s'.
Proof.
  intros s u s'. unfold nes_sys_reset, nes_cpu_reset.
  rewrite bind_mod_cpu.
  match goal with
  | |- ?m ?s1 = _ -> _ =>
      assert (A : agree irq_clear m m) by agree_auto;
      assert (H1 : irq_clear s1) by reflexivity;
      intro E; exact (proj2 (A s1 H1) u s' E)
  end.
Qed.

Lemma agree_frame_prefix :
  forall irq_override fuel dots,
    agree irq_clear
      (frame_prefix
         (fun cycles =>
            execute_loop (nes_cpu_step_with irq_override fuel) fuel 0 (u32 cycles)) dots)
      (frame_prefix (nes_cpu_execute_cycles fuel) dots).
Proof.
  intros. unfold frame_prefix. agree_auto.
  apply agree_frame_loop. intros cycles. apply agree_execute_cycles.
Qed.

Lemma driver_run_agree :
  forall irq_override fuel frames dots s,
    driver_run irq_override fuel frames dots s =
    (nes_sys_reset ;;; run_frames fuel frames ;;;
     frame_prefix (nes_cpu_execute_cycles fuel) dots) s /\
    forall u s', driver_run irq_override fuel frames dots s = Done (u, s') -> irq_clear s'.
Proof.
  intros irq_override fuel frames dots s. unfold driver_run.
  apply (establish_bind irq_clear).
  - exact reset_clears_irq.
  - intros _. apply agree_bind; [apply agree_run_frames|intro; apply agree_frame_prefix].
Qed.

(** C10. In every execution of the driver that starts with [nes_sys_reset]
    -- any number of whole frames and any number of dots into the next
    one, from any machine and with any fuel -- the latch [pending_irq] is
    0 at the end, and the run is the same whatever stands in the place of
    the IRQ-dispatch branch of [nes_cpu_step]: that branch, the only
    reader of the vector at $FFFE besides BRK, is never entered. *)
Theorem C10_irq_latch_stays_clear :
  forall (fuel frames dots : nat) (branch : Sys Z) (s : nes_system_t),
    driver_run (Some branch) fuel frames dots s = driver_run None fuel frames dots s /\
    forall s', driver_run None fuel frames dots s = Done (tt, s') ->
               pending_irq (cpu s') = 0.
Proof.
  intros fuel frames dots branch s. split.
  - transitivity ((nes_sys_reset ;;; run_frames fuel frames ;;;
                   frame_prefix (nes_cpu_execute_cycles fuel) dots) s).
    + apply driver_run_agree.
    + symmetry. apply driver_run_agree.
  - intros s' E. exact (proj2 (driver_run_agree None fuel frames dots s) tt s' E).
Qed.

Lemma C10_witness :
  driver_run (Some faulting_branch) 8 0 12 jmp_machine = driver_run None 8 0 12 jmp_machine /\
  exists s', driver_run None 8 0 12 jmp_machine = Done (tt, s') /\ pending_irq (cpu s') = 0.
Proof.
  split; [apply (C10_irq_latch_stays_clear 8 0 12 faulting_branch jmp_machine)|].
  destruct (driver_run None 8 0 12 jmp_machine) as [[[] s']| |] eqn:E.
  - exists s'. split; [reflexivity|].
    apply (proj2 (C10_irq_latch_stays_clear 8 0 12 faulting_branch jmp_machine)).
    exact E.
  - apply (f_equal state_of) in E. apply (f_equal (option_map (fun s => reg_pc (cpu s)))) in E.
    vm_compute in E. discriminate E.
  - apply (f_equal state_of) in E. apply (f_equal (option_map (fun s => reg_pc (cpu s)))) in E.
    vm_compute in E. discriminate E.
Defined.

(** ** Arrays *)

Lemma list_set_length : forall (A : Type) (l : list A) n v, length (list_set l n v) = length l.
Proof.
  intros A l. induction l as [|h t IH]; intros [|n] v; cbn; try reflexivity.
  rewrite IH. reflexivity.
Qed.

Lemma list_set_nth_same :
  forall (A : Type) (l : list A) n v d, (n < length l)%nat -> nth n (list_set l n v) d = v.
Proof.
  intros A l. induction l as [|h t IH]; intros [|n] v d H; cbn in *; try lia; try reflexivity.
  apply IH. lia.
Qed.

Lemma list_set_nth_other :
  forall (A : Type) (l : list A) n m v d, n <> m -> nth m (list_set l n v) d = nth m l d.
Proof.
  intros A l. induction l as [|h t IH]; intros [|n] [|m] v d H; cbn; try reflexivity; try congruence.
  apply IH. congruence.
Qed.

Lemma aset_length : forall l i v, length (aset l i v) = length l.
Proof. intros. unfold aset. destruct (i <? 0); [reflexivity | apply list_set_length]. Qed.

Lemma aget_aset_same :
  forall l i v, 0 <= i < Z.of_nat (length l) -> aget (aset l i v) i = v.
Proof.
  intros l i v H. unfold aget, aset. destruct (Z.ltb_spec i 0); [lia|].
  apply list_set_nth_same. lia.
Qed.

Lemma aget_aset_other :
  forall l i j v, 0 <= i -> 0 <= j -> i <> j -> aget (aset l i v) j = aget l j.
Proof.
  intros l i j v Hi Hj H. unfold aget, aset. destruct (Z.ltb_spec i 0); [lia|].
  apply list_set_nth_other. intro E. apply H. apply Z2Nat.inj in E; lia.
Qed.

Lemma land_1_cases : forall v, Z.land v 1 = 0 \/ Z.land v 1 = 1.
Proof.
  intros v. change (Z.land v 1) with (Z.land v (Z.ones 1)).
  rewrite Z.land_ones by lia. change (2 ^ 1) with 2.
  pose proof (Z.mod_pos_bound v 2 ltac:(lia)). lia.
Qed.

(** ** Controllers, continued (input/input.c) *)

Lemma input_shape_rows :
  forall input, input_shape input ->
    exists r0 r1, buttons input = [r0; r1] /\ length r0 = 8%nat /\ length r1 = 8%nat.
Proof.
  intros input (Hb & Hr & _). destruct (buttons input) as [|r0 [|r1 [|r2 rest]]]; try discriminate.
  exists r0, r1. split; [reflexivity|]. split; apply Hr; cbn; auto.
Qed.

Lemma input_shape_index :
  forall input, input_shape input -> exists i0 i1, read_index input = [i0; i1].
Proof.
  intros input (_ & _ & Hi). destruct (read_index input) as [|i0 [|i1 [|i2 rest]]]; try discriminate.
  exists i0, i1. reflexivity.
Qed.

Lemma set_button_shape :
  forall input c b p, input_shape input -> input_shape (nes_input_set_button input c b p).
Proof.
  intros input c b p H. unfold nes_input_set_button.
  destruct (_ && _) eqn:V; [|exact H].
  destruct (input_shape_rows input H) as (r0 & r1 & E & L0 & L1).
  destruct H as (_ & _ & Hi). unfold input_shape. rewrite E. cbn [buttons read_index].
  destruct (c =? 0) eqn:C; (split; [reflexivity|]); (split; [|exact Hi]);
    intros row [<-|[<-|[]]]; cbn [nth]; rewrite ?aset_length;
    try assumption.
  - apply Z.eqb_eq in C. subst c. cbn. exact L0.
  - assert (Z.to_nat c = 1%nat) as ->.
    { apply Z.eqb_neq in C. repeat (apply andb_prop in V; destruct V as [V ?]).
      apply Z.leb_le in V. apply Z.ltb_lt in H1. lia. }
    cbn. exact L1.
Qed.

Lemma read_shape :
  forall input c, input_shape input -> input_shape (snd (nes_input_read input c)).
Proof.
  intros input c H. unfold nes_input_read.
  destruct (nz (strobe input)); [exact H|].
  destruct (_ <? NUM_BUTTONS); [|exact H]. cbn [snd].
  destruct H as (Hb & Hr & Hi). repeat split; cbn [buttons read_index]; try assumption.
  rewrite aset_length. exact Hi.
Qed.

Lemma write_strobe_shape :
  forall input v, input_shape input -> input_shape (nes_input_write_strobe input v).
Proof.
  intros input v (Hb & Hr & Hi). unfold nes_input_write_strobe. cbv zeta.
  repeat split; cbn [buttons read_index]; try assumption.
  destruct (_ && _); [reflexivity | exact Hi].
Qed.

Lemma input_init_ok : input_ok nes_input_init.
Proof.
  unfold input_ok, input_shape, nes_input_init. cbn [buttons strobe read_index].
  split; [split; [reflexivity|split; [|reflexivity]]|split; [left; reflexivity|split]].
  - intros row [<-|[<-|[]]]; reflexivity.
  - intros cid [->| ->]; change (0 <= 0 <= 8); lia.
  - reflexivity.
Qed.

Lemma input_reset_ok : forall i, input_ok i -> input_ok (nes_input_reset i).
Proof.
  intros i ((Hb & Hr & Hi) & _). unfold input_ok, input_shape, nes_input_reset.
  cbn [buttons strobe read_index].
  split; [split; [exact Hb|split; [exact Hr|reflexivity]]|split; [left; reflexivity|split]].
  - intros cid [->| ->]; change (0 <= 0 <= 8); lia.
  - reflexivity.
Qed.

Lemma input_set_button_ok :
  forall i c b p, input_ok i -> input_ok (nes_input_set_button i c b p).
Proof.
  intros i c b p (Hs & Hst & Hidx & Hz).
  pose proof (set_button_shape i c b p Hs) as Hs'.
  unfold nes_input_set_button in *.
  destruct (_ && _); [|split; [exact Hs|split; [exact Hst|split; [exact Hidx|exact Hz]]]].
  split; [exact Hs'|]. cbv zeta. cbn [strobe read_index].
  split; [exact Hst|split; [exact Hidx|exact Hz]].
Qed.

Lemma input_write_strobe_ok :
  forall i v, input_ok i -> input_ok (nes_input_write_strobe i v).
Proof.
  intros i v (Hs & Hst & Hidx & Hz).
  split; [apply write_strobe_shape; exact Hs|].
  unfold nes_input_write_strobe. cbv zeta. cbn [strobe read_index].
  pose proof (land_1_cases v) as B.
  split; [exact B|].
  destruct B as [B|B]; rewrite B; cbn [nz Z.eqb negb andb].
  - split; [exact Hidx | discriminate].
  - destruct Hst as [E|E]; rewrite E; cbn [nz Z.eqb negb].
    + split; [|reflexivity]. intros cid [->| ->]; change (0 <= 0 <= 8); lia.
    + split; [exact Hidx | intros _; exact (Hz E)].
Qed.

Lemma input_read_ok : forall i c, input_ok i -> input_ok (snd (nes_input_read i c)).
Proof.
  intros i c (Hs & Hst & Hidx & Hz).
  split; [apply read_shape; exact Hs|].
  unfold nes_input_read. cbv zeta.
  set (cid := if c =? 0 then 0 else 1).
  assert (Hc : cid = 0 \/ cid = 1) by (subst cid; destruct (c =? 0); auto).
  destruct (nz (strobe i)) eqn:S; cbn [snd]; [split; [exact Hst|split; [exact Hidx|exact Hz]]|].
  unfold NUM_BUTTONS.
  destruct (Z.ltb_spec (aget (read_index i) cid) 8) as [L|L]; cbn [snd strobe read_index];
    [|split; [exact Hst|split; [exact Hidx|exact Hz]]].
  assert (E : strobe i = 0).
  { unfold nz in S. apply negb_false_iff in S. apply Z.eqb_eq in S. exact S. }
  split; [left; exact E|]. split; [|intro C; rewrite E in C; discriminate C].
  destruct (input_shape_index i Hs) as (i0 & i1 & Ei).
  pose proof (Hidx cid Hc) as B.
  intros cid' Hc'.
  assert (U : u8 (aget (read_index i) cid + 1) = aget (read_index i) cid + 1)
    by (unfold u8; apply Z.mod_small; lia).
  rewrite U.
  destruct (Z.eq_dec cid cid') as [<-|N].
  - rewrite aget_aset_same by (rewrite Ei; cbn [length]; lia). lia.
  - rewrite aget_aset_other by lia. apply Hidx. exact Hc'.
Qed.

(** X1. Every controller state the API produces from [nes_input_init] has
    its strobe at 0 or 1 and both read indices between 0 and 8 (the
    8-bit index never wraps, so an exhausted port stays exhausted), and
    the indices are 0 whenever the strobe is high. *)
Theorem input_reachable_ok : forall i, input_reachable i -> input_ok i.
Proof.
  intros i H. induction H.
  - exact input_init_ok.
  - apply input_reset_ok. assumption.
  - apply input_set_button_ok. assumption.
  - apply input_write_strobe_ok. assumption.
  - apply input_read_ok. assumption.
Qed.

Lemma input_reachable_ok_witness :
  input_ok (snd (nes_input_read
                   (nes_input_write_strobe
                      (nes_input_write_strobe (nes_input_set_button nes_input_init 0 3 1) 1) 0) 0)).
Proof.
  apply input_reachable_ok.
  apply in_read, in_write_strobe, in_write_strobe, in_set_button, in_init.
Defined.

Lemma pad_reads_exhausted :
  forall n input c,
    strobe input = 0 ->
    8 <= aget (read_index input) (if c =? 0 then 0 else 1) ->
    pad_reads n input c = (repeat 0x40 n, input).
Proof.
  induction n as [|n IH]; intros input c Hs Hi; cbn [pad_reads repeat]; [reflexivity|].
  rewrite (input_read_exhausted input c Hs Hi). cbn [fst snd].
  rewrite (IH input c Hs Hi). reflexivity.
Qed.

Lemma pad_reads_from :
  forall r n input c,
    (r <= 8)%nat ->
    input_shape input -> strobe input = 0 -> (c = 0 \/ c = 1) ->
    aget (read_index input) c = 8 - Z.of_nat r ->
    fst (pad_reads (r + n) input c)
    = map (pad_bit input c) (map Z.of_nat (seq (8 - r) r)) ++ repeat 0x40 n.
Proof.
  induction r as [|r IH]; intros n input c Hr Hsh Hs Hc Hi.
  - cbn [Nat.add seq map app]. rewrite pad_reads_exhausted; [reflexivity|exact Hs|].
    destruct Hc; subst c; cbn [Z.eqb]; lia.
  - cbn [Nat.add pad_reads seq map app fst snd].
    rewrite (input_read_shifts input c Hs Hc) by lia. cbn [fst snd].
    rewrite Hi. replace (8 - Z.of_nat (S r)) with (Z.of_nat (8 - S r)) by lia.
    f_equal.
    set (input' := mk_input _ _ _).
    replace (S (8 - S r)) with (8 - r)%nat by lia.
    assert (Hsh' : input_shape input').
    { destruct Hsh as (Hb & Hrow & Hidx). subst input'. repeat split; cbn [buttons read_index];
        try assumption. rewrite aset_length. exact Hidx. }
    rewrite (IH n input' c ltac:(lia) Hsh' eq_refl Hc).
    + reflexivity.
    + subst input'. cbn [read_index].
      destruct (input_shape_index input Hsh) as (i0 & i1 & Ei).
      rewrite aget_aset_same by (rewrite Ei; cbn [length]; destruct Hc; subst c; lia).
      unfold u8. rewrite Z.mod_small by lia. lia.
Qed.

(** X2. After the strobe was written 1 and then 0, from any controller
    state the API can produce, the next eight reads of a port return the
    buttons A, B, Select, Start, Up, Down, Left, Right of that controller
    (bit 0, with bit 6 set) and every further read returns [0x40]. *)
Theorem strobe_pulse_then_reads :
  forall i c n,
    input_reachable i -> (c = 0 \/ c = 1) ->
    fst (pad_reads (8 + n) (nes_input_write_strobe (nes_input_write_strobe i 1) 0) c)
    = map (pad_bit i c) [0; 1; 2; 3; 4; 5; 6; 7] ++ repeat 0x40 n.
Proof.
  intros i c n H Hc.
  assert (Hok : input_ok i).
  { clear - H. induction H;
      [ exact input_init_ok | apply input_reset_ok | apply input_set_button_ok
      | apply input_write_strobe_ok | apply input_read_ok ]; assumption. }
  pose proof (input_write_strobe_ok i 1 Hok) as (Hsh1 & _ & _ & Hz1).
  set (i1 := nes_input_write_strobe i 1) in *.
  assert (S1 : strobe i1 = 1) by reflexivity.
  specialize (Hz1 S1).
  set (i2 := nes_input_write_strobe i1 0).
  assert (E2 : i2 = mk_input (buttons i) 0 [0; 0]).
  { subst i2. unfold nes_input_write_strobe at 1. cbv zeta. rewrite Hz1.
    change (Z.land 0 1) with 0. cbn [nz Z.eqb negb andb]. reflexivity. }
  rewrite (pad_reads_from 8 n i2 c (le_n 8)).
  - rewrite E2. reflexivity.
  - rewrite E2. destruct Hsh1 as (Hb & Hr & _). repeat split; cbn [buttons read_index]; auto.
  - rewrite E2. reflexivity.
  - exact Hc.
  - rewrite E2. destruct Hc; subst c; reflexivity.
Qed.

Lemma strobe_pulse_then_reads_witness :
  fst (pad_reads (8 + 2)
         (nes_input_write_strobe
            (nes_input_write_strobe
               (snd (nes_input_read (nes_input_set_button nes_input_init 0 3 1) 0)) 1) 0) 0)
  = map (pad_bit (snd (nes_input_read (nes_input_set_button nes_input_init 0 3 1) 0)) 0)
        [0; 1; 2; 3; 4; 5; 6; 7] ++ repeat 0x40 2.
Proof.
  apply strobe_pulse_then_reads.
  - apply in_read, in_set_button, in_init.
  - left. reflexivity.
Defined.

(** X3. [nes_input_set_button] followed by [nes_input_get_button]: a
    valid controller and button read back as pressed (1) or released (0),
    every other button reads as before, and a controller or button out
    of range changes nothing. *)
Theorem set_button_get_button :
  forall i c b p c' b',
    input_shape i ->
    nes_input_get_button (nes_input_set_button i c b p) c' b'
    = if (0 <=? c) && (c <? 2) && (0 <=? b) && (b <? 8) && (c =? c') && (b =? b')
      then b2z (nz p)
      else nes_input_get_button i c' b'.
Proof.
  intros i c b p c' b' Hsh.
  destruct (input_shape_rows i Hsh) as (r0 & r1 & E & L0 & L1).
  unfold nes_input_set_button, nes_input_get_button, NUM_BUTTONS.
  destruct ((0 <=? c) && (c <? 2) && (0 <=? b) && (b <? 8)) eqn:V; cbn [andb]; [|reflexivity].
  apply andb_prop in V. destruct V as [V Vb2]. apply andb_prop in V. destruct V as [V Vb1].
  apply andb_prop in V. destruct V as [Vc1 Vc2].
  apply Z.leb_le in Vc1, Vb1. apply Z.ltb_lt in Vc2, Vb2.
  destruct ((0 <=? c') && (c' <? 2) && (0 <=? b') && (b' <? 8)) eqn:V'.
  2:{ destruct ((c =? c') && (b =? b')) eqn:Q; [|reflexivity].
      apply andb_prop in Q. destruct Q as [Q1 Q2]. apply Z.eqb_eq in Q1, Q2. subst c' b'.
      exfalso. revert V'.
      destruct (Z.leb_spec 0 c); [|lia]. destruct (Z.ltb_spec c 2); [|lia].
      destruct (Z.leb_spec 0 b); [|lia]. destruct (Z.ltb_spec b 8); [|lia]. discriminate. }
  apply andb_prop in V'. destruct V' as [V' Wb2]. apply andb_prop in V'. destruct V' as [V' Wb1].
  apply andb_prop in V'. destruct V' as [Wc1 Wc2].
  apply Z.leb_le in Wc1, Wb1. apply Z.ltb_lt in Wc2, Wb2.
  unfold button_at. rewrite E. cbv zeta.
  assert (Cc : c = 0 \/ c = 1) by lia. assert (Cc' : c' = 0 \/ c' = 1) by lia.
  destruct Cc as [-> | ->], Cc' as [-> | ->];
    change (Z.to_nat 0) with 0%nat; change (Z.to_nat 1) with 1%nat;
    cbn [Z.eqb nth buttons andb]; try reflexivity.
  - destruct (Z.eqb_spec b b') as [<-|N].
    + rewrite aget_aset_same by lia. destruct (nz p); reflexivity.
    + rewrite aget_aset_other by lia. reflexivity.
  - destruct (Z.eqb_spec b b') as [<-|N].
    + rewrite aget_aset_same by lia. destruct (nz p); reflexivity.
    + rewrite aget_aset_other by lia. reflexivity.
Qed.

Lemma set_button_get_button_witness :
  nes_input_get_button (nes_input_set_button nes_input_init 1 6 5) 1 6 = 1
  /\ nes_input_get_button (nes_input_set_button nes_input_init 1 6 5) 0 6 = 0
  /\ nes_input_get_button (nes_input_set_button nes_input_init 2 6 5) 1 6 = 0.
Proof.
  assert (S : input_shape nes_input_init) by exact (proj1 input_init_ok).
  split; [|split].
  - exact (set_button_get_button nes_input_init 1 6 5 1 6 S).
  - exact (set_button_get_button nes_input_init 1 6 5 0 6 S).
  - exact (set_button_get_button nes_input_init 2 6 5 1 6 S).
Defined.

(** ** The audio unit, continued (apu/apu.c) *)

Lemma land_bounds : forall v m, 0 <= m -> 0 <= Z.land v m <= m.
Proof.
  intros v m Hm. apply Z.ldiff_le; [exact Hm|].
  apply Z.bits_inj'. intros n Hn. rewrite Z.ldiff_spec, Z.land_spec, Z.bits_0.
  destruct (Z.testbit m n), (Z.testbit v n); reflexivity.
Qed.

Lemma envelope_clock_ok : forall env, envelope_ok env -> envelope_ok (envelope_clock env).
Proof.
  intros env [Hv Hd]. unfold envelope_ok, envelope_clock. cbv zeta.
  destruct (nz (env_start env)); [cbn; lia|].
  destruct (env_divider env =? 0); [|cbn; lia].
  cbn [decay_level set_env_divider env_volume].
  destruct (Z.ltb_spec 0 (decay_level env)); [cbn; lia|].
  destruct (nz (env_loop _)); cbn; lia.
Qed.

Lemma write_square_ctrl_ok :
  forall val sq, envelope_ok (sq_envelope sq) -> envelope_ok (sq_envelope (write_square_ctrl val sq)).
Proof.
  intros val sq [Hv Hd]. unfold envelope_ok, write_square_ctrl. cbv zeta. cbn.
  pose proof (land_bounds val 15 ltac:(lia)). lia.
Qed.

Lemma triangle_clock_linear_seq :
  forall tri, sequencing (triangle_clock_linear tri) = sequencing tri.
Proof.
  intros tri. unfold triangle_clock_linear. cbv zeta.
  repeat match goal with |- context [if ?b then _ else _] => destruct b end; reflexivity.
Qed.

Lemma frame_clock_parts :
  forall apu step,
    let env := fun e => if (step =? 0) || (step =? 2) then envelope_clock e else e in
    sq_envelope (square1 (frame_clock apu step)) = env (sq_envelope (square1 apu))
    /\ sq_envelope (square2 (frame_clock apu step)) = env (sq_envelope (square2 apu))
    /\ noise_envelope (noise (frame_clock apu step)) = env (noise_envelope (noise apu))
    /\ sequencing (triangle (frame_clock apu step)) = sequencing (triangle apu)
    /\ dmc (frame_clock apu step) = dmc apu
    /\ duty (square1 (frame_clock apu step)) = duty (square1 apu)
    /\ duty_index (square1 (frame_clock apu step)) = duty_index (square1 apu)
    /\ duty (square2 (frame_clock apu step)) = duty (square2 apu)
    /\ duty_index (square2 (frame_clock apu step)) = duty_index (square2 apu).
Proof.
  intros apu step. unfold frame_clock. cbv zeta.
  destruct ((step =? 0) || (step =? 2)); destruct (step =? 1); cbn;
    rewrite ?triangle_clock_linear_seq; repeat split; reflexivity.
Qed.

Lemma frame_clock_levels :
  forall apu step, apu_levels_ok apu -> apu_levels_ok (frame_clock apu step).
Proof.
  intros apu step ((H1 & D1 & I1) & (H2 & D2 & I2) & H3 & H4 & H5).
  destruct (frame_clock_parts apu step) as (E1 & E2 & E3 & E4 & E5 & E6 & E7 & E8 & E9).
  unfold apu_levels_ok, square_ok. rewrite E1, E2, E3, E4, E5, E6, E7, E8, E9.
  destruct ((step =? 0) || (step =? 2));
    (split; [split; [|split]|split; [split; [|split]|split; [|split]]]);
    try apply envelope_clock_ok; assumption.
Qed.

Lemma dmc_clock_shifter_output :
  forall d, 0 <= dmc_output d <= 127 -> 0 <= dmc_output (dmc_clock_shifter d) <= 127.
Proof.
  intros d H. unfold dmc_clock_shifter. cbv zeta.
  destruct (nz (silence d)); [exact H|].
  destruct (tst (shift_register d) 1).
  - destruct (Z.leb_spec (dmc_output d) 125); cbn; lia.
  - destruct (Z.leb_spec 2 (dmc_output d)); cbn; lia.
Qed.

Lemma dmc_clock_reader_output :
  forall bus d, dmc_output (dmc_clock_reader bus d) = dmc_output d.
Proof.
  intros bus d. unfold dmc_clock_reader. cbv zeta.
  destruct (negb _); [reflexivity|]. destruct (_ =? 0).
  - destruct (nz _); reflexivity.
  - destruct bus; reflexivity.
Qed.

Lemma dmc_timer_clock_output :
  forall bus d, 0 <= dmc_output d <= 127 -> 0 <= dmc_output (dmc_timer_clock bus d) <= 127.
Proof.
  intros bus d H. unfold dmc_timer_clock. cbv zeta.
  destruct (dmc_timer_value d =? 0); [|exact H].
  apply dmc_clock_shifter_output.
  cbn [bits_remaining set_dmc_timer_value].
  destruct (bits_remaining d =? 0); [|exact H].
  cbn [sample_buffer_empty set_bits_remaining set_dmc_timer_value].
  destruct (nz (sample_buffer_empty d)); [exact H|].
  rewrite dmc_clock_reader_output. exact H.
Qed.

Lemma triangle_timer_clock_seq :
  forall tri, 0 <= sequencing tri <= 31 -> 0 <= sequencing (triangle_timer_clock tri) <= 31.
Proof.
  intros tri H. unfold triangle_timer_clock. cbv zeta.
  destruct (tri_timer_value tri =? 0); [|exact H].
  destruct (_ && _); [|exact H]. cbn [sequencing set_sequencing set_tri_timer_value].
  apply land_bounds. lia.
Qed.

Lemma square_timer_clock_ok : forall sq, square_ok sq -> square_ok (square_timer_clock sq).
Proof.
  intros sq (He & Hd & Hi). unfold square_ok, square_timer_clock.
  destruct (_ =? 0); cbn [sq_envelope duty duty_index set_duty_index set_sq_timer_value];
    (split; [exact He|split; [exact Hd|]]); [apply land_bounds; lia|exact Hi].
Qed.

Lemma noise_timer_clock_envelope :
  forall n, noise_envelope (noise_timer_clock n) = noise_envelope n.
Proof.
  intros n. unfold noise_timer_clock. cbv zeta. destruct (_ =? 0); [|reflexivity].
  destruct (nz _); reflexivity.
Qed.

Lemma apu_step_levels :
  forall bus apu, apu_levels_ok apu -> apu_levels_ok (nes_apu_step bus apu).
Proof.
  intros bus apu (H1 & H2 & H3 & H4 & H5). unfold nes_apu_step. cbv zeta.
  match goal with
  | |- context [set_dmc ?d ?a] => set (a5 := set_dmc d a)
  end.
  assert (L : apu_levels_ok a5).
  { subst a5. unfold apu_levels_ok.
    cbn [square1 square2 noise triangle dmc set_dmc set_noise set_triangle set_square1 set_square2
         set_frame_cycle set_apu_cycle_count].
    rewrite noise_timer_clock_envelope.
    split; [apply square_timer_clock_ok; exact H1|].
    split; [apply square_timer_clock_ok; exact H2|].
    split; [exact H3|split].
    - apply triangle_timer_clock_seq. exact H4.
    - apply dmc_timer_clock_output. exact H5. }
  clearbody a5.
  assert (Z0 : forall a, apu_levels_ok a -> apu_levels_ok (set_apu_cycle_count 0 a)).
  { intros a Ha. exact Ha. }
  repeat match goal with |- context [if ?b then _ else _] => destruct b end;
    try apply Z0; try apply frame_clock_levels; exact L.
Qed.

Lemma apu_write_levels :
  forall apu addr val, apu_levels_ok apu -> apu_levels_ok (nes_apu_cpu_write apu addr val).
Proof.
  intros apu addr val H. unfold nes_apu_cpu_write. cbv zeta.
  pose proof (land_bounds (u8 val) 0x0F ltac:(lia)) as B15.
  pose proof (land_bounds (u8 val) 0x7F ltac:(lia)) as B127.
  pose proof (land_bounds (Z.shiftr (u8 val) 6) 3 ltac:(lia)) as B3.
  destruct (u16 addr) as [|p|p]; try exact H.
  repeat (destruct p as [p|p|]; try exact H).
  all: try (destruct (nz _); [apply frame_clock_levels|]).
  all: repeat match goal with |- context [if tst ?v ?m then _ else _] => destruct (tst v m) end.
  all: destruct H as ((H1 & D1 & I1) & (H2 & D2 & I2) & H3 & H4 & H5);
       unfold apu_levels_ok, square_ok, envelope_ok in *;
       unfold write_square_ctrl, write_square_sweep, write_square_timer, write_square_length;
       cbv zeta;
       set (d3 := Z.land (Z.shiftr (u8 val) 6) 3) in *; clearbody d3;
       cbn; repeat match goal with |- context [if ?b then _ else _] => destruct b end;
       cbn; lia.
Qed.

(** A boolean check run over [0 .. n-1] holds at every index below [n]. *)
Lemma forall_below :
  forall (P : Z -> bool) n,
    forallb P (map Z.of_nat (seq 0 n)) = true ->
    forall k, 0 <= k < Z.of_nat n -> P k = true.
Proof.
  intros P n H k Hk. rewrite forallb_forall in H. apply H.
  apply in_map_iff. exists (Z.to_nat k). split; [lia|]. apply in_seq. lia.
Qed.

Lemma triangle_seq_bound : forall k, 0 <= k <= 31 -> 0 <= aget g_triangle_seq k <= 15.
Proof.
  intros k Hk.
  pose proof (forall_below (fun k => (0 <=? aget g_triangle_seq k) && (aget g_triangle_seq k <=? 15))
                32 eq_refl k ltac:(lia)) as B.
  cbv beta in B. apply andb_prop in B. destruct B as [B1 B2].
  apply Z.leb_le in B1, B2. lia.
Qed.

Lemma apu_reachable_levels : forall bus apu, apu_reachable bus apu -> apu_levels_ok apu.
Proof.
  intros bus apu H. induction H.
  - unfold apu_levels_ok, square_ok, envelope_ok. cbn. lia.
  - unfold apu_levels_ok, square_ok, envelope_ok. cbn. lia.
  - apply apu_step_levels. assumption.
  - apply apu_write_levels. assumption.
Qed.

(** X4. In every APU state reachable from [nes_apu_init] or
    [nes_apu_reset] by clock ticks and register writes, the channel
    outputs stay in range: a square channel gives 0 or 1, the triangle
    and the noise channel at most 15, the DMC level at most 127. *)
Theorem apu_outputs_bounded :
  forall bus apu channel,
    apu_reachable bus apu ->
    0 <= nes_apu_square_output apu channel <= 1
    /\ 0 <= nes_apu_triangle_output apu <= 15
    /\ 0 <= nes_apu_noise_output apu <= 15
    /\ 0 <= nes_apu_dmc_output apu <= 127.
Proof.
  intros bus apu channel H. apply apu_reachable_levels in H.
  destruct H as (_ & _ & (H3v & H3d) & H4 & H5).
  split; [|split; [|split; [|exact H5]]].
  - unfold nes_apu_square_output, square_output.
    repeat match goal with |- context [if ?b then _ else _] => destruct b end; lia.
  - unfold nes_apu_triangle_output, triangle_output.
    destruct (_ =? 0); [lia|]. destruct (_ =? 0); [lia|]. apply triangle_seq_bound. exact H4.
  - unfold nes_apu_noise_output, noise_output, envelope_output.
    destruct (_ =? 0); [lia|]. destruct (_ =? 0); [lia|]. destruct (nz _); lia.
Qed.

Lemma apu_outputs_bounded_witness :
  0 <= nes_apu_square_output
         (nes_apu_step None (nes_apu_cpu_write (nes_apu_cpu_write nes_apu_init 0x4011 0xFF) 0x400C 0x3F)) 0 <= 1
  /\ 0 <= nes_apu_triangle_output
         (nes_apu_step None (nes_apu_cpu_write (nes_apu_cpu_write nes_apu_init 0x4011 0xFF) 0x400C 0x3F)) <= 15
  /\ 0 <= nes_apu_noise_output
         (nes_apu_step None (nes_apu_cpu_write (nes_apu_cpu_write nes_apu_init 0x4011 0xFF) 0x400C 0x3F)) <= 15
  /\ 0 <= nes_apu_dmc_output
         (nes_apu_step None (nes_apu_cpu_write (nes_apu_cpu_write nes_apu_init 0x4011 0xFF) 0x400C 0x3F)) <= 127.
Proof.
  apply (apu_outputs_bounded None).
  apply reach_step, reach_write, reach_write, reach_init.
Defined.

Lemma land_pow2_testbit :
  forall v k, 0 <= k -> Z.land v (2 ^ k) = if Z.testbit v k then 2 ^ k else 0.
Proof.
  intros v k Hk. apply Z.bits_inj'. intros n Hn.
  rewrite Z.land_spec, Z.pow2_bits_eqb by exact Hk.
  destruct (Z.eqb_spec k n) as [<-|N].
  - destruct (Z.testbit v k); [rewrite Z.pow2_bits_true by exact Hk; reflexivity|].
    rewrite Z.bits_0. reflexivity.
  - rewrite andb_false_r. destruct (Z.testbit v k); [|rewrite Z.bits_0; reflexivity].
    rewrite Z.pow2_bits_false by exact N. reflexivity.
Qed.

Lemma tst_testbit : forall v k, 0 <= k -> tst v (2 ^ k) = Z.testbit v k.
Proof.
  intros v k Hk. unfold tst, nz. rewrite land_pow2_testbit by exact Hk.
  destruct (Z.testbit v k); [|reflexivity].
  destruct (Z.eqb_spec (2 ^ k) 0) as [E|N]; [|reflexivity].
  pose proof (Z.pow_pos_nonneg 2 k ltac:(lia) Hk). lia.
Qed.

(** X5. A store to [$4015] acts on the status a load of [$4015] returns:
    each of the four length-counter bits stays set only if it was set and
    the stored byte has the bit set, and storing the DMC bit clear clears
    the DMC bit. *)
Theorem apu_status_after_enable_write :
  forall apu val,
    0 <= val <= 255 ->
    (forall k, 0 <= k <= 3 ->
       Z.testbit (nes_apu_cpu_read (nes_apu_cpu_write apu 0x4015 val) 0x4015) k
       = Z.testbit (nes_apu_cpu_read apu 0x4015) k && Z.testbit val k)
    /\ (Z.testbit val 4 = false ->
        Z.testbit (nes_apu_cpu_read (nes_apu_cpu_write apu 0x4015 val) 0x4015) 4 = false).
Proof.
  intros apu val Hv.
  assert (U : u8 val = val) by (unfold u8; apply Z.mod_small; lia).
  unfold nes_apu_cpu_write. rewrite U. change (u16 0x4015) with 0x4015. cbv iota zeta.
  assert (T0 : tst val 1 = Z.testbit val 0) by exact (tst_testbit val 0 ltac:(lia)).
  assert (T1 : tst val 2 = Z.testbit val 1) by exact (tst_testbit val 1 ltac:(lia)).
  assert (T2 : tst val 4 = Z.testbit val 2) by exact (tst_testbit val 2 ltac:(lia)).
  assert (T3 : tst val 8 = Z.testbit val 3) by exact (tst_testbit val 3 ltac:(lia)).
  assert (T4 : tst val 0x10 = Z.testbit val 4) by exact (tst_testbit val 4 ltac:(lia)).
  rewrite T0, T1, T2, T3, T4. clear T0 T1 T2 T3 T4.
  unfold nes_apu_cpu_read. change (u16 0x4015) with 0x4015. cbv iota zeta.
  change (0x4015 =? 0x4015) with true. cbv iota.
  split.
  - intros k Hk. assert (C : k = 0 \/ k = 1 \/ k = 2 \/ k = 3) by lia.
    destruct C as [->|[->|[->| ->]]];
    destruct (Z.testbit val 0), (Z.testbit val 1), (Z.testbit val 2), (Z.testbit val 3),
      (Z.testbit val 4);
      cbn [square1 square2 triangle noise dmc set_square1 set_square2 set_triangle set_noise set_dmc
           sq_length_counter set_sq_length_counter tri_length_counter set_tri_length_counter
           noise_length_counter set_noise_length_counter bytes_remaining set_bytes_remaining
           set_dmc_enabled set_current_addr];
      change (0 <? 0) with false; cbv iota;
      repeat match goal with |- context [if ?b then _ else _] => destruct b end;
      reflexivity.
  - intros V4. rewrite V4.
    destruct (Z.testbit val 0), (Z.testbit val 1), (Z.testbit val 2), (Z.testbit val 3);
      cbn [square1 square2 triangle noise dmc set_square1 set_square2 set_triangle set_noise set_dmc
           sq_length_counter set_sq_length_counter tri_length_counter set_tri_length_counter
           noise_length_counter set_noise_length_counter bytes_remaining set_bytes_remaining
           set_dmc_enabled set_current_addr];
      change (0 <? 0) with false; cbv iota;
      repeat match goal with |- context [if ?b then _ else _] => destruct b end;
      reflexivity.
Qed.

Lemma apu_status_after_enable_write_witness :
  (forall k, 0 <= k <= 3 ->
     Z.testbit (nes_apu_cpu_read
                  (nes_apu_cpu_write (nes_apu_cpu_write nes_apu_init 0x4003 0x08) 0x4015 0x0E) 0x4015) k
     = Z.testbit (nes_apu_cpu_read (nes_apu_cpu_write nes_apu_init 0x4003 0x08) 0x4015) k
       && Z.testbit 0x0E k)
  /\ (Z.testbit 0x0E 4 = false ->
      Z.testbit (nes_apu_cpu_read
                   (nes_apu_cpu_write (nes_apu_cpu_write nes_apu_init 0x4003 0x08) 0x4015 0x0E) 0x4015) 4
      = false).
Proof.
  apply (apu_status_after_enable_write (nes_apu_cpu_write nes_apu_init 0x4003 0x08) 0x0E). lia.
Defined.

Lemma length_table_positive : forall k, 0 <= k <= 31 -> 0 < aget g_length_table k.
Proof.
  intros k Hk.
  pose proof (forall_below (fun k => 0 <? aget g_length_table k) 32 eq_refl k ltac:(lia)) as B.
  apply Z.ltb_lt in B. exact B.
Qed.

(** X6. A store to a length-counter register ([$4003], [$4007], [$400B],
    [$400F]) loads a nonzero count whatever byte is stored and whether or
    not the channel is enabled, so the next load of [$4015] reports the
    channel as active. *)
Theorem apu_length_load_sets_status :
  forall apu val,
    Z.testbit (nes_apu_cpu_read (nes_apu_cpu_write apu 0x4003 val) 0x4015) 0 = true
    /\ Z.testbit (nes_apu_cpu_read (nes_apu_cpu_write apu 0x4007 val) 0x4015) 1 = true
    /\ Z.testbit (nes_apu_cpu_read (nes_apu_cpu_write apu 0x400B val) 0x4015) 2 = true
    /\ Z.testbit (nes_apu_cpu_read (nes_apu_cpu_write apu 0x400F val) 0x4015) 3 = true.
Proof.
  intros apu val.
  pose proof (length_table_positive (Z.land (Z.shiftr (u8 val) 3) 0x1F)
                (land_bounds _ 0x1F ltac:(lia))) as P.
  apply Z.ltb_lt in P.
  set (idx := Z.land (Z.shiftr (u8 val) 3) 0x1F) in *.
  unfold nes_apu_cpu_write, nes_apu_cpu_read, write_square_length. cbv zeta.
  change (u16 0x4003) with 0x4003. change (u16 0x4007) with 0x4007.
  change (u16 0x400B) with 0x400B. change (u16 0x400F) with 0x400F.
  change (u16 0x4015) with 0x4015. cbv iota. change (0x4015 =? 0x4015) with true. cbv iota.
  cbn [square1 square2 triangle noise dmc set_square1 set_square2 set_triangle set_noise
       sq_length_counter set_sq_length_counter set_sq_timer_period set_sq_envelope set_duty_index
       tri_length_counter set_tri_length_counter set_tri_timer_period set_linear_counter_reload_flag
       noise_length_counter set_noise_length_counter set_noise_envelope].
  fold idx. rewrite P.
  repeat split;
    repeat match goal with |- context [if ?b then _ else _] => destruct b end; reflexivity.
Qed.

Lemma frame_clock_counters :
  forall apu step,
    frame (frame_clock apu step) = frame apu
    /\ apu_cycle_count (frame_clock apu step) = apu_cycle_count apu.
Proof.
  intros apu step. unfold frame_clock. cbv zeta.
  destruct ((step =? 0) || (step =? 2)); destruct (step =? 1); split; reflexivity.
Qed.

Lemma apu_step_counter :
  forall bus apu,
    let period := if fc_mode (frame apu) =? 0 then 14916 else 18642 in
    0 <= apu_cycle_count apu < 2 ^ 32 ->
    frame (nes_apu_step bus apu) = frame apu
    /\ apu_cycle_count (nes_apu_step bus apu)
       = (if apu_cycle_count apu <? period then (apu_cycle_count apu + 1) mod period
          else u32 (apu_cycle_count apu + 1)).
Proof.
  intros bus apu period H. unfold nes_apu_step. cbv zeta.
  match goal with
  | |- context [set_dmc ?d ?a] => set (a5 := set_dmc d a)
  end.
  assert (F : frame a5 = frame apu) by reflexivity.
  assert (C : apu_cycle_count a5 = u32 (apu_cycle_count apu + 1)) by reflexivity.
  clearbody a5. rewrite F. subst period.
  destruct (fc_mode (frame apu) =? 0);
    match goal with
    | |- context [apu_cycle_count apu <? ?p] => destruct (Z.ltb_spec (apu_cycle_count apu) p)
    end;
    repeat match goal with
           | |- context [if ?x =? ?y then _ else _] => destruct (Z.eqb_spec x y)
           end;
    try lia;
    cbn [frame apu_cycle_count set_apu_cycle_count];
    rewrite ?(proj1 (frame_clock_counters _ _)), ?(proj2 (frame_clock_counters _ _)), ?F, ?C;
    (split; [reflexivity|]);
    try reflexivity;
    try (unfold u32; rewrite !Z.mod_small by lia; reflexivity);
    try (match goal with E : apu_cycle_count apu = _ |- _ => rewrite E end; reflexivity).
Qed.

(** Where the cycle counter stands [n] cycles after it stood at [c], for
    a sequencer period [p]. *)
Lemma counter_after_step :
  forall p c n,
    0 < p < 2 ^ 32 -> 0 <= c < 2 ^ 32 -> 0 <= n ->
    let c1 := if c <? p then (c + 1) mod p else u32 (c + 1) in
    0 <= c1 < 2 ^ 32
    /\ (if c1 <? p then (c1 + n) mod p
        else if c1 + n <? 2 ^ 32 then c1 + n else (c1 + n - 2 ^ 32) mod p)
       = (if c <? p then (c + (n + 1)) mod p
          else if c + (n + 1) <? 2 ^ 32 then c + (n + 1) else (c + (n + 1) - 2 ^ 32) mod p).
Proof.
  intros p c n Hp Hc Hn c1. subst c1.
  destruct (Z.ltb_spec c p) as [L|G].
  - pose proof (Z.mod_pos_bound (c + 1) p ltac:(lia)) as B.
    split; [lia|].
    destruct (Z.ltb_spec ((c + 1) mod p) p); [|lia].
    rewrite Zplus_mod_idemp_l. f_equal. lia.
  - unfold u32. change 4294967296 with (2 ^ 32).
    destruct (Z.eq_dec (c + 1) (2 ^ 32)) as [E|N].
    + rewrite E, Z.mod_same by lia. split; [lia|].
      destruct (Z.ltb_spec 0 p); [|lia].
      destruct (Z.ltb_spec (c + (n + 1)) (2 ^ 32)); [lia|].
      f_equal. lia.
    + rewrite Z.mod_small by lia. split; [lia|].
      destruct (Z.ltb_spec (c + 1) p); [lia|].
      replace (c + 1 + n) with (c + (n + 1)) by lia. reflexivity.
Qed.

(** X7. The frame sequencer: APU cycles leave the mode alone, and [n] of
    them take a cycle counter [c] below the period of the mode (14916 in
    4-step mode, 18642 in 5-step mode) to [(c + n)] modulo the period. A
    counter at or above the period, which a switch from 5-step to 4-step
    mode through [$4017] leaves behind when it comes after cycle 14915,
    is not folded back: it counts on up to [2^32], wraps to 0 there, and
    only then runs with the period. *)
Theorem apu_frame_counter_period :
  forall bus cycles apu,
    0 <= cycles ->
    0 <= apu_cycle_count apu < 2 ^ 32 ->
    let period := if fc_mode (frame apu) =? 0 then 14916 else 18642 in
    let c := apu_cycle_count apu in
    frame (nes_apu_execute_cycles bus apu cycles) = frame apu
    /\ apu_cycle_count (nes_apu_execute_cycles bus apu cycles)
       = (if c <? period then (c + cycles) mod period
          else if c + cycles <? 2 ^ 32 then c + cycles
          else (c + cycles - 2 ^ 32) mod period).
Proof.
  intros bus cycles apu Hc. unfold nes_apu_execute_cycles. cbv zeta.
  assert (E : cycles = Z.of_nat (Z.to_nat cycles)) by lia.
  revert E. generalize (Z.to_nat cycles) as n. intros n E. subst cycles. clear Hc.
  revert apu. induction n as [|n IH]; intros apu H.
  - cbn [apu_run]. split; [reflexivity|]. change (Z.of_nat 0) with 0. rewrite !Z.add_0_r.
    destruct (Z.ltb_spec (apu_cycle_count apu) (if fc_mode (frame apu) =? 0 then 14916 else 18642)).
    + rewrite Z.mod_small by lia. reflexivity.
    + destruct (Z.ltb_spec (apu_cycle_count apu) (2 ^ 32)); [reflexivity | lia].
  - cbn [apu_run]. destruct (apu_step_counter bus apu H) as [F C].
    assert (P : 0 < (if fc_mode (frame apu) =? 0 then 14916 else 18642) < 2 ^ 32)
      by (destruct (_ =? 0); lia).
    destruct (counter_after_step _ (apu_cycle_count apu) (Z.of_nat n) P H ltac:(lia)) as [R E].
    rewrite <- C in R, E.
    destruct (IH (nes_apu_step bus apu) R) as [F' C'].
    rewrite F', C', F. split; [reflexivity|].
    rewrite E. replace (Z.of_nat (S n)) with (Z.of_nat n + 1) by lia. reflexivity.
Qed.

Lemma apu_frame_counter_period_witness :
  let apu := nes_apu_cpu_write
               (nes_apu_execute_cycles None (nes_apu_cpu_write nes_apu_init 0x4017 0x80) 15000)
               0x4017 0x00 in
  fc_mode (frame apu) = 0
  /\ apu_cycle_count apu = 15000
  /\ frame (nes_apu_execute_cycles None apu 20000) = frame apu
  /\ apu_cycle_count (nes_apu_execute_cycles None apu 20000)
     = (if 15000 <? 14916 then (15000 + 20000) mod 14916
        else if 15000 + 20000 <? 2 ^ 32 then 15000 + 20000
        else (15000 + 20000 - 2 ^ 32) mod 14916).
Proof.
  intros apu.
  assert (M : fc_mode (frame apu) = 0) by (vm_compute; reflexivity).
  assert (C : apu_cycle_count apu = 15000) by (vm_compute; reflexivity).
  split; [exact M|]. split; [exact C|].
  pose proof (apu_frame_counter_period None 20000 apu) as T.
  cbv zeta in T. rewrite M, C in T. apply T; lia.
Defined.

Lemma land_1_testbit : forall x, Z.land x 1 = if Z.testbit x 0 then 1 else 0.
Proof. intros x. exact (land_pow2_testbit x 0 ltac:(lia)). Qed.

Lemma shiftr_land_pow2 :
  forall l k, 0 <= k -> Z.shiftr (Z.land l (2 ^ k)) k = Z.land (Z.shiftr l k) 1.
Proof.
  intros l k Hk. rewrite land_pow2_testbit by exact Hk. rewrite land_1_testbit.
  rewrite Z.shiftr_spec by lia. rewrite Z.add_0_l.
  destruct (Z.testbit l k); [|apply Z.shiftr_0_l].
  rewrite Z.shiftr_div_pow2 by exact Hk. apply Z.div_same.
  pose proof (Z.pow_pos_nonneg 2 k ltac:(lia) Hk). lia.
Qed.

(** X8. The exported helpers against the noise timer: with the mode flag
    clear (the long sequence, taps 0 and 1) [noise_timer_clock] takes the
    step [apu_lfsr_short] computes, and with the mode flag set (taps 0
    and 6) the step [apu_lfsr_long] computes: the two helpers carry each
    other's name. *)
Theorem noise_step_matches_lfsr_helpers :
  forall ns,
    noise_timer_value ns = 0 ->
    lfsr (noise_timer_clock ns)
    = if nz (noise_mode ns) then apu_lfsr_long (lfsr ns) else apu_lfsr_short (lfsr ns).
Proof.
  intros ns H. unfold noise_timer_clock, apu_lfsr_long, apu_lfsr_short. rewrite H.
  change (0 =? 0) with true. cbv iota zeta.
  destruct (nz (noise_mode ns)); cbn [lfsr set_lfsr set_noise_timer_value].
  - change 0x40 with (2 ^ 6). rewrite shiftr_land_pow2 by lia.
    rewrite !land_1_testbit.
    destruct (Z.testbit (lfsr ns) 0), (Z.testbit (Z.shiftr (lfsr ns) 6) 0); reflexivity.
  - change (Z.land (lfsr ns) 2) with (Z.land (lfsr ns) (2 ^ 1)).
    rewrite shiftr_land_pow2 by lia.
    rewrite !land_1_testbit.
    destruct (Z.testbit (lfsr ns) 0), (Z.testbit (Z.shiftr (lfsr ns) 1) 0); reflexivity.
Qed.

Lemma noise_step_matches_lfsr_helpers_witness :
  lfsr (noise_timer_clock (noise nes_apu_init))
  = if nz (noise_mode (noise nes_apu_init))
    then apu_lfsr_long (lfsr (noise nes_apu_init))
    else apu_lfsr_short (lfsr (noise nes_apu_init)).
Proof. apply noise_step_matches_lfsr_helpers. reflexivity. Defined.

(** ** The iNES loader, continued (cartridge/rom.c) *)

Ltac info_simpl :=
  cbv beta iota delta
    [mapper_number prg_rom_banks chr_rom_banks has_chrram has_battery has_trainer mirroring
     fourscreen vs_unisystem playchoice is_nes_2_0 is_pal info_prg_rom_size info_chr_rom_size
     set_mapper_number set_prg_rom_banks set_chr_rom_banks set_has_chrram set_has_battery
     set_has_trainer set_mirroring set_fourscreen set_vs_unisystem set_playchoice set_is_nes_2_0
     set_is_pal set_info_prg_rom_size set_info_chr_rom_size].

Ltac cart_simpl :=
  cbv beta iota delta
    [info prg_rom chr_rom prg_ram prg_rom_size chr_rom_size prg_ram_size
     set_info set_prg_rom set_chr_rom set_prg_ram set_prg_rom_size set_chr_rom_size
     set_prg_ram_size].

(** The [info] member [parse_header] computes depends on the header and
    on the members it does not assign. *)
Lemma parse_header_ok :
  forall alloc h cart cart',
    parse_header alloc h cart = (NES_ROM_OK, cart') ->
    bytes_eqb (magic h) NES_MAGIC = true
    /\ mapper_number (info cart')
       = u8 (Z.lor (Z.shiftl (Z.shiftr (Z.land (flags7 h) 0xF0) 4) 4)
                   (Z.shiftr (Z.land (flags6 h) 0xF0) 4))
    /\ prg_rom_banks (info cart') = hdr_prg_rom_size h
    /\ info_prg_rom_size (info cart') = hdr_prg_rom_size h * 16384
    /\ info_chr_rom_size (info cart') = chr_rom_banks (info cart') * 8192
    /\ (Z.land (flags7 h) 0x0C <> 0x0C -> chr_rom_banks (info cart') = hdr_chr_rom_size h)
    /\ has_chrram (info cart') = b2z (chr_rom_banks (info cart') =? 0)
    /\ has_trainer (info cart') = b2z (tst (flags6 h) 0x04)
    /\ has_battery (info cart') = b2z (tst (flags6 h) 0x02)
    /\ mirroring (info cart')
       = (if tst (flags6 h) 0x08 then MIRROR_FOUR_SCREEN
          else if tst (flags6 h) 0x01 then MIRROR_VERTICAL else MIRROR_HORIZONTAL)
    /\ prg_rom_size cart' = prg_rom_size cart
    /\ chr_rom_size cart'
       = (if 0 <? info_chr_rom_size (info cart') then chr_rom_size cart else 8192)
    /\ prg_ram_size cart' = 8192.
Proof.
  intros alloc h cart cart'. unfold parse_header. cbv zeta.
  destruct (bytes_eqb (magic h) NES_MAGIC) eqn:M; cbv beta iota delta [negb]; [|discriminate].
  match goal with |- context [set_info ?i cart] => set (I := i) end.
  assert (HI : mapper_number I
               = u8 (Z.lor (Z.shiftl (Z.shiftr (Z.land (flags7 h) 0xF0) 4) 4)
                           (Z.shiftr (Z.land (flags6 h) 0xF0) 4))
               /\ prg_rom_banks I = hdr_prg_rom_size h
               /\ info_prg_rom_size I = hdr_prg_rom_size h * 16384
               /\ info_chr_rom_size I = chr_rom_banks I * 8192
               /\ (Z.land (flags7 h) 0x0C <> 0x0C -> chr_rom_banks I = hdr_chr_rom_size h)
               /\ has_chrram I = b2z (chr_rom_banks I =? 0)
               /\ has_trainer I = b2z (tst (flags6 h) 0x04)
               /\ has_battery I = b2z (tst (flags6 h) 0x02)
               /\ mirroring I
                  = (if tst (flags6 h) 0x08 then MIRROR_FOUR_SCREEN
                     else if tst (flags6 h) 0x01 then MIRROR_VERTICAL else MIRROR_HORIZONTAL)).
  { subst I.
    unfold FLAGS6_MAPPER_LO, FLAGS7_MAPPER_HI, FLAGS7_NES_2_0, FLAGS6_FOUR_SCREEN,
      FLAGS6_MIRROR_MASK, FLAGS6_BATTERY, FLAGS6_TRAINER, NES_PRG_ROM_SIZE, NES_CHR_ROM_SIZE.
    destruct (Z.eqb_spec (Z.land (flags7 h) 12) 12) as [N2|N2];
      [change (nz (b2z true)) with true | change (nz (b2z false)) with false];
      destruct (tst (flags6 h) 8); destruct (tst (flags6 h) 1); info_simpl;
      repeat split; try reflexivity; intros C; exfalso; apply C; exact N2. }
  clearbody I.
  match goal with |- context [set_prg_rom ?b ?c] => generalize b; intros pb end.
  cart_simpl.
  destruct pb as [l|]; [|discriminate].
  unfold PRG_RAM_SIZE, NES_CHR_ROM_SIZE.
  destruct (0 <? info_chr_rom_size I) eqn:B; cart_simpl;
    (match goal with |- context [match ?x with Some _ => _ | None => _ end] => destruct x end;
     [|discriminate]);
    intros H; apply (f_equal snd) in H; cbv beta iota delta [snd] in H; subst cart'; cart_simpl;
    rewrite B; (split; [reflexivity|]);
    destruct HI as (H1 & H2 & H3 & H4 & H5 & H6 & H7 & H8 & H9);
    repeat (split; [assumption|]); repeat split.
Qed.

(** What [parse_header] allocates. *)
Lemma parse_header_buffers :
  forall alloc h cart cart',
    parse_header alloc h cart = (NES_ROM_OK, cart') ->
    (info_chr_rom_size (info cart') <= 0 -> chr_rom cart' = Some (repeat 0 (Z.to_nat 8192)))
    /\ prg_ram cart' = fresh_block alloc 8192.
Proof.
  intros alloc h cart cart'. unfold parse_header. cbv zeta.
  destruct (bytes_eqb (magic h) NES_MAGIC) eqn:M; cbv beta iota delta [negb]; [|discriminate].
  match goal with |- context [set_info ?i cart] => set (I := i) end.
  clearbody I.
  match goal with |- context [set_prg_rom ?b ?c] => generalize b; intros pb end.
  cart_simpl.
  destruct pb as [l|]; [|discriminate].
  unfold PRG_RAM_SIZE, NES_CHR_ROM_SIZE.
  destruct (0 <? info_chr_rom_size I) eqn:B; cart_simpl.
  - destruct (fresh_block alloc (info_chr_rom_size I)); [|discriminate].
    intros H; apply (f_equal snd) in H; cbv beta iota delta [snd] in H; subst cart'; cart_simpl.
    split; [|reflexivity]. apply Z.ltb_lt in B. intros C. exfalso. lia.
  - unfold fresh_block at 1 2. destruct (alloc 8192); [|discriminate].
    intros H; apply (f_equal snd) in H; cbv beta iota delta [snd] in H; subst cart'; cart_simpl.
    split; reflexivity.
Qed.

(** The CHR bank count [parse_header] stores. *)
Lemma parse_header_chr_banks :
  forall alloc h cart cart',
    parse_header alloc h cart = (NES_ROM_OK, cart') ->
    chr_rom_banks (info cart')
    = (if Z.land (flags7 h) 0x0C =? 0x0C
       then Z.lor (Z.shiftl (u8 (Z.land (Z.shiftr (hdr_chr_rom_size h) 4) 0xF0)) 4)
                  (Z.land (hdr_chr_rom_size h) 0x0F)
       else hdr_chr_rom_size h).
Proof.
  intros alloc h cart cart'. unfold parse_header. cbv zeta.
  destruct (bytes_eqb (magic h) NES_MAGIC) eqn:M; cbv beta iota delta [negb]; [|discriminate].
  match goal with |- context [set_info ?i cart] => set (I := i) end.
  assert (HI : chr_rom_banks I
               = (if Z.land (flags7 h) 0x0C =? 0x0C
                  then Z.lor (Z.shiftl (u8 (Z.land (Z.shiftr (hdr_chr_rom_size h) 4) 0xF0)) 4)
                             (Z.land (hdr_chr_rom_size h) 0x0F)
                  else hdr_chr_rom_size h)).
  { subst I. unfold FLAGS7_NES_2_0.
    destruct (Z.land (flags7 h) 12 =? 12);
      [change (nz (b2z true)) with true | change (nz (b2z false)) with false];
      destruct (tst (flags6 h) FLAGS6_FOUR_SCREEN); destruct (tst (flags6 h) FLAGS6_MIRROR_MASK);
      info_simpl; reflexivity. }
  clearbody I.
  match goal with |- context [set_prg_rom ?b ?c] => generalize b; intros pb end.
  cart_simpl.
  destruct pb as [l|]; [|discriminate].
  destruct (0 <? info_chr_rom_size I) eqn:B; cart_simpl;
    (match goal with |- context [match ?x with Some _ => _ | None => _ end] => destruct x end;
     [|discriminate]);
    intros H; apply (f_equal snd) in H; cbv beta iota delta [snd] in H; subst cart'; cart_simpl;
    exact HI.
Qed.

Lemma slice_length :
  forall data off n,
    0 <= off -> 0 <= n -> off + n <= Z.of_nat (length data) ->
    Z.of_nat (length (slice data off n)) = n.
Proof.
  intros data off n Ho Hn Hl. unfold slice.
  rewrite length_firstn, length_skipn. lia.
Qed.

(** The members of a cartridge after a successful load. *)
Lemma load_memory_ok :
  forall alloc cart data cart',
    nes_cartridge_load_memory alloc cart data = (NES_ROM_OK, cart') ->
    let h := header_of_bytes data in
    let psz := hdr_prg_rom_size h * 16384 in
    let csz := chr_rom_banks (info cart') * 8192 in
    exists c1,
      parse_header alloc h cart = (NES_ROM_OK, c1)
      /\ info cart' = info c1
      /\ prg_offset (flags6 h) + psz + csz <= Z.of_nat (length data)
      /\ prg_rom cart' = Some (slice data (prg_offset (flags6 h)) psz)
      /\ chr_rom cart'
         = (if 0 <? chr_rom_banks (info cart')
            then Some (slice data (prg_offset (flags6 h) + psz) csz)
            else Some (repeat 0 (Z.to_nat 8192)))
      /\ prg_ram cart' = fresh_block alloc 8192
      /\ prg_rom_size cart' = prg_rom_size cart
      /\ chr_rom_size cart' = (if 0 <? chr_rom_banks (info cart') then chr_rom_size cart else 8192)
      /\ prg_ram_size cart' = 8192.
Proof.
  intros alloc cart data cart'. unfold nes_cartridge_load_memory. cbv zeta.
  destruct (Z.of_nat (length data) <? NES_ROM_HEADER_SIZE); [discriminate|].
  destruct (parse_header alloc (header_of_bytes data) cart) as [r c1] eqn:P.
  destruct r; try discriminate.
  pose proof (parse_header_ok _ _ _ _ P)
    as (_ & _ & _ & H3 & H4 & _ & _ & H7 & _ & _ & H10 & H11 & H12).
  pose proof (parse_header_buffers _ _ _ _ P) as (B1 & B2).
  rewrite H3, H4, H7 in *.
  unfold prg_offset, FLAGS6_TRAINER, NES_ROM_HEADER_SIZE.
  assert (T : nz (b2z (tst (flags6 (header_of_bytes data)) 4))
              = tst (flags6 (header_of_bytes data)) 4) by (destruct (tst _ _); reflexivity).
  rewrite T.
  match goal with |- context [if ?c then (NES_ROM_ERROR_TRUNCATED, _) else _] =>
    destruct c eqn:L end; [discriminate|].
  apply Z.ltb_ge in L.
  intros H; apply (f_equal snd) in H; cbv beta iota delta [snd] in H; subst cart'.
  exists c1. split; [reflexivity|].
  cbn [info set_prg_rom].
  destruct (0 <? chr_rom_banks (info c1)) eqn:C;
    cbn [info set_prg_rom set_chr_rom prg_rom chr_rom prg_ram prg_rom_size chr_rom_size
         prg_ram_size]; rewrite ?C.
  - rewrite H4 in *.
    assert (Z0 : (0 <? chr_rom_banks (info c1) * 8192) = true)
      by (apply Z.ltb_lt in C; apply Z.ltb_lt; lia).
    rewrite Z0 in *.
    split; [reflexivity|]. split; [destruct (tst _ _); lia|].
    split; [destruct (tst _ _); reflexivity|].
    split; [destruct (tst _ _); reflexivity|].
    repeat split; assumption.
  - apply Z.ltb_ge in C.
    assert (Z0 : (0 <? chr_rom_banks (info c1) * 8192) = false) by (apply Z.ltb_ge; lia).
    rewrite Z0 in H11.
    split; [reflexivity|]. split; [destruct (tst _ _); lia|].
    split; [destruct (tst _ _); reflexivity|].
    split; [apply B1; lia|].
    repeat split; assumption.
Qed.

Lemma bytes_eqb_eq : forall a b, bytes_eqb a b = true <-> a = b.
Proof.
  unfold bytes_eqb. induction a as [|x a IH]; destruct b as [|y b]; cbn; split; intros H;
    try reflexivity; try discriminate.
  - apply andb_prop in H. destruct H as [H1 H2]. apply andb_prop in H2. destruct H2 as [H2 H3].
    apply Z.eqb_eq in H2. subst y. f_equal. apply IH. rewrite H1. exact H3.
  - injection H as -> ->. rewrite Z.eqb_refl. cbn.
    destruct (IH b) as [_ I]. specialize (I eq_refl). exact I.
Qed.

(** X9. The loader refuses an image shorter than a header, or one that does
    not start with the bytes [NES^Z], before it touches the cartridge:
    the cartridge it was given is returned as it was. *)
Theorem load_memory_rejects :
  forall alloc cart data,
    Z.of_nat (length data) < 16 \/ firstn 4 data <> [0x4E; 0x45; 0x53; 0x1A] ->
    nes_cartridge_load_memory alloc cart data
    = (if Z.of_nat (length data) <? 16 then NES_ROM_ERROR_TRUNCATED
       else NES_ROM_ERROR_INVALID_HEADER, cart).
Proof.
  intros alloc cart data H. unfold nes_cartridge_load_memory. cbv zeta.
  unfold NES_ROM_HEADER_SIZE.
  destruct (Z.of_nat (length data) <? 16) eqn:L; [reflexivity|].
  destruct H as [H|H]; [apply Z.ltb_ge in L; lia|].
  unfold parse_header.
  change (magic (header_of_bytes data)) with (firstn 4 data).
  destruct (bytes_eqb (firstn 4 data) NES_MAGIC) eqn:B.
  - apply bytes_eqb_eq in B. contradiction.
  - reflexivity.
Qed.

Lemma load_memory_rejects_witness :
  nes_cartridge_load_memory always_alloc nes_cartridge_init [0x4E; 0x45; 0x53]
  = (NES_ROM_ERROR_TRUNCATED, nes_cartridge_init)
  /\ nes_cartridge_load_memory always_alloc nes_cartridge_init (repeat 0x4E 16)
     = (NES_ROM_ERROR_INVALID_HEADER, nes_cartridge_init).
Proof.
  split.
  - apply (load_memory_rejects always_alloc nes_cartridge_init [0x4E; 0x45; 0x53]).
    left. cbn. lia.
  - apply (load_memory_rejects always_alloc nes_cartridge_init (repeat 0x4E 16)).
    right. cbn. discriminate.
Defined.

(** The mapper number the loader assembles is the high nibble of flags 7
    over the high nibble of flags 6. *)
Lemma mapper_nibbles :
  forall f6 f7,
    0 <= f6 <= 255 -> 0 <= f7 <= 255 ->
    u8 (Z.lor (Z.shiftl (Z.shiftr (Z.land f7 0xF0) 4) 4) (Z.shiftr (Z.land f6 0xF0) 4))
    = Z.lor (Z.land f7 0xF0) (Z.shiftr f6 4).
Proof.
  intros f6 f7 H6 H7.
  pose proof (forall_below
                (fun f => (Z.shiftl (Z.shiftr (Z.land f 0xF0) 4) 4 =? Z.land f 0xF0)
                          && (Z.shiftr (Z.land f 0xF0) 4 =? Z.shiftr f 4)
                          && (Z.shiftr f 4 <=? 15))
                256 eq_refl) as B.
  pose proof (B f6 ltac:(lia)) as B6. pose proof (B f7 ltac:(lia)) as B7. clear B.
  cbv beta in B6, B7.
  apply andb_prop in B6, B7. destruct B6 as [B6 B6c], B7 as [B7 _].
  apply andb_prop in B6, B7. destruct B6 as [_ B6], B7 as [B7 _].
  apply Z.eqb_eq in B6, B7. apply Z.leb_le in B6c.
  rewrite B6, B7. unfold u8. apply Z.mod_small.
  assert (0 <= Z.lor (Z.land f7 240) (Z.shiftr f6 4) < 2 ^ 8); [|lia].
  assert (N6 : 0 <= Z.shiftr f6 4) by (apply Z.shiftr_nonneg; lia).
  pose proof (land_bounds f7 240 ltac:(lia)) as N7.
  split; [apply Z.lor_nonneg; lia|].
  destruct (Z.eq_dec (Z.lor (Z.land f7 240) (Z.shiftr f6 4)) 0) as [E|E]; [rewrite E; lia|].
  apply Z.log2_lt_pow2; [pose proof (Z.lor_nonneg (Z.land f7 240) (Z.shiftr f6 4)); lia|].
  rewrite Z.log2_lor by lia.
  assert (Z.log2 (Z.land f7 240) <= Z.log2 255) by (apply Z.log2_le_mono; lia).
  assert (Z.log2 (Z.shiftr f6 4) <= Z.log2 255) by (apply Z.log2_le_mono; lia).
  change (Z.log2 255) with 7 in *. lia.
Qed.

Lemma nth_error_slice :
  forall data off n i,
    0 <= off -> 0 <= i < n -> off + n <= Z.of_nat (length data) ->
    nth_error (slice data off n) (Z.to_nat i) = Some (aget data (off + i)).
Proof.
  intros data off n i Ho Hi Hl. unfold slice, aget.
  rewrite nth_error_firstn.
  destruct (Nat.ltb_spec (Z.to_nat i) (Z.to_nat n)) as [_|C]; [|lia].
  rewrite nth_error_skipn.
  replace (Z.to_nat off + Z.to_nat i)%nat with (Z.to_nat (off + i)) by lia.
  apply nth_error_nth'. lia.
Qed.

(** X10. After a successful load the cartridge holds the image: the PRG bytes
    are the [banks * 16384] bytes that follow the header (and the 512
    trainer bytes when flags 6 announce them), the CHR bytes are the
    [chr * 8192] bytes after those, and a cartridge without CHR banks
    gets 8 KiB of zeroed CHR-RAM. The mapper number is the high nibble
    of flags 7 over the high nibble of flags 6, and a four-screen bit
    overrides the mirroring bit. *)
Theorem load_memory_contents :
  forall alloc cart data cart',
    Forall (fun b => 0 <= b <= 255) data ->
    nes_cartridge_load_memory alloc cart data = (NES_ROM_OK, cart') ->
    let h := header_of_bytes data in
    let psz := hdr_prg_rom_size h * 16384 in
    let chr := chr_rom_banks (info cart') in
    prg_rom cart' = Some (slice data (prg_offset (flags6 h)) psz)
    /\ Z.of_nat (length (slice data (prg_offset (flags6 h)) psz)) = psz
    /\ chr_rom cart'
       = (if 0 <? chr then Some (slice data (prg_offset (flags6 h) + psz) (chr * 8192))
          else Some (repeat 0 (Z.to_nat 8192)))
    /\ nes_cartridge_get_mapper cart' = Z.lor (Z.land (flags7 h) 0xF0) (Z.shiftr (flags6 h) 4)
    /\ nes_cartridge_get_mirroring cart'
       = (if tst (flags6 h) 0x08 then MIRROR_FOUR_SCREEN
          else if tst (flags6 h) 0x01 then MIRROR_VERTICAL else MIRROR_HORIZONTAL)
    /\ nes_cartridge_has_battery cart' = b2z (tst (flags6 h) 0x02).
Proof.
  intros alloc cart data cart' Hb H h psz chr.
  pose proof (load_memory_ok _ _ _ _ H) as (c1 & P & I & L & Hp & Hc & _).
  fold h in P, L, Hp, Hc. fold psz in L, Hp, Hc. fold chr in L, Hc.
  pose proof (parse_header_ok _ _ _ _ P) as (_ & H1 & _ & _ & _ & _ & _ & _ & H8 & H9 & _).
  rewrite <- I in H1, H8, H9.
  assert (R : forall k, 0 <= aget data k <= 255).
  { intros k. unfold aget. destruct (nth_in_or_default (Z.to_nat k) data 0) as [In|D].
    - rewrite Forall_forall in Hb. apply Hb. exact In.
    - rewrite D. lia. }
  assert (Hchr : 0 <= chr).
  { subst chr. rewrite I, (parse_header_chr_banks _ _ _ _ P).
    pose proof (R 5) as R5.
    change (aget data 5) with (hdr_chr_rom_size (header_of_bytes data)) in R5. fold h in R5.
    destruct (_ =? _); [|lia].
    apply Z.lor_nonneg. split; [apply Z.shiftl_nonneg; unfold u8; apply Z.mod_pos_bound; lia|].
    apply Z.land_nonneg. lia. }
  assert (Hpsz : 0 <= psz).
  { pose proof (R 4) as R4.
    change (aget data 4) with (hdr_prg_rom_size h) in R4. unfold psz. lia. }
  assert (Ho : 0 <= prg_offset (flags6 h)) by (clear; unfold prg_offset, NES_ROM_HEADER_SIZE; destruct (tst _ _); lia).
  split; [exact Hp|]. split; [apply slice_length; lia|]. split; [exact Hc|].
  unfold nes_cartridge_get_mapper, nes_cartridge_get_mirroring, nes_cartridge_has_battery.
  split; [|split; assumption].
  rewrite H1. apply mapper_nibbles; [exact (R 6)|exact (R 7)].
Qed.

Lemma forallb_Forall_bytes :
  forall l, forallb (fun b => (0 <=? b) && (b <=? 255)) l = true ->
            Forall (fun b => 0 <= b <= 255) l.
Proof.
  intros l H. apply Forall_forall. intros x In.
  rewrite forallb_forall in H. specialize (H x In).
  apply andb_prop in H. destruct H as [H1 H2]. apply Z.leb_le in H1, H2. lia.
Qed.

Lemma load_memory_contents_witness :
  let cart' := snd (load_image 0x41 0x20) in
  let data := ines_image 0x41 0x20 in
  prg_rom cart' = Some (slice data 16 (1 * 16384))
  /\ Z.of_nat (length (slice data 16 (1 * 16384))) = 1 * 16384
  /\ chr_rom cart' = Some (slice data (16 + 1 * 16384) (1 * 8192))
  /\ nes_cartridge_get_mapper cart' = 0x24
  /\ nes_cartridge_get_mirroring cart' = MIRROR_VERTICAL
  /\ nes_cartridge_has_battery cart' = 0.
Proof.
  intros cart' data.
  assert (B : Forall (fun b => 0 <= b <= 255) data)
    by (apply forallb_Forall_bytes; vm_compute; reflexivity).
  assert (L : nes_cartridge_load_memory always_alloc nes_cartridge_init data
              = (NES_ROM_OK, cart')) by (vm_compute; reflexivity).
  exact (load_memory_contents always_alloc nes_cartridge_init data cart' B L).
Defined.

(** *** The checksum *)

Lemma crc32_round_range : forall c, 0 <= c < 2 ^ 32 -> 0 <= crc32_round c < 2 ^ 32.
Proof.
  intros c Hc. unfold crc32_round.
  assert (S : 0 <= Z.shiftr c 1 < 2 ^ 31).
  { rewrite Z.shiftr_div_pow2 by lia. split; [apply Z.div_pos; lia|].
    apply Z.div_lt_upper_bound; lia. }
  destruct (nz (Z.land c 1)).
  - split; [apply Z.lxor_nonneg; lia|].
    destruct (Z.eq_dec (Z.lxor (Z.shiftr c 1) 3988292384) 0) as [E|E]; [rewrite E; lia|].
    apply Z.log2_lt_pow2.
    + pose proof (proj2 (Z.lxor_nonneg (Z.shiftr c 1) 3988292384)). lia.
    + pose proof (Z.log2_lxor (Z.shiftr c 1) 3988292384 ltac:(lia) ltac:(lia)) as X.
      assert (Z.log2 (Z.shiftr c 1) <= Z.log2 (2 ^ 31)) by (apply Z.log2_le_mono; lia).
      rewrite Z.log2_pow2 in * by lia.
      change (Z.log2 3988292384) with 31 in X. lia.
  - rewrite Z.lxor_0_r. lia.
Qed.

Lemma lxor_range :
  forall n a b, 0 <= n -> 0 <= a < 2 ^ n -> 0 <= b < 2 ^ n -> 0 <= Z.lxor a b < 2 ^ n.
Proof.
  intros n a b Hn Ha Hb.
  split; [apply Z.lxor_nonneg; lia|].
  destruct (Z.eq_dec (Z.lxor a b) 0) as [E|E]; [rewrite E; lia|].
  assert (0 < n).
  { destruct (Z.eq_dec n 0) as [->|]; [|lia]. exfalso. apply E.
    replace a with 0 by (cbn in Ha; lia). replace b with 0 by (cbn in Hb; lia). reflexivity. }
  apply Z.log2_lt_pow2; [pose proof (proj2 (Z.lxor_nonneg a b)); lia|].
  pose proof (Z.log2_lxor a b ltac:(lia) ltac:(lia)) as X.
  assert (Z.log2 a < n).
  { destruct (Z.eq_dec a 0) as [->|]; [cbn; lia|]. apply Z.log2_lt_pow2; lia. }
  assert (Z.log2 b < n).
  { destruct (Z.eq_dec b 0) as [->|]; [cbn; lia|]. apply Z.log2_lt_pow2; lia. }
  lia.
Qed.

(** Every entry of the table fits in 32 bits. *)
Lemma crc32_table_range :
  forall k, 0 <= k <= 255 -> 0 <= aget g_crc32_table k < 2 ^ 32.
Proof.
  intros k Hk.
  pose proof (forall_below
                (fun k => (0 <=? aget g_crc32_table k) && (aget g_crc32_table k <? 2 ^ 32))
                256 ltac:(vm_compute; reflexivity) k ltac:(lia)) as B.
  cbv beta in B. apply andb_prop in B. destruct B as [B1 B2].
  apply Z.leb_le in B1. apply Z.ltb_lt in B2. lia.
Qed.

Lemma crc32_loop_range :
  forall data c, 0 <= c < 2 ^ 32 -> 0 <= crc32_loop c data < 2 ^ 32.
Proof.
  unfold crc32_loop. induction data as [|b data IH]; intros c Hc; [exact Hc|].
  cbn [fold_left]. apply IH.
  apply lxor_range; [lia| |].
  - apply crc32_table_range. apply land_bounds. lia.
  - rewrite Z.shiftr_div_pow2 by lia. split; [apply Z.div_pos; lia|].
    apply Z.div_lt_upper_bound; lia.
Qed.

Lemma not32_range : forall x, 0 <= not32 x < 2 ^ 32.
Proof. intros x. unfold not32, u32. apply Z.mod_pos_bound. lia. Qed.

Lemma not32_involutive : forall x, 0 <= x < 2 ^ 32 -> not32 (not32 x) = x.
Proof.
  intros x Hx. unfold not32, u32.
  change 4294967296 with (2 ^ 32).
  assert (E : Z.lnot x mod 2 ^ 32 = 2 ^ 32 - 1 - x).
  { unfold Z.lnot. rewrite <- Z.sub_1_r.
    replace (- x - 1) with (2 ^ 32 - 1 - x + (-1) * 2 ^ 32) by lia.
    rewrite Z.mod_add by lia. apply Z.mod_small. lia. }
  rewrite E. unfold Z.lnot.
  replace (Z.pred (- (2 ^ 32 - 1 - x))) with (x + (-1) * 2 ^ 32) by lia.
  rewrite Z.mod_add by lia. apply Z.mod_small. lia.
Qed.

Lemma crc32_loop_app :
  forall a b c, crc32_loop c (a ++ b) = crc32_loop (crc32_loop c a) b.
Proof. intros a b c. unfold crc32_loop. apply fold_left_app. Qed.

Lemma crc32_chain :
  forall c a b, 0 <= c < 2 ^ 32 -> crc32_update (crc32_update c a) b = crc32_update c (a ++ b).
Proof.
  intros c a b Hc. unfold crc32_update.
  rewrite not32_involutive by (apply crc32_loop_range, not32_range).
  rewrite crc32_loop_app. reflexivity.
Qed.

(** X11. The checksum can be computed piecewise, as the loader does for the
    PRG and the CHR bytes: feeding the result over a first block back in
    as the start value for a second block gives the checksum of the two
    blocks put together. *)
Theorem crc32_update_app :
  forall crc a b,
    0 <= crc < 2 ^ 32 ->
    crc32_update (crc32_update crc a) b = crc32_update crc (a ++ b)
    /\ 0 <= crc32_update crc (a ++ b) < 2 ^ 32.
Proof.
  intros crc a b Hc. split; [apply crc32_chain; exact Hc|].
  unfold crc32_update. apply not32_range.
Qed.

Lemma crc32_update_app_witness :
  crc32_update (crc32_update 0 [0x31; 0x32; 0x33; 0x34]) [0x35; 0x36; 0x37; 0x38; 0x39]
  = crc32_update 0 ([0x31; 0x32; 0x33; 0x34] ++ [0x35; 0x36; 0x37; 0x38; 0x39])
  /\ 0 <= crc32_update 0 ([0x31; 0x32; 0x33; 0x34] ++ [0x35; 0x36; 0x37; 0x38; 0x39]) < 2 ^ 32.
Proof.
  apply (crc32_update_app 0 [0x31; 0x32; 0x33; 0x34] [0x35; 0x36; 0x37; 0x38; 0x39]). lia.
Defined.

Lemma crc32_round_lxor :
  forall x y, crc32_round (Z.lxor x y) = Z.lxor (crc32_round x) (crc32_round y).
Proof.
  intros x y. unfold crc32_round. rewrite Z.shiftr_lxor.
  assert (B : forall z, nz (Z.land z 1) = Z.testbit z 0).
  { intros z. exact (tst_testbit z 0 ltac:(lia)). }
  rewrite !B, Z.lxor_spec.
  destruct (Z.testbit x 0), (Z.testbit y 0); cbn [xorb];
    rewrite ?Z.lxor_0_r;
    set (P := 3988292384); set (sx := Z.shiftr x 1); set (sy := Z.shiftr y 1).
  - rewrite Z.lxor_assoc, (Z.lxor_comm P), (Z.lxor_assoc sy), Z.lxor_nilpotent.
    rewrite Z.lxor_0_r. reflexivity.
  - rewrite !Z.lxor_assoc. f_equal. apply Z.lxor_comm.
  - rewrite Z.lxor_assoc. reflexivity.
  - reflexivity.
Qed.

Lemma crc32_rounds_lxor :
  forall n x y,
    Nat.iter n crc32_round (Z.lxor x y)
    = Z.lxor (Nat.iter n crc32_round x) (Nat.iter n crc32_round y).
Proof.
  induction n as [|n IH]; intros x y; [reflexivity|].
  rewrite !Nat.iter_succ, IH. apply crc32_round_lxor.
Qed.

Lemma crc32_rounds_shifted :
  forall n h, Nat.iter n crc32_round (Z.shiftl h (Z.of_nat n)) = h.
Proof.
  induction n as [|n IH]; intros h; [apply Z.shiftl_0_r|].
  rewrite Nat.iter_succ_r.
  replace (crc32_round (Z.shiftl h (Z.of_nat (S n)))) with (Z.shiftl h (Z.of_nat n)); [apply IH|].
  unfold crc32_round.
  assert (B : nz (Z.land (Z.shiftl h (Z.of_nat (S n))) 1) = false).
  { rewrite (tst_testbit _ 0 ltac:(lia) : nz (Z.land _ (Z.shiftl 1 0)) = _).
    apply Z.shiftl_spec_low. lia. }
  rewrite B, Z.lxor_0_r.
  rewrite Z.shiftr_shiftl_l by lia. f_equal. lia.
Qed.

Lemma crc32_table_entry :
  forall k, 0 <= k <= 255 -> aget g_crc32_table k = Nat.iter 8 crc32_round k.
Proof.
  intros k Hk.
  pose proof (forall_below (fun k => aget g_crc32_table k =? Nat.iter 8 crc32_round k)
                256 ltac:(vm_compute; reflexivity) k ltac:(lia)) as B.
  apply Z.eqb_eq in B. exact B.
Qed.

Lemma crc32_split_low :
  forall crc b, 0 <= b <= 255 ->
    Z.lxor crc b = Z.lxor (Z.land (Z.lxor crc b) 0xFF) (Z.shiftl (Z.shiftr crc 8) 8).
Proof.
  intros crc b Hb. apply Z.bits_inj'. intros n Hn.
  rewrite !Z.lxor_spec, Z.land_spec.
  change 255 with (Z.ones 8).
  destruct (Z.ltb_spec n 8) as [L|L].
  - rewrite Z.ones_spec_low, Z.shiftl_spec_low by lia.
    rewrite Z.lxor_spec. destruct (xorb _ _); reflexivity.
  - rewrite Z.ones_spec_high, Z.shiftl_spec, Z.shiftr_spec by lia.
    replace (n - 8 + 8) with n by lia.
    assert (B : Z.testbit b n = false).
    { destruct (Z.eq_dec b 0) as [->|]; [apply Z.bits_0|].
      apply Z.bits_above_log2; [lia|].
      assert (Z.log2 b <= Z.log2 255) by (apply Z.log2_le_mono; lia).
      change (Z.log2 255) with 7 in *. lia. }
    rewrite Z.lxor_spec, B. destruct (Z.testbit crc n); reflexivity.
Qed.

(** X12. One table lookup of [crc32_update] does what eight rounds of the
    loop that fills the table do to the checksum with the next byte
    folded in: the table-driven checksum is the bit-at-a-time CRC with
    the reflected polynomial [0xEDB88320]. *)
Theorem crc32_table_step :
  forall data crc,
    Forall (fun b => 0 <= b <= 255) data ->
    crc32_loop crc data
    = fold_left (fun c b => Nat.iter 8 crc32_round (Z.lxor c b)) data crc.
Proof.
  unfold crc32_loop. induction data as [|b data IH]; intros crc Hb; [reflexivity|].
  inversion Hb as [|? ? Hb1 Hb2]; subst.
  cbn [fold_left]. rewrite IH by assumption. f_equal.
  rewrite (crc32_split_low crc b Hb1) at 2.
  rewrite crc32_rounds_lxor.
  pose proof (crc32_rounds_shifted 8 (Z.shiftr crc 8)) as S8.
  change (Z.of_nat 8) with 8 in S8. rewrite S8.
  rewrite crc32_table_entry by (apply land_bounds; lia).
  reflexivity.
Qed.

Lemma crc32_table_step_witness :
  crc32_loop 0xFFFFFFFF [0x4E; 0x45; 0x53; 0x1A]
  = fold_left (fun c b => Nat.iter 8 crc32_round (Z.lxor c b)) [0x4E; 0x45; 0x53; 0x1A]
      0xFFFFFFFF.
Proof.
  apply (crc32_table_step [0x4E; 0x45; 0x53; 0x1A] 0xFFFFFFFF).
  repeat constructor; lia.
Defined.

Lemma firstn_plus :
  forall (A : Type) (a b : nat) (l : list A),
    firstn (a + b) l = firstn a l ++ firstn b (skipn a l).
Proof.
  induction a as [|a IH]; intros b l; [reflexivity|].
  destruct l as [|x l]; [cbn; rewrite firstn_nil; reflexivity|].
  cbn. f_equal. apply IH.
Qed.

Lemma slice_app :
  forall data off a b,
    0 <= off -> 0 <= a -> 0 <= b ->
    slice data off a ++ slice data (off + a) b = slice data off (a + b).
Proof.
  intros data off a b Ho Ha Hb. unfold slice.
  replace (Z.to_nat (a + b)) with (Z.to_nat a + Z.to_nat b)%nat by lia.
  rewrite firstn_plus, skipn_skipn.
  replace (Z.to_nat (off + a)) with (Z.to_nat a + Z.to_nat off)%nat by lia.
  reflexivity.
Qed.

Lemma buf_prefix_slice :
  forall data off n,
    0 <= off -> 0 <= n -> off + n <= Z.of_nat (length data) ->
    buf_prefix (Some (slice data off n)) n = Done (slice data off n).
Proof.
  intros data off n Ho Hn Hl. unfold buf_prefix.
  destruct (Z.leb_spec n 0) as [Z0|P].
  - replace n with 0 by lia. reflexivity.
  - rewrite slice_length by lia. rewrite Z.leb_refl.
    f_equal. apply firstn_all2. apply Nat2Z.inj_le.
    rewrite slice_length by lia. lia.
Qed.

Lemma image_bytes :
  forall data, Forall (fun b => 0 <= b <= 255) data -> forall k, 0 <= aget data k <= 255.
Proof.
  intros data Hb k. unfold aget. destruct (nth_in_or_default (Z.to_nat k) data 0) as [In|D].
  - rewrite Forall_forall in Hb. apply Hb. exact In.
  - rewrite D. lia.
Qed.

Lemma load_memory_chr_banks_nonneg :
  forall alloc cart data cart',
    Forall (fun b => 0 <= b <= 255) data ->
    nes_cartridge_load_memory alloc cart data = (NES_ROM_OK, cart') ->
    0 <= chr_rom_banks (info cart').
Proof.
  intros alloc cart data cart' Hb H.
  pose proof (load_memory_ok _ _ _ _ H) as (c1 & P & I & _).
  rewrite I, (parse_header_chr_banks _ _ _ _ P).
  pose proof (image_bytes data Hb 5) as R5.
  change (aget data 5) with (hdr_chr_rom_size (header_of_bytes data)) in R5.
  destruct (_ =? _); [|lia].
  apply Z.lor_nonneg. split; [apply Z.shiftl_nonneg; unfold u8; apply Z.mod_pos_bound; lia|].
  apply Z.land_nonneg. lia.
Qed.

(** X13. The checksum of a loaded cartridge is the CRC-32 of the image
    content: of the PRG and CHR bytes as they lie in the file, without
    the header, the trainer and whatever follows the CHR bytes. *)
Theorem calc_crc32_of_loaded_image :
  forall alloc cart data cart',
    Forall (fun b => 0 <= b <= 255) data ->
    nes_cartridge_load_memory alloc cart data = (NES_ROM_OK, cart') ->
    let h := header_of_bytes data in
    nes_cartridge_calc_crc32 cart'
    = Done (crc32_update 0
              (slice data (prg_offset (flags6 h))
                 (hdr_prg_rom_size h * 16384 + chr_rom_banks (info cart') * 8192))).
Proof.
  intros alloc cart data cart' Hb H h.
  pose proof (load_memory_chr_banks_nonneg _ _ _ _ Hb H) as Hchr.
  pose proof (load_memory_ok _ _ _ _ H) as (c1 & P & I & L & Hp & Hc & _).
  pose proof (parse_header_ok _ _ _ _ P) as (_ & _ & _ & H3 & H4 & _).
  rewrite <- I in H3, H4.
  fold h in L, Hp, Hc, H3.
  pose proof (image_bytes data Hb 4) as R4.
  change (aget data 4) with (hdr_prg_rom_size h) in R4.
  assert (Ho : 0 <= prg_offset (flags6 h))
    by (clear; unfold prg_offset, NES_ROM_HEADER_SIZE; destruct (tst _ _); lia).
  unfold nes_cartridge_calc_crc32.
  rewrite Hp, H3, buf_prefix_slice by lia. cbn [rbind].
  destruct (0 <? chr_rom_banks (info cart')) eqn:C.
  - rewrite Hc, H4, buf_prefix_slice by lia. cbn [rbind].
    rewrite crc32_chain by lia. rewrite slice_app by lia. reflexivity.
  - apply Z.ltb_ge in C. replace (chr_rom_banks (info cart')) with 0 by lia.
    rewrite Z.add_0_r. reflexivity.
Qed.

Lemma calc_crc32_of_loaded_image_witness :
  nes_cartridge_calc_crc32 (snd (load_image 0x41 0x20))
  = Done (crc32_update 0 (slice (ines_image 0x41 0x20) 16 (1 * 16384 + 1 * 8192))).
Proof.
  assert (B : Forall (fun b => 0 <= b <= 255) (ines_image 0x41 0x20))
    by (apply forallb_Forall_bytes; vm_compute; reflexivity).
  assert (L : nes_cartridge_load_memory always_alloc nes_cartridge_init (ines_image 0x41 0x20)
              = (NES_ROM_OK, snd (load_image 0x41 0x20))) by (vm_compute; reflexivity).
  exact (calc_crc32_of_loaded_image always_alloc nes_cartridge_init (ines_image 0x41 0x20)
           (snd (load_image 0x41 0x20)) B L).
Defined.

(** X14. A read through [nes_cartridge_read_prg] of a loaded cartridge with
    at least one PRG bank returns the image byte at the address taken
    modulo 32 KiB and then modulo the PRG size: a 16 KiB image appears
    twice in the 32 KiB window, a larger one shows its first 32 KiB. *)
Theorem read_prg_of_loaded_image :
  forall alloc cart data cart' addr,
    Forall (fun b => 0 <= b <= 255) data ->
    nes_cartridge_load_memory alloc cart data = (NES_ROM_OK, cart') ->
    let h := header_of_bytes data in
    1 <= hdr_prg_rom_size h ->
    nes_cartridge_read_prg cart' addr
    = Done (aget data (prg_offset (flags6 h)
                       + (Z.land (u32 addr) 0x7FFF) mod (hdr_prg_rom_size h * 16384))).
Proof.
  intros alloc cart data cart' addr Hb H h Hbanks.
  pose proof (load_memory_chr_banks_nonneg _ _ _ _ Hb H) as Hchr.
  pose proof (load_memory_ok _ _ _ _ H) as (c1 & P & I & L & Hp & _).
  pose proof (parse_header_ok _ _ _ _ P) as (_ & _ & _ & H3 & _).
  rewrite <- I in H3. fold h in L, Hp, H3.
  assert (Ho : 0 <= prg_offset (flags6 h))
    by (clear; unfold prg_offset, NES_ROM_HEADER_SIZE; destruct (tst _ _); lia).
  unfold nes_cartridge_read_prg. cbv zeta. rewrite H3, Hp.
  set (a := Z.land (u32 addr) 32767).
  assert (Ha : 0 <= a <= 32767) by (apply land_bounds; lia).
  set (psz := hdr_prg_rom_size h * 16384) in *.
  assert (Hm : 0 <= a mod psz < psz) by (apply Z.mod_pos_bound; lia).
  destruct (Z.ltb_spec a psz) as [Lt|Ge].
  - rewrite Z.mod_small by lia. unfold buf_get.
    destruct (Z.ltb_spec a 0); [lia|].
    rewrite (nth_error_slice data _ psz a) by lia. reflexivity.
  - unfold umod. destruct (Z.eqb_spec psz 0); [lia|]. cbn [rbind]. unfold buf_get.
    destruct (Z.ltb_spec (a mod psz) 0); [lia|].
    rewrite (nth_error_slice data _ psz (a mod psz)) by lia. reflexivity.
Qed.

Lemma read_prg_of_loaded_image_witness :
  nes_cartridge_read_prg (snd (load_image 0x41 0x20)) 0xFFFC
  = Done (aget (ines_image 0x41 0x20) (16 + (Z.land (u32 0xFFFC) 0x7FFF) mod (1 * 16384))).
Proof.
  assert (B : Forall (fun b => 0 <= b <= 255) (ines_image 0x41 0x20))
    by (apply forallb_Forall_bytes; vm_compute; reflexivity).
  assert (L : nes_cartridge_load_memory always_alloc nes_cartridge_init (ines_image 0x41 0x20)
              = (NES_ROM_OK, snd (load_image 0x41 0x20))) by (vm_compute; reflexivity).
  refine (read_prg_of_loaded_image always_alloc nes_cartridge_init (ines_image 0x41 0x20)
            (snd (load_image 0x41 0x20)) 0xFFFC B L _).
  vm_compute. discriminate.
Defined.

Lemma list_set_nth_error_same :
  forall (A : Type) (l : list A) n v, (n < length l)%nat -> nth_error (list_set l n v) n = Some v.
Proof.
  intros A l. induction l as [|h t IH]; intros [|n] v H; cbn in *; try lia; try reflexivity.
  apply IH. lia.
Qed.

Lemma list_set_nth_error_other :
  forall (A : Type) (l : list A) n m v, n <> m -> nth_error (list_set l n v) m = nth_error l m.
Proof.
  intros A l. induction l as [|h t IH]; intros [|n] [|m] v H; cbn; try reflexivity;
    try congruence.
  apply IH. congruence.
Qed.

(** X15. PRG-RAM: a byte stored below the RAM size is the byte read back at
    that address and no other address changes; a store at or above the
    size changes nothing, and a read there returns 0. *)
Theorem prg_ram_write_then_read :
  forall cart l addr val,
    prg_ram cart = Some l ->
    Z.of_nat (length l) = prg_ram_size cart ->
    0 <= addr ->
    exists cart',
      nes_cartridge_write_prg_ram cart addr val = Done cart'
      /\ prg_ram_size cart' = prg_ram_size cart
      /\ (forall addr', 0 <= addr' ->
            nes_cartridge_read_prg_ram cart' addr'
            = if (addr' =? addr) && (addr <? prg_ram_size cart) then Done val
              else nes_cartridge_read_prg_ram cart addr')
      /\ (prg_ram_size cart <= addr -> cart' = cart /\ nes_cartridge_read_prg_ram cart addr = Done 0).
Proof.
  intros cart l addr val Hl Hs Ha.
  unfold nes_cartridge_write_prg_ram, nes_cartridge_read_prg_ram. rewrite Hl.
  destruct (Z.ltb_spec addr (prg_ram_size cart)) as [Lt|Ge].
  - unfold buf_set.
    destruct (Z.leb_spec 0 addr); [|lia].
    destruct (Z.ltb_spec addr (Z.of_nat (length l))); [|lia].
    cbn [andb rbind]. eexists. split; [reflexivity|].
    cbn [prg_ram prg_ram_size set_prg_ram]. split; [reflexivity|]. split; [|lia].
    intros addr' Ha'.
    destruct (Z.ltb_spec addr' (prg_ram_size cart)) as [Lt'|Ge'].
    + unfold buf_get. destruct (Z.ltb_spec addr' 0); [lia|].
      destruct (Z.eqb_spec addr' addr) as [->|Ne]; cbn [andb].
      * rewrite list_set_nth_error_same by lia. reflexivity.
      * rewrite list_set_nth_error_other by lia. reflexivity.
    + destruct (Z.eqb_spec addr' addr); [lia|]. reflexivity.
  - exists cart. split; [reflexivity|]. split; [reflexivity|]. split.
    + intros addr' _. rewrite andb_false_r. rewrite Hl. reflexivity.
    + intros _. split; [reflexivity|]. reflexivity.
Qed.

Lemma prg_ram_write_then_read_witness :
  exists cart',
    nes_cartridge_write_prg_ram (snd (load_image 0x41 0x20)) 5 0x42 = Done cart'
    /\ prg_ram_size cart' = prg_ram_size (snd (load_image 0x41 0x20))
    /\ (forall addr', 0 <= addr' ->
          nes_cartridge_read_prg_ram cart' addr'
          = if (addr' =? 5) && (5 <? prg_ram_size (snd (load_image 0x41 0x20))) then Done 0x42
            else nes_cartridge_read_prg_ram (snd (load_image 0x41 0x20)) addr')
    /\ (prg_ram_size (snd (load_image 0x41 0x20)) <= 5 ->
        cart' = snd (load_image 0x41 0x20)
        /\ nes_cartridge_read_prg_ram (snd (load_image 0x41 0x20)) 5 = Done 0).
Proof.
  apply (prg_ram_write_then_read (snd (load_image 0x41 0x20)) (repeat 0 (Z.to_nat 8192)) 5 0x42).
  - vm_compute. reflexivity.
  - vm_compute. reflexivity.
  - lia.
Defined.

(** X16. The loader never assigns the [prg_rom_size] member of the cartridge
    (it fills [info.prg_rom_size]): after [nes_cartridge_init] and a
    successful load that member is still 0, and the mapper 0 read of any
    address from [$8000] up, which reduces the address modulo that
    member, divides by zero. *)
Theorem nrom_read_after_load_divides_by_zero :
  forall alloc data cart' addr,
    nes_cartridge_load_memory alloc nes_cartridge_init data = (NES_ROM_OK, cart') ->
    prg_rom_size cart' = 0
    /\ (0x8000 <= addr -> mapper_0_cpu_read cart' addr = Fault).
Proof.
  intros alloc data cart' addr H.
  pose proof (load_memory_ok _ _ _ _ H) as (_ & _ & _ & _ & _ & _ & _ & S & _).
  change (prg_rom_size nes_cartridge_init) with 0 in S.
  split; [exact S|]. intros Ha.
  unfold mapper_0_cpu_read, rom_read_wrapped. rewrite S.
  destruct (Z.leb_spec 0x8000 addr); [|lia].
  pose proof (land_bounds addr 0x7FFF ltac:(lia)).
  destruct (Z.ltb_spec (Z.land addr 32767) 0); [lia|]. reflexivity.
Qed.

Lemma nrom_read_after_load_divides_by_zero_witness :
  prg_rom_size (snd (load_image 0 0)) = 0
  /\ (0x8000 <= 0xFFFC -> mapper_0_cpu_read (snd (load_image 0 0)) 0xFFFC = Fault).
Proof.
  apply (nrom_read_after_load_divides_by_zero always_alloc (ines_image 0 0)).
  vm_compute. reflexivity.
Defined.

(** ** Work RAM on the bus (memory/bus.c) *)

(** X17. A store below [$1FFF] lands in the 2 KiB of work RAM at the address
    taken modulo [$0800], and a load from any address up to [$1FFF]
    returns the byte of that cell: the byte just stored (truncated to 8
    bits) when the two addresses are mirrors of one another, the old
    byte otherwise. The last mirror address differs: a store to [$1FFF]
    is dropped, although a load from it still returns cell [$07FF]. *)
Theorem ram_store_then_load :
  forall e s addr addr' val,
    length (ram s) = 2048%nat ->
    0 <= addr < 0x1FFF ->
    0 <= addr' <= 0x1FFF ->
    (exists s',
        nes_sys_cpu_write e addr val s = Done (tt, s')
        /\ nes_sys_cpu_read addr' s'
           = Done (if Z.land addr' 0x07FF =? Z.land addr 0x07FF then u8 val
                   else aget (ram s) (Z.land addr' 0x07FF), s'))
    /\ nes_sys_cpu_write e 0x1FFF val s = Done (tt, s)
    /\ nes_sys_cpu_read 0x1FFF s = Done (aget (ram s) 0x07FF, s).
Proof.
  intros e s addr addr' val Hl Ha Ha'. split; [|split; reflexivity].
  eexists. split; [apply write_ram; exact Ha|].
  assert (R : forall t, nes_sys_cpu_read addr' t = Done (aget (ram t) (Z.land addr' 0x07FF), t)).
  { intros t. destruct (Z.eq_dec addr' 0x1FFF) as [->|]; [reflexivity|].
    apply read_ram. lia. }
  rewrite R. cbn [ram set_ram]. f_equal. f_equal.
  pose proof (land_bounds addr 0x07FF ltac:(lia)).
  pose proof (land_bounds addr' 0x07FF ltac:(lia)).
  destruct (Z.eqb_spec (Z.land addr' 2047) (Z.land addr 2047)) as [E|E].
  - rewrite E. apply aget_aset_same. lia.
  - apply aget_aset_other; lia.
Qed.

Lemma ram_store_then_load_witness :
  (exists s',
      nes_sys_cpu_write (nes_cpu_execute_cycles 0) 0x0802 0x1AB nes_sys_init = Done (tt, s')
      /\ nes_sys_cpu_read 0x1002 s'
         = Done (if Z.land 0x1002 0x07FF =? Z.land 0x0802 0x07FF then u8 0x1AB
                 else aget (ram nes_sys_init) (Z.land 0x1002 0x07FF), s'))
  /\ nes_sys_cpu_write (nes_cpu_execute_cycles 0) 0x1FFF 0x1AB nes_sys_init
     = Done (tt, nes_sys_init)
  /\ nes_sys_cpu_read 0x1FFF nes_sys_init = Done (aget (ram nes_sys_init) 0x07FF, nes_sys_init).
Proof.
  apply (ram_store_then_load (nes_cpu_execute_cycles 0) nes_sys_init 0x0802 0x1002 0x1AB).
  - reflexivity.
  - lia.
  - lia.
Defined.

(** ** The mappers behind the bus (mapper/mapper.c, memory/bus.c) *)

(** A store to cartridge ROM space reaches the installed mapper's write
    callback and nothing else. *)
Lemma write_rom_space :
  forall e addr val s,
    0x8000 <= addr <= 0xFFFF ->
    nes_sys_cpu_write e addr val s
    = match mapper_cpu_write (mapper s) addr (u8 val) with
      | Some wr => wr s
      | None => Done (tt, s)
      end.
Proof.
  intros e addr val s H. unfold nes_sys_cpu_write. rewrite land_ffff by lia.
  unfold NES_RAM_MIRRORS, NES_ADDR_PPU_REG, NES_ADDR_APU_REG, NES_ADDR_CARTRIDGE.
  cbv zeta.
  destruct (Z.ltb_spec addr 0x1FFF); [lia|].
  destruct (Z.leb_spec 0x2000 addr); [|lia].
  destruct (Z.ltb_spec addr (0x2000 + 8)); [lia|].
  destruct (Z.leb_spec 0x4000 addr); [|lia].
  destruct (Z.ltb_spec addr 0x4020); [lia|].
  destruct (Z.leb_spec 0x6000 addr); [|lia].
  destruct (Z.ltb_spec addr 0x8000); [lia|].
  cbn [andb when]. unfold bind, ret, get.
  destruct (mapper_cpu_write (mapper s) addr (u8 val)); reflexivity.
Qed.

Lemma sys_write_mmc1 :
  forall t mt addr b,
    mapper t = mapper_1 mt ->
    0x8000 <= addr <= 0xFFFF ->
    sys_write 0 addr b t = mapper_1_write mt addr (u8 b) t.
Proof.
  intros t mt addr b Hm Ha. unfold sys_write. rewrite write_rom_space by exact Ha.
  rewrite Hm. reflexivity.
Qed.

Ltac mmc1_store E0 E1 E2 :=
  match goal with
  | Ha : 0x8000 <= ?addr <= 0xFFFF |- context [sys_write 0 ?addr ?b ?t] =>
      rewrite (sys_write_mmc1 t _ addr b eq_refl Ha);
      unfold mapper_1_write; rewrite ?E0, ?E1, ?E2;
      cbv -[sys_write]
  end.

(** X18. The MMC1 serial port: from a cleared shift register, five stores to
    one address in ROM space, each carrying one bit of a 5-bit value in
    bit 0 (least significant bit first, bit 7 clear), load that value
    into the register the address selects: control below [$A000] (with
    the mirroring, PRG mode and CHR mode fields taken from it), CHR bank
    0 below [$C000], CHR bank 1 below [$E000], PRG bank (low four bits)
    and the PRG-RAM disable bit from [$E000] up. The shift register is
    cleared again. *)
Theorem mmc1_serial_latch :
  forall s m addr c,
    mapper s = mapper_1 m ->
    m1_shift_reg m = 0x10 ->
    m1_shift_count m = 0 ->
    0x8000 <= addr <= 0xFFFF ->
    0 <= c <= 31 ->
    exists s' m',
      mmc1_serial_write addr c s = Done (tt, s')
      /\ mapper s' = mapper_1 m'
      /\ m1_shift_reg m' = 0x10 /\ m1_shift_count m' = 0
      /\ (addr < 0xA000 ->
          m1_control m' = c /\ m1_mirroring m' = Z.land c 3
          /\ m1_prg_mode m' = Z.land (Z.shiftr c 2) 3
          /\ m1_chr_mode m' = Z.land (Z.shiftr c 4) 1
          /\ g_mirror_mode s' = mirror_mode_of (Z.land c 3) (g_mirror_mode s))
      /\ (0xA000 <= addr < 0xC000 -> m1_chr_bank_0 m' = c)
      /\ (0xC000 <= addr < 0xE000 -> m1_chr_bank_1 m' = c)
      /\ (0xE000 <= addr ->
          m1_prg_bank m' = Z.land c 0x0F /\ m1_prg_ram_disabled m' = Z.shiftr c 4).
Proof.
  intros s m addr c Hm Hr Hc Ha Hcr.
  destruct s as [cpu0 ppu0 apu0 in0 cart0 map0 ram0 f1 f2 f3 f4 f5 fb mm].
  cbn [mapper] in Hm. subst map0.
  destruct m as [sr cnt ctl cb0 cb1 pb pm cm mir dis]. cbn in Hr, Hc. subst sr cnt.
  unfold mmc1_serial_write, bind.
  assert (C : c = 0 \/ c = 1 \/ c = 2 \/ c = 3 \/ c = 4 \/ c = 5 \/ c = 6 \/ c = 7
              \/ c = 8 \/ c = 9 \/ c = 10 \/ c = 11 \/ c = 12 \/ c = 13 \/ c = 14 \/ c = 15
              \/ c = 16 \/ c = 17 \/ c = 18 \/ c = 19 \/ c = 20 \/ c = 21 \/ c = 22 \/ c = 23
              \/ c = 24 \/ c = 25 \/ c = 26 \/ c = 27 \/ c = 28 \/ c = 29 \/ c = 30 \/ c = 31)
    by lia.
  clear Hcr.
  assert (R : exists b0 b1 b2,
             (addr <? 0xA000) = b0 /\ (addr <? 0xC000) = b1 /\ (addr <? 0xE000) = b2
             /\ (b0 = true /\ addr < 0xA000
                 \/ b0 = false /\ b1 = true /\ 0xA000 <= addr < 0xC000
                 \/ b0 = false /\ b1 = false /\ b2 = true /\ 0xC000 <= addr < 0xE000
                 \/ b0 = false /\ b1 = false /\ b2 = false /\ 0xE000 <= addr)).
  { do 3 eexists. split; [reflexivity|]. split; [reflexivity|]. split; [reflexivity|].
    destruct (Z.ltb_spec addr 0xA000); [left; split; [reflexivity|lia]|].
    destruct (Z.ltb_spec addr 0xC000); [right; left; repeat split; lia|].
    destruct (Z.ltb_spec addr 0xE000); [right; right; left; repeat split; lia|].
    right; right; right; repeat split; lia. }
  destruct R as (b0 & b1 & b2 & E0 & E1 & E2 & R).
  destruct R as [(-> & R)|[(-> & -> & R)|[(-> & -> & -> & R)|(-> & -> & -> & R)]]];
    repeat (destruct C as [C|C]; [subst c|]); try subst c;
    (do 2 eexists; split; [do 5 mmc1_store E0 E1 E2; reflexivity|]);
    (split; [reflexivity|]); (split; [reflexivity|]); (split; [reflexivity|]);
    (split; [intros; try lia; repeat split; reflexivity|]);
    (split; [intros; try lia; reflexivity|]);
    (split; [intros; try lia; reflexivity|]);
    intros; try lia; split; reflexivity.
Qed.

Lemma mmc1_serial_latch_witness :
  exists s' m',
    mmc1_serial_write 0xE000 0x15 mmc1_machine = Done (tt, s')
    /\ mapper s' = mapper_1 m'
    /\ m1_shift_reg m' = 0x10 /\ m1_shift_count m' = 0
    /\ (0xE000 < 0xA000 ->
        m1_control m' = 0x15 /\ m1_mirroring m' = Z.land 0x15 3
        /\ m1_prg_mode m' = Z.land (Z.shiftr 0x15 2) 3
        /\ m1_chr_mode m' = Z.land (Z.shiftr 0x15 4) 1
        /\ g_mirror_mode s' = mirror_mode_of (Z.land 0x15 3) (g_mirror_mode mmc1_machine))
    /\ (0xA000 <= 0xE000 < 0xC000 -> m1_chr_bank_0 m' = 0x15)
    /\ (0xC000 <= 0xE000 < 0xE000 -> m1_chr_bank_1 m' = 0x15)
    /\ (0xE000 <= 0xE000 ->
        m1_prg_bank m' = Z.land 0x15 0x0F /\ m1_prg_ram_disabled m' = Z.shiftr 0x15 4).
Proof.
  apply (mmc1_serial_latch mmc1_machine (mk_mapper_1 0x10 0 0x0C 0 0 0 3 0 2 0) 0xE000 0x15).
  - reflexivity.
  - reflexivity.
  - reflexivity.
  - lia.
  - lia.
Defined.

(** X19. On an MMC1 cartridge a store to PRG-RAM ([$6000]-[$7FFF]) does two
    things: the byte is stored and can be read back, and the same store
    is handed to the MMC1 register port. With bit 7 set it therefore
    clears the mapper's shift register and forces PRG mode 3, as a
    store to ROM space would. *)
Theorem mmc1_prg_ram_store_reaches_mapper :
  forall e s m l addr val,
    mapper s = mapper_1 m ->
    prg_ram (cartridge s) = Some l ->
    Z.of_nat (length l) = 8192 ->
    prg_ram_size (cartridge s) = 8192 ->
    0x6000 <= addr < 0x8000 ->
    0x80 <= val <= 0xFF ->
    exists s',
      nes_sys_cpu_write e addr val s = Done (tt, s')
      /\ nes_sys_cpu_read addr s' = Done (val, s')
      /\ mapper s'
         = mapper_1 (set_m1_prg_mode 3 (set_m1_shift_count 0 (set_m1_shift_reg 0x10 m))).
Proof.
  intros e s m l addr val Hm Hl Hlen Hsz Ha Hv.
  assert (T : tst val 0x80 = true).
  { pose proof (forall_below (fun v => (v <? 128) || tst v 0x80) 256 eq_refl val ltac:(lia))
      as B.
    cbv beta in B. destruct (Z.ltb_spec val 128); [lia|]. exact B. }
  unfold nes_sys_cpu_write, nes_sys_cpu_read. rewrite land_ffff by lia.
  unfold NES_RAM_MIRRORS, NES_ADDR_PPU_REG, NES_ADDR_APU_REG, NES_ADDR_CARTRIDGE.
  cbv zeta.
  destruct (Z.ltb_spec addr 0x1FFF); [lia|].
  destruct (Z.leb_spec 0x2000 addr); [|lia].
  destruct (Z.ltb_spec addr (0x2000 + 8)); [lia|].
  destruct (Z.leb_spec 0x4000 addr); [|lia].
  destruct (Z.ltb_spec addr 0x4020); [lia|].
  destruct (Z.leb_spec 0x4020 addr); [|lia].
  destruct (Z.leb_spec 0x6000 addr); [|lia].
  destruct (Z.ltb_spec addr 0x8000); [|lia].
  cbn [andb when]. unfold bind, ret, get, gets, lift, modify.
  unfold nes_cartridge_write_prg_ram. rewrite Hl, Hsz.
  destruct (Z.ltb_spec (addr - 0x6000) 8192); [|lia].
  unfold buf_set.
  destruct (Z.leb_spec 0 (addr - 0x6000)); [|lia].
  destruct (Z.ltb_spec (addr - 0x6000) (Z.of_nat (length l))); [|lia].
  cbn [andb rbind mapper set_cartridge].
  rewrite Hm. cbn [mapper_cpu_write]. unfold mapper_1_write.
  replace (u8 val) with val by (unfold u8; rewrite Z.mod_small; lia).
  rewrite T. unfold modify.
  eexists. split; [reflexivity|]. split; [|reflexivity].
  cbn [cartridge set_mapper set_cartridge].
  unfold nes_cartridge_read_prg_ram. cbn [prg_ram prg_ram_size set_prg_ram]. rewrite Hsz.
  destruct (Z.ltb_spec (addr - 0x6000) 8192); [|lia].
  unfold buf_get. destruct (Z.ltb_spec (addr - 0x6000) 0); [lia|].
  rewrite list_set_nth_error_same by lia. reflexivity.
Qed.

Lemma mmc1_prg_ram_store_reaches_mapper_witness :
  exists s',
    nes_sys_cpu_write (nes_cpu_execute_cycles 0) 0x6123 0x80 mmc1_ram_machine = Done (tt, s')
    /\ nes_sys_cpu_read 0x6123 s' = Done (0x80, s')
    /\ mapper s'
       = mapper_1 (set_m1_prg_mode 3 (set_m1_shift_count 0
                     (set_m1_shift_reg 0x10 (mk_mapper_1 0x10 0 0x0C 0 0 0 3 0 2 0)))).
Proof.
  apply (mmc1_prg_ram_store_reaches_mapper (nes_cpu_execute_cycles 0) mmc1_ram_machine
           (mk_mapper_1 0x10 0 0x0C 0 0 0 3 0 2 0) (repeat 0 (Z.to_nat 8192)) 0x6123 0x80).
  - reflexivity.
  - reflexivity.
  - reflexivity.
  - reflexivity.
  - lia.
  - lia.
Defined.

(** X20. UxROM: after a store of [val] anywhere in ROM space, loads from
    [$8000]-[$BFFF] come from the 16 KiB bank [val & (banks - 1)] and
    loads from [$C000]-[$FFFF] from the last bank. *)
Theorem uxrom_bank_switch :
  forall e s b l addr addr' val,
    mapper s = mapper_2 b ->
    prg_rom (cartridge s) = Some l ->
    1 <= prg_rom_banks (info (cartridge s)) <= 256 ->
    Z.of_nat (length l) = prg_rom_banks (info (cartridge s)) * 16384 ->
    prg_rom_size (cartridge s) = prg_rom_banks (info (cartridge s)) * 16384 ->
    0x8000 <= addr' <= 0xFFFF ->
    0x8000 <= addr <= 0xFFFF ->
    exists s',
      nes_sys_cpu_write e addr' val s = Done (tt, s')
      /\ nes_sys_cpu_read addr s'
         = Done (aget l ((if addr <? 0xC000
                          then Z.land (u8 val) (prg_rom_banks (info (cartridge s)) - 1)
                          else prg_rom_banks (info (cartridge s)) - 1) * 16384
                         + Z.land addr 0x3FFF), s').
Proof.
  intros e s b l addr addr' val Hm Hl Hb Hlen Hsz Ha' Ha.
  rewrite write_rom_space by exact Ha'. rewrite Hm.
  cbn [mapper_cpu_write]. unfold mapper_2_cpu_write.
  destruct (Z.leb_spec 0x8000 addr'); [|lia]. unfold modify.
  eexists. split; [reflexivity|].
  unfold nes_sys_cpu_read. rewrite land_ffff by lia.
  unfold NES_RAM_MIRRORS, NES_ADDR_PPU_REG, NES_ADDR_APU_REG, NES_ADDR_CARTRIDGE.
  destruct (Z.ltb_spec addr 0x1FFF); [lia|].
  destruct (Z.leb_spec 0x2000 addr); [|lia].
  destruct (Z.ltb_spec addr (0x2000 + 8)); [lia|].
  destruct (Z.leb_spec 0x4000 addr); [|lia].
  destruct (Z.ltb_spec addr 0x4020); [lia|].
  cbn [andb]. unfold bind, get.
  destruct (Z.leb_spec 0x4020 addr); [|lia].
  destruct (Z.leb_spec 0x6000 addr); [|lia].
  destruct (Z.ltb_spec addr 0x8000); [lia|].
  cbn [andb mapper set_mapper mapper_cpu_read]. unfold bind, gets, lift.
  cbn [cartridge set_mapper]. unfold mapper_2_cpu_read.
  destruct (Z.leb_spec 0x8000 addr); [|lia].
  set (banks := prg_rom_banks (info (cartridge s))) in *.
  unfold NES_PRG_ROM_SIZE. rewrite Hl, Hsz.
  pose proof (land_bounds (u8 val) (banks - 1) ltac:(lia)) as Bk.
  pose proof (land_bounds addr 0x3FFF ltac:(lia)) as Bo.
  assert (Rd : forall base, 0 <= base < banks * 16384 ->
                 rom_read_wrapped (Some l) (banks * 16384) (u32 base) = Done (aget l base)).
  { intros base Hbase. unfold u32, rom_read_wrapped. rewrite Z.mod_small by lia.
    destruct (Z.ltb_spec base (banks * 16384)); [|lia].
    unfold buf_get. destruct (Z.ltb_spec base 0); [lia|].
    unfold aget. rewrite (nth_error_nth' l 0) by lia. reflexivity. }
  destruct (Z.ltb_spec addr 0xC000).
  - replace (u8 (Z.land (u8 val) (banks - 1))) with (Z.land (u8 val) (banks - 1))
      by (symmetry; apply Z.mod_small; lia).
    rewrite Rd by nia. reflexivity.
  - replace (u32 ((banks - 1) * 16384)) with ((banks - 1) * 16384)
      by (symmetry; apply Z.mod_small; lia).
    rewrite Rd by nia. reflexivity.
Qed.

Lemma uxrom_bank_switch_witness :
  exists s',
    nes_sys_cpu_write (nes_cpu_execute_cycles 0) 0x8000 0x0E uxrom_machine = Done (tt, s')
    /\ nes_sys_cpu_read 0x9234 s'
       = Done (aget (flat_map (fun i => repeat i (Z.to_nat 16384)) [0; 1; 2; 3])
                 ((if 0x9234 <? 0xC000 then Z.land (u8 0x0E) (4 - 1) else 4 - 1) * 16384
                  + Z.land 0x9234 0x3FFF), s').
Proof.
  apply (uxrom_bank_switch (nes_cpu_execute_cycles 0) uxrom_machine 0
           (flat_map (fun i => repeat i (Z.to_nat 16384)) [0; 1; 2; 3]) 0x9234 0x8000 0x0E).
  - reflexivity.
  - reflexivity.
  - cbn. lia.
  - vm_compute. reflexivity.
  - reflexivity.
  - lia.
  - lia.
Defined.

(** ** The PPU registers on the bus (ppu/ppu.c, memory/bus.c) *)

Lemma read_ppu_register :
  forall addr s,
    0x2000 <= addr < 0x2008 ->
    nes_sys_cpu_read addr s = nes_ppu_cpu_read (Z.land addr 7) s.
Proof.
  intros addr s H. unfold nes_sys_cpu_read. rewrite land_ffff by lia.
  unfold NES_RAM_MIRRORS, NES_ADDR_PPU_REG.
  destruct (Z.ltb_spec addr 0x1FFF); [lia|].
  destruct (Z.leb_spec 0x2000 addr); [|lia].
  destruct (Z.ltb_spec addr (0x2000 + 8)); [|lia].
  reflexivity.
Qed.

Lemma write_ppu_register :
  forall e addr val s,
    0x2000 <= addr < 0x2008 ->
    nes_sys_cpu_write e addr val s = nes_ppu_cpu_write (Z.land addr 7) (u8 val) s.
Proof.
  intros e addr val s H. unfold nes_sys_cpu_write. rewrite land_ffff by lia.
  unfold NES_RAM_MIRRORS, NES_ADDR_PPU_REG. cbv zeta.
  destruct (Z.ltb_spec addr 0x1FFF); [lia|].
  destruct (Z.leb_spec 0x2000 addr); [|lia].
  destruct (Z.ltb_spec addr (0x2000 + 8)); [|lia].
  reflexivity.
Qed.

Lemma u8_byte : forall v, 0 <= v <= 255 -> u8 v = v.
Proof. intros v H. unfold u8. apply Z.mod_small. lia. Qed.

Lemma u8_idem : forall v, u8 (u8 v) = u8 v.
Proof. intros v. unfold u8. apply Z.mod_mod. lia. Qed.

Lemma u8_range : forall v, 0 <= u8 v <= 255.
Proof. intros v. unfold u8. pose proof (Z.mod_pos_bound v 256 ltac:(lia)). lia. Qed.

Lemma u16_land : forall x, u16 x = Z.land x 0xFFFF.
Proof. intros x. unfold u16. change 0xFFFF with (Z.ones 16). rewrite Z.land_ones by lia. reflexivity. Qed.

(** The address the two stores to [$2006] assemble. *)
Lemma ppu_addr_value :
  forall v hi lo,
    0 <= hi <= 255 ->
    Z.lor (Z.land (u16 (Z.lor (Z.land v 0x80FF) (Z.shiftl (Z.land hi 0x3F) 8))) 0x7F00) lo
    = Z.lor (Z.shiftl (Z.land hi 0x3F) 8) lo.
Proof.
  intros v hi lo Hh. f_equal.
  rewrite u16_land, <- Z.land_assoc. change (Z.land 65535 32512) with 32512.
  rewrite Z.land_lor_distr_l, <- Z.land_assoc. change (Z.land 33023 32512) with 0.
  rewrite Z.land_0_r, Z.lor_0_l.
  pose proof (forall_below
                (fun h => Z.land (Z.shiftl (Z.land h 0x3F) 8) 32512 =? Z.shiftl (Z.land h 0x3F) 8)
                256 eq_refl hi ltac:(lia)) as B.
  apply Z.eqb_eq in B. exact B.
Qed.

(** X21. After a load of [$2002] the next two stores to [$2006] are the high
    and the low byte of the VRAM address, whatever the write toggle was
    before: the address is [((hi & 0x3F) << 8) | lo] and the toggle is
    clear again. *)
Theorem ppu_addr_latch :
  forall e s hi lo,
    0 <= hi <= 255 ->
    0 <= lo <= 255 ->
    exists v s1 s2 s3,
      nes_sys_cpu_read 0x2002 s = Done (v, s1)
      /\ nes_sys_cpu_write e 0x2006 hi s1 = Done (tt, s2)
      /\ nes_sys_cpu_write e 0x2006 lo s2 = Done (tt, s3)
      /\ scroll_v (ppu s3) = Z.lor (Z.shiftl (Z.land hi 0x3F) 8) lo
      /\ scroll_w (ppu s3) = 0.
Proof.
  intros e s hi lo Hh Hl.
  rewrite read_ppu_register by lia. change (Z.land 0x2002 7) with 2.
  unfold nes_ppu_cpu_read. change (Z.land 2 7) with 2. cbv iota.
  unfold bind, gets, mod_ppu, modify, ret.
  do 4 eexists. split; [reflexivity|].
  rewrite !write_ppu_register by lia. change (Z.land 0x2006 7) with 6.
  unfold nes_ppu_cpu_write. change (Z.land 6 7) with 6. cbv iota zeta.
  unfold mod_ppu, modify.
  split; [reflexivity|]. split; [reflexivity|].
  rewrite !(u8_byte hi), !(u8_byte lo) by lia.
  cbn [ppu set_ppu]. unfold write_ppu_addr at 2. unfold clear_status.
  cbn [scroll_w scroll_v scroll_t set_scroll_w set_scroll_v set_scroll_t set_status].
  change (negb (nz 0)) with true. cbv iota.
  unfold write_ppu_addr.
  cbn [scroll_w scroll_v scroll_t set_scroll_w set_scroll_v set_scroll_t set_status].
  change (negb (nz 1)) with false. cbv iota.
  cbn [scroll_w scroll_v scroll_t set_scroll_w set_scroll_v set_scroll_t set_status].
  split; [|reflexivity].
  apply ppu_addr_value. exact Hh.
Qed.

Lemma ppu_addr_latch_witness :
  exists v s1 s2 s3,
    nes_sys_cpu_read 0x2002 nes_sys_init = Done (v, s1)
    /\ nes_sys_cpu_write (nes_cpu_execute_cycles 0) 0x2006 0xE3 s1 = Done (tt, s2)
    /\ nes_sys_cpu_write (nes_cpu_execute_cycles 0) 0x2006 0xC0 s2 = Done (tt, s3)
    /\ scroll_v (ppu s3) = Z.lor (Z.shiftl (Z.land 0xE3 0x3F) 8) 0xC0
    /\ scroll_w (ppu s3) = 0.
Proof.
  apply (ppu_addr_latch (nes_cpu_execute_cycles 0) nes_sys_init 0xE3 0xC0); lia.
Defined.

(** X22. A load of [$2002] returns the VBlank flag in bit 7 and the low five
    bits of the data buffer in bits 0-4, and acknowledges VBlank: the
    flag is clear afterwards, so a second load right after the first
    returns bit 7 clear. *)
Theorem ppu_status_read_acknowledges :
  forall s,
    exists v s1 v2 s2,
      nes_sys_cpu_read 0x2002 s = Done (v, s1)
      /\ Z.testbit v 7 = Z.testbit (status (ppu s)) 7
      /\ (forall k, 0 <= k <= 4 -> Z.testbit v k = Z.testbit (data_buffer (ppu s)) k)
      /\ scroll_w (ppu s1) = 0
      /\ nes_sys_cpu_read 0x2002 s1 = Done (v2, s2)
      /\ Z.testbit v2 7 = false.
Proof.
  intros s.
  rewrite read_ppu_register by lia. change (Z.land 0x2002 7) with 2.
  unfold nes_ppu_cpu_read. change (Z.land 2 7) with 2. cbv iota.
  unfold bind, gets, mod_ppu, modify, ret.
  do 4 eexists. split; [reflexivity|].
  unfold PPUSTATUS_VBLANK, PPUSTATUS_SP0_HIT, PPUSTATUS_SP_OVF.
  change (Z.lor (Z.lor 128 64) 32) with 224.
  split.
  { rewrite Z.lor_spec, !Z.land_spec. change (Z.testbit 224 7) with true.
    change (Z.testbit 31 7) with false. rewrite andb_true_r, andb_false_r, orb_false_r.
    reflexivity. }
  split.
  { intros k Hk. rewrite Z.lor_spec, !Z.land_spec.
    assert (K : k = 0 \/ k = 1 \/ k = 2 \/ k = 3 \/ k = 4) by lia.
    destruct K as [-> | [-> | [-> | [-> | ->]]]];
      match goal with
      | |- context [Z.testbit 224 ?n] =>
          change (Z.testbit 224 n) with false; change (Z.testbit 31 n) with true
      end;
      rewrite andb_false_r, andb_true_r; reflexivity. }
  split; [reflexivity|].
  rewrite read_ppu_register by lia. change (Z.land 0x2002 7) with 2.
  unfold nes_ppu_cpu_read. change (Z.land 2 7) with 2. cbv iota.
  unfold bind, gets, mod_ppu, modify, ret.
  split; [reflexivity|].
  cbn [ppu set_ppu]. unfold clear_status.
  cbn [status data_buffer set_scroll_w set_status].
  rewrite Z.lor_spec, !Z.land_spec. change (Z.testbit 224 7) with true.
  change (Z.testbit 31 7) with false. rewrite andb_true_r, andb_false_r, orb_false_r.
  unfold u8. change 256 with (2 ^ 8). rewrite Z.mod_pow2_bits_low by lia.
  rewrite Z.land_spec. change (Z.testbit (Z.lnot 128) 7) with false.
  apply andb_false_r.
Qed.

(** ** Sprite memory (ppu/ppu.c) *)

(** X23. OAMDATA: after the OAM address is set through [$2003], a store to
    [$2004] puts the byte at that address, moves the address on by one
    (modulo 256) and leaves every other byte of OAM alone; with the
    address set back, a load of [$2004] returns the byte stored. *)
Theorem oam_data_store_then_load :
  forall e s a v,
    length (oam (ppu s)) = 256%nat ->
    exists s1 s2 s3,
      nes_sys_cpu_write e 0x2003 a s = Done (tt, s1)
      /\ nes_sys_cpu_write e 0x2004 v s1 = Done (tt, s2)
      /\ oam_addr (ppu s2) = u8 (u8 a + 1)
      /\ nes_sys_cpu_write e 0x2003 a s2 = Done (tt, s3)
      /\ nes_sys_cpu_read 0x2004 s3 = Done (u8 v, s3)
      /\ (forall j, 0 <= j <= 255 -> j <> u8 a ->
            aget (oam (ppu s3)) j = aget (oam (ppu s)) j).
Proof.
  intros e s a v Hl.
  rewrite !write_ppu_register by lia.
  change (Z.land 0x2003 7) with 3. change (Z.land 0x2004 7) with 4.
  unfold nes_ppu_cpu_write. change (Z.land 3 7) with 3. change (Z.land 4 7) with 4.
  cbv iota zeta. unfold mod_ppu, modify.
  do 3 eexists. split; [reflexivity|].
  rewrite !write_ppu_register by lia.
  change (Z.land 0x2003 7) with 3. change (Z.land 0x2004 7) with 4.
  split; [reflexivity|].
  cbn [ppu set_ppu oam_addr oam set_oam_addr set_oam]. rewrite !u8_idem.
  split; [reflexivity|].
  unfold nes_ppu_cpu_write. change (Z.land 3 7) with 3. cbv iota zeta.
  unfold mod_ppu, modify. split; [reflexivity|].
  rewrite read_ppu_register by lia. change (Z.land 0x2004 7) with 4.
  unfold nes_ppu_cpu_read. change (Z.land 4 7) with 4. cbv iota.
  unfold bind, gets, ret.
  cbn [ppu set_ppu oam_addr oam set_oam_addr set_oam]. rewrite !u8_idem.
  pose proof (u8_range a) as Ra.
  split.
  - rewrite aget_aset_same by lia. reflexivity.
  - intros j Hj Ne. apply aget_aset_other; lia.
Qed.

Lemma oam_data_store_then_load_witness :
  exists s1 s2 s3,
    nes_sys_cpu_write (nes_cpu_execute_cycles 0) 0x2003 0xFF nes_sys_init = Done (tt, s1)
    /\ nes_sys_cpu_write (nes_cpu_execute_cycles 0) 0x2004 0x5A s1 = Done (tt, s2)
    /\ oam_addr (ppu s2) = u8 (u8 0xFF + 1)
    /\ nes_sys_cpu_write (nes_cpu_execute_cycles 0) 0x2003 0xFF s2 = Done (tt, s3)
    /\ nes_sys_cpu_read 0x2004 s3 = Done (u8 0x5A, s3)
    /\ (forall j, 0 <= j <= 255 -> j <> u8 0xFF ->
          aget (oam (ppu s3)) j = aget (oam (ppu nes_sys_init)) j).
Proof.
  apply (oam_data_store_then_load (nes_cpu_execute_cycles 0) nes_sys_init 0xFF 0x5A).
  reflexivity.
Defined.

Lemma land_ff_mod : forall x, Z.land x 0xFF = x mod 256.
Proof. intros x. change 0xFF with (Z.ones 8). rewrite Z.land_ones by lia. reflexivity. Qed.

Lemma oam_copy_spec :
  forall page i0 p,
    0 <= i0 ->
    i0 + Z.of_nat (length page) <= 256 ->
    length (oam p) = 256%nat ->
    oam_addr (oam_copy page i0 p) = oam_addr p
    /\ length (oam (oam_copy page i0 p)) = 256%nat
    /\ (forall j, 0 <= j < Z.of_nat (length page) ->
          aget (oam (oam_copy page i0 p)) (Z.land (oam_addr p + (i0 + j)) 0xFF) = aget page j)
    /\ (forall k, 0 <= k <= 255 ->
          (forall j, 0 <= j < Z.of_nat (length page) ->
                     k <> Z.land (oam_addr p + (i0 + j)) 0xFF) ->
          aget (oam (oam_copy page i0 p)) k = aget (oam p) k).
Proof.
  induction page as [|b rest IH]; intros i0 p Hi Hn Hl.
  - cbn [oam_copy length]. repeat split; try assumption; intros; try lia; reflexivity.
  - cbn [oam_copy]. cbn [length] in Hn.
    set (p1 := set_oam (aset (oam p) (Z.land (oam_addr p + i0) 0xFF) b) p).
    assert (Hl1 : length (oam p1) = 256%nat) by (subst p1; cbn [oam set_oam]; rewrite aset_length; exact Hl).
    destruct (IH (i0 + 1) p1 ltac:(lia) ltac:(lia) Hl1) as (A & L & C & K).
    change (oam_addr p1) with (oam_addr p) in A, C, K.
    assert (B0 : 0 <= Z.land (oam_addr p + i0) 0xFF <= 255) by (apply land_bounds; lia).
    split; [exact A|]. split; [exact L|]. split.
    + intros j Hj. destruct (Z.eq_dec j 0) as [->|Nj].
      * rewrite Z.add_0_r. rewrite K.
        -- subst p1. cbn [oam set_oam]. rewrite aget_aset_same by lia. reflexivity.
        -- exact B0.
        -- intros j' Hj'. rewrite !land_ff_mod. intros E.
           assert (Hj'' : 0 <= j' < 255 - i0) by lia.
           clear - E Hj'' Hi. revert E.
           generalize (oam_addr p). intros a E.
           apply (f_equal (fun x => (x - (a + i0)) mod 256)) in E.
           rewrite Zminus_mod_idemp_l in E. rewrite Zminus_mod_idemp_l in E.
           replace (a + i0 - (a + i0)) with 0 in E by lia.
           replace (a + (i0 + 1 + j') - (a + i0)) with (1 + j') in E by lia.
           rewrite Z.mod_0_l in E by lia. rewrite Z.mod_small in E by lia. lia.
      * replace (i0 + j) with (i0 + 1 + (j - 1)) by lia.
        rewrite C by (cbn [length] in Hj; lia).
        unfold aget. replace (Z.to_nat j) with (S (Z.to_nat (j - 1))) by lia. reflexivity.
    + intros k Hk Hne. rewrite K.
      * subst p1. cbn [oam set_oam]. apply aget_aset_other; try lia.
        specialize (Hne 0 ltac:(cbn [length]; lia)). rewrite Z.add_0_r in Hne. lia.
      * exact Hk.
      * intros j Hj. replace (i0 + 1 + j) with (i0 + (j + 1)) by lia.
        apply Hne. cbn [length]. lia.
Qed.

(** X24. OAM DMA copies the 256 bytes of the page to OAM starting at the
    current OAM address and wrapping around at the end: byte [i] of the
    page ends up at [(oam_addr + i) & 0xFF]. The OAM address itself is
    left as it was. *)
Theorem oam_dma_copies_page :
  forall page p,
    length page = 256%nat ->
    length (oam p) = 256%nat ->
    oam_addr (nes_ppu_oam_dma page p) = oam_addr p
    /\ length (oam (nes_ppu_oam_dma page p)) = 256%nat
    /\ (forall i, 0 <= i <= 255 ->
          aget (oam (nes_ppu_oam_dma page p)) (Z.land (oam_addr p + i) 0xFF) = aget page i).
Proof.
  intros page p Hp Ho. unfold nes_ppu_oam_dma.
  destruct (oam_copy_spec page 0 p ltac:(lia) ltac:(lia) Ho) as (A & L & C & _).
  split; [exact A|]. split; [exact L|].
  intros i Hi. apply (C i). lia.
Qed.

Lemma oam_dma_copies_page_witness :
  let page := map Z.of_nat (seq 0 256) in
  let p := set_oam_addr 0xF0 nes_ppu_init in
  oam_addr (nes_ppu_oam_dma page p) = oam_addr p
  /\ length (oam (nes_ppu_oam_dma page p)) = 256%nat
  /\ (forall i, 0 <= i <= 255 ->
        aget (oam (nes_ppu_oam_dma page p)) (Z.land (oam_addr p + i) 0xFF) = aget page i).
Proof.
  apply (oam_dma_copies_page (map Z.of_nat (seq 0 256)) (set_oam_addr 0xF0 nes_ppu_init));
    reflexivity.
Defined.

(** ** The status register (cpu/cpu.h) *)

Lemma flag_table :
  forallb (fun f =>
    forallb (fun f' =>
      forallb (fun p =>
        let get q := if tst q f' then 1 else 0 in
        let hi := Z.lor p f in
        let lo := u8 (Z.land p (Z.lnot f)) in
        (get hi =? (if f =? f' then 1 else get p))
        && (get lo =? (if f =? f' then 0 else get p))
        && (0 <=? hi) && (hi <=? 255) && (0 <=? lo) && (lo <=? 255))
        (map Z.of_nat (seq 0 256)))
      [1; 2; 4; 8; 16; 32; 64; 128])
    [1; 2; 4; 8; 16; 32; 64; 128] = true.
Proof. vm_compute. reflexivity. Qed.

Lemma in_bytes : forall p, 0 <= p <= 255 -> In p (map Z.of_nat (seq 0 256)).
Proof.
  intros p H. apply in_map_iff. exists (Z.to_nat p). split; [lia|]. apply in_seq. lia.
Qed.

(** Setting or clearing one flag changes that flag and no other, and
    keeps the status register a byte. *)
Lemma get_set_flag :
  forall f f' b c,
    In f [1; 2; 4; 8; 16; 32; 64; 128] ->
    In f' [1; 2; 4; 8; 16; 32; 64; 128] ->
    0 <= reg_p c <= 255 ->
    nes_cpu_get_flag (nes_cpu_set_flag f b c) f'
    = (if f =? f' then b2z (nz b) else nes_cpu_get_flag c f')
    /\ 0 <= reg_p (nes_cpu_set_flag f b c) <= 255.
Proof.
  intros f f' b c Hf Hf' Hp.
  pose proof flag_table as T.
  rewrite forallb_forall in T. specialize (T f Hf).
  rewrite forallb_forall in T. specialize (T f' Hf').
  rewrite forallb_forall in T. specialize (T (reg_p c) (in_bytes _ Hp)).
  cbv zeta in T.
  repeat (apply andb_prop in T; let T2 := fresh "R" in destruct T as [T T2]).
  apply Z.eqb_eq in T, R3. apply Z.leb_le in R, R0, R1, R2.
  unfold nes_cpu_get_flag, nes_cpu_set_flag.
  destruct (nz b); cbn [reg_p set_reg_p b2z].
  - split; [exact T | lia].
  - split; [exact R3 | lia].
Qed.

Lemma set_flag_frame :
  forall f b c,
    reg_a (nes_cpu_set_flag f b c) = reg_a c
    /\ reg_x (nes_cpu_set_flag f b c) = reg_x c
    /\ reg_y (nes_cpu_set_flag f b c) = reg_y c
    /\ reg_sp (nes_cpu_set_flag f b c) = reg_sp c
    /\ reg_pc (nes_cpu_set_flag f b c) = reg_pc c.
Proof. intros f b c. unfold nes_cpu_set_flag. destruct (nz b); repeat split. Qed.

(** ** Arithmetic (cpu/cpu.c) *)

Lemma adc_table :
  forallb (fun a =>
    forallb (fun v =>
      forallb (fun cin =>
        let result := u16 (a + v + cin) in
        let signed := s8 a + s8 v + cin in
        Bool.eqb (0xFF <? result) (255 <? a + v + cin)
        && (u8 result =? (a + v + cin) mod 256)
        && Bool.eqb (nz (Z.land (Z.land (Z.lnot (Z.lxor a v)) (Z.lxor a result)) 0x80))
                    ((signed <? -128) || (127 <? signed))
        && Bool.eqb (tst (u8 result) 0x80) (128 <=? (a + v + cin) mod 256))
        [0; 1])
      (map Z.of_nat (seq 0 256)))
    (map Z.of_nat (seq 0 256)) = true.
Proof. vm_compute. reflexivity. Qed.

Lemma get_flag_bit : forall c f, nes_cpu_get_flag c f = 0 \/ nes_cpu_get_flag c f = 1.
Proof. intros c f. unfold nes_cpu_get_flag. destruct (tst _ _); [right|left]; reflexivity. Qed.

Lemma nz_b2z : forall b, nz (b2z b) = b.
Proof. intros []; reflexivity. Qed.

(** What [do_adc] leaves behind; [do_sbc] goes through it with the
    operand complemented. *)
Lemma do_adc_spec :
  forall c v,
    0 <= reg_a c <= 255 ->
    0 <= v <= 255 ->
    0 <= reg_p c <= 255 ->
    let cin := nes_cpu_get_flag c FLAG_CARRY in
    let sum := reg_a c + v + cin in
    let signed := s8 (reg_a c) + s8 v + cin in
    let c' := do_adc v c in
    reg_a c' = sum mod 256
    /\ nes_cpu_get_flag c' FLAG_CARRY = b2z (255 <? sum)
    /\ nes_cpu_get_flag c' FLAG_ZERO = b2z (sum mod 256 =? 0)
    /\ nes_cpu_get_flag c' FLAG_NEGATIVE = b2z (128 <=? sum mod 256)
    /\ nes_cpu_get_flag c' FLAG_OVERFLOW = b2z ((signed <? -128) || (127 <? signed))
    /\ (forall f, In f [FLAG_INTERRUPT; FLAG_DECIMAL; FLAG_BREAK; FLAG_UNUSED] ->
          nes_cpu_get_flag c' f = nes_cpu_get_flag c f)
    /\ 0 <= reg_p c' <= 255.
Proof.
  intros c v Ha Hv Hp cin sum signed c'.
  assert (Hc : In cin [0; 1]) by (destruct (get_flag_bit c FLAG_CARRY) as [E|E];
                                  subst cin; rewrite E; cbn; auto).
  pose proof adc_table as T.
  rewrite forallb_forall in T. specialize (T (reg_a c) (in_bytes _ Ha)).
  rewrite forallb_forall in T. specialize (T v (in_bytes _ Hv)).
  rewrite forallb_forall in T. specialize (T cin Hc).
  cbv zeta in T. fold sum signed in T.
  apply andb_prop in T. destruct T as [T TN].
  apply andb_prop in T. destruct T as [T TV].
  apply andb_prop in T. destruct T as [TC TA].
  apply Bool.eqb_prop in TC, TV, TN. apply Z.eqb_eq in TA.
  subst c'. unfold do_adc, nes_cpu_update_zn. cbv zeta.
  fold cin. fold sum. rewrite TC.
  set (c1 := nes_cpu_set_flag FLAG_CARRY (b2z (255 <? sum)) c).
  destruct (set_flag_frame FLAG_CARRY (b2z (255 <? sum)) c) as (A1 & _).
  fold c1 in A1. rewrite A1, TV.
  set (c2 := nes_cpu_set_flag FLAG_OVERFLOW (b2z ((signed <? -128) || (127 <? signed))) c1).
  set (c3 := set_reg_a (u8 (u16 sum)) c2).
  change (reg_a c3) with (u8 (u16 sum)). rewrite TN, TA.
  set (c4 := nes_cpu_set_flag FLAG_ZERO (b2z (sum mod 256 =? 0)) c3).
  set (c5 := nes_cpu_set_flag FLAG_NEGATIVE (b2z (128 <=? sum mod 256)) c4).
  assert (F : forall x, In x [1; 2; 4; 8; 16; 32; 64; 128] ->
              nes_cpu_get_flag c3 x = nes_cpu_get_flag c2 x) by reflexivity.
  assert (I1 : In 1 [1; 2; 4; 8; 16; 32; 64; 128]) by (cbn; auto).
  assert (I2 : In 2 [1; 2; 4; 8; 16; 32; 64; 128]) by (cbn; auto).
  assert (I64 : In 64 [1; 2; 4; 8; 16; 32; 64; 128]) by (cbn; auto 10).
  assert (I128 : In 128 [1; 2; 4; 8; 16; 32; 64; 128]) by (cbn; auto 10).
  unfold FLAG_CARRY, FLAG_ZERO, FLAG_NEGATIVE, FLAG_OVERFLOW, FLAG_INTERRUPT, FLAG_DECIMAL,
    FLAG_BREAK, FLAG_UNUSED in *.
  assert (P1 : 0 <= reg_p c1 <= 255) by (apply (get_set_flag 1 1 _ c I1 I1 Hp)).
  assert (P2 : 0 <= reg_p c2 <= 255) by (apply (get_set_flag 64 1 _ c1 I64 I1 P1)).
  assert (P3 : 0 <= reg_p c3 <= 255) by exact P2.
  assert (P4 : 0 <= reg_p c4 <= 255) by (apply (get_set_flag 2 1 _ c3 I2 I1 P3)).
  assert (G : forall x, In x [1; 2; 4; 8; 16; 32; 64; 128] ->
              nes_cpu_get_flag c5 x
              = if 128 =? x then b2z (128 <=? sum mod 256)
                else if 2 =? x then b2z (sum mod 256 =? 0)
                else if 64 =? x then b2z ((signed <? -128) || (127 <? signed))
                else if 1 =? x then b2z (255 <? sum)
                else nes_cpu_get_flag c x).
  { intros x Hx. subst c5.
    rewrite (proj1 (get_set_flag 128 x _ c4 I128 Hx P4)), nz_b2z.
    destruct (128 =? x); [reflexivity|]. subst c4.
    rewrite (proj1 (get_set_flag 2 x _ c3 I2 Hx P3)), nz_b2z.
    destruct (2 =? x); [reflexivity|]. rewrite (F x Hx). subst c2.
    rewrite (proj1 (get_set_flag 64 x _ c1 I64 Hx P1)), nz_b2z.
    destruct (64 =? x); [reflexivity|]. subst c1.
    rewrite (proj1 (get_set_flag 1 x _ c I1 Hx Hp)), nz_b2z.
    reflexivity. }
  split.
  { destruct (set_flag_frame 128 (b2z (128 <=? sum mod 256)) c4) as (B5 & _).
    destruct (set_flag_frame 2 (b2z (sum mod 256 =? 0)) c3) as (B4 & _).
    fold c5 in B5. fold c4 in B4. rewrite B5, B4. exact TA. }
  split; [rewrite (G 1 I1); reflexivity|].
  split; [rewrite (G 2 I2); reflexivity|].
  split; [rewrite (G 128 I128); reflexivity|].
  split; [rewrite (G 64 I64); reflexivity|].
  split.
  - intros f Hf. cbn [In] in Hf.
    destruct Hf as [<-|[<-|[<-|[<-|[]]]]]; rewrite G by (cbn; auto 10); reflexivity.
  - apply (get_set_flag 128 1 _ c4 I128 I1 P4).
Qed.

(** X25. [ADC] adds the operand and the carry to the accumulator: the
    accumulator receives the low eight bits of the sum, C is the carry
    out of bit 7, Z and N describe the new accumulator, V tells whether
    the sum of the operands read as signed bytes left the signed range;
    I, D, B and the unused flag are not touched. *)
Theorem adc_arithmetic :
  forall c v,
    0 <= reg_a c <= 255 ->
    0 <= v <= 255 ->
    0 <= reg_p c <= 255 ->
    let cin := nes_cpu_get_flag c FLAG_CARRY in
    let sum := reg_a c + v + cin in
    let signed := s8 (reg_a c) + s8 v + cin in
    let c' := do_adc v c in
    reg_a c' = sum mod 256
    /\ nes_cpu_get_flag c' FLAG_CARRY = b2z (255 <? sum)
    /\ nes_cpu_get_flag c' FLAG_ZERO = b2z (sum mod 256 =? 0)
    /\ nes_cpu_get_flag c' FLAG_NEGATIVE = b2z (128 <=? sum mod 256)
    /\ nes_cpu_get_flag c' FLAG_OVERFLOW = b2z ((signed <? -128) || (127 <? signed))
    /\ (forall f, In f [FLAG_INTERRUPT; FLAG_DECIMAL; FLAG_BREAK; FLAG_UNUSED] ->
          nes_cpu_get_flag c' f = nes_cpu_get_flag c f)
    /\ 0 <= reg_p c' <= 255.
Proof. exact do_adc_spec. Qed.

Lemma adc_arithmetic_witness :
  let c := set_reg_p 0x25 (set_reg_a 0x7F nes_cpu_init) in
  let cin := nes_cpu_get_flag c FLAG_CARRY in
  let sum := reg_a c + 0x01 + cin in
  let signed := s8 (reg_a c) + s8 0x01 + cin in
  let c' := do_adc 0x01 c in
  reg_a c' = sum mod 256
  /\ nes_cpu_get_flag c' FLAG_CARRY = b2z (255 <? sum)
  /\ nes_cpu_get_flag c' FLAG_ZERO = b2z (sum mod 256 =? 0)
  /\ nes_cpu_get_flag c' FLAG_NEGATIVE = b2z (128 <=? sum mod 256)
  /\ nes_cpu_get_flag c' FLAG_OVERFLOW = b2z ((signed <? -128) || (127 <? signed))
  /\ (forall f, In f [FLAG_INTERRUPT; FLAG_DECIMAL; FLAG_BREAK; FLAG_UNUSED] ->
        nes_cpu_get_flag c' f = nes_cpu_get_flag c f)
  /\ 0 <= reg_p c' <= 255.
Proof.
  apply (adc_arithmetic (set_reg_p 0x25 (set_reg_a 0x7F nes_cpu_init)) 0x01); cbn; lia.
Defined.

Lemma s8_complement : forall v, 0 <= v <= 255 -> s8 (255 - v) = - 1 - s8 v.
Proof.
  intros v H. unfold s8. rewrite !u8_byte by lia.
  destruct (Z.ltb_spec (255 - v) 128), (Z.ltb_spec v 128); lia.
Qed.

Lemma u8_lnot : forall v, 0 <= v <= 255 -> u8 (Z.lnot v) = 255 - v.
Proof.
  intros v H. unfold u8, Z.lnot.
  replace (Z.pred (- v)) with (255 - v + (-1) * 256) by lia.
  rewrite Z.mod_add by lia. apply Z.mod_small. lia.
Qed.

(** X26. [SBC] subtracts the operand and the borrow (the complement of the
    carry) from the accumulator: the accumulator receives the low eight
    bits of the difference, C is set when no borrow was needed, Z and N
    describe the new accumulator, V tells whether the difference of the
    operands read as signed bytes left the signed range. *)
Theorem sbc_arithmetic :
  forall c v,
    0 <= reg_a c <= 255 ->
    0 <= v <= 255 ->
    0 <= reg_p c <= 255 ->
    let borrow := 1 - nes_cpu_get_flag c FLAG_CARRY in
    let diff := reg_a c - v - borrow in
    let signed := s8 (reg_a c) - s8 v - borrow in
    let c' := do_sbc v c in
    reg_a c' = diff mod 256
    /\ nes_cpu_get_flag c' FLAG_CARRY = b2z (0 <=? diff)
    /\ nes_cpu_get_flag c' FLAG_ZERO = b2z (diff mod 256 =? 0)
    /\ nes_cpu_get_flag c' FLAG_NEGATIVE = b2z (128 <=? diff mod 256)
    /\ nes_cpu_get_flag c' FLAG_OVERFLOW = b2z ((signed <? -128) || (127 <? signed))
    /\ (forall f, In f [FLAG_INTERRUPT; FLAG_DECIMAL; FLAG_BREAK; FLAG_UNUSED] ->
          nes_cpu_get_flag c' f = nes_cpu_get_flag c f).
Proof.
  intros c v Ha Hv Hp borrow diff signed c'.
  subst c'. unfold do_sbc. rewrite u8_lnot by exact Hv.
  destruct (do_adc_spec c (255 - v) Ha ltac:(lia) Hp) as (A & C & Z0 & N & V & O & _).
  rewrite s8_complement in V by exact Hv.
  set (cin := nes_cpu_get_flag c FLAG_CARRY) in *.
  assert (S : (reg_a c + (255 - v) + cin) mod 256 = diff mod 256).
  { subst diff borrow. replace (reg_a c + (255 - v) + cin) with (reg_a c - v - (1 - cin) + 1 * 256) by lia.
    apply Z.mod_add. lia. }
  rewrite S in A, Z0, N.
  split; [exact A|]. split.
  { rewrite C. f_equal. subst diff borrow.
    destruct (Z.ltb_spec 255 (reg_a c + (255 - v) + cin)), (Z.leb_spec 0 (reg_a c - v - (1 - cin)));
      try reflexivity; lia. }
  split; [exact Z0|]. split; [exact N|]. split; [|exact O].
  rewrite V. f_equal. subst signed borrow.
  replace (s8 (reg_a c) + (-1 - s8 v) + cin) with (s8 (reg_a c) - s8 v - (1 - cin)) by lia.
  reflexivity.
Qed.

Lemma sbc_arithmetic_witness :
  let c := set_reg_p 0x24 (set_reg_a 0x10 nes_cpu_init) in
  let borrow := 1 - nes_cpu_get_flag c FLAG_CARRY in
  let diff := reg_a c - 0x20 - borrow in
  let signed := s8 (reg_a c) - s8 0x20 - borrow in
  let c' := do_sbc 0x20 c in
  reg_a c' = diff mod 256
  /\ nes_cpu_get_flag c' FLAG_CARRY = b2z (0 <=? diff)
  /\ nes_cpu_get_flag c' FLAG_ZERO = b2z (diff mod 256 =? 0)
  /\ nes_cpu_get_flag c' FLAG_NEGATIVE = b2z (128 <=? diff mod 256)
  /\ nes_cpu_get_flag c' FLAG_OVERFLOW = b2z ((signed <? -128) || (127 <? signed))
  /\ (forall f, In f [FLAG_INTERRUPT; FLAG_DECIMAL; FLAG_BREAK; FLAG_UNUSED] ->
        nes_cpu_get_flag c' f = nes_cpu_get_flag c f).
Proof.
  apply (sbc_arithmetic (set_reg_p 0x24 (set_reg_a 0x10 nes_cpu_init)) 0x20); cbn; lia.
Defined.

(** X27. [CMP], [CPX] and [CPY] compare a register with a byte of memory as
    unsigned numbers: C is set when the register is not below the
    operand, Z when the two are equal, N is bit 7 of their difference;
    no register and no other flag changes. *)
Theorem compare_flags :
  forall c r m,
    0 <= r <= 255 ->
    0 <= m <= 255 ->
    0 <= reg_p c <= 255 ->
    let c' := compare r m c in
    nes_cpu_get_flag c' FLAG_CARRY = b2z (m <=? r)
    /\ nes_cpu_get_flag c' FLAG_ZERO = b2z (r =? m)
    /\ nes_cpu_get_flag c' FLAG_NEGATIVE = b2z (128 <=? (r - m) mod 256)
    /\ (forall f, In f [FLAG_INTERRUPT; FLAG_DECIMAL; FLAG_BREAK; FLAG_UNUSED; FLAG_OVERFLOW] ->
          nes_cpu_get_flag c' f = nes_cpu_get_flag c f)
    /\ (reg_a c', reg_x c', reg_y c', reg_sp c', reg_pc c')
       = (reg_a c, reg_x c, reg_y c, reg_sp c, reg_pc c).
Proof.
  intros c r m Hr Hm Hp c'. subst c'. unfold compare. cbv zeta.
  assert (EZ : (u8 (r - m) =? 0) = (r =? m)).
  { unfold u8. destruct (Z.eqb_spec r m) as [->|Ne].
    - rewrite Z.sub_diag. reflexivity.
    - apply Z.eqb_neq. intros E.
      destruct (Z.lt_ge_cases r m).
      + replace (r - m) with (r - m + 256 + (-1) * 256) in E by lia.
        rewrite Z.mod_add, Z.mod_small in E by lia. lia.
      + rewrite Z.mod_small in E by lia. lia. }
  assert (EN : tst (u8 (r - m)) 0x80 = (128 <=? (r - m) mod 256)).
  { pose proof (Z.mod_pos_bound (r - m) 256 ltac:(lia)) as B.
    pose proof (forall_below (fun x => Bool.eqb (tst x 0x80) (128 <=? x)) 256 eq_refl
                  ((r - m) mod 256) ltac:(lia)) as E.
    cbv beta in E. apply Bool.eqb_prop in E. exact E. }
  rewrite EZ, EN.
  set (c1 := nes_cpu_set_flag FLAG_CARRY (b2z (m <=? r)) c).
  set (c2 := nes_cpu_set_flag FLAG_ZERO (b2z (r =? m)) c1).
  set (c3 := nes_cpu_set_flag FLAG_NEGATIVE (b2z (128 <=? (r - m) mod 256)) c2).
  assert (I1 : In 1 [1; 2; 4; 8; 16; 32; 64; 128]) by (cbn; auto).
  assert (I2 : In 2 [1; 2; 4; 8; 16; 32; 64; 128]) by (cbn; auto).
  assert (I128 : In 128 [1; 2; 4; 8; 16; 32; 64; 128]) by (cbn; auto 10).
  unfold FLAG_CARRY, FLAG_ZERO, FLAG_NEGATIVE, FLAG_OVERFLOW, FLAG_INTERRUPT, FLAG_DECIMAL,
    FLAG_BREAK, FLAG_UNUSED in *.
  assert (P1 : 0 <= reg_p c1 <= 255) by (apply (get_set_flag 1 1 _ c I1 I1 Hp)).
  assert (P2 : 0 <= reg_p c2 <= 255) by (apply (get_set_flag 2 1 _ c1 I2 I1 P1)).
  assert (G : forall x, In x [1; 2; 4; 8; 16; 32; 64; 128] ->
              nes_cpu_get_flag c3 x
              = if 128 =? x then b2z (128 <=? (r - m) mod 256)
                else if 2 =? x then b2z (r =? m)
                else if 1 =? x then b2z (m <=? r)
                else nes_cpu_get_flag c x).
  { intros x Hx. subst c3.
    rewrite (proj1 (get_set_flag 128 x _ c2 I128 Hx P2)), nz_b2z.
    destruct (128 =? x); [reflexivity|]. subst c2.
    rewrite (proj1 (get_set_flag 2 x _ c1 I2 Hx P1)), nz_b2z.
    destruct (2 =? x); [reflexivity|]. subst c1.
    rewrite (proj1 (get_set_flag 1 x _ c I1 Hx Hp)), nz_b2z.
    reflexivity. }
  split; [rewrite (G 1 I1); reflexivity|].
  split; [rewrite (G 2 I2); reflexivity|].
  split; [rewrite (G 128 I128); reflexivity|].
  split.
  - intros f Hf. cbn [In] in Hf.
    destruct Hf as [<-|[<-|[<-|[<-|[<-|[]]]]]]; rewrite G by (cbn; auto 10); reflexivity.
  - destruct (set_flag_frame 128 (b2z (128 <=? (r - m) mod 256)) c2) as (A3 & X3 & Y3 & S3 & C3).
    destruct (set_flag_frame 2 (b2z (r =? m)) c1) as (A2 & X2 & Y2 & S2 & C2).
    destruct (set_flag_frame 1 (b2z (m <=? r)) c) as (A1 & X1 & Y1 & S1 & C1).
    fold c1 in A1, X1, Y1, S1, C1. fold c2 in A2, X2, Y2, S2, C2.
    fold c3 in A3, X3, Y3, S3, C3.
    rewrite A3, X3, Y3, S3, C3, A2, X2, Y2, S2, C2, A1, X1, Y1, S1, C1. reflexivity.
Qed.

Lemma compare_flags_witness :
  let c := set_reg_p 0x24 nes_cpu_init in
  let c' := compare 0x10 0x20 c in
  nes_cpu_get_flag c' FLAG_CARRY = b2z (0x20 <=? 0x10)
  /\ nes_cpu_get_flag c' FLAG_ZERO = b2z (0x10 =? 0x20)
  /\ nes_cpu_get_flag c' FLAG_NEGATIVE = b2z (128 <=? (0x10 - 0x20) mod 256)
  /\ (forall f, In f [FLAG_INTERRUPT; FLAG_DECIMAL; FLAG_BREAK; FLAG_UNUSED; FLAG_OVERFLOW] ->
        nes_cpu_get_flag c' f = nes_cpu_get_flag c f)
  /\ (reg_a c', reg_x c', reg_y c', reg_sp c', reg_pc c')
     = (reg_a c, reg_x c, reg_y c, reg_sp c, reg_pc c).
Proof.
  apply (compare_flags (set_reg_p 0x24 nes_cpu_init) 0x10 0x20); cbn; lia.
Defined.

(** ** The stack (cpu/cpu.h) *)

Ltac sys_simpl :=
  cbv beta iota delta
    [cpu ppu apu input cartridge mapper ram cpu_cycles_per_frame ppu_cycles_per_frame
     frame_complete running paused g_frame_buffer g_mirror_mode
     set_cpu set_ram
     reg_pc reg_a reg_x reg_y reg_sp reg_p cycle_count pending_nmi pending_irq stall_cycles
     set_reg_sp].

Lemma land_7ff_small : forall a, 0 <= a <= 0x7FF -> Z.land a 0x07FF = a.
Proof.
  intros a H. change 0x07FF with (Z.ones 11). rewrite Z.land_ones by lia.
  apply Z.mod_small. change (2 ^ 11) with 2048. lia.
Qed.

Lemma push_ram :
  forall e s v,
    0 <= reg_sp (cpu s) <= 255 ->
    nes_cpu_push e v s
    = Done (tt, set_ram (aset (ram s) (0x100 + reg_sp (cpu s)) (u8 v))
                  (set_cpu (set_reg_sp (u8 (reg_sp (cpu s) - 1)) (cpu s)) s)).
Proof.
  intros e s v H. unfold nes_cpu_push, bind, gets, mod_cpu, modify, bus_write, NES_STACK_BASE.
  rewrite write_ram by lia. rewrite land_7ff_small by lia. reflexivity.
Qed.

Lemma pop_ram :
  forall s,
    0 <= reg_sp (cpu s) <= 255 ->
    nes_cpu_pop s
    = Done (aget (ram s) (0x100 + u8 (reg_sp (cpu s) + 1)),
            set_cpu (set_reg_sp (u8 (reg_sp (cpu s) + 1)) (cpu s)) s).
Proof.
  intros s H. unfold nes_cpu_pop, bind, gets, mod_cpu, modify, bus_read, NES_STACK_BASE.
  pose proof (u8_range (reg_sp (cpu s) + 1)).
  rewrite read_ram by lia. rewrite land_7ff_small by lia. reflexivity.
Qed.

Lemma word_bytes :
  forall val, 0 <= val <= 0xFFFF ->
    u16 (Z.lor (Z.shiftl (u8 (Z.land (Z.shiftr val 8) 0xFF)) 8) (u8 (Z.land val 0xFF))) = val.
Proof.
  intros val H.
  pose proof (land_bounds (Z.shiftr val 8) 0xFF ltac:(lia)).
  pose proof (land_bounds val 0xFF ltac:(lia)).
  rewrite !u8_byte by lia. rewrite u16_land.
  apply Z.bits_inj'. intros n Hn.
  rewrite Z.land_spec, Z.lor_spec, !Z.land_spec.
  change 0xFFFF with (Z.ones 16). change 0xFF with (Z.ones 8).
  destruct (Z.ltb_spec n 8).
  - rewrite Z.shiftl_spec_low by lia. rewrite !Z.ones_spec_low by lia.
    cbn [orb]. rewrite !andb_true_r. reflexivity.
  - rewrite Z.shiftl_spec by lia. rewrite Z.land_spec, Z.shiftr_spec by lia.
    replace (n - 8 + 8) with n by lia.
    rewrite (Z.ones_spec_high 8 n) by lia. rewrite andb_false_r, orb_false_r.
    destruct (Z.ltb_spec n 16).
    + rewrite !Z.ones_spec_low by lia. rewrite !andb_true_r. reflexivity.
    + rewrite (Z.ones_spec_high 16 n) by lia. rewrite andb_false_r.
      symmetry. destruct (Z.eq_dec val 0) as [->|]; [apply Z.bits_0|].
      apply Z.bits_above_log2; [lia|].
      assert (Z.log2 val < 16) by (apply Z.log2_lt_pow2; lia). lia.
Qed.

(** X28. A 16-bit value pushed on the stack and popped again comes back
    unchanged and leaves the CPU registers, the stack pointer included,
    as they were, also when the stack pointer wraps around inside page
    1; the two bytes go to [$0100 + sp] (high) and to the cell below it
    (low), and no other byte of RAM changes. *)
Theorem push_word_then_pop_word :
  forall e s val,
    length (ram s) = 2048%nat ->
    0 <= reg_sp (cpu s) <= 255 ->
    0 <= val <= 0xFFFF ->
    exists s',
      bind (nes_cpu_push_word e val) (fun _ => nes_cpu_pop_word) s = Done (val, s')
      /\ cpu s' = cpu s
      /\ aget (ram s') (0x100 + reg_sp (cpu s)) = Z.shiftr val 8
      /\ aget (ram s') (0x100 + u8 (reg_sp (cpu s) - 1)) = Z.land val 0xFF
      /\ (forall a, 0 <= a -> a <> 0x100 + reg_sp (cpu s) ->
            a <> 0x100 + u8 (reg_sp (cpu s) - 1) -> aget (ram s') a = aget (ram s) a).
Proof.
  intros e s val Hl Hsp Hv.
  destruct s as [c0 ppu0 apu0 in0 cart0 map0 ram0 f1 f2 f3 f4 f5 fb mm].
  destruct c0 as [pc a x y sp p cyc nmi irq stall]. cbn [cpu reg_sp ram] in *.
  pose proof (u8_range (sp - 1)) as R1.
  assert (E1 : u8 (u8 (u8 (sp - 1) - 1) + 1) = u8 (sp - 1)).
  { unfold u8 at 1 2. rewrite Zplus_mod_idemp_l.
    replace (u8 (sp - 1) - 1 + 1) with (u8 (sp - 1)) by lia. apply u8_idem. }
  assert (E2 : u8 (u8 (sp - 1) + 1) = sp).
  { unfold u8. rewrite Zplus_mod_idemp_l. replace (sp - 1 + 1) with sp by lia.
    apply Z.mod_small. lia. }
  assert (Ne : u8 (sp - 1) <> sp).
  { unfold u8. destruct (Z.eq_dec sp 0) as [->|]; [cbn; lia|].
    rewrite Z.mod_small by lia. lia. }
  unfold nes_cpu_push_word, nes_cpu_pop_word. unfold bind at 1 2.
  rewrite push_ram by (sys_simpl; lia). sys_simpl.
  rewrite push_ram by (sys_simpl; lia). sys_simpl.
  unfold bind, ret.
  rewrite pop_ram by (sys_simpl; pose proof (u8_range (u8 (sp - 1) - 1)); lia).
  sys_simpl.
  rewrite pop_ram by (sys_simpl; rewrite E1; lia).
  sys_simpl.
  rewrite E1, E2.
  assert (Ll : Z.of_nat (length (aset ram0 (256 + sp) (u8 (Z.land (Z.shiftr val 8) 255)))) = 2048)
    by (rewrite aset_length; lia).
  rewrite aget_aset_same by lia.
  rewrite aget_aset_other by lia.
  rewrite aget_aset_same by lia.
  rewrite word_bytes by exact Hv.
  eexists. split; [reflexivity|].
  cbn [cpu ram].
  split; [reflexivity|].
  pose proof (land_bounds (Z.shiftr val 8) 0xFF ltac:(lia)).
  pose proof (land_bounds val 0xFF ltac:(lia)).
  split.
  { rewrite aget_aset_other by lia. rewrite aget_aset_same by lia.
    rewrite u8_byte by lia.
    change 255 with (Z.ones 8). rewrite Z.land_ones by lia.
    apply Z.mod_small. rewrite Z.shiftr_div_pow2 by lia.
    split; [apply Z.div_pos; lia|]. apply Z.div_lt_upper_bound; lia. }
  split.
  { rewrite aget_aset_same by lia. apply u8_byte. lia. }
  intros a0 Ha N1 N2. rewrite !aget_aset_other by lia. reflexivity.
Qed.

Lemma push_word_then_pop_word_witness :
  exists s',
    bind (nes_cpu_push_word (nes_cpu_execute_cycles 0) 0xC123) (fun _ => nes_cpu_pop_word)
      nes_sys_init = Done (0xC123, s')
    /\ cpu s' = cpu nes_sys_init
    /\ aget (ram s') (0x100 + reg_sp (cpu nes_sys_init)) = Z.shiftr 0xC123 8
    /\ aget (ram s') (0x100 + u8 (reg_sp (cpu nes_sys_init) - 1)) = Z.land 0xC123 0xFF
    /\ (forall a, 0 <= a -> a <> 0x100 + reg_sp (cpu nes_sys_init) ->
          a <> 0x100 + u8 (reg_sp (cpu nes_sys_init) - 1) ->
          aget (ram s') a = aget (ram nes_sys_init) a).
Proof.
  apply (push_word_then_pop_word (nes_cpu_execute_cycles 0) nes_sys_init 0xC123).
  - reflexivity.
  - cbn. lia.
  - lia.
Defined.

(** ** Reset and interrupts (cpu/cpu.c) *)

(** With a mapper installed, reads of cartridge ROM space do not look at
    work RAM. *)
Lemma read_rom_frame_ram :
  forall addr r s,
    0x8000 <= addr <= 0xFFFF ->
    mapper s <> mapper_none ->
    nes_sys_cpu_read addr (set_ram r s) = on_state (set_ram r) (nes_sys_cpu_read addr s).
Proof.
  intros addr r s H Hm. unfold nes_sys_cpu_read. rewrite land_ffff by lia.
  unfold NES_RAM_MIRRORS, NES_ADDR_PPU_REG, NES_ADDR_APU_REG, NES_ADDR_CARTRIDGE.
  destruct (Z.ltb_spec addr 0x1FFF); [lia|].
  destruct (Z.leb_spec 0x2000 addr); [|lia].
  destruct (Z.ltb_spec addr (0x2000 + 8)); [lia|].
  destruct (Z.leb_spec 0x4000 addr); [|lia].
  destruct (Z.ltb_spec addr 0x4020); [lia|].
  cbn [andb]. unfold bind, get.
  destruct (Z.leb_spec 0x4020 addr); [|lia].
  destruct (Z.leb_spec 0x6000 addr); [|lia].
  destruct (Z.ltb_spec addr 0x8000); [lia|]. cbn [andb].
  cbn [mapper set_ram].
  destruct (mapper s) as [| |m|b|cb|m|b]; [congruence| | | | | |]; cbn [mapper_cpu_read];
    unfold mapper_4_cpu_read; unfold ret, bind, gets, lift, modify;
    cbn [cartridge set_ram set_mapper ram on_state];
    try reflexivity;
    match goal with
    | |- context [match ?r with Done _ => _ | OutOfFuel => _ | Fault => _ end] =>
        destruct r; reflexivity
    | _ => idtac
    end.
  destruct (32768 <=? addr);
    match goal with
    | |- context [match ?r with Done _ => _ | OutOfFuel => _ | Fault => _ end] =>
        destruct r; reflexivity
    end.
Qed.

Lemma read_rom_stable_cpu_ram :
  forall addr v c r s,
    0x8000 <= addr <= 0xFFFF ->
    mapper s <> mapper_none ->
    nes_sys_cpu_read addr s = Done (v, s) ->
    nes_sys_cpu_read addr (set_ram r (set_cpu c s)) = Done (v, set_ram r (set_cpu c s)).
Proof.
  intros addr v c r s H Hm E.
  rewrite read_rom_frame_ram by (try exact H; exact Hm).
  rewrite (read_rom_stable addr v c s H E). reflexivity.
Qed.

(** X29. [nes_cpu_reset] loads the program counter from the vector at
    [$FFFC], sets the stack pointer to [$FD] and the status to [$24] (I
    and the unused flag), and clears the cycle counter, the stall and
    both interrupt latches. A, X and Y keep their values and work RAM is
    not touched. *)
Theorem cpu_reset_loads_vector :
  forall s lo hi,
    nes_sys_cpu_read 0xFFFC s = Done (lo, s) ->
    nes_sys_cpu_read 0xFFFD s = Done (hi, s) ->
    exists s',
      nes_cpu_reset s = Done (tt, s')
      /\ reg_pc (cpu s') = u16 (Z.lor lo (Z.shiftl hi 8))
      /\ reg_sp (cpu s') = 0xFD
      /\ reg_p (cpu s') = 0x24
      /\ (cycle_count (cpu s'), stall_cycles (cpu s'), pending_nmi (cpu s'), pending_irq (cpu s'))
         = (0, 0, 0, 0)
      /\ (reg_a (cpu s'), reg_x (cpu s'), reg_y (cpu s'))
         = (reg_a (cpu s), reg_x (cpu s), reg_y (cpu s))
      /\ ram s' = ram s.
Proof.
  intros s lo hi R0 R1. unfold nes_cpu_reset, bus_read, NES_VECTOR_RESET.
  unfold bind, mod_cpu, modify.
  rewrite (read_rom_stable 0xFFFC lo _ s ltac:(lia) R0).
  rewrite (read_rom_stable (0xFFFC + 1) hi _ s ltac:(lia) R1).
  eexists. split; [reflexivity|]. repeat split.
Qed.

Lemma cpu_reset_loads_vector_witness :
  exists s',
    nes_cpu_reset jmp_machine = Done (tt, s')
    /\ reg_pc (cpu s') = u16 (Z.lor 0xEA (Z.shiftl 0xEA 8))
    /\ reg_sp (cpu s') = 0xFD
    /\ reg_p (cpu s') = 0x24
    /\ (cycle_count (cpu s'), stall_cycles (cpu s'), pending_nmi (cpu s'), pending_irq (cpu s'))
       = (0, 0, 0, 0)
    /\ (reg_a (cpu s'), reg_x (cpu s'), reg_y (cpu s'))
       = (reg_a (cpu jmp_machine), reg_x (cpu jmp_machine), reg_y (cpu jmp_machine))
    /\ ram s' = ram jmp_machine.
Proof.
  apply (cpu_reset_loads_vector jmp_machine 0xEA 0xEA); reflexivity.
Defined.

(** X30. A pending NMI is served before anything is fetched, whether or not
    the I flag is set: the step clears the latch, pushes the program
    counter (high byte first) and then the status with the unused flag
    set, sets I, loads the program counter from the vector at [$FFFA]
    and takes 7 cycles. *)
Theorem nmi_entry :
  forall fuel s lo hi,
    stall_cycles (cpu s) = 0 ->
    pending_nmi (cpu s) <> 0 ->
    length (ram s) = 2048%nat ->
    0 <= reg_sp (cpu s) <= 255 ->
    0 <= reg_pc (cpu s) <= 0xFFFF ->
    0 <= reg_p (cpu s) <= 255 ->
    mapper s <> mapper_none ->
    nes_sys_cpu_read 0xFFFA s = Done (lo, s) ->
    nes_sys_cpu_read 0xFFFB s = Done (hi, s) ->
    exists s',
      nes_cpu_step (S fuel) s = Done (7, s')
      /\ pending_nmi (cpu s') = 0
      /\ reg_pc (cpu s') = u16 (Z.lor lo (Z.shiftl hi 8))
      /\ reg_sp (cpu s') = u8 (reg_sp (cpu s) - 3)
      /\ reg_p (cpu s') = Z.lor (reg_p (cpu s)) 0x04
      /\ cycle_count (cpu s') = u32 (cycle_count (cpu s) + 7)
      /\ aget (ram s') (0x100 + reg_sp (cpu s)) = Z.shiftr (reg_pc (cpu s)) 8
      /\ aget (ram s') (0x100 + u8 (reg_sp (cpu s) - 1)) = Z.land (reg_pc (cpu s)) 0xFF
      /\ aget (ram s') (0x100 + u8 (reg_sp (cpu s) - 2)) = Z.lor (reg_p (cpu s)) 0x20.
Proof.
  intros fuel s lo hi Hst Hnmi Hl Hsp Hpc Hp Hm R0 R1.
  assert (N : nz (pending_nmi (cpu s)) = true)
    by (unfold nz; apply negb_true_iff; apply Z.eqb_neq; exact Hnmi).
  unfold nes_cpu_step. cbn [nes_cpu_step_with]. unfold nes_cpu_step_body.
  unfold gets at 1. unfold bind at 1.
  rewrite Hst, N. cbn [Z.ltb Z.compare].
  unfold service_interrupt, nes_cpu_push_word, NES_VECTOR_NMI, bus_read.
  unfold bind at 1. unfold mod_cpu at 1, modify at 1.
  unfold bind at 1. unfold gets at 1.
  unfold bind at 1. unfold bind at 1.
  set (sp := reg_sp (cpu s)) in *. set (pc := reg_pc (cpu s)) in *.
  set (p := reg_p (cpu s)) in *.
  pose proof (u8_range (sp - 1)) as S1. pose proof (u8_range (u8 (sp - 1) - 1)) as S2.
  rewrite push_ram by (cbn [cpu set_cpu reg_sp set_pending_nmi]; fold sp; lia).
  cbn [cpu set_cpu reg_sp reg_pc reg_p set_pending_nmi]. fold sp pc p.
  rewrite push_ram by (cbn [cpu set_cpu set_ram reg_sp set_reg_sp]; lia).
  cbn [cpu set_cpu set_ram ram reg_sp reg_pc reg_p set_pending_nmi set_reg_sp].
  unfold bind at 1. unfold gets at 1. unfold bind at 1.
  rewrite push_ram by (cbn [cpu set_cpu set_ram reg_sp set_reg_sp]; lia).
  cbn [cpu set_cpu set_ram ram reg_sp reg_pc reg_p set_pending_nmi set_reg_sp].
  fold p.
  match goal with
  | |- context [set_ram ?r (set_cpu ?c (set_ram ?r' ?rest))] =>
      change (set_ram r (set_cpu c (set_ram r' rest))) with (set_ram r (set_cpu c s));
      unfold bind at 1;
      rewrite (read_rom_stable_cpu_ram 65530 lo c r s ltac:(lia) Hm R0);
      unfold bind at 1;
      rewrite (read_rom_stable_cpu_ram (65530 + 1) hi c r s ltac:(lia) Hm R1)
  end.
  unfold bind, mod_cpu, modify, ret.
  eexists. split; [reflexivity|].
  cbn [cpu set_cpu set_ram ram reg_sp reg_pc reg_p set_pending_nmi set_reg_sp set_reg_pc
       set_reg_p set_cycle_count cycle_count pending_nmi].
  assert (Ne1 : u8 (sp - 1) <> sp).
  { unfold u8. destruct (Z.eq_dec sp 0) as [->|]; [cbn; lia|].
    rewrite Z.mod_small by lia. lia. }
  assert (E2 : u8 (u8 (sp - 1) - 1) = u8 (sp - 2)).
  { unfold u8. rewrite Zminus_mod_idemp_l. f_equal. lia. }
  assert (E3 : u8 (u8 (u8 (sp - 1) - 1) - 1) = u8 (sp - 3)).
  { rewrite E2. unfold u8. rewrite Zminus_mod_idemp_l. f_equal. lia. }
  assert (Ne2 : u8 (sp - 2) <> sp).
  { unfold u8. destruct (Z.eq_dec sp 0) as [->|]; [cbn; lia|].
    destruct (Z.eq_dec sp 1) as [->|]; [cbn; lia|].
    rewrite Z.mod_small by lia. lia. }
  assert (Ne3 : u8 (sp - 2) <> u8 (sp - 1)).
  { unfold u8. destruct (Z.eq_dec sp 0) as [->|]; [cbn; lia|].
    destruct (Z.eq_dec sp 1) as [->|]; [cbn; lia|].
    rewrite !Z.mod_small by lia. lia. }
  pose proof (u8_range (sp - 2)) as S3.
  pose proof (land_bounds (Z.shiftr pc 8) 0xFF ltac:(lia)).
  pose proof (land_bounds pc 0xFF ltac:(lia)).
  rewrite E2 in *.
  split; [reflexivity|]. split; [reflexivity|]. split; [exact E3|].
  split; [reflexivity|]. split; [reflexivity|].
  assert (L1 : Z.of_nat (length (aset (ram s) (256 + sp) (u8 (Z.land (Z.shiftr pc 8) 255)))) = 2048)
    by (rewrite aset_length; lia).
  assert (L2 : Z.of_nat (length (aset (aset (ram s) (256 + sp) (u8 (Z.land (Z.shiftr pc 8) 255)))
                                      (256 + u8 (sp - 1)) (u8 (Z.land pc 255)))) = 2048)
    by (rewrite aset_length; lia).
  split.
  { rewrite !aget_aset_other by lia. rewrite aget_aset_same by lia.
    rewrite u8_byte by lia.
    change 255 with (Z.ones 8). rewrite Z.land_ones by lia.
    apply Z.mod_small. rewrite Z.shiftr_div_pow2 by lia.
    split; [apply Z.div_pos; lia|]. apply Z.div_lt_upper_bound; lia. }
  split.
  { rewrite aget_aset_other by lia. rewrite aget_aset_same by lia. apply u8_byte. lia. }
  rewrite aget_aset_same by lia. apply u8_byte.
  unfold FLAG_UNUSED.
  pose proof (forall_below (fun q => Z.lor q 32 <=? 255) 256 eq_refl p ltac:(lia)) as B.
  cbv beta in B. apply Z.leb_le in B.
  pose proof (proj2 (Z.lor_nonneg p 32) ltac:(lia)). lia.
Qed.

Lemma nmi_entry_witness :
  let s := set_cpu (nes_cpu_trigger_nmi (set_reg_sp 0x01 (set_reg_p 0x24 (cpu jmp_machine))))
             jmp_machine in
  exists s',
    nes_cpu_step 1 s = Done (7, s')
    /\ pending_nmi (cpu s') = 0
    /\ reg_pc (cpu s') = u16 (Z.lor 0xEA (Z.shiftl 0xEA 8))
    /\ reg_sp (cpu s') = u8 (reg_sp (cpu s) - 3)
    /\ reg_p (cpu s') = Z.lor (reg_p (cpu s)) 0x04
    /\ cycle_count (cpu s') = u32 (cycle_count (cpu s) + 7)
    /\ aget (ram s') (0x100 + reg_sp (cpu s)) = Z.shiftr (reg_pc (cpu s)) 8
    /\ aget (ram s') (0x100 + u8 (reg_sp (cpu s) - 1)) = Z.land (reg_pc (cpu s)) 0xFF
    /\ aget (ram s') (0x100 + u8 (reg_sp (cpu s) - 2)) = Z.lor (reg_p (cpu s)) 0x20.
Proof.
  intros s.
  apply (nmi_entry 0 s 0xEA 0xEA).
  - reflexivity.
  - cbn. lia.
  - reflexivity.
  - cbn. lia.
  - cbn. lia.
  - cbn. lia.
  - cbn. discriminate.
  - reflexivity.
  - reflexivity.
Defined.
